(* ===== verification/_CoqProject ===== *)
-Q . S2P
Prelude.v
Float64.v
Json.v
Http.v
Model.v
Requests.v
Sql.v
StoreInv.v
Accounting.v
Env.v
Logic.v
Postgres.v
Discipline.v
Scheduler.v
Controllers.v
ServiceCounts.v
NodeClient.v
Quiet.v
Writes.v
Samples.v
Histories.v
StoreSpec.v
SchedulerSpec.v
Reconciler.v
LoopSafety.v
ReplicaSpec.v
RolloutSpec.v
ReconcilerSpec.v
RuntimeFindings.v
ExecutorSpec.v
Autoscaler.v
AutoscalerSpec.v
Health.v
HealthSpec.v
Api.v
ApiSpec.v
Runtime.v
AgentApi.v
NodeHttp.v
AgentSpec.v
AgentConfig.v
RegistrationSpec.v
