(* ===== verification/Prelude.v ===== *)
(** * mini-orchestrator: the verified model of its control plane

    mini-orchestrator keeps services -- an image, a number of replicas, a
    request of CPU and memory -- running on a set of nodes.  Its state is a
    PostgreSQL database of nodes, services and workloads (one workload is one
    container of a service).  Four groups of goroutines work on it without
    further synchronisation: the HTTP API (clients create, update and delete
    services; nodes register and send heartbeats), the health checker (nodes
    whose heartbeat is too old become unhealthy), the autoscaler (the number of
    replicas follows the load) and the reconciler (everything else: it places
    workloads on nodes, starts and stops their containers through the agents of
    the nodes, replaces workloads during a rollout, gives back the resources of
    workloads that ended).  A second program, the node agent, runs on every
    node: it registers the node, sends its heartbeats, and serves an HTTP API
    over the Docker daemon.

    This library translates that program, function by function, and proves what
    makes it correct.  Definitions keep the names of the source; where the
    source has the same name twice the receiver comes first
    ([Replica_ReconcileService], [autoscaler_Run], ...).

    ** Files, and the code they model

    Ground layer
    - [Prelude]: Go integers (64-bit wrap-around, [+w -w *w]; 32-bit columns),
      errors as they are built by [fmt.Errorf], results, counting and sums over
      lists and tables, shared tactics.
    - [Float64]: [float64] as IEEE 754 binary64 ([SpecFloat] of the Standard
      Library), [math.Ceil] and the conversions.
    - [Json]: decoding into structs by the rules of encoding/json.
    - [Http]: requests, responses, ServeMux, and internal/api/auth.go, for
      handlers in any monad.
    - [Model]: internal/model, the data of internal/runtime, instants and
      durations in nanoseconds.

    The database
    - [Sql]: migrations/*.sql as finite maps with their constraints, and every
      statement and transaction of internal/store as a function from a database
      to an error or a new database: [<Method>_sql], [<Method>_tx].
    - [StoreInv]: the constraints ([WF]) hold after every write.
    - [Accounting]: the allocation columns of a node are the sum of the requests
      of the workloads that occupy it ([Accounted]) and fit its capacity
      ([NoOvercommit]); when each write keeps that ([disciplined]).
    - [Histories]: databases reachable by any sequence of writes.
    - [StoreSpec]: what reservations, releases, recoveries and service updates do.

    Running code
    - [Env]: the world of a running component (database, time, log of calls and
      writes, counters), the environment that decides what the source does not
      (failing calls, with or without their effect; clock; random bytes; order
      of equal rows; collation; what the other goroutines write between two
      calls), and the monad [M] of the control plane.
    - [Logic]: weakest preconditions and database triples for [M]; [Quiet]: the
      same when nothing fails and nobody interferes; [Writes]: which writes a
      computation issues.
    - [Postgres]: the methods of store.Postgres in [M].
    - [NodeClient]: the interface to the node agents (class [NodeClient]), its
      laws ([NodeClientLaws]) and an implementation by given answers.
    - [Samples]: the concrete databases and environments the theorems are
      applied to.

    Components
    - [Scheduler], [SchedulerSpec]: internal/scheduler.
    - [Controllers] (internal/controller), [ServiceCounts] (their loops as
      counts over the table), [ReplicaSpec], [RolloutSpec].
    - [Reconciler] (internal/reconciler), [Discipline] and [LoopSafety] (the
      invariant of the loop and its preservation), [ReconcilerSpec],
      [ExecutorSpec], [RuntimeFindings].
    - [Autoscaler] (internal/autoscaler, internal/metrics), [AutoscalerSpec].
    - [Health] (internal/node/health.go), [HealthSpec].
    - [Requests] (the request bodies of internal/api with their defaults and
      validation.go), [Api] (handlers.go, routes.go, the handlers of
      internal/observability), [ApiSpec].

    The node agent
    - [Runtime]: internal/runtime, the interface and its implementation over the
      Docker daemon (class [DockerClient]), in the state monad [St].
    - [AgentApi]: the HTTP API of the agent (container_api.go, stats_api.go,
      routes.go of internal/node).
    - [NodeHttp]: the HTTP clients, client.go of the control plane and agent.go
      of the agent, in any monad that can send a request (class [HttpDoer]);
      [http_node_client] implements the interface [NodeClient].
    - [AgentConfig]: the configuration of cmd/node-agent.
    - [AgentSpec], [RegistrationSpec]: the two programs across the wire.

    ** How state and operations correspond

    A method of the source that reads or writes the database is a computation
    in [M]; one call to the database is one step, [exec] or [query], at which the
    environment may fail it and before which the other goroutines may write.
    [M] is a function of the world, so every computation ends: the loops of the
    source run over lists that were read before, and the endless loops [Run] are
    modelled for a number of ticks.  The only fuel is in the removal of white
    space ([blank], [TrimSpace]): the length of the string, of which every step
    takes a character away.

    A component that needs another through an interface of the source
    (metrics.Provider, node.Client, runtime.Runtime) is proved against a type
    class with its laws, which the implementations discharge.

    ** What the theorems show

    Safety under all interleavings and failures ([ReconcilerEnv]: the other
    goroutines are those of the control plane): the account of the nodes
    ([ReconcilerSpec.services_phase_keeps_account],
    [ReconcilerSpec.ReconcileNode_keeps_account]), the limits of rolling
    deployments ([RolloutSpec.rollout_step_is_bounded]), the limits of the
    autoscaler ([AutoscalerSpec.autoscaler_scales_within_limits]).

    Safety of the store under all histories: accounts and capacity, the life of
    services ([Histories], [StoreSpec]).  That the constraints of the schema
    hold after every write ([StoreInv]) is a lemma the other theorems use, not a
    claim about the code: the database enforces them.

    That assumption is itself proved of the code: the API, the health checker
    and the autoscaler issue no other writes
    ([ApiSpec.other_goroutines_write_as_assumed]).  Requests without the token
    or, from nodes, without a verified certificate touch nothing
    ([ApiSpec.strangers_are_refused]).

    Functional behaviour on every branch: scheduling, reservation, recovery,
    execution, verdicts on rollouts, deletion, health checks, observations of
    the autoscaler, creation, update and deletion of services, heartbeats, the
    configuration of agents.

    Agreement of the two programs: the client of the control plane over the API
    of an agent is the agent's runtime ([AgentSpec.client_drives_runtime]), its
    success means that the daemon did the work
    ([AgentSpec.client_success_is_effect]), and an agent with an accepted
    configuration registers ([RegistrationSpec.configured_agent_registers]).

    Progress in undisturbed runs: the replicas of an active service whose
    rollout has not failed converge in one pass, unless the pass must wait
    ([ReplicaSpec.replicas_converge]), deletion ends in two
    ([ExecutorSpec.deletion_completes]).

    Defects: theorems that show where the code does not do what it means to --
    a stop request served by the runtime reconciler keeps its reservation,
    later passes give it back again and again, and a failed workload whose
    container is listed alive runs on without a reservation
    ([RuntimeFindings]); rollout limits cannot be changed; the load of a
    workload is asked of the wrong address; a heartbeat during a health check
    and a new image during the verdict on the old one are overruled
    ([HealthSpec], for one write of another goroutine at the stated moment);
    updates without an image are accepted, and services can be created in a
    status nothing gets them out of ([ApiSpec]).

    ** Bounds

    Widths: [int] is 64 bits, columns are 32 bits; theorems about 64-bit
    arithmetic use the bounds the columns give, and where the length of a table
    matters assume fewer than 2^62 rows.

    ** What is not modelled

    The bytes of HTTP and JSON (a body is the values it holds; strings are taken
    to be valid UTF-8; headers other than Authorization do not occur; responses
    of the control plane are the values given to the encoder), TLS beyond the
    chains that were verified, the Docker SDK, the start-up of the binaries;
    logging; cancellation of contexts (a cancelled call is a failing call of the
    environment).  Parameters stand for the case tables of Unicode, URLs other
    than plain https ones, and the spellings of the unspecified IPv6 address.
    Timestamps are not rounded to the microseconds of the
    database, and autoscaling_last_scaled_at and deployment_started_at, columns
    without time zone, are taken to come back as they were written (a session in
    UTC).  A text too long for its column by blanks alone, which PostgreSQL cuts
    off, is refused, and a text with a NUL character, which PostgreSQL refuses,
    is stored.  The isolation of transactions is that of the row locks the
    source takes: a transaction is one step, and a failure to begin or to commit
    it is a failing call without a text of its own. *)

From Stdlib Require Export ZArith Lia.
From stdpp Require Export base tactics option list gmap strings sorting fin_maps.

#[global] Set Default Goal Selector "!".
#[global] Open Scope Z_scope.

(** ** Go integers

    [int] is 64 bits wide on every platform the binaries are built for; its
    arithmetic wraps around.  The columns of the database are [INTEGER], 32
    bits, which is what keeps most of the arithmetic of the program in range. *)

Definition wrap64 (z : Z) : Z := (z + 2 ^ 63) mod 2 ^ 64 - 2 ^ 63.

Definition int4_min : Z := - 2 ^ 31.
Definition int4_max : Z := 2 ^ 31 - 1.

(** The range of a PostgreSQL [INTEGER]. *)
Definition int4 (z : Z) : bool := (int4_min <=? z) && (z <=? int4_max).

Declare Scope go_scope.
Delimit Scope go_scope with go.
Notation "x +w y" := (wrap64 (x + y)) (at level 50, left associativity) : go_scope.
Notation "x -w y" := (wrap64 (x - y)) (at level 50, left associativity) : go_scope.
Notation "x *w y" := (wrap64 (x * y)) (at level 40, left associativity) : go_scope.
#[global] Open Scope go_scope.

Lemma wrap64_small z : - 2 ^ 63 <= z < 2 ^ 63 -> wrap64 z = z.
Proof. intros H. unfold wrap64. rewrite Z.mod_small by lia. lia. Qed.

Lemma wrap64_range z : - 2 ^ 63 <= wrap64 z < 2 ^ 63.
Proof. unfold wrap64. pose proof (Z.mod_pos_bound (z + 2 ^ 63) (2 ^ 64)). lia. Qed.

Lemma int4_spec z : int4 z = true <-> - 2147483648 <= z <= 2147483647.
Proof.
  unfold int4, int4_min, int4_max. rewrite andb_true_iff, !Z.leb_le. lia.
Qed.

(** Remove the wrap-arounds whose argument [lia] shows to be in range. *)
Ltac unwrap := repeat (rewrite wrap64_small in * by lia).

(** ** Errors

    A Go [error] built by [fmt.Errorf]: its format and arguments are kept as
    they are, unrendered; [Wrapf] is a format with a [%w] verb. *)

Inductive db_error := NoRows | UniqueViolation | ForeignKeyViolation
  | ConstraintViolation | Unavailable.

Inductive fmt_arg := AStr (s : string) | AInt (z : Z).

Inductive error :=
  | Errorf (format : string) (args : list fmt_arg)
  | Wrapf (format : string) (args : list fmt_arg) (cause : error)
  | DBError (e : db_error)
  (** a run-time panic; the theorems show where none can occur *)
  | Panic (msg : string).

Inductive res (A : Type) := Ok (a : A) | Err (e : error).
Arguments Ok {A} a.
Arguments Err {A} e.

#[export] Instance res_ret : MRet res := fun A a => Ok a.
#[export] Instance res_bind : MBind res := fun A B f m =>
  match m with Ok a => f a | Err e => Err e end.

Definition is_ok {A} (r : res A) : bool := match r with Ok _ => true | Err _ => false end.

(** [fmt.Errorf(format + ": %w", args, err)] around a result. *)
Definition wrapf {A} (format : string) (args : list fmt_arg) (r : res A) : res A :=
  match r with Ok a => Ok a | Err e => Err (Wrapf format args e) end.

Lemma res_bind_ok {A B} (f : A -> res B) m b :
  (m ≫= f) = Ok b <-> exists a, m = Ok a /\ f a = Ok b.
Proof.
  destruct m as [a|e]; cbn.
  - split; [by exists a|]. by intros (a' & [= <-] & H).
  - split; [done|]. by intros (a' & H & _).
Qed.

Lemma wrapf_ok {A} fm args (r : res A) a : wrapf fm args r = Ok a <-> r = Ok a.
Proof. destruct r; cbn; naive_solver. Qed.

#[global] Instance db_error_eq_dec : EqDecision db_error.
Proof. solve_decision. Defined.

(** ** Counting and summing

    [countb f l] is the value of a Go loop [for _, x := range l { if f(x) {
    count++ } }]; [zsum] sums a list and [msum] sums the rows of a table. *)

Fixpoint countb {A} (f : A -> bool) (l : list A) : Z :=
  match l with
  | [] => 0
  | x :: l => (if f x then 1 else 0) + countb f l
  end.

Fixpoint zsum {A} (f : A -> Z) (l : list A) : Z :=
  match l with
  | [] => 0
  | x :: l => f x + zsum f l
  end.

Definition msum {A} (f : A -> Z) (m : gmap string A) : Z :=
  zsum (fun kv => f kv.2) (map_to_list m).

Section Counting.
Context {A : Type}.
Implicit Types (f g : A -> bool) (l : list A).

Lemma countb_nonneg f l : 0 <= countb f l.
Proof. induction l as [|x l IH]; cbn; [lia|]. destruct (f x); lia. Qed.

Lemma countb_length f l : countb f l <= Z.of_nat (length l).
Proof. induction l as [|x l IH]; cbn; [lia|]. destruct (f x); lia. Qed.

Lemma countb_app f l1 l2 : countb f (l1 ++ l2) = countb f l1 + countb f l2.
Proof. induction l1 as [|x l IH]; cbn; [done|]. rewrite IH. ring. Qed.

Lemma countb_filter f l : countb f l = Z.of_nat (length (filter f l)).
Proof.
  induction l as [|x l IH]; [done|]. cbn [countb]. rewrite filter_cons, IH.
  destruct (f x); cbn [Is_true length]; case_decide; cbn [length]; naive_solver lia.
Qed.

Lemma countb_zero f l : countb f l = 0 <-> forall x, x ∈ l -> f x = false.
Proof.
  induction l as [|x l IH]; cbn.
  - split; [|done]. intros _ x Hx. by apply not_elem_of_nil in Hx.
  - pose proof (countb_nonneg f l) as Hnn. split.
    + intros H y Hy. apply elem_of_cons in Hy as [->|Hy].
      * destruct (f x); [lia|done].
      * apply IH; [|done]. destruct (f x); lia.
    + intros H. rewrite (H x) by left. apply IH. intros y Hy. apply H. by right.
Qed.

Lemma countb_mono f g l :
  (forall x, x ∈ l -> f x = true -> g x = true) -> countb f l <= countb g l.
Proof.
  induction l as [|x l IH]; intros H; cbn; [lia|].
  assert (countb f l <= countb g l) by (apply IH; intros; apply H; [by right|done]).
  specialize (H x ltac:(left)). destruct (f x), (g x); lia || (by discriminate H).
Qed.

Lemma countb_ext f g l :
  (forall x, x ∈ l -> f x = g x) -> countb f l = countb g l.
Proof.
  induction l as [|x l IH]; intros H; cbn; [done|].
  rewrite (H x), IH by set_solver. done.
Qed.

Lemma existsb_countb f l : existsb f l = (0 <? countb f l).
Proof.
  induction l as [|x l IH]; [done|]. cbn. pose proof (countb_nonneg f l).
  rewrite IH. destruct (f x); cbn; symmetry; [apply Z.ltb_lt; lia|].
  f_equal; lia.
Qed.
End Counting.

#[export] Instance countb_perm {A} (f : A -> bool) :
  Proper ((≡ₚ) ==> eq) (countb f).
Proof. induction 1; cbn; lia. Qed.

#[export] Instance zsum_perm {A} (f : A -> Z) : Proper ((≡ₚ) ==> eq) (zsum f).
Proof. induction 1; cbn; lia. Qed.

Section Summing.
Context {A : Type}.
Implicit Types (f g : A -> Z) (l : list A).

Lemma zsum_ext f g l : (forall x, x ∈ l -> f x = g x) -> zsum f l = zsum g l.
Proof.
  induction l as [|x l IH]; intros H; cbn; [done|].
  rewrite (H x), IH by set_solver. done.
Qed.

Lemma zsum_nonneg f l : (forall x, x ∈ l -> 0 <= f x) -> 0 <= zsum f l.
Proof.
  induction l as [|x l IH]; intros H; cbn; [lia|].
  pose proof (H x ltac:(set_solver)). pose proof (IH ltac:(set_solver)). lia.
Qed.

End Summing.

Section TableSums.
Context {A : Type}.
Implicit Types (f g : A -> Z) (m : gmap string A).

Lemma msum_empty f : msum f ∅ = 0.
Proof. unfold msum. by rewrite map_to_list_empty. Qed.

Lemma msum_insert_new f m k x :
  m !! k = None -> msum f (<[k:=x]> m) = f x + msum f m.
Proof. intros H. unfold msum. by rewrite map_to_list_insert. Qed.

Lemma msum_delete f m k x : m !! k = Some x -> msum f m = f x + msum f (delete k m).
Proof.
  intros H. rewrite <- (insert_delete_id m k x H) at 1.
  by rewrite msum_insert_new by apply lookup_delete_eq.
Qed.

Lemma msum_insert f m k x y :
  m !! k = Some x -> msum f (<[k:=y]> m) = msum f m - f x + f y.
Proof.
  intros H. rewrite (msum_delete f m k x) by done.
  rewrite <- insert_delete_eq, msum_insert_new by apply lookup_delete_eq. lia.
Qed.

Lemma msum_ext f g m :
  (forall k x, m !! k = Some x -> f x = g x) -> msum f m = msum g m.
Proof.
  intros H. unfold msum. apply zsum_ext. intros [k x] Hx%elem_of_map_to_list. by apply (H k).
Qed.

Lemma msum_nonneg f m :
  (forall k x, m !! k = Some x -> 0 <= f x) -> 0 <= msum f m.
Proof.
  intros H. unfold msum. apply zsum_nonneg. intros [k x] Hx%elem_of_map_to_list. by apply (H k).
Qed.

Lemma msum_zero f m : (forall k x, m !! k = Some x -> f x = 0) -> msum f m = 0.
Proof.
  intros H. rewrite (msum_ext f (fun _ => 0)) by done. unfold msum.
  induction (map_to_list m); cbn; lia.
Qed.

Lemma msum_add f g h m :
  (forall k x, m !! k = Some x -> f x + g x = h x) -> msum f m + msum g m = msum h m.
Proof.
  intros H. rewrite <- (msum_ext (fun x => f x + g x) h m H). unfold msum.
  induction (map_to_list m) as [|[k x] l IH]; cbn; lia.
Qed.

(** One row's share of a table of non-negative amounts. *)
Lemma msum_lookup_le f m k x :
  (forall k x, m !! k = Some x -> 0 <= f x) -> m !! k = Some x -> f x <= msum f m.
Proof.
  intros H Hk. rewrite (msum_delete f m k x) by done.
  assert (0 <= msum f (delete k m)); [|lia].
  apply msum_nonneg. intros k' y [_ Hy]%lookup_delete_Some. by apply (H k').
Qed.
End TableSums.

Lemma msum_fmap {A B} (h : A -> B) (f : B -> Z) (m : gmap string A) :
  msum f (h <$> m) = msum (fun x => f (h x)) m.
Proof.
  unfold msum. rewrite map_to_list_fmap.
  induction (map_to_list m) as [|[k x] l IH]; cbn; [done|]. by rewrite IH.
Qed.

(** Two tables whose rows contribute the same amounts have the same sum. *)
Lemma msum_ext_map {A B} (f : A -> Z) (g : B -> Z) (m1 : gmap string A) (m2 : gmap string B) :
  (forall k, f <$> m1 !! k = g <$> m2 !! k) -> msum f m1 = msum g m2.
Proof.
  intros H. rewrite <- (msum_fmap f id m1 : msum id (f <$> m1) = msum f m1).
  rewrite <- (msum_fmap g id m2 : msum id (g <$> m2) = msum g m2).
  f_equal. apply map_eq. intros k. by rewrite !lookup_fmap.
Qed.
