(* ===== verification/Float64.v ===== *)
(** * IEEE 754 binary64, as the [float64] of Go

    The scheduler scores nodes and the autoscaler divides loads in [float64].
    [SpecFloat] of the Standard Library is the executable specification of the
    format: 53 bits of precision, exponents below 1024, rounding to nearest
    even.  Conversions from [int], [math.Ceil] and conversions to [int] are
    written out here. *)

From Stdlib Require Export SpecFloat.
From S2P Require Import Prelude.

Abbreviation float64 := spec_float (only parsing).

Definition f_add (x y : float64) : float64 := SFadd 53 1024 x y.
Definition f_mul (x y : float64) : float64 := SFmul 53 1024 x y.
Definition f_div (x y : float64) : float64 := SFdiv 53 1024 x y.

(** [float64(z)] for an integer [z]. *)
Definition f_of_int (z : Z) : float64 := binary_normalize 53 1024 z 0 false.

(** [x < y], [x <= y]: false when an operand is NaN. *)
Definition f_lt (x y : float64) : bool := SFltb x y.
Definition f_le (x y : float64) : bool := SFleb x y.

(** [math.Inf(-1)] *)
Definition f_neg_inf : float64 := S754_infinity true.

Definition f_zero : float64 := S754_zero false.

(** [math.Ceil]: specials and integral values are returned unchanged. *)
Definition f_ceil (x : float64) : float64 :=
  match x with
  | S754_finite s m e =>
      if 0 <=? e then x
      else binary_normalize 53 1024 (- ((- cond_Zopp s (Zpos m)) / 2 ^ (- e))) 0 s
  | _ => x
  end.

(** [int(x)]: truncation towards zero.  The language leaves the result to the
    implementation when the value does not fit, hence [oob]. *)
Definition f_to_int (oob : float64 -> Z) (x : float64) : Z :=
  match x with
  | S754_zero _ => 0
  | S754_finite s m e =>
      let t := if 0 <=? e then cond_Zopp s (Zpos m) * 2 ^ e
               else Z.quot (cond_Zopp s (Zpos m)) (2 ^ (- e)) in
      if (- 2 ^ 63 <=? t) && (t <? 2 ^ 63) then t else oob x
  | _ => oob x
  end.

(** Solve a goal about comparisons of two or three floats by the signs,
    exponents and mantissas that [SFcompare] looks at. *)
Ltac compare_exponents :=
  repeat match goal with
  | |- context [Z.compare ?a ?b] => destruct (Z.compare_spec a b); subst; cbn; try done; try lia
  end.

Ltac compare_mantissas :=
  repeat match goal with
  | |- context [Pos.compare_cont Eq ?a ?b] =>
      change (Pos.compare_cont Eq a b) with (Pos.compare a b)
  | |- context [Pos.compare ?a ?b] => destruct (Pos.compare_spec a b); subst; cbn; try done; try lia
  end.

(** The order is transitive: the scheduler's running maximum relies on it,
    NaN scores included. *)
Lemma f_lt_trans x y z : f_lt x y = true -> f_lt y z = true -> f_lt x z = true.
Proof.
  unfold f_lt, SFltb.
  destruct x as [[]|[]| |[] mx ex], y as [[]|[]| |[] my ey], z as [[]|[]| |[] mz ez];
    cbn; try done; compare_exponents; compare_mantissas.
Qed.

Lemma f_lt_le_trans x y z : f_lt x y = true -> f_le y z = true -> f_lt x z = true.
Proof.
  unfold f_lt, f_le, SFltb, SFleb.
  destruct x as [[]|[]| |[] mx ex], y as [[]|[]| |[] my ey], z as [[]|[]| |[] mz ez];
    cbn; try done; compare_exponents; compare_mantissas.
Qed.

(** Nothing is below minus infinity, and only minus infinity and NaN are not
    above it. *)
Lemma f_lt_neg_inf x y : f_lt f_neg_inf y = false -> f_lt x y = false.
Proof. destruct x as [[]|[]| |[] mx ex], y as [[]|[]| |[] my ey]; done. Qed.

Lemma f_lt_irrefl x : f_lt x x = false.
Proof.
  unfold f_lt, SFltb. destruct x as [[]|[]| |[] m e]; cbn; try done;
    rewrite Z.compare_refl; fold (Pos.compare m m); by rewrite Pos.compare_refl.
Qed.

Example f_div_third : f_to_int (fun _ => 0) (f_ceil (f_div (f_of_int 1400) (f_of_int 350))) = 4.
Proof. reflexivity. Qed.
