(* ===== verification/Json.v ===== *)
(** * JSON bodies (encoding/json, as the program uses it)

    A body is read as the sequence of the JSON values it holds and what ends
    it; bytes are not modelled.  Structs are decoded field by field with the
    rules of encoding/json: keys match fields up to case, a repeated key
    is decoded again into the same field, null leaves a field alone, a wrong
    type or a number that does not fit is an error, and unknown keys are
    errors when the decoder disallows them. *)

From Stdlib Require Import Strings.Ascii.
From S2P Require Import Prelude Float64.

(** A number literal without fraction and exponent is an integer; any other
    stands for its nearest [float64]. *)
#[warnings="-register-all"]
Inductive json :=
  | JNull
  | JBool (b : bool)
  | JInt (z : Z)
  | JFloat (f : float64)
  | JStr (s : string)
  | JArr (l : list json)
  | JObj (fields : list (string * json)).

(** What follows the last complete value: the end of the body, or something
    that is not JSON or exceeds the limit of the reader. *)
Inductive body_end := EndOfBody | Malformed.

Record body := mkBody { body_values : list json; body_end_with : body_end }.

(** ** Field names *)

Definition lower_ascii (c : Ascii.ascii) : Ascii.ascii :=
  let n := Ascii.N_of_ascii c in
  if ((65 <=? n) && (n <=? 90))%N then Ascii.ascii_of_N (n + 32) else c.

(** The long s (U+017F) and the Kelvin sign (U+212A), in UTF-8, fold to ASCII
    letters too; other characters beyond ASCII match no field of the program. *)
Fixpoint fold_case (s : string) : string :=
  match s with
  | EmptyString => EmptyString
  | String "197"%char (String "191"%char s) => String "s"%char (fold_case s)
  | String "226"%char (String "132"%char (String "170"%char s)) => String "k"%char (fold_case s)
  | String c s => String (lower_ascii c) (fold_case s)
  end.

Definition field_matches (key name : string) : bool := String.eqb (fold_case key) (fold_case name).

(** ** Decoding *)

(** A decoder of a Go type: the value to decode and the variable's old value to
    the new one. *)
Definition decoder (A : Type) : Type := json -> A -> option A.

Definition decode_string : decoder string := fun j old =>
  match j with JStr s => Some s | JNull => Some old | _ => None end.

Definition decode_bool : decoder bool := fun j old =>
  match j with JBool b => Some b | JNull => Some old | _ => None end.

Definition decode_int : decoder Z := fun j old =>
  match j with
  | JInt z => if (- 2 ^ 63 <=? z) && (z <? 2 ^ 63) then Some z else None
  | JNull => Some old
  | _ => None
  end.

(** A literal beyond the largest [float64] is an error. *)
Definition finite (f : float64) : option float64 :=
  match f with S754_infinity _ | S754_nan => None | _ => Some f end.

Definition decode_float : decoder float64 := fun j old =>
  match j with
  | JInt z => finite (f_of_int z)
  | JFloat f => finite f
  | JNull => Some old
  | _ => None
  end.

(** A pointer to a struct: null makes it nil; an object is decoded into the
    struct it points to, a zero one if it is nil. *)
Definition decode_pointer {A} (zero : A) (d : decoder A) : decoder (option A) := fun j old =>
  match j with
  | JNull => Some None
  | _ => Some <$> d j (default zero old)
  end.

(** A slice: its elements are decoded into zero values; null makes it nil. *)
Definition decode_slice {A} (zero : A) (d : decoder A) : decoder (list A) := fun j old =>
  match j with
  | JArr l => mapM (fun j => d j zero) l
  | JNull => Some []
  | _ => None
  end.

(** A field of a struct: its tag and how a value for it changes the struct. *)
Record field (A : Type) := mkField { field_name : string; field_decode : json -> A -> option A }.
Arguments mkField {A} field_name field_decode.
Arguments field_name {A} _.
Arguments field_decode {A} _ _ _.

(** A field given by its accessors. *)
Definition field_at {A B} (name : string) (get : A -> B) (set : B -> A -> A) (d : decoder B)
    : field A :=
  mkField name (fun j a => (fun b => set b a) <$> d j (get a)).

Definition lookup_field {A} (fields : list (field A)) (key : string) : option (field A) :=
  List.find (fun f => field_matches key (field_name f)) fields.

Fixpoint decode_fields {A} (fields : list (field A)) (strict : bool)
    (kvs : list (string * json)) (a : A) : option A :=
  match kvs with
  | [] => Some a
  | (k, j) :: kvs =>
      match lookup_field fields k with
      | Some f => a ← field_decode f j a; decode_fields fields strict kvs a
      | None => if strict then None else decode_fields fields strict kvs a
      end
  end.

Definition decode_struct {A} (fields : list (field A)) (strict : bool) : decoder A := fun j a =>
  match j with
  | JObj kvs => decode_fields fields strict kvs a
  | JNull => Some a
  | _ => None
  end.

(** [json.NewDecoder(body).Decode(&v)] of a variable at its zero value. *)
Definition decode_first {A} (fields : list (field A)) (strict : bool) (zero : A) (b : body)
    : option A :=
  match body_values b with
  | j :: _ => decode_struct fields strict j zero
  | [] => None
  end.

(** The same, followed by the test that nothing else is in the body. *)
Definition decode_only {A} (fields : list (field A)) (strict : bool) (zero : A) (b : body)
    : option A :=
  a ← decode_first fields strict zero b;
  match body_values b, body_end_with b with
  | [_], EndOfBody => Some a
  | _, _ => None
  end.

(** A body with one value. *)
Definition one_value (j : json) : body := mkBody [j] EndOfBody.

(** ** Lemmas *)

Lemma decode_int_ok z old : - 2 ^ 63 <= z < 2 ^ 63 -> decode_int (JInt z) old = Some z.
Proof.
  intros H. cbn. replace (_ && _) with true; [done|].
  symmetry. apply andb_true_iff. rewrite Z.leb_le, Z.ltb_lt. lia.
Qed.

Lemma decode_only_single {A} fields strict (zero a : A) b :
  decode_only fields strict zero b = Some a ->
  exists j, b = one_value j /\ decode_struct fields strict j zero = Some a.
Proof.
  unfold decode_only, decode_first. destruct b as [[|j [|j' l]] []]; cbn; try done.
  - destruct (decode_struct fields strict j zero) eqn:Hd; cbn; [|done]. intros [= ->]. eauto.
  - by destruct (decode_struct fields strict j zero).
  - by destruct (decode_struct fields strict j zero).
  - by destruct (decode_struct fields strict j zero).
Qed.
