(* ===== verification/Http.v ===== *)
(** * HTTP as the program uses it (net/http) and internal/api/auth.go

    Requests and responses without their framing; [ServeMux] with the patterns
    of the program (a method, literal segments, single-segment wildcards); the
    two wrappers of auth.go.  The control plane and the node agents serve HTTP
    over different states, so handlers live in any monad, and responses carry
    values of any type [V] for the JSON encoder. *)

From Stdlib Require Import Strings.Ascii.
From S2P Require Import Prelude Json.

(** ** Strings *)

(** What is left of [s] after the prefix [p]. *)
Fixpoint strip_prefix (p s : string) : option string :=
  match p, s with
  | EmptyString, _ => Some s
  | String a p, String b s => if Ascii.eqb a b then strip_prefix p s else None
  | _, _ => None
  end.

(** [strings.HasPrefix], [strings.TrimPrefix] *)
Definition HasPrefix (s p : string) : bool := bool_decide (is_Some (strip_prefix p s)).
Definition TrimPrefix (s p : string) : string := default s (strip_prefix p s).

Lemma strip_prefix_spec p s r : strip_prefix p s = Some r <-> s = p +:+ r.
Proof.
  revert s. induction p as [|a p IH]; intros s.
  - cbn. split; [by intros [= ->]|by intros ->].
  - destruct s as [|b s]; [done|]. cbn. destruct (Ascii.eqb_spec a b) as [->|Hne].
    + rewrite IH. split; [by intros ->|by intros [= ->]].
    + split; [done|]. intros [= -> _]. done.
Qed.

Lemma HasPrefix_spec s p : HasPrefix s p = true <-> exists r, s = p +:+ r.
Proof.
  unfold HasPrefix. rewrite bool_decide_eq_true. split; intros [r Hr]; exists r;
    by apply strip_prefix_spec.
Qed.

Lemma TrimPrefix_app p r : TrimPrefix (p +:+ r) p = r.
Proof. unfold TrimPrefix. by rewrite (proj2 (strip_prefix_spec p (p +:+ r) r)). Qed.

(** [strings.Split(s, sep)] for a separator of one character *)
Fixpoint split_on (sep : ascii) (s : string) : list string :=
  match s with
  | EmptyString => [EmptyString]
  | String c s =>
      if Ascii.eqb c sep then EmptyString :: split_on sep s
      else match split_on sep s with
           | p :: ps => String c p :: ps
           | [] => []
           end
  end.

Fixpoint drop_empty (l : list string) : list string :=
  match l with
  | EmptyString :: l => drop_empty l
  | _ => l
  end.

(** The parts of [strings.Split(strings.Trim(s, "/"), "/")]; none when the
    trimmed string is empty. *)
Definition trimmed_parts (s : string) : list string :=
  reverse (drop_empty (reverse (drop_empty (split_on "/" s)))).

(** The character occurs in the string. *)
Fixpoint contains (c : ascii) (s : string) : bool :=
  match s with
  | EmptyString => false
  | String c' s => Ascii.eqb c' c || contains c s
  end.

Lemma split_on_none sep s : contains sep s = false -> split_on sep s = [s].
Proof.
  induction s as [|c s IH]; [done|]. cbn. intros [Hc Hs]%orb_false_iff.
  by rewrite Hc, IH.
Qed.

Lemma split_on_app sep a b :
  contains sep a = false -> split_on sep (a +:+ String sep b) = a :: split_on sep b.
Proof.
  induction a as [|c a IH]; intros Ha.
  - change (EmptyString +:+ String sep b) with (String sep b). cbn. by rewrite Ascii.eqb_refl.
  - cbn in Ha. apply orb_false_iff in Ha as [Hc Ha].
    change (String c a +:+ String sep b) with (String c (a +:+ String sep b)).
    cbn. by rewrite Hc, IH.
Qed.

(** ** Requests and responses *)

(** The chains of certificates the server verified. *)
Record ConnectionState := mkConnectionState { VerifiedChains : list (list string) }.

Record Request := mkRequest {
  r_Method : string;
  r_Path : string;
  r_Authorization : string;
  r_TLS : option ConnectionState;
  r_Body : body;
  r_PathValues : list (string * string)
}.

Definition with_path_values (vs : list (string * string)) (r : Request) : Request :=
  mkRequest (r_Method r) (r_Path r) (r_Authorization r) (r_TLS r) (r_Body r) vs.

(** [r.PathValue(name)] *)
Definition PathValue (r : Request) (name : string) : string :=
  match List.find (fun kv => String.eqb kv.1 name) (r_PathValues r) with
  | Some (_, v) => v
  | None => EmptyString
  end.

(** What a handler writes: nothing, a text ([http.Error]) or a value encoded
    as JSON. *)
Inductive content (V : Type) := NoContent | Text (message : string) | Encoded (v : V).
Arguments NoContent {V}.
Arguments Text {V} message.
Arguments Encoded {V} v.

Record Response (V : Type) := mkResponse { resp_Status : Z; resp_Content : content V }.
Arguments mkResponse {V} resp_Status resp_Content.
Arguments resp_Status {V} _.
Arguments resp_Content {V} _.

Definition StatusOK : Z := 200.
Definition StatusCreated : Z := 201.
Definition StatusAccepted : Z := 202.
Definition StatusNoContent : Z := 204.
Definition StatusTemporaryRedirect : Z := 307.
Definition StatusBadRequest : Z := 400.
Definition StatusUnauthorized : Z := 401.
Definition StatusForbidden : Z := 403.
Definition StatusNotFound : Z := 404.
Definition StatusMethodNotAllowed : Z := 405.
Definition StatusConflict : Z := 409.
Definition StatusInternalServerError : Z := 500.
Definition StatusServiceUnavailable : Z := 503.

(** [http.Error] *)
Definition http_Error {V} (message : string) (status : Z) : Response V :=
  mkResponse status (Text message).

(** ** ServeMux *)

Inductive pattern_segment := Lit (s : string) | Wild (name : string).

(** The segments of a path against those of a pattern: the values of the
    wildcards.  A wildcard matches no empty segment. *)
Fixpoint match_segments (p : list pattern_segment) (segments : list string)
    : option (list (string * string)) :=
  match p, segments with
  | [], [] => Some []
  | Lit s :: p, seg :: segments =>
      if String.eqb s seg then match_segments p segments else None
  | Wild name :: p, seg :: segments =>
      if String.eqb seg EmptyString then None
      else vs ← match_segments p segments; Some ((name, seg) :: vs)
  | _, _ => None
  end.

(** [cleanPath] leaves a path alone that starts with a slash and has no empty
    segment but the last and no dot segment. *)
Definition dot_segment (s : string) : bool := String.eqb s "." || String.eqb s "..".

Definition clean_segments (l : list string) : bool :=
  forallb (fun s => negb (dot_segment s)) l &&
  forallb (fun s => negb (String.eqb s EmptyString)) (removelast l).

(** The segments after the leading slash. *)
Definition path_segments (path : string) : option (list string) :=
  match path with
  | String c rest => if Ascii.eqb c "/" then Some (split_on "/" rest) else None
  | EmptyString => None
  end.

Section Handlers.
Context {F : Type -> Type} `{MRet F} {V : Type}.

Definition Handler : Type := Request -> F (Response V).

Record mux_entry := mkEntry {
  entry_Method : string;
  entry_Pattern : list pattern_segment;
  entry_Handler : Handler
}.

(** A pattern for GET also serves HEAD. *)
Definition method_matches (pattern method : string) : bool :=
  String.eqb pattern method || String.eqb pattern "GET" && String.eqb method "HEAD".

(** [mux.ServeHTTP]: the entry whose pattern and method match; 405 when only
    methods differ; 404 otherwise; a redirect to the clean path first. *)
Definition ServeMux (entries : list mux_entry) : Handler := fun r =>
  match path_segments (r_Path r) with
  | None => mret (http_Error "404 page not found" StatusNotFound)
  | Some segments =>
      if negb (clean_segments segments) then
        mret (mkResponse StatusTemporaryRedirect NoContent)
      else
        let matching := List.filter (fun e =>
          if match_segments (entry_Pattern e) segments is Some _ then true else false) entries in
        match List.filter (fun e => method_matches (entry_Method e) (r_Method r)) matching with
        | e :: _ =>
            entry_Handler e
              (with_path_values (default [] (match_segments (entry_Pattern e) segments)) r)
        | [] =>
            match matching with
            | [] => mret (http_Error "404 page not found" StatusNotFound)
            | _ => mret (http_Error "Method Not Allowed" StatusMethodNotAllowed)
            end
        end
  end.

(** ** internal/api/auth.go *)

Definition RequireBearerToken (expectedToken : string) (next : Handler) : Handler := fun r =>
  if String.eqb expectedToken EmptyString then
    mret (http_Error "authentication is not configured" StatusServiceUnavailable)
  else
    let authHeader := r_Authorization r in
    if negb (HasPrefix authHeader "Bearer ") then
      mret (http_Error "unauthorized" StatusUnauthorized)
    else
      let providedToken := TrimPrefix authHeader "Bearer " in
      if String.eqb providedToken EmptyString || negb (String.eqb providedToken expectedToken)
      then mret (http_Error "unauthorized" StatusUnauthorized)
      else next r.

Definition RequireMutualTLS (next : Handler) : Handler := fun r =>
  match r_TLS r with
  | None => mret (http_Error "mutual TLS is required" StatusForbidden)
  | Some tls =>
      match VerifiedChains tls with
      | [] => mret (http_Error "mutual TLS is required" StatusForbidden)
      | _ => next r
      end
  end.

(** ** The wrappers *)

(** The request carries the configured token. *)
Definition authorized (token : string) (r : Request) : Prop :=
  token <> EmptyString /\ r_Authorization r = "Bearer " +:+ token.

(** The client presented a certificate that was verified. *)
Definition verified (r : Request) : Prop :=
  exists tls, r_TLS r = Some tls /\ VerifiedChains tls <> [].

Lemma bearer_passes token next r :
  authorized token r -> RequireBearerToken token next r = next r.
Proof.
  intros [Ht Hr]. unfold RequireBearerToken. rewrite (proj2 (String.eqb_neq _ _) Ht), Hr.
  rewrite (proj2 (HasPrefix_spec _ _)) by eauto. cbn [negb]. rewrite TrimPrefix_app.
  by rewrite (proj2 (String.eqb_neq _ _) Ht), String.eqb_refl.
Qed.

(** Anything else is answered without the handler. *)
Lemma bearer_refuses token next r :
  ~ authorized token r ->
  exists resp, RequireBearerToken token next r = mret resp /\
    resp_Status resp = (if String.eqb token EmptyString then StatusServiceUnavailable
                        else StatusUnauthorized).
Proof.
  intros Hn. unfold RequireBearerToken. destruct (String.eqb_spec token EmptyString) as [->|Ht].
  - by eexists.
  - destruct (HasPrefix _ _) eqn:Hp; cbn [negb]; [|by eexists].
    apply HasPrefix_spec in Hp as [t Hp]. rewrite Hp, TrimPrefix_app.
    destruct (String.eqb_spec t token) as [->|Hne]; [by destruct Hn|].
    rewrite orb_true_r. by eexists.
Qed.

Lemma mtls_passes next r : verified r -> RequireMutualTLS next r = next r.
Proof. intros (tls & Ht & Hc). unfold RequireMutualTLS. rewrite Ht. by destruct (VerifiedChains tls). Qed.

Lemma mtls_refuses next r :
  ~ verified r ->
  RequireMutualTLS next r = mret (http_Error "mutual TLS is required" StatusForbidden).
Proof.
  intros Hn. unfold RequireMutualTLS. destruct (r_TLS r) as [tls|] eqn:Ht; [|done].
  destruct (VerifiedChains tls) eqn:Hc; [done|]. destruct Hn. exists tls. by rewrite Hc.
Qed.

Lemma authorized_dec token r : authorized token r \/ ~ authorized token r.
Proof.
  unfold authorized. destruct (decide (token = EmptyString)) as [->|];
    [right; naive_solver|].
  destruct (decide (r_Authorization r = "Bearer " +:+ token)); [by left|right; naive_solver].
Qed.

Lemma verified_dec r : verified r \/ ~ verified r.
Proof.
  unfold verified. destruct (r_TLS r) as [tls|]; [|right; naive_solver].
  destruct (VerifiedChains tls) eqn:Hc; [right|left; exists tls; by rewrite Hc].
  intros (t & [= <-] & ?). by rewrite Hc in *.
Qed.
End Handlers.

Arguments Handler F V : clear implicits.
Arguments mux_entry F V : clear implicits.
