(* ===== verification/Model.v ===== *)
(** * The data model (internal/model), time, and the durations of the program

    The records of [internal/model] with the fields of the source; a pointer is
    an [option].  The state of a workload only ever takes the values of its
    constants, so it is an enumeration; node, deployment and service states
    are strings: the zero [Node] has none, and the API stores what a client
    sends ([effectiveDeploymentStatus], [effectiveServiceStatus]). *)

From S2P Require Import Prelude Float64.

(** ** Instants and durations

    A [time.Time] is its instant in nanoseconds since the Unix epoch; the zero
    [time.Time] is the first of January of year 1.  A [time.Duration] is an
    [int64] of nanoseconds. *)

Definition time_second : Z := 1000000000.
Definition time_minute : Z := 60 * time_second.

Definition zero_time : Z := - 62135596800 * time_second.

(** [t.IsZero()] *)
Definition is_zero_time (t : Z) : bool := t =? zero_time.

(** [t.Sub(u)] saturates at the ends of [int64]. *)
Definition time_sub (t u : Z) : Z := Z.max (- 2 ^ 63) (Z.min (2 ^ 63 - 1) (t - u)).

Lemma time_sub_small t u : - 2 ^ 63 <= t - u < 2 ^ 63 -> time_sub t u = t - u.
Proof. unfold time_sub. lia. Qed.

(** ** internal/model/node.go *)

Abbreviation NodeStatus := string (only parsing).
Definition NodeReady : NodeStatus := "READY".
Definition NodeUnhealthy : NodeStatus := "UNHEALTHY".
Definition NodeDraining : NodeStatus := "DRAINING".

Record Node := mkNode {
  nd_ID : string;
  nd_Address : string;
  nd_CPUCapacity : Z;
  nd_MemoryCapacity : Z;
  nd_CPUAllocated : Z;
  nd_MemoryAllocated : Z;
  nd_Status : NodeStatus;
  nd_LastHeartbeat : Z;
  nd_CreatedAt : Z;
  nd_UpdatedAt : Z
}.

(** [model.Node{}] *)
Definition zero_node : Node :=
  mkNode EmptyString EmptyString 0 0 0 0 EmptyString zero_time zero_time zero_time.

(** ** internal/model/service.go *)

Abbreviation DeploymentStatus := string (only parsing).
Definition DeploymentPending : DeploymentStatus := "PENDING".
Definition DeploymentProgressing : DeploymentStatus := "PROGRESSING".
Definition DeploymentAvailable : DeploymentStatus := "AVAILABLE".
Definition DeploymentFailed : DeploymentStatus := "FAILED".

Abbreviation ServiceStatus := string (only parsing).
Definition ServiceActive : ServiceStatus := "ACTIVE".
Definition ServiceDeleting : ServiceStatus := "DELETING".
Definition ServiceDeleted : ServiceStatus := "DELETED".

Record AutoscalingConfig := mkAutoscalingConfig {
  as_Enabled : bool;
  as_MinReplicas : Z;
  as_MaxReplicas : Z;
  as_TargetCPU : float64;
  as_ScaleUpCooldownSeconds : Z;
  as_ScaleDownCooldownSeconds : Z;
  as_RequiredObservations : Z;
  as_MaxScaleStep : Z
}.

Record Service := mkService {
  svc_ID : string;
  svc_Name : string;
  svc_Image : string;
  svc_DesiredReplicas : Z;
  svc_CPURequestMillis : Z;
  svc_MemoryRequestMB : Z;
  svc_DeploymentVersion : Z;
  svc_MaxSurge : Z;
  svc_MaxUnavailable : Z;
  svc_DeploymentStatus : DeploymentStatus;
  svc_DeploymentStartedAt : option Z;
  svc_Autoscaling : AutoscalingConfig;
  svc_AutoscalingLastScaledAt : option Z;
  svc_Status : ServiceStatus;
  svc_CreatedAt : Z;
  svc_UpdatedAt : Z
}.

(** ** internal/model/workload.go *)

Inductive WorkloadState :=
  | WorkloadPending | WorkloadScheduled | WorkloadRunning | WorkloadFailed | WorkloadStopped.

#[global] Instance WorkloadState_eq_dec : EqDecision WorkloadState.
Proof. solve_decision. Defined.

Record Workload := mkWorkload {
  wl_ID : string;
  wl_ServiceID : string;
  wl_NodeID : option string;
  wl_ContainerID : option string;
  wl_Image : string;
  wl_CPURequestMillis : Z;
  wl_MemoryRequestMB : Z;
  wl_DeploymentVersion : Z;
  wl_DesiredState : WorkloadState;
  wl_ActualState : WorkloadState;
  wl_CreatedAt : Z;
  wl_UpdatedAt : Z
}.

(** ** internal/runtime/runtime.go: the data of the container runtime *)

Record ContainerConfig := mkContainerConfig {
  cc_Name : string; cc_Image : string; cc_CPUMillis : Z; cc_MemoryMB : Z }.

Record Container := mkContainer {
  ct_ID : string; ct_Name : string; ct_Image : string; ct_Status : string;
  ct_CPUUsageMillis : Z }.

Record ContainerStats := mkContainerStats { cs_CPUUsageMillis : Z }.

(** Boolean tests of the comparisons the code makes on its enumerations. *)

Definition workload_state_eqb (a b : WorkloadState) : bool := bool_decide (a = b).

Notation "a =w? b" := (workload_state_eqb a b) (at level 70) : go_scope.
Notation "a =s? b" := (String.eqb a b) (at level 70) : go_scope.

Lemma workload_state_eqb_eq a b : workload_state_eqb a b = true <-> a = b.
Proof. apply bool_decide_eq_true. Qed.

Lemma workload_state_eqb_neq a b : workload_state_eqb a b = false <-> a <> b.
Proof. apply bool_decide_eq_false. Qed.

(** Split the boolean tests of the guards into the facts they decide. *)
Create Rewrite HintDb guards.
#[export] Hint Rewrite andb_true_iff orb_true_iff negb_true_iff andb_false_iff
  orb_false_iff negb_false_iff workload_state_eqb_eq workload_state_eqb_neq
  String.eqb_eq String.eqb_neq Z.ltb_lt Z.ltb_ge Z.leb_le
  Z.leb_gt Z.eqb_eq Z.eqb_neq : guards.
Ltac guards := autorewrite with guards in *.

(** Evaluate the comparisons of known states. *)
Ltac eval_states :=
  repeat match goal with
  | |- context [?a =w? ?b] =>
      let v := eval vm_compute in (a =w? b) in
      match v with
      | true => change (a =w? b) with true
      | false => change (a =w? b) with false
      end
  end.
