(* ===== verification/Requests.v ===== *)
(** * The requests of the API (internal/api/handlers.go, validation.go)

    The request structs with their JSON fields, the defaults [normalize] fills
    in, and the validation of a new service. *)

From Stdlib Require Import Strings.Ascii.
From S2P Require Import Prelude Float64 Json Model.

(** ** Strings *)

(** The white space of [unicode.IsSpace] at the front of a UTF-8 string: what
    is left after it. *)
Definition strip_space (s : string) : option string :=
  match s with
  | String ("009" | "010" | "011" | "012" | "013" | " ")%char s => Some s
  | String "194"%char (String ("133" | "160")%char s) => Some s
  | String "225"%char (String "154"%char (String "128"%char s)) => Some s
  | String "226"%char (String "128"%char (String c s)) =>
      let n := Ascii.N_of_ascii c in
      if ((128 <=? n) && (n <=? 138) || (n =? 168) || (n =? 169) || (n =? 175))%N
      then Some s else None
  | String "226"%char (String "129"%char (String "159"%char s)) => Some s
  | String "227"%char (String "128"%char (String "128"%char s)) => Some s
  | _ => None
  end.

(** [strings.TrimSpace(s) == ""]: the string is white space throughout.  The
    fuel bounds the number of characters. *)
Fixpoint blank_fuel (fuel : nat) (s : string) : bool :=
  match s with
  | EmptyString => true
  | _ =>
      match fuel, strip_space s with
      | S fuel, Some s => blank_fuel fuel s
      | _, _ => false
      end
  end.

Definition blank (s : string) : bool := blank_fuel (String.length s) s.

Definition upper_ascii (c : Ascii.ascii) : Ascii.ascii :=
  let n := Ascii.N_of_ascii c in
  if ((97 <=? n) && (n <=? 122))%N then Ascii.ascii_of_N (n - 32) else c.

Fixpoint ascii_only (s : string) : bool :=
  match s with
  | EmptyString => true
  | String c s => (Ascii.N_of_ascii c <? 128)%N && ascii_only s
  end.

Fixpoint upper_ascii_string (s : string) : string :=
  match s with
  | EmptyString => EmptyString
  | String c s => String (upper_ascii c) (upper_ascii_string s)
  end.

(** The case tables of Unicode, for strings that are not ASCII. *)
Class Unicode := { unicode_upper : string -> string }.

(** [strings.ToUpper] *)
Definition ToUpper `{Unicode} (s : string) : string :=
  if ascii_only s then upper_ascii_string s else unicode_upper s.

(** ** Request bodies *)

Record registerNodeRequest := mkRegisterNodeRequest {
  rn_ID : string; rn_Address : string; rn_CPUCapacity : Z; rn_MemoryCapacity : Z }.

Record heartbeatRequest := mkHeartbeatRequest { hb_ID : string }.

Record updateServiceRequest := mkUpdateServiceRequest {
  us_Name : string;
  us_Image : string;
  us_Replicas : Z;
  us_CPURequestMillis : Z;
  us_MemoryRequestMB : Z;
  us_MaxSurge : Z;
  us_MaxUnavailable : Z
}.

Record autoscalingRequest := mkAutoscalingRequest {
  ar_Enabled : bool;
  ar_MinReplicas : Z;
  ar_MaxReplicas : Z;
  ar_TargetCPU : float64;
  ar_ScaleUpCooldownSeconds : Z;
  ar_ScaleDownCooldownSeconds : Z;
  ar_RequiredObservations : Z;
  ar_MaxScaleStep : Z
}.

(** The flat fields [autoscaling_enabled], ... of the source have the shape of
    an [autoscalingRequest]: they are [cs_Flat]. *)
Record createServiceRequest := mkCreateServiceRequest {
  cs_ID : string;
  cs_Name : string;
  cs_Image : string;
  cs_Replicas : Z;
  cs_DesiredReplicas : Z;
  cs_CPURequestMillis : Z;
  cs_MemoryRequestMB : Z;
  cs_DeploymentVersion : Z;
  cs_DeploymentStatus : string;
  cs_MaxSurge : Z;
  cs_MaxUnavailable : Z;
  cs_Status : string;
  cs_Autoscaling : option autoscalingRequest;
  cs_Flat : autoscalingRequest
}.

Definition zero_registerNodeRequest := mkRegisterNodeRequest EmptyString EmptyString 0 0.
Definition zero_heartbeatRequest := mkHeartbeatRequest EmptyString.
Definition zero_updateServiceRequest := mkUpdateServiceRequest EmptyString EmptyString 0 0 0 0 0.
Definition zero_autoscalingRequest := mkAutoscalingRequest false 0 0 f_zero 0 0 0 0.
Definition zero_createServiceRequest :=
  mkCreateServiceRequest EmptyString EmptyString EmptyString 0 0 0 0 0 EmptyString 0 0
    EmptyString None zero_autoscalingRequest.

Definition registerNodeRequest_fields : list (field registerNodeRequest) := [
  field_at "id" rn_ID
    (fun v '(mkRegisterNodeRequest _ b c d) => mkRegisterNodeRequest v b c d)
    decode_string;
  field_at "address" rn_Address
    (fun v '(mkRegisterNodeRequest a _ c d) => mkRegisterNodeRequest a v c d)
    decode_string;
  field_at "cpu_capacity_millis" rn_CPUCapacity
    (fun v '(mkRegisterNodeRequest a b _ d) => mkRegisterNodeRequest a b v d)
    decode_int;
  field_at "memory_capacity_mb" rn_MemoryCapacity
    (fun v '(mkRegisterNodeRequest a b c _) => mkRegisterNodeRequest a b c v)
    decode_int
].

Definition heartbeatRequest_fields : list (field heartbeatRequest) :=
  [field_at "id" hb_ID (fun v _ => mkHeartbeatRequest v) decode_string].

Definition updateServiceRequest_fields : list (field updateServiceRequest) := [
  field_at "name" us_Name
    (fun v '(mkUpdateServiceRequest _ b c d e f g) => mkUpdateServiceRequest v b c d e f g)
    decode_string;
  field_at "image" us_Image
    (fun v '(mkUpdateServiceRequest a _ c d e f g) => mkUpdateServiceRequest a v c d e f g)
    decode_string;
  field_at "replicas" us_Replicas
    (fun v '(mkUpdateServiceRequest a b _ d e f g) => mkUpdateServiceRequest a b v d e f g)
    decode_int;
  field_at "cpu_request_millis" us_CPURequestMillis
    (fun v '(mkUpdateServiceRequest a b c _ e f g) => mkUpdateServiceRequest a b c v e f g)
    decode_int;
  field_at "memory_request_mb" us_MemoryRequestMB
    (fun v '(mkUpdateServiceRequest a b c d _ f g) => mkUpdateServiceRequest a b c d v f g)
    decode_int;
  field_at "max_surge" us_MaxSurge
    (fun v '(mkUpdateServiceRequest a b c d e _ g) => mkUpdateServiceRequest a b c d e v g)
    decode_int;
  field_at "max_unavailable" us_MaxUnavailable
    (fun v '(mkUpdateServiceRequest a b c d e f _) => mkUpdateServiceRequest a b c d e f v)
    decode_int
].

(** The fields of [autoscalingRequest]; with the prefix [autoscaling_] they are
    the flat fields of [createServiceRequest]. *)
Definition autoscaling_fields (prefix : string) : list (field autoscalingRequest) := [
  field_at (prefix +:+ "enabled") ar_Enabled
    (fun v '(mkAutoscalingRequest _ b c d e f g h) => mkAutoscalingRequest v b c d e f g h)
    decode_bool;
  field_at (prefix +:+ "min_replicas") ar_MinReplicas
    (fun v '(mkAutoscalingRequest a _ c d e f g h) => mkAutoscalingRequest a v c d e f g h)
    decode_int;
  field_at (prefix +:+ "max_replicas") ar_MaxReplicas
    (fun v '(mkAutoscalingRequest a b _ d e f g h) => mkAutoscalingRequest a b v d e f g h)
    decode_int;
  field_at (prefix +:+ "target_cpu") ar_TargetCPU
    (fun v '(mkAutoscalingRequest a b c _ e f g h) => mkAutoscalingRequest a b c v e f g h)
    decode_float;
  field_at (prefix +:+ "scale_up_cooldown_seconds") ar_ScaleUpCooldownSeconds
    (fun v '(mkAutoscalingRequest a b c d _ f g h) => mkAutoscalingRequest a b c d v f g h)
    decode_int;
  field_at (prefix +:+ "scale_down_cooldown_seconds") ar_ScaleDownCooldownSeconds
    (fun v '(mkAutoscalingRequest a b c d e _ g h) => mkAutoscalingRequest a b c d e v g h)
    decode_int;
  field_at (prefix +:+ "required_observations") ar_RequiredObservations
    (fun v '(mkAutoscalingRequest a b c d e f _ h) => mkAutoscalingRequest a b c d e f v h)
    decode_int;
  field_at (prefix +:+ "max_scale_step") ar_MaxScaleStep
    (fun v '(mkAutoscalingRequest a b c d e f g _) => mkAutoscalingRequest a b c d e f g v)
    decode_int
].

Definition autoscalingRequest_fields := autoscaling_fields EmptyString.

(** Unknown keys inside the nested struct are errors too. *)
Definition createServiceRequest_fields : list (field createServiceRequest) := [
  field_at "id" cs_ID
    (fun v '(mkCreateServiceRequest _ b c d e f g h i j k l m n) => mkCreateServiceRequest v b c d e f g h i j k l m n)
    decode_string;
  field_at "name" cs_Name
    (fun v '(mkCreateServiceRequest a _ c d e f g h i j k l m n) => mkCreateServiceRequest a v c d e f g h i j k l m n)
    decode_string;
  field_at "image" cs_Image
    (fun v '(mkCreateServiceRequest a b _ d e f g h i j k l m n) => mkCreateServiceRequest a b v d e f g h i j k l m n)
    decode_string;
  field_at "replicas" cs_Replicas
    (fun v '(mkCreateServiceRequest a b c _ e f g h i j k l m n) => mkCreateServiceRequest a b c v e f g h i j k l m n)
    decode_int;
  field_at "desired_replicas" cs_DesiredReplicas
    (fun v '(mkCreateServiceRequest a b c d _ f g h i j k l m n) => mkCreateServiceRequest a b c d v f g h i j k l m n)
    decode_int;
  field_at "cpu_request_millis" cs_CPURequestMillis
    (fun v '(mkCreateServiceRequest a b c d e _ g h i j k l m n) => mkCreateServiceRequest a b c d e v g h i j k l m n)
    decode_int;
  field_at "memory_request_mb" cs_MemoryRequestMB
    (fun v '(mkCreateServiceRequest a b c d e f _ h i j k l m n) => mkCreateServiceRequest a b c d e f v h i j k l m n)
    decode_int;
  field_at "deployment_version" cs_DeploymentVersion
    (fun v '(mkCreateServiceRequest a b c d e f g _ i j k l m n) => mkCreateServiceRequest a b c d e f g v i j k l m n)
    decode_int;
  field_at "deployment_status" cs_DeploymentStatus
    (fun v '(mkCreateServiceRequest a b c d e f g h _ j k l m n) => mkCreateServiceRequest a b c d e f g h v j k l m n)
    decode_string;
  field_at "max_surge" cs_MaxSurge
    (fun v '(mkCreateServiceRequest a b c d e f g h i _ k l m n) => mkCreateServiceRequest a b c d e f g h i v k l m n)
    decode_int;
  field_at "max_unavailable" cs_MaxUnavailable
    (fun v '(mkCreateServiceRequest a b c d e f g h i j _ l m n) => mkCreateServiceRequest a b c d e f g h i j v l m n)
    decode_int;
  field_at "status" cs_Status
    (fun v '(mkCreateServiceRequest a b c d e f g h i j k _ m n) => mkCreateServiceRequest a b c d e f g h i j k v m n)
    decode_string;
  field_at "autoscaling" cs_Autoscaling
    (fun v '(mkCreateServiceRequest a b c d e f g h i j k l _ n) => mkCreateServiceRequest a b c d e f g h i j k l v n)
    (decode_pointer zero_autoscalingRequest
       (decode_struct autoscalingRequest_fields true))
] ++ ((fun f => mkField (field_name f) (fun j r =>
         (fun v => let '(mkCreateServiceRequest a b c d e f g h i j k l m _) := r in
                   mkCreateServiceRequest a b c d e f g h i j k l m v)
           <$> field_decode f j (cs_Flat r)))
      <$> autoscaling_fields "autoscaling_").

(** ** createServiceRequest *)

Definition any_flat (r : autoscalingRequest) : bool :=
  ar_Enabled r || (0 <? ar_MinReplicas r) || (0 <? ar_MaxReplicas r) ||
  f_lt f_zero (ar_TargetCPU r) || (0 <? ar_ScaleUpCooldownSeconds r) ||
  (0 <? ar_ScaleDownCooldownSeconds r) || (0 <? ar_RequiredObservations r) ||
  (0 <? ar_MaxScaleStep r).

Definition normalize (r : createServiceRequest) : createServiceRequest :=
  mkCreateServiceRequest (cs_ID r) (cs_Name r) (cs_Image r)
    (if (cs_Replicas r =? 0) && (0 <? cs_DesiredReplicas r)
     then cs_DesiredReplicas r else cs_Replicas r)
    (cs_DesiredReplicas r) (cs_CPURequestMillis r) (cs_MemoryRequestMB r)
    (if cs_DeploymentVersion r =? 0 then 1 else cs_DeploymentVersion r)
    (cs_DeploymentStatus r) (cs_MaxSurge r) (cs_MaxUnavailable r) (cs_Status r)
    (match cs_Autoscaling r with
     | None => if any_flat (cs_Flat r) then Some (cs_Flat r) else None
     | Some a => Some a
     end)
    (cs_Flat r).

Definition effectiveReplicas (r : createServiceRequest) : Z :=
  if 0 <? cs_Replicas r then cs_Replicas r else cs_DesiredReplicas r.

Definition effectiveDeploymentStatus `{Unicode} (r : createServiceRequest) : DeploymentStatus :=
  if cs_DeploymentStatus r =s? EmptyString then DeploymentAvailable
  else ToUpper (cs_DeploymentStatus r).

Definition effectiveServiceStatus `{Unicode} (r : createServiceRequest) : ServiceStatus :=
  if cs_Status r =s? EmptyString then ServiceActive else ToUpper (cs_Status r).

(** ** validation.go: the first error, if any *)

Definition validateAutoscaling (r : autoscalingRequest) : option string :=
  if negb (ar_Enabled r) then None
  else if ar_MinReplicas r <? 1 then Some "autoscaling min_replicas must be at least 1"
  else if ar_MaxReplicas r <? ar_MinReplicas r then
    Some "autoscaling max_replicas must be >= min_replicas"
  else if f_le (ar_TargetCPU r) f_zero || f_lt (f_of_int 100) (ar_TargetCPU r) then
    Some "autoscaling target_cpu must be between 0 and 100"
  else if ar_ScaleUpCooldownSeconds r <? 0 then
    Some "scale_up_cooldown_seconds cannot be negative"
  else if ar_ScaleDownCooldownSeconds r <? 0 then
    Some "scale_down_cooldown_seconds cannot be negative"
  else if ar_RequiredObservations r <? 1 then Some "required_observations must be at least 1"
  else if ar_MaxScaleStep r <? 1 then Some "max_scale_step must be at least 1"
  else None.

Definition validateServiceRequest (r : createServiceRequest) : option string :=
  let replicas := effectiveReplicas r in
  if blank (cs_ID r) then Some "id is required"
  else if blank (cs_Name r) then Some "name is required"
  else if blank (cs_Image r) then Some "image is required"
  else if replicas <? 0 then Some "replicas cannot be negative"
  else if cs_CPURequestMillis r <=? 0 then Some "cpu_request_millis must be greater than zero"
  else if cs_MemoryRequestMB r <=? 0 then Some "memory_request_mb must be greater than zero"
  else if cs_MaxSurge r <? 0 then Some "max_surge cannot be negative"
  else if cs_MaxUnavailable r <? 0 then Some "max_unavailable cannot be negative"
  else if (cs_MaxSurge r =? 0) && (cs_MaxUnavailable r =? 0) && (0 <? replicas) then
    Some "max_surge and max_unavailable cannot both be zero"
  else match cs_Autoscaling r with
       | Some a => validateAutoscaling a
       | None => None
       end.

(** ** Examples *)

(** The request of service_request_test.go. *)
Example compatibility_request_decodes :
  let j := JObj [("id", JStr "my-service"); ("desired_replicas", JInt 2);
    ("autoscaling_enabled", JBool false); ("autoscaling_max_replicas", JInt 6);
    ("autoscaling_target_cpu", JInt 70)] in
  exists r, decode_only createServiceRequest_fields true zero_createServiceRequest
      (one_value j) = Some r /\
    effectiveReplicas r = 2 /\ cs_Replicas (normalize r) = 2 /\
    ar_MaxReplicas <$> cs_Autoscaling (normalize r) = Some 6.
Proof. eexists. split; [reflexivity|]. done. Qed.

Example unknown_key_is_refused :
  decode_only heartbeatRequest_fields true zero_heartbeatRequest
    (one_value (JObj [("ID", JStr "n1"); ("x", JNull)])) = None.
Proof. reflexivity. Qed.

Example blank_space : blank (String "194"%char (String "160"%char "  ")) = true.
Proof. reflexivity. Qed.
