(* ===== verification/Sql.v ===== *)
(** * The database: tables, constraints, and the statements of internal/store

    The tables of [migrations/*.sql] are finite maps from primary keys to rows.
    A statement is a function from the database to an error or to the new
    database and the number of rows affected; [now] is the transaction
    timestamp [NOW()].  A transaction is the whole body between [BeginTx] and
    [Commit]: an error leaves the database unchanged (the deferred
    [Rollback]).  Failures of the connection are not here but in [Env.v]. *)

From S2P Require Import Prelude Float64 Model.

Record DB := mkDB {
  nodes : gmap string Node;
  services : gmap string Service;
  workloads : gmap string Workload
}.

Definition set_nodes (f : gmap string Node -> gmap string Node) (db : DB) : DB :=
  mkDB (f (nodes db)) (services db) (workloads db).
Definition set_services (f : gmap string Service -> gmap string Service) (db : DB) : DB :=
  mkDB (nodes db) (f (services db)) (workloads db).
Definition set_workloads (f : gmap string Workload -> gmap string Workload) (db : DB) : DB :=
  mkDB (nodes db) (services db) (f (workloads db)).

(** ** Column types and CHECK constraints *)

(** [VARCHAR(n)] bounds the number of characters; the encoding is UTF-8, whose
    continuation bytes are 10xxxxxx. *)
Definition is_continuation (c : Ascii.ascii) : bool :=
  let b := Z.of_N (Ascii.N_of_ascii c) in (128 <=? b) && (b <? 192).

Fixpoint char_length (s : string) : Z :=
  match s with
  | EmptyString => 0
  | String c s => (if is_continuation c then 0 else 1) + char_length s
  end.

Lemma char_length_nonneg s : 0 <= char_length s.
Proof. induction s as [|c s IH]; cbn; [lia|]. destruct (is_continuation c); lia. Qed.

Lemma char_length_app s1 s2 : char_length (s1 +:+ s2) = char_length s1 + char_length s2.
Proof.
  induction s1 as [|c s1 IH]; [done|]. change (String c s1 +:+ s2) with (String c (s1 +:+ s2)).
  cbn [char_length]. lia.
Qed.

Definition varchar (n : Z) (s : string) : bool := char_length s <=? n.

(** The explicit cast [s::VARCHAR(n)] truncates. *)
Fixpoint varchar_cast (n : nat) (s : string) : string :=
  match s with
  | EmptyString => EmptyString
  | String c s' =>
      if is_continuation c then String c (varchar_cast n s')
      else match n with
           | O => EmptyString
           | S n' => String c (varchar_cast n' s')
           end
  end.

Definition node_row_ok (n : Node) : bool :=
  varchar 64 (nd_ID n) && varchar 255 (nd_Address n) && varchar 32 (nd_Status n) &&
  (int4 (nd_CPUCapacity n) && (0 <? nd_CPUCapacity n)) &&
  (int4 (nd_MemoryCapacity n) && (0 <? nd_MemoryCapacity n)) &&
  (int4 (nd_CPUAllocated n) && (0 <=? nd_CPUAllocated n)) &&
  (int4 (nd_MemoryAllocated n) && (0 <=? nd_MemoryAllocated n)).

Definition autoscaling_row_ok (a : AutoscalingConfig) : bool :=
  int4 (as_MinReplicas a) && int4 (as_MaxReplicas a) &&
  int4 (as_ScaleUpCooldownSeconds a) && int4 (as_ScaleDownCooldownSeconds a) &&
  int4 (as_RequiredObservations a) && int4 (as_MaxScaleStep a).

Definition service_row_ok (s : Service) : bool :=
  varchar 64 (svc_ID s) && varchar 128 (svc_Name s) && varchar 512 (svc_Image s) &&
  (int4 (svc_DesiredReplicas s) && (0 <=? svc_DesiredReplicas s)) &&
  (int4 (svc_CPURequestMillis s) && (0 <? svc_CPURequestMillis s)) &&
  (int4 (svc_MemoryRequestMB s) && (0 <? svc_MemoryRequestMB s)) &&
  int4 (svc_DeploymentVersion s) && int4 (svc_MaxSurge s) && int4 (svc_MaxUnavailable s) &&
  varchar 32 (svc_DeploymentStatus s) && varchar 32 (svc_Status s) &&
  autoscaling_row_ok (svc_Autoscaling s).

Definition workload_row_ok (w : Workload) : bool :=
  varchar 64 (wl_ID w) && varchar 64 (wl_ServiceID w) &&
  match wl_NodeID w with Some n => varchar 64 n | None => true end &&
  match wl_ContainerID w with Some c => varchar 128 c | None => true end &&
  varchar 512 (wl_Image w) &&
  (int4 (wl_CPURequestMillis w) && (0 <? wl_CPURequestMillis w)) &&
  (int4 (wl_MemoryRequestMB w) && (0 <? wl_MemoryRequestMB w)) &&
  int4 (wl_DeploymentVersion w).

(** [UPDATE table SET ... WHERE id = k AND guard]: no row is not an error. *)
Definition update_row {A} (row_ok : A -> bool) (k : string) (guard : A -> bool)
    (f : A -> A) (t : gmap string A) : res (gmap string A * Z) :=
  match t !! k with
  | None => Ok (t, 0)
  | Some r =>
      if negb (guard r) then Ok (t, 0)
      else if row_ok (f r) then Ok (<[k := f r]> t, 1)
      else Err (DBError ConstraintViolation)
  end.

Definition no_guard {A} (_ : A) : bool := true.

Definition update_node k f db : res (DB * Z) :=
  '(t, n) ← update_row node_row_ok k no_guard f (nodes db);
  mret (set_nodes (fun _ => t) db, n).

Definition update_service k guard f db : res (DB * Z) :=
  '(t, n) ← update_row service_row_ok k guard f (services db);
  mret (set_services (fun _ => t) db, n).

Definition update_workload k guard f db : res (DB * Z) :=
  '(t, n) ← update_row workload_row_ok k guard f (workloads db);
  mret (set_workloads (fun _ => t) db, n).

(** The driver encodes an [int] argument for an [INTEGER] parameter and refuses
    one that does not fit. *)
Definition encode_int4 (args : list Z) : res unit :=
  if forallb int4 args then Ok tt else Err (DBError ConstraintViolation).

(** ** internal/store/nodes.go *)

Definition RegisterNode_sql (now : Z) (node : Node) (db : DB) : res (DB * Z) :=
  let row :=
    match nodes db !! nd_ID node with
    | None =>
        mkNode (nd_ID node) (nd_Address node) (nd_CPUCapacity node) (nd_MemoryCapacity node)
          0 0 (nd_Status node) (nd_LastHeartbeat node) now now
    | Some old =>
        mkNode (nd_ID old) (nd_Address node) (nd_CPUCapacity node) (nd_MemoryCapacity node)
          (nd_CPUAllocated old) (nd_MemoryAllocated old)
          (nd_Status node) (nd_LastHeartbeat node) (nd_CreatedAt old) now
    end in
  if node_row_ok row
  then Ok (set_nodes <[nd_ID node := row]> db, 1)
  else Err (DBError ConstraintViolation).

Definition with_heartbeat (status : NodeStatus) (hb now : Z) (n : Node) : Node :=
  mkNode (nd_ID n) (nd_Address n) (nd_CPUCapacity n) (nd_MemoryCapacity n)
    (nd_CPUAllocated n) (nd_MemoryAllocated n) status hb (nd_CreatedAt n) now.

Definition UpdateHeartbeat_sql (now : Z) (id : string) (status : NodeStatus) (hb : Z)
    : DB -> res (DB * Z) :=
  update_node id (with_heartbeat status hb now).

Definition with_status (status : NodeStatus) (now : Z) (n : Node) : Node :=
  mkNode (nd_ID n) (nd_Address n) (nd_CPUCapacity n) (nd_MemoryCapacity n)
    (nd_CPUAllocated n) (nd_MemoryAllocated n) status (nd_LastHeartbeat n)
    (nd_CreatedAt n) now.

Definition SetNodeStatus_sql (now : Z) (id : string) (status : NodeStatus)
    : DB -> res (DB * Z) :=
  update_node id (with_status status now).

(** The allocation columns after [f] and [g]. *)
Definition with_allocation (f g : Z -> Z) (now : Z) (n : Node) : Node :=
  mkNode (nd_ID n) (nd_Address n) (nd_CPUCapacity n) (nd_MemoryCapacity n)
    (f (nd_CPUAllocated n)) (g (nd_MemoryAllocated n)) (nd_Status n)
    (nd_LastHeartbeat n) (nd_CreatedAt n) now.

(** ** internal/store/service.go *)

Definition name_taken (id name : string) (db : DB) : bool :=
  existsb (fun kv => (svc_Name kv.2 =s? name) && negb (kv.1 =s? id))
    (map_to_list (services db)).

Definition CreateService_sql (s : Service) (db : DB) : res (DB * Z) :=
  if negb (service_row_ok s) then Err (DBError ConstraintViolation)
  else match services db !! svc_ID s with
  | Some _ => Err (DBError UniqueViolation)
  | None =>
      if name_taken (svc_ID s) (svc_Name s) db then Err (DBError UniqueViolation)
      else Ok (set_services <[svc_ID s := s]> db, 1)
  end.

(** The row [UPDATE services SET ...] of [UpdateService] writes. *)
Definition UpdateService_row (now : Z) (s : Service) (old : Service) : Service :=
  let image := varchar_cast 512 (svc_Image s) in
  let changed := negb (svc_Image old =s? image) in
  mkService (svc_ID old) (svc_Name s) image
    (svc_DesiredReplicas s) (svc_CPURequestMillis s) (svc_MemoryRequestMB s)
    (if changed then svc_DeploymentVersion old + 1 else svc_DeploymentVersion old)
    (svc_MaxSurge old) (svc_MaxUnavailable old)
    (if changed then DeploymentProgressing else svc_DeploymentStatus old)
    (if changed then Some now else svc_DeploymentStartedAt old)
    (svc_Autoscaling old) (svc_AutoscalingLastScaledAt old) (svc_Status old)
    (svc_CreatedAt old) now.

Definition UpdateService_sql (now : Z) (s : Service) (db : DB) : res (DB * Z) :=
  _ ← encode_int4 [svc_DesiredReplicas s; svc_CPURequestMillis s; svc_MemoryRequestMB s];
  match services db !! svc_ID s with
  | Some _ =>
      if name_taken (svc_ID s) (svc_Name s) db then Err (DBError UniqueViolation)
      else update_service (svc_ID s) no_guard (UpdateService_row now s) db
  | None => mret (db, 0)
  end.

Definition with_deployment (version : Z) (status : DeploymentStatus) (startedAt : option Z)
    (now : Z) (s : Service) : Service :=
  mkService (svc_ID s) (svc_Name s) (svc_Image s) (svc_DesiredReplicas s)
    (svc_CPURequestMillis s) (svc_MemoryRequestMB s) version
    (svc_MaxSurge s) (svc_MaxUnavailable s) status startedAt
    (svc_Autoscaling s) (svc_AutoscalingLastScaledAt s) (svc_Status s) (svc_CreatedAt s) now.

Definition StartDeployment_sql (now : Z) (serviceID : string) (version startedAt : Z) (db : DB)
    : res (DB * Z) :=
  _ ← encode_int4 [version];
  update_service serviceID no_guard
    (with_deployment version DeploymentProgressing (Some startedAt) now) db.

Definition UpdateDeploymentStatus_sql (now : Z) (serviceID : string)
    (status : DeploymentStatus) : DB -> res (DB * Z) :=
  update_service serviceID no_guard (fun s =>
    with_deployment (svc_DeploymentVersion s) status (svc_DeploymentStartedAt s) now s).

Definition with_replicas (replicas now : Z) (s : Service) : Service :=
  mkService (svc_ID s) (svc_Name s) (svc_Image s) replicas
    (svc_CPURequestMillis s) (svc_MemoryRequestMB s) (svc_DeploymentVersion s)
    (svc_MaxSurge s) (svc_MaxUnavailable s) (svc_DeploymentStatus s)
    (svc_DeploymentStartedAt s) (svc_Autoscaling s) (Some now) (svc_Status s)
    (svc_CreatedAt s) now.

Definition UpdateDesiredReplicas_sql (now : Z) (serviceID : string) (replicas : Z) (db : DB)
    : res (DB * Z) :=
  _ ← encode_int4 [replicas];
  update_service serviceID no_guard (with_replicas replicas now) db.

Definition with_service_status (status : ServiceStatus) (now : Z) (s : Service) : Service :=
  mkService (svc_ID s) (svc_Name s) (svc_Image s) (svc_DesiredReplicas s)
    (svc_CPURequestMillis s) (svc_MemoryRequestMB s) (svc_DeploymentVersion s)
    (svc_MaxSurge s) (svc_MaxUnavailable s) (svc_DeploymentStatus s)
    (svc_DeploymentStartedAt s) (svc_Autoscaling s) (svc_AutoscalingLastScaledAt s) status
    (svc_CreatedAt s) now.

Definition MarkServiceDeleting_sql (now : Z) (serviceID : string) : DB -> res (DB * Z) :=
  update_service serviceID (fun s => svc_Status s =s? ServiceActive)
    (with_service_status ServiceDeleting now).

Definition MarkServiceDeleted_sql (now : Z) (serviceID : string) : DB -> res (DB * Z) :=
  update_service serviceID (fun s => svc_Status s =s? ServiceDeleting)
    (with_service_status ServiceDeleted now).

(** ** internal/store/workload.go: single statements *)

Definition CreateWorkload_sql (w : Workload) (db : DB) : res (DB * Z) :=
  if negb (workload_row_ok w) then Err (DBError ConstraintViolation)
  else match workloads db !! wl_ID w with
  | Some _ => Err (DBError UniqueViolation)
  | None =>
      if negb (bool_decide (is_Some (services db !! wl_ServiceID w))) then
        Err (DBError ForeignKeyViolation)
      else if negb (match wl_NodeID w with
                    | Some n => bool_decide (is_Some (nodes db !! n))
                    | None => true
                    end) then Err (DBError ForeignKeyViolation)
      else Ok (set_workloads <[wl_ID w := w]> db, 1)
  end.

(** The mutable columns of a workload row. *)
Definition with_state (node container : option string) (desired actual : WorkloadState)
    (now : Z) (w : Workload) : Workload :=
  mkWorkload (wl_ID w) (wl_ServiceID w) node container (wl_Image w)
    (wl_CPURequestMillis w) (wl_MemoryRequestMB w) (wl_DeploymentVersion w)
    desired actual (wl_CreatedAt w) now.

Definition with_actual (state : WorkloadState) (now : Z) (w : Workload) : Workload :=
  with_state (wl_NodeID w) (wl_ContainerID w) (wl_DesiredState w) state now w.

Definition with_desired (state : WorkloadState) (now : Z) (w : Workload) : Workload :=
  with_state (wl_NodeID w) (wl_ContainerID w) state (wl_ActualState w) now w.

Definition MarkWorkloadRunning_sql (now : Z) (workloadID containerID : string)
    : DB -> res (DB * Z) :=
  update_workload workloadID (fun w => wl_DesiredState w =w? WorkloadScheduled)
    (fun w => with_state (wl_NodeID w) (Some containerID) (wl_DesiredState w)
                WorkloadRunning now w).

Definition UpdateWorkloadActualState_sql (now : Z) (workloadID : string)
    (state : WorkloadState) : DB -> res (DB * Z) :=
  update_workload workloadID no_guard (with_actual state now).

Definition MarkWorkloadFailed_sql (now : Z) (workloadID : string) : DB -> res (DB * Z) :=
  update_workload workloadID no_guard (with_actual WorkloadFailed now).

Definition UpdateWorkloadDesiredState_sql (now : Z) (workloadID : string)
    (state : WorkloadState) : DB -> res (DB * Z) :=
  update_workload workloadID no_guard (with_desired state now).

(** ** internal/store/workload.go: transactions *)

(** A loop of statements inside a transaction; the first error ends it. *)
Fixpoint foldM {A S} (f : A -> S -> res S) (l : list A) (s : S) : res S :=
  match l with
  | [] => Ok s
  | x :: l => s ← f x s; foldM f l s
  end.

Definition ReserveNodeForWorkload_tx (now : Z) (workloadID nodeID : string)
    (cpuMillis memoryMB : Z) (db : DB) : res DB :=
  match nodes db !! nodeID with
  | None => Err (Wrapf "lock node %q: %w" [AStr nodeID] (DBError NoRows))
  | Some n =>
      if negb (nd_Status n =s? NodeReady) then
        Err (Errorf "node %q is not ready" [AStr nodeID])
      else
        let availableCPU := nd_CPUCapacity n -w nd_CPUAllocated n in
        let availableMemory := nd_MemoryCapacity n -w nd_MemoryAllocated n in
        if availableCPU <? cpuMillis then
          Err (Errorf "node %q has insufficient CPU: available=%d requested=%d"
                 [AStr nodeID; AInt availableCPU; AInt cpuMillis])
        else if availableMemory <? memoryMB then
          Err (Errorf "node %q has insufficient memory: available=%d requested=%d"
                 [AStr nodeID; AInt availableMemory; AInt memoryMB])
        else
          '(db1, _) ← wrapf "reserve resources on node %q: %w" [AStr nodeID]
            (_ ← encode_int4 [cpuMillis; memoryMB];
             update_node nodeID
               (with_allocation (fun a => a + cpuMillis) (fun a => a + memoryMB) now) db);
          '(db2, rows) ← wrapf "assign workload %q: %w" [AStr workloadID]
            (update_workload workloadID no_guard
               (fun w => with_state (Some nodeID) (wl_ContainerID w) WorkloadScheduled
                           (wl_ActualState w) now w) db1);
          if rows =? 0 then Err (Errorf "workload %q not found" [AStr workloadID])
          else mret db2
  end.

(** [GREATEST(allocated - request, 0)] *)
Definition release (request allocated : Z) : Z := Z.max (allocated - request) 0.

Definition MarkWorkloadFailedAndReleaseResources_tx (now : Z) (workloadID : string) (db : DB)
    : res DB :=
  match workloads db !! workloadID with
  | None => Err (Wrapf "get workload for failure: %w" [] (DBError NoRows))
  | Some w =>
      if wl_ActualState w =w? WorkloadFailed then mret db
      else
        db1 ← match wl_NodeID w with
              | None => mret db
              | Some nodeID =>
                  '(db1, rows) ← wrapf "release node resources: %w" []
                    (update_node nodeID
                       (with_allocation (release (wl_CPURequestMillis w))
                          (release (wl_MemoryRequestMB w)) now) db);
                  if rows =? 0
                  then Err (Errorf "could not release resources for node %q" [AStr nodeID])
                  else mret db1
              end;
        '(db2, _) ← wrapf "mark workload failed: %w" []
          (update_workload workloadID no_guard (with_actual WorkloadFailed now) db1);
        mret db2
  end.

Definition MarkWorkloadStoppedAndReleaseResources_tx (now : Z) (workloadID : string) (db : DB)
    : res DB :=
  match workloads db !! workloadID with
  | None => Err (Wrapf "get workload for stop: %w" [] (DBError NoRows))
  | Some w =>
      if wl_ActualState w =w? WorkloadStopped then mret db
      else
        db1 ← match wl_NodeID w with
              | None => mret db
              | Some nodeID =>
                  '(db1, _) ← wrapf "release workload resources: %w" []
                    (update_node nodeID
                       (with_allocation (release (wl_CPURequestMillis w))
                          (release (wl_MemoryRequestMB w)) now) db);
                  mret db1
              end;
        '(db2, _) ← wrapf "mark workload stopped: %w" []
          (update_workload workloadID no_guard (with_actual WorkloadStopped now) db1);
        mret db2
  end.

(** The states in which a workload counts against its node and its service. *)
Definition occupying (s : WorkloadState) : bool :=
  match s with
  | WorkloadPending | WorkloadScheduled | WorkloadRunning => true
  | WorkloadFailed | WorkloadStopped => false
  end.

(** [node_id = $1 AND actual_state IN (PENDING, SCHEDULED, RUNNING)] *)
Definition occupies (nodeID : string) (w : Workload) : bool :=
  match wl_NodeID w with
  | Some n => (n =s? nodeID) && occupying (wl_ActualState w)
  | None => false
  end.

Definition reset_workload (now : Z) (kv : string * Workload) (db : DB) : res DB :=
  '(db, _) ← wrapf "reset workload %q: %w" [AStr kv.1]
    (update_workload kv.1 no_guard
       (with_state None None WorkloadPending WorkloadPending now) db);
  mret db.

Definition RecoverWorkloadsFromNode_tx (now : Z) (nodeID : string) (db : DB) : res DB :=
  let rows := filter (fun kv => occupies nodeID kv.2) (map_to_list (workloads db)) in
  db1 ← foldM (reset_workload now) rows db;
  '(db2, _) ← wrapf "reset node resources: %w" []
    (update_node nodeID (with_allocation (fun _ => 0) (fun _ => 0) now) db1);
  mret db2.

(** ** The write operations of [store.Postgres]

    One constructor per method that writes; [apply_op] runs its statement or
    transaction and returns the rows affected (0 for a transaction, whose
    caller does not ask). *)

Inductive StoreOp :=
  | OpRegisterNode (node : Node)
  | OpUpdateHeartbeat (id : string) (status : NodeStatus) (hb : Z)
  | OpSetNodeStatus (id : string) (status : NodeStatus)
  | OpCreateService (s : Service)
  | OpUpdateService (s : Service)
  | OpStartDeployment (serviceID : string) (version startedAt : Z)
  | OpUpdateDeploymentStatus (serviceID : string) (status : DeploymentStatus)
  | OpUpdateDesiredReplicas (serviceID : string) (replicas : Z)
  | OpMarkServiceDeleting (serviceID : string)
  | OpMarkServiceDeleted (serviceID : string)
  | OpCreateWorkload (w : Workload)
  | OpReserveNode (workloadID nodeID : string) (cpuMillis memoryMB : Z)
  | OpMarkWorkloadRunning (workloadID containerID : string)
  | OpMarkWorkloadFailed (workloadID : string)
  | OpUpdateWorkloadActualState (workloadID : string) (state : WorkloadState)
  | OpUpdateWorkloadDesiredState (workloadID : string) (state : WorkloadState)
  | OpMarkFailedAndRelease (workloadID : string)
  | OpMarkStoppedAndRelease (workloadID : string)
  | OpRecoverWorkloads (nodeID : string).

Definition transaction (tx : DB -> res DB) (db : DB) : res (DB * Z) :=
  db' ← tx db; mret (db', 0).

Definition apply_op (now : Z) (op : StoreOp) : DB -> res (DB * Z) :=
  match op with
  | OpRegisterNode node => RegisterNode_sql now node
  | OpUpdateHeartbeat id status hb => UpdateHeartbeat_sql now id status hb
  | OpSetNodeStatus id status => SetNodeStatus_sql now id status
  | OpCreateService s => CreateService_sql s
  | OpUpdateService s => UpdateService_sql now s
  | OpStartDeployment id version startedAt => StartDeployment_sql now id version startedAt
  | OpUpdateDeploymentStatus id status => UpdateDeploymentStatus_sql now id status
  | OpUpdateDesiredReplicas id replicas => UpdateDesiredReplicas_sql now id replicas
  | OpMarkServiceDeleting id => MarkServiceDeleting_sql now id
  | OpMarkServiceDeleted id => MarkServiceDeleted_sql now id
  | OpCreateWorkload w => CreateWorkload_sql w
  | OpReserveNode wid nid cpu mem => transaction (ReserveNodeForWorkload_tx now wid nid cpu mem)
  | OpMarkWorkloadRunning wid cid => MarkWorkloadRunning_sql now wid cid
  | OpMarkWorkloadFailed wid => MarkWorkloadFailed_sql now wid
  | OpUpdateWorkloadActualState wid st => UpdateWorkloadActualState_sql now wid st
  | OpUpdateWorkloadDesiredState wid st => UpdateWorkloadDesiredState_sql now wid st
  | OpMarkFailedAndRelease wid => transaction (MarkWorkloadFailedAndReleaseResources_tx now wid)
  | OpMarkStoppedAndRelease wid => transaction (MarkWorkloadStoppedAndReleaseResources_tx now wid)
  | OpRecoverWorkloads nid => transaction (RecoverWorkloadsFromNode_tx now nid)
  end.

(** ** What a statement can do *)

(** An [UPDATE ... WHERE] skips or writes exactly one row. *)
Variant updated {A} (row_ok : A -> bool) (k : string) (guard : A -> bool) (f : A -> A)
    (t : gmap string A) : gmap string A -> Z -> Prop :=
  | upd_skip : (forall r, t !! k = Some r -> guard r = false) ->
      updated row_ok k guard f t t 0
  | upd_write r : t !! k = Some r -> guard r = true -> row_ok (f r) = true ->
      updated row_ok k guard f t (<[k := f r]> t) 1.

Lemma update_row_inv {A} row_ok k guard f (t t' : gmap string A) n :
  update_row row_ok k guard f t = Ok (t', n) -> updated row_ok k guard f t t' n.
Proof.
  unfold update_row. destruct (t !! k) as [r|] eqn:Hk.
  - destruct (guard r) eqn:Hg; cbn.
    + destruct (row_ok (f r)) eqn:Ho; [|done]. intros [= <- <-]. by econstructor.
    + intros [= <- <-]. constructor. congruence.
  - intros [= <- <-]. constructor. congruence.
Qed.

Lemma update_node_inv k f db db' n :
  update_node k f db = Ok (db', n) ->
  exists t, updated node_row_ok k no_guard f (nodes db) t n /\
    db' = mkDB t (services db) (workloads db).
Proof.
  unfold update_node. intros ([t m] & H & [= <- <-])%res_bind_ok.
  exists t. split; [by apply update_row_inv|done].
Qed.

Lemma update_service_inv k g f db db' n :
  update_service k g f db = Ok (db', n) ->
  exists t, updated service_row_ok k g f (services db) t n /\
    db' = mkDB (nodes db) t (workloads db).
Proof.
  unfold update_service. intros ([t m] & H & [= <- <-])%res_bind_ok.
  exists t. split; [by apply update_row_inv|done].
Qed.

Lemma update_workload_inv k g f db db' n :
  update_workload k g f db = Ok (db', n) ->
  exists t, updated workload_row_ok k g f (workloads db) t n /\
    db' = mkDB (nodes db) (services db) t.
Proof.
  unfold update_workload. intros ([t m] & H & [= <- <-])%res_bind_ok.
  exists t. split; [by apply update_row_inv|done].
Qed.

Section Hits.
Context (db : DB).

Lemma update_node_hit k f r :
  nodes db !! k = Some r -> node_row_ok (f r) = true ->
  update_node k f db = Ok (mkDB (<[k := f r]> (nodes db)) (services db) (workloads db), 1).
Proof. intros Hr Hok. unfold update_node, update_row. rewrite Hr. cbn -[node_row_ok]. by rewrite Hok. Qed.

Lemma update_service_hit k g f r :
  services db !! k = Some r -> g r = true -> service_row_ok (f r) = true ->
  update_service k g f db = Ok (mkDB (nodes db) (<[k := f r]> (services db)) (workloads db), 1).
Proof.
  intros Hr Hg Hok. unfold update_service, update_row. rewrite Hr, Hg.
  cbn -[service_row_ok]. by rewrite Hok.
Qed.

Lemma update_workload_hit k g f r :
  workloads db !! k = Some r -> g r = true -> workload_row_ok (f r) = true ->
  update_workload k g f db = Ok (mkDB (nodes db) (services db) (<[k := f r]> (workloads db)), 1).
Proof.
  intros Hr Hg Hok. unfold update_workload, update_row. rewrite Hr, Hg.
  cbn -[workload_row_ok]. by rewrite Hok.
Qed.

Lemma update_workload_miss k g f :
  (forall r, workloads db !! k = Some r -> g r = false) -> update_workload k g f db = Ok (db, 0).
Proof.
  intros Hg. unfold update_workload, update_row. destruct (workloads db !! k) as [r|] eqn:Hr.
  - rewrite (Hg r eq_refl). by destruct db.
  - by destruct db.
Qed.

Lemma update_node_miss k f :
  nodes db !! k = None -> update_node k f db = Ok (db, 0).
Proof. intros Hr. unfold update_node, update_row. rewrite Hr. by destruct db. Qed.
End Hits.

(** Undo one layer of a store operation that returned [Ok]. *)
Ltac inv_ok :=
  repeat match goal with
  | H : Ok _ = Ok _ |- _ => injection H; clear H; intros; subst
  | H : Err _ = Ok _ |- _ => discriminate H
  | H : (_, _) = (_, _) |- _ => injection H; clear H; intros; subst
  | H : mret ?x = Ok ?y |- _ => change (Ok x = Ok y) in H
  | H : mbind _ _ = Ok _ |- _ => apply res_bind_ok in H as (? & H & ?)
  | H : wrapf _ _ _ = Ok _ |- _ => apply wrapf_ok in H
  | H : transaction _ _ = Ok _ |- _ => unfold transaction in H
  | H : (let '(_, _) := ?p in _) = Ok _ |- _ => destruct p eqn:?
  | H : (match ?b with true => _ | false => _ end) = Ok _ |- _ => destruct b eqn:?; try discriminate H
  | H : encode_int4 _ = Ok _ |- _ => clear H
  | H : update_node _ _ _ = Ok _ |- _ => apply update_node_inv in H as (? & ? & ->)
  | H : update_service _ _ _ _ = Ok _ |- _ => apply update_service_inv in H as (? & ? & ->)
  | H : update_workload _ _ _ _ = Ok _ |- _ => apply update_workload_inv in H as (? & ? & ->)
  end.
