(* ===== verification/StoreInv.v ===== *)
(** * Invariants of the database

    [WF]: keys, CHECK constraints, unique names and foreign keys hold in every
    state that the write operations of the store can produce.  [Accounted]:
    the allocation columns of a node are the sum of the requests of the
    workloads that occupy it. *)

From S2P Require Import Prelude Float64 Model Sql.

(** ** Well-formed tables *)

Record WF (db : DB) : Prop := {
  wf_node k n : nodes db !! k = Some n -> nd_ID n = k /\ node_row_ok n = true;
  wf_service k s : services db !! k = Some s -> svc_ID s = k /\ service_row_ok s = true;
  wf_name k1 s1 k2 s2 : services db !! k1 = Some s1 -> services db !! k2 = Some s2 ->
    svc_Name s1 = svc_Name s2 -> k1 = k2;
  wf_workload k w : workloads db !! k = Some w -> wl_ID w = k /\ workload_row_ok w = true;
  wf_fk_service k w : workloads db !! k = Some w -> is_Some (services db !! wl_ServiceID w);
  wf_fk_node k w nid : workloads db !! k = Some w -> wl_NodeID w = Some nid ->
    is_Some (nodes db !! nid)
}.

Section Writes.
Context (db : DB) (Hwf : WF db).

Lemma wf_insert_node k n :
  nd_ID n = k -> node_row_ok n = true ->
  WF (mkDB (<[k := n]> (nodes db)) (services db) (workloads db)).
Proof using Hwf.
  intros Hk Hok. destruct Hwf. constructor; cbn; eauto.
  - intros k' n' [[<- <-]|[_ ?]]%lookup_insert_Some; eauto.
  - intros k' w nid Hw Hn. destruct (wf_fk_node0 _ _ _ Hw Hn) as [x Hx].
    rewrite lookup_insert. case_decide; eauto.
Qed.

Lemma wf_insert_service k s :
  svc_ID s = k -> service_row_ok s = true ->
  (forall k' s', services db !! k' = Some s' -> svc_Name s' = svc_Name s -> k' = k) ->
  WF (mkDB (nodes db) (<[k := s]> (services db)) (workloads db)).
Proof using Hwf.
  intros Hk Hok Hname. destruct Hwf. constructor; cbn; eauto.
  - intros k' s' [[<- <-]|[_ ?]]%lookup_insert_Some; eauto.
  - intros k1 s1 k2 s2 [[<- <-]|[? H1]]%lookup_insert_Some
      [[<- <-]|[? H2]]%lookup_insert_Some He; eauto.
    symmetry. eauto.
  - intros k' w Hw. destruct (wf_fk_service0 _ _ Hw) as [x Hx].
    rewrite lookup_insert. case_decide; eauto.
Qed.

Lemma wf_insert_workload k w :
  wl_ID w = k -> workload_row_ok w = true -> is_Some (services db !! wl_ServiceID w) ->
  (forall nid, wl_NodeID w = Some nid -> is_Some (nodes db !! nid)) ->
  WF (mkDB (nodes db) (services db) (<[k := w]> (workloads db))).
Proof using Hwf.
  intros Hk Hok Hs Hn. destruct Hwf. constructor; cbn; eauto.
  - intros k' w' [[<- <-]|[_ ?]]%lookup_insert_Some; eauto.
  - intros k' w' [[<- <-]|[_ ?]]%lookup_insert_Some; eauto.
  - intros k' w' nid [[<- <-]|[_ ?]]%lookup_insert_Some; eauto.
Qed.

Lemma wf_updated_node k f t n :
  updated node_row_ok k no_guard f (nodes db) t n -> (forall r, nd_ID (f r) = nd_ID r) ->
  WF (mkDB t (services db) (workloads db)).
Proof using Hwf.
  intros [|r Hr _ Hok] Hid; [by destruct db|].
  apply wf_insert_node; [|done]. rewrite Hid. by apply (wf_node db Hwf).
Qed.

Lemma wf_updated_service k g f t n :
  updated service_row_ok k g f (services db) t n ->
  (forall r, svc_ID (f r) = svc_ID r) -> (forall r, svc_Name (f r) = svc_Name r) ->
  WF (mkDB (nodes db) t (workloads db)).
Proof using Hwf.
  intros [|r Hr _ Hok] Hid Hname; [by destruct db|].
  apply wf_insert_service; [rewrite Hid; by apply (wf_service db Hwf)|done|].
  intros k' s' Hs'. rewrite Hname. by eapply (wf_name db Hwf).
Qed.

Lemma wf_updated_workload k g f t n :
  updated workload_row_ok k g f (workloads db) t n ->
  (forall r, wl_ID (f r) = wl_ID r) -> (forall r, wl_ServiceID (f r) = wl_ServiceID r) ->
  (forall r nid, wl_NodeID (f r) = Some nid ->
     wl_NodeID r = Some nid \/ is_Some (nodes db !! nid)) ->
  WF (mkDB (nodes db) (services db) t).
Proof using Hwf.
  intros [|r Hr _ Hok] Hid Hs Hn; [by destruct db|].
  apply wf_insert_workload; [rewrite Hid; by apply (wf_workload db Hwf)|done| |].
  - rewrite Hs. by eapply (wf_fk_service db Hwf k).
  - intros nid [Hnid|Hnid]%Hn; [by eapply (wf_fk_node db Hwf _ r)|done].
Qed.
End Writes.

Lemma name_taken_false id name db :
  name_taken id name db = false <->
  forall k s, services db !! k = Some s -> svc_Name s = name -> k = id.
Proof.
  unfold name_taken. rewrite <- not_true_iff_false, existsb_exists. split.
  - intros H k s Hs Hn. destruct (String.eqb_spec k id) as [|Hne]; [done|].
    destruct H. exists (k, s). split.
    + apply list_elem_of_In, elem_of_map_to_list, Hs.
    + cbn. guards. done.
  - intros H ([k s] & Hin%list_elem_of_In%elem_of_map_to_list & [Hn Hk]%andb_true_iff).
    cbn in *. guards. eauto.
Qed.

(** A fold of statements keeps what each statement keeps. *)
Lemma foldM_inv {A S} (P : S -> Prop) (f : A -> S -> res S) l s s' :
  (forall x s s', x ∈ l -> P s -> f x s = Ok s' -> P s') ->
  P s -> foldM f l s = Ok s' -> P s'.
Proof.
  revert s. induction l as [|x l IH]; intros s Hf Hs H.
  - by injection H as <-.
  - apply res_bind_ok in H as (s1 & H1 & H). apply (IH s1); [|eauto with datatypes|done].
    + intros y t t' Hy. apply Hf. by right.
    + eapply Hf; [left|exact Hs|exact H1].
Qed.

(** Node, service and workload updates that keep the identifying columns. *)
Ltac wf_update Hwf :=
  first [ eapply (wf_updated_node _ Hwf) | eapply (wf_updated_service _ Hwf)
        | eapply (wf_updated_workload _ Hwf) ];
  [eassumption|try done..].

Lemma register_node_wf now node db db' n :
  WF db -> RegisterNode_sql now node db = Ok (db', n) -> WF db'.
Proof.
  intros Hwf H. unfold RegisterNode_sql in H. inv_ok.
  apply (wf_insert_node _ Hwf); [|done].
  destruct (nodes db !! nd_ID node) eqn:Hn; cbn; [|done]. by apply (wf_node _ Hwf).
Qed.

Lemma create_service_wf s db db' n :
  WF db -> CreateService_sql s db = Ok (db', n) -> WF db'.
Proof.
  intros Hwf H. unfold CreateService_sql in H. inv_ok.
  destruct (services db !! svc_ID s); [done|]. inv_ok.
  apply (wf_insert_service _ Hwf); [done| |].
  - by apply negb_false_iff.
  - by apply name_taken_false.
Qed.

Lemma update_service_wf now s db db' n :
  WF db -> UpdateService_sql now s db = Ok (db', n) -> WF db'.
Proof.
  intros Hwf H. unfold UpdateService_sql in H. inv_ok.
  destruct (services db !! svc_ID s) as [old|] eqn:Hs; inv_ok; [|done].
  match goal with H : updated _ _ _ _ _ _ _ |- _ => destruct H as [|r Hr _ Hok] end;
    [by destruct db|].
  apply (wf_insert_service _ Hwf); [|done|].
  - cbn. by apply (wf_service _ Hwf).
  - by apply name_taken_false.
Qed.

Lemma create_workload_wf w db db' n :
  WF db -> CreateWorkload_sql w db = Ok (db', n) -> WF db'.
Proof.
  intros Hwf H. unfold CreateWorkload_sql in H. inv_ok.
  destruct (workloads db !! wl_ID w); [done|]. inv_ok. guards.
  apply (wf_insert_workload _ Hwf); [done|done| |].
  - by eapply bool_decide_eq_true.
  - intros nid Hn. rewrite Hn in *. by eapply bool_decide_eq_true.
Qed.

(** The two releasing transactions differ in one state only; their shared
    shape: the node gives back the request, the workload takes the state. *)
Variant released (db : DB) (workloadID : string) (state : WorkloadState) (now : Z)
    : DB -> Prop :=
  | rel_done w : workloads db !! workloadID = Some w -> wl_ActualState w = state ->
      released db workloadID state now db
  | rel_write w tn tw nid n m :
      workloads db !! workloadID = Some w -> wl_ActualState w <> state ->
      wl_NodeID w = Some nid ->
      updated node_row_ok nid no_guard
        (with_allocation (release (wl_CPURequestMillis w)) (release (wl_MemoryRequestMB w)) now)
        (nodes db) tn n ->
      updated workload_row_ok workloadID no_guard (with_actual state now) (workloads db) tw m ->
      released db workloadID state now (mkDB tn (services db) tw)
  | rel_unbound w tw m :
      workloads db !! workloadID = Some w -> wl_ActualState w <> state -> wl_NodeID w = None ->
      updated workload_row_ok workloadID no_guard (with_actual state now) (workloads db) tw m ->
      released db workloadID state now (mkDB (nodes db) (services db) tw).

Lemma failed_tx_inv now wid db db' :
  MarkWorkloadFailedAndReleaseResources_tx now wid db = Ok db' ->
  released db wid WorkloadFailed now db'.
Proof.
  unfold MarkWorkloadFailedAndReleaseResources_tx. intros H.
  destruct (workloads db !! wid) as [w|] eqn:Hw; [|done].
  destruct (wl_ActualState w =w? WorkloadFailed) eqn:Ha; guards; [inv_ok; by econstructor|].
  destruct (wl_NodeID w) eqn:Hn; inv_ok; cbn in *.
  - eapply rel_write; eauto.
  - eapply rel_unbound; eauto.
Qed.

Lemma stopped_tx_inv now wid db db' :
  MarkWorkloadStoppedAndReleaseResources_tx now wid db = Ok db' ->
  released db wid WorkloadStopped now db'.
Proof.
  unfold MarkWorkloadStoppedAndReleaseResources_tx. intros H.
  destruct (workloads db !! wid) as [w|] eqn:Hw; [|done].
  destruct (wl_ActualState w =w? WorkloadStopped) eqn:Ha; guards; [inv_ok; by econstructor|].
  destruct (wl_NodeID w) eqn:Hn; inv_ok; cbn in *.
  - eapply rel_write; eauto.
  - eapply rel_unbound; eauto.
Qed.

Lemma released_wf db wid state now db' : WF db -> released db wid state now db' -> WF db'.
Proof.
  intros Hwf [w _ _|w tn tw nid n m Hw Hs Hn Hun Huw|w tw m Hw Hs Hn Huw]; [done| |].
  - change tw with (workloads (mkDB tn (services db) tw)).
    pose proof (wf_updated_node _ Hwf _ _ _ _ Hun ltac:(done)) as Hwf1.
    eapply (wf_updated_workload _ Hwf1); [exact Huw|done..|]. intros; by left.
  - eapply (wf_updated_workload _ Hwf); [exact Huw|done..|]. intros; by left.
Qed.

(** A successful reservation: the node was ready and had room. *)
Lemma reserve_tx_inv now wid nid cpu mem db db' :
  ReserveNodeForWorkload_tx now wid nid cpu mem db = Ok db' ->
  exists n w,
    nodes db !! nid = Some n /\ workloads db !! wid = Some w /\
    nd_Status n = NodeReady /\
    cpu <= nd_CPUCapacity n -w nd_CPUAllocated n /\
    mem <= nd_MemoryCapacity n -w nd_MemoryAllocated n /\
    let n' := with_allocation (fun a => a + cpu) (fun a => a + mem) now n in
    let w' := with_state (Some nid) (wl_ContainerID w) WorkloadScheduled (wl_ActualState w) now w in
    node_row_ok n' = true /\ workload_row_ok w' = true /\
    db' = mkDB (<[nid := n']> (nodes db)) (services db) (<[wid := w']> (workloads db)).
Proof.
  unfold ReserveNodeForWorkload_tx. intros H.
  destruct (nodes db !! nid) as [n|] eqn:Hn; [|done].
  inv_ok. cbn in *. guards.
  repeat match goal with H : updated _ _ _ _ _ _ _ |- _ => destruct H as [Hskip|? ? ? ?] end;
    try done; try (by specialize (Hskip _ Hn)).
  simplify_eq. eexists _, _. split_and!; eauto.
Qed.

Lemma reserve_wf now wid nid cpu mem db db' :
  WF db -> ReserveNodeForWorkload_tx now wid nid cpu mem db = Ok db' -> WF db'.
Proof.
  intros Hwf (n & w & Hn & Hw & _ & _ & _ & Hn' & Hw' & ->)%reserve_tx_inv.
  destruct (wf_node _ Hwf _ _ Hn), (wf_workload _ Hwf _ _ Hw).
  assert (WF (mkDB (<[nid := with_allocation (fun a => a + cpu) (fun a => a + mem) now n]>
    (nodes db)) (services db) (workloads db))) as Hwf1 by by apply wf_insert_node.
  apply (wf_insert_workload _ Hwf1); [done..| |].
  - by apply (wf_fk_service _ Hwf _ _ Hw).
  - intros nid' Hnid'. cbn in Hnid'. simplify_eq. cbn. rewrite lookup_insert_eq. eauto.
Qed.

Lemma recover_wf now nid db db' :
  WF db -> RecoverWorkloadsFromNode_tx now nid db = Ok db' -> WF db'.
Proof.
  intros Hwf H. unfold RecoverWorkloadsFromNode_tx in H. inv_ok. cbn in *.
  match goal with H : foldM _ _ _ = Ok ?d |- _ => assert (WF d) as Hwf1 end.
  - eapply (foldM_inv WF); [|exact Hwf|eassumption].
    intros [k w] d d' _ Hd Hs. unfold reset_workload in Hs. inv_ok. wf_update Hd.
  - wf_update Hwf1.
Qed.

(** Every write of the store keeps the tables well formed. *)
Lemma apply_op_wf now op db db' n : WF db -> apply_op now op db = Ok (db', n) -> WF db'.
Proof.
  intros Hwf H. destruct op; cbn in H;
    unfold UpdateHeartbeat_sql, SetNodeStatus_sql, StartDeployment_sql,
      UpdateDeploymentStatus_sql, UpdateDesiredReplicas_sql, MarkServiceDeleting_sql,
      MarkServiceDeleted_sql, MarkWorkloadRunning_sql, MarkWorkloadFailed_sql,
      UpdateWorkloadActualState_sql, UpdateWorkloadDesiredState_sql in H;
    eauto using register_node_wf, create_service_wf, update_service_wf, create_workload_wf;
    inv_ok; try (wf_update Hwf; intros; by left).
  - by eapply reserve_wf.
  - by eapply released_wf, failed_tx_inv.
  - by eapply released_wf, stopped_tx_inv.
  - by eapply recover_wf.
Qed.
