(* ===== verification/Accounting.v ===== *)
(** * Resource accounting

    Reservation adds a request to the allocation columns of a node, failure
    and shutdown give it back, recovery of a node clears it.  The account is
    right ([Accounted]) when the columns are the sum of the requests of the
    workloads that occupy the node.  The store keeps it right when each
    operation is called on a workload in a state it was written for
    ([disciplined]); the store itself does not test for those states. *)

From S2P Require Import Prelude Float64 Model Sql StoreInv.

(** What a workload takes of a node. *)
Definition share (f : Workload -> Z) (nodeID : string) (w : Workload) : Z :=
  if occupies nodeID w then f w else 0.

Definition reserved (f : Workload -> Z) (nodeID : string) (db : DB) : Z :=
  msum (share f nodeID) (workloads db).

Definition Accounted (db : DB) : Prop :=
  forall k n, nodes db !! k = Some n ->
    nd_CPUAllocated n = reserved wl_CPURequestMillis k db /\
    nd_MemoryAllocated n = reserved wl_MemoryRequestMB k db.

(** No node has promised more than it has. *)
Definition NoOvercommit (db : DB) : Prop :=
  forall k n, nodes db !! k = Some n ->
    nd_CPUAllocated n <= nd_CPUCapacity n /\ nd_MemoryAllocated n <= nd_MemoryCapacity n.

(** The states an operation on a workload is written for. *)
Definition disciplined (db : DB) (op : StoreOp) : Prop :=
  match op with
  | OpCreateWorkload w => wl_NodeID w = None
  | OpReserveNode wid _ cpu mem => forall w, workloads db !! wid = Some w ->
      wl_NodeID w = None /\ occupying (wl_ActualState w) = true /\
      cpu = wl_CPURequestMillis w /\ mem = wl_MemoryRequestMB w
  | OpMarkWorkloadRunning wid _ => forall w, workloads db !! wid = Some w ->
      wl_DesiredState w = WorkloadScheduled -> occupying (wl_ActualState w) = true
  | OpMarkWorkloadFailed wid => forall w, workloads db !! wid = Some w ->
      wl_NodeID w = None \/ occupying (wl_ActualState w) = false
  | OpUpdateWorkloadActualState wid st => forall w, workloads db !! wid = Some w ->
      wl_NodeID w = None \/ occupying (wl_ActualState w) = occupying st
  | OpMarkFailedAndRelease wid => forall w, workloads db !! wid = Some w ->
      wl_NodeID w = None \/ wl_ActualState w <> WorkloadStopped
  | OpMarkStoppedAndRelease wid => forall w, workloads db !! wid = Some w ->
      wl_NodeID w = None \/ wl_ActualState w <> WorkloadFailed
  | _ => True
  end.

Lemma workload_requests_pos db k w :
  WF db -> workloads db !! k = Some w ->
  0 < wl_CPURequestMillis w /\ 0 < wl_MemoryRequestMB w.
Proof.
  intros Hwf [_ Hok]%(wf_workload _ Hwf). unfold workload_row_ok in Hok. guards. tauto.
Qed.

Section Shares.
Context (f : Workload -> Z).

Lemma share_unbound nid w : wl_NodeID w = None -> share f nid w = 0.
Proof. unfold share, occupies. by intros ->. Qed.

Lemma share_idle nid w : occupying (wl_ActualState w) = false -> share f nid w = 0.
Proof.
  unfold share, occupies. intros ->. destruct (wl_NodeID w); [|done].
  by rewrite andb_false_r.
Qed.

Lemma share_here nid w :
  wl_NodeID w = Some nid -> occupying (wl_ActualState w) = true -> share f nid w = f w.
Proof. unfold share, occupies. intros -> ->. by rewrite String.eqb_refl. Qed.

Lemma share_elsewhere nid nid' w :
  wl_NodeID w = Some nid -> nid <> nid' -> share f nid' w = 0.
Proof.
  unfold share, occupies. intros -> Hne%String.eqb_neq. by rewrite Hne.
Qed.

Lemma reserved_insert nid db k w w' :
  workloads db !! k = Some w ->
  msum (share f nid) (<[k := w']> (workloads db)) =
    reserved f nid db - share f nid w + share f nid w'.
Proof. intros H. by apply msum_insert. Qed.

Lemma reserved_insert_same nid db k w w' :
  workloads db !! k = Some w -> share f nid w = share f nid w' ->
  msum (share f nid) (<[k := w']> (workloads db)) = reserved f nid db.
Proof. intros H He. rewrite (reserved_insert nid db k w) by done. lia. Qed.
End Shares.

(** ** Operations that leave every share alone *)

Lemma accounted_updated_node db k f t n :
  Accounted db -> updated node_row_ok k no_guard f (nodes db) t n ->
  (forall r, nd_CPUAllocated (f r) = nd_CPUAllocated r) ->
  (forall r, nd_MemoryAllocated (f r) = nd_MemoryAllocated r) ->
  Accounted (mkDB t (services db) (workloads db)).
Proof.
  intros Ha [|r Hr _ _] Hc Hm; [by destruct db|].
  intros k' n' Hn. cbn in Hn. apply lookup_insert_Some in Hn as [[<- <-]|[_ Hn]].
  - rewrite Hc, Hm. by apply (Ha k).
  - by apply (Ha k').
Qed.

Lemma accounted_updated_workload db k g f t n :
  Accounted db -> updated workload_row_ok k g f (workloads db) t n ->
  (forall w nid, workloads db !! k = Some w -> g w = true ->
     occupies nid (f w) = occupies nid w) ->
  (forall w, wl_CPURequestMillis (f w) = wl_CPURequestMillis w) ->
  (forall w, wl_MemoryRequestMB (f w) = wl_MemoryRequestMB w) ->
  Accounted (mkDB (nodes db) (services db) t).
Proof.
  intros Ha [|w Hw Hg _] Hs Hc Hm; [by destruct db|].
  intros k' n' Hn. cbn in Hn. unfold reserved. cbn [workloads].
  rewrite !(reserved_insert_same _ k' db k w) by
    (try done; unfold share; rewrite Hs, ?Hc, ?Hm; done).
  by apply Ha.
Qed.

Lemma accounted_register_node now node db db' n :
  WF db -> Accounted db -> RegisterNode_sql now node db = Ok (db', n) -> Accounted db'.
Proof.
  intros Hwf Ha H. unfold RegisterNode_sql in H. inv_ok.
  intros k' n' Hn. cbn in Hn. apply lookup_insert_Some in Hn as [[<- <-]|[_ Hn]];
    [|by apply (Ha k')].
  destruct (nodes db !! nd_ID node) as [old|] eqn:Hold; [exact (Ha _ _ Hold)|].
  assert (forall f, reserved f (nd_ID node) db = 0) as Hz; [|exact (conj (eq_sym (Hz _)) (eq_sym (Hz _)))].
  intros f. apply msum_zero. intros k w Hw. unfold share, occupies.
  destruct (wl_NodeID w) as [nid|] eqn:Hnid; [|done].
  destruct (String.eqb_spec nid (nd_ID node)) as [->|]; [|done].
  destruct (wf_fk_node _ Hwf _ _ _ Hw Hnid). congruence.
Qed.

Lemma accounted_create_workload w db db' n :
  Accounted db -> wl_NodeID w = None -> CreateWorkload_sql w db = Ok (db', n) -> Accounted db'.
Proof.
  intros Ha Hnone H. unfold CreateWorkload_sql in H. inv_ok.
  destruct (workloads db !! wl_ID w) eqn:Hw; [done|]. inv_ok.
  intros k' n' Hn. cbn in Hn. unfold reserved. cbn [workloads set_workloads].
  rewrite !msum_insert_new, !(share_unbound _ _ w), !Z.add_0_l by done.
  by apply Ha.
Qed.

(** ** Operations that move a share *)

(** The clamp of the release never bites on a right account. *)
Lemma release_exact db nid n k w f alloc :
  WF db -> (f = wl_CPURequestMillis \/ f = wl_MemoryRequestMB) ->
  nodes db !! nid = Some n -> workloads db !! k = Some w ->
  wl_NodeID w = Some nid -> occupying (wl_ActualState w) = true ->
  alloc = reserved f nid db -> release (f w) alloc = alloc - f w.
Proof.
  intros Hwf Hf Hn Hw Hnid Hocc ->. unfold release.
  assert (f w <= reserved f nid db); [|lia].
  rewrite <- (share_here f nid w) at 1 by done.
  apply (msum_lookup_le (share f nid) _ k); [|done].
  intros k' w' Hw'. destruct (workload_requests_pos _ _ _ Hwf Hw').
  unfold share. destruct (occupies nid w'), Hf; subst; lia.
Qed.

Lemma accounted_released db db' wid state now :
  WF db -> Accounted db -> occupying state = false ->
  (forall w, workloads db !! wid = Some w ->
     wl_NodeID w = None \/ wl_ActualState w = state \/ occupying (wl_ActualState w) = true) ->
  released db wid state now db' -> Accounted db'.
Proof.
  intros Hwf Ha Hst Hd [w Hw _|w tn tw nid n m Hw Hs Hnid Hun Huw|w tw m Hw Hs Hnid Huw];
    [done| |].
  - destruct Hun as [Hskip|nd Hnd _ _].
    { destruct (wf_fk_node _ Hwf _ _ _ Hw Hnid) as [x Hx]. by specialize (Hskip x Hx). }
    destruct Huw as [Hskip|w' Hw' _ _]; [by specialize (Hskip w Hw)|].
    simplify_eq. assert (occupying (wl_ActualState w) = true) as Hocc.
    { destruct (Hd w Hw) as [?|[?|?]]; congruence. }
    intros k' n' Hn'. cbn in Hn'. unfold reserved. cbn [workloads].
    rewrite !(reserved_insert _ k' db wid w) by done.
    rewrite !(share_idle _ k' (with_actual state now w)) by done.
    apply lookup_insert_Some in Hn' as [[<- <-]|[Hne Hn']].
    + destruct (Ha _ _ Hnd) as [Hc Hm]. rewrite !(share_here _ nid w) by done. cbn.
      rewrite (release_exact db nid nd wid w wl_CPURequestMillis) by (done || by left).
      rewrite (release_exact db nid nd wid w wl_MemoryRequestMB) by (done || by right). lia.
    + rewrite !(share_elsewhere _ nid k' w) by done. destruct (Ha _ _ Hn'). lia.
  - eapply accounted_updated_workload; [done|exact Huw| |done..].
    intros w' nid Hw' _. assert (w' = w) as -> by congruence.
    unfold occupies. cbn. by rewrite Hnid.
Qed.

Lemma accounted_reserve now wid nid cpu mem db db' :
  Accounted db -> disciplined db (OpReserveNode wid nid cpu mem) ->
  ReserveNodeForWorkload_tx now wid nid cpu mem db = Ok db' -> Accounted db'.
Proof.
  intros Ha Hd (n & w & Hn & Hw & _ & _ & _ & _ & _ & ->)%reserve_tx_inv.
  destruct (Hd w Hw) as (Hnone & Hocc & -> & ->).
  intros k' n' Hn'. cbn in Hn'. unfold reserved. cbn [workloads].
  rewrite !(reserved_insert _ k' db wid w), !(share_unbound _ k' w) by done.
  apply lookup_insert_Some in Hn' as [[<- <-]|[Hne Hn']].
  - destruct (Ha _ _ Hn) as [Hc Hm]. rewrite !(share_here _ nid (with_state _ _ _ _ _ _)) by done.
    cbn. lia.
  - destruct (Ha _ _ Hn'). rewrite !(share_elsewhere _ nid k' (with_state _ _ _ _ _ _)) by done.
    lia.
Qed.

(** *** Recovery of a node *)

Definition recovered (now : Z) (w : Workload) : Workload :=
  with_state None None WorkloadPending WorkloadPending now w.

Lemma reset_loop now l db db' :
  NoDup l.*1 -> (forall kw, kw ∈ l -> workloads db !! kw.1 = Some kw.2) ->
  foldM (reset_workload now) l db = Ok db' ->
  nodes db' = nodes db /\ services db' = services db /\
  forall k, workloads db' !! k =
    if decide (k ∈ l.*1) then recovered now <$> workloads db !! k else workloads db !! k.
Proof.
  revert db. induction l as [|[k0 w0] l IH]; intros db Hnd Hin H.
  { injection H as <-. split_and!; [done..|]. intros k. rewrite decide_False; [done|].
    apply not_elem_of_nil. }
  apply res_bind_ok in H as (db1 & H1 & H). unfold reset_workload in H1. inv_ok. cbn in *.
  apply NoDup_cons in Hnd as [Hk0 Hnd].
  pose proof (Hin (k0, w0) ltac:(left)) as Hw0. cbn in Hw0.
  match goal with H : updated _ _ _ _ _ _ _ |- _ => destruct H as [Hskip|r Hr _ _] end;
    [by specialize (Hskip _ Hw0)|]. assert (r = w0) as -> by congruence.
  apply IH in H as (-> & -> & HW); [|done|].
  - cbn in *. split_and!; [done..|]. intros k. rewrite HW.
    destruct (decide (k = k0)) as [->|Hne].
    + rewrite decide_False by done. rewrite decide_True by left.
      rewrite lookup_insert_eq, Hw0. done.
    + rewrite lookup_insert_ne by done.
      destruct (decide (k ∈ l.*1)).
      * rewrite decide_True by by right. done.
      * rewrite decide_False; [done|]. by apply not_elem_of_cons.
  - intros [k w] Hkw. cbn. rewrite lookup_insert_ne; [by apply (Hin (k, w)); right|].
    intros ->. apply Hk0. apply list_elem_of_fmap. by exists (k, w).
Qed.

(** The effect of a recovery: the workloads that occupy the node are pending
    again, on no node, and the node has nothing allocated. *)
Lemma recover_tx_inv now nid db db' :
  RecoverWorkloadsFromNode_tx now nid db = Ok db' ->
  services db' = services db /\
  (forall k, workloads db' !! k =
     (fun w => if occupies nid w then recovered now w else w) <$> workloads db !! k) /\
  (forall k, nodes db' !! k =
     if decide (k = nid) then with_allocation (fun _ => 0) (fun _ => 0) now <$> nodes db !! k
     else nodes db !! k).
Proof.
  intros H. unfold RecoverWorkloadsFromNode_tx in H. inv_ok. cbn in *.
  match goal with H : foldM _ _ _ = Ok _ |- _ => apply reset_loop in H as (Hnodes & Hs & HW) end.
  - rewrite Hnodes, Hs in *. split_and!; [done| |].
    + intros k. rewrite HW. destruct (workloads db !! k) as [w|] eqn:Hw; [|by case_decide].
      case_decide as Hin; cbn; f_equal.
      * apply list_elem_of_fmap in Hin as ([k' w'] & -> & [Hocc Hkw]%list_elem_of_filter).
        apply elem_of_map_to_list in Hkw. cbn in *. simplify_eq.
        by destruct (occupies nid w).
      * destruct (occupies nid w) eqn:Hocc; [|done]. destruct Hin.
        apply list_elem_of_fmap. exists (k, w). split; [done|].
        apply list_elem_of_filter. cbn. rewrite Hocc. split; [done|].
        by apply elem_of_map_to_list.
    + intros k.
      match goal with H : updated _ _ _ _ _ _ _ |- _ => destruct H as [Hskip|r Hr _ _] end.
      * case_decide as Hk; [|done]. subst. destruct (nodes db !! nid) eqn:Hn; [|done].
        by specialize (Hskip _ eq_refl).
      * case_decide as Hk; subst; [by rewrite lookup_insert_eq, Hr|].
        by rewrite lookup_insert_ne.
  - apply (NoDup_fmap_fst); [|by apply NoDup_filter, NoDup_map_to_list].
    intros k w1 w2 [_ ?%elem_of_map_to_list]%list_elem_of_filter
      [_ ?%elem_of_map_to_list]%list_elem_of_filter. congruence.
  - intros [k w] [_ Hkw%elem_of_map_to_list]%list_elem_of_filter. done.
Qed.

Lemma accounted_recover now nid db db' :
  Accounted db -> RecoverWorkloadsFromNode_tx now nid db = Ok db' -> Accounted db'.
Proof.
  intros Ha (_ & HW & HN)%recover_tx_inv k n Hn. rewrite HN in Hn.
  assert (forall f, reserved f k db' = if decide (k = nid) then 0 else reserved f k db) as Hr.
  { intros f. unfold reserved. case_decide as Hk.
    - apply msum_zero. intros k' w' Hw'. rewrite HW in Hw'. subst k.
      apply fmap_Some in Hw' as (w & _ & ->). destruct (occupies nid w) eqn:Ho; [done|].
      unfold share. by rewrite Ho.
    - apply msum_ext_map. intros k'. rewrite HW.
      destruct (workloads db !! k') as [w|]; [|done]. cbn. f_equal.
      destruct (occupies nid w) eqn:Ho; [|done]. unfold share, occupies in *. cbn.
      destruct (wl_NodeID w); [|done]. guards. destruct Ho as [-> _].
      by apply not_eq_sym, String.eqb_neq in Hk as ->. }
  rewrite !Hr. case_decide; [|by apply Ha].
  apply fmap_Some in Hn as (n0 & _ & ->). done.
Qed.

(** ** All operations *)

Ltac unfold_sql H :=
  unfold UpdateHeartbeat_sql, SetNodeStatus_sql, StartDeployment_sql,
    UpdateDeploymentStatus_sql, UpdateDesiredReplicas_sql, MarkServiceDeleting_sql,
    MarkServiceDeleted_sql, MarkWorkloadRunning_sql, MarkWorkloadFailed_sql,
    UpdateWorkloadActualState_sql, UpdateWorkloadDesiredState_sql in H.

Lemma occupies_with_state nid w d a c now :
  occupying a = occupying (wl_ActualState w) \/ wl_NodeID w = None ->
  occupies nid (with_state (wl_NodeID w) c d a now w) = occupies nid w.
Proof. unfold occupies. cbn. intros [->| ->]; done. Qed.

Lemma create_service_shape s db db' n :
  CreateService_sql s db = Ok (db', n) ->
  nodes db' = nodes db /\ workloads db' = workloads db /\
  services db !! svc_ID s = None /\ services db' = <[svc_ID s := s]> (services db).
Proof.
  unfold CreateService_sql. intros H. inv_ok.
  destruct (services db !! svc_ID s) eqn:Hs; [done|]. by inv_ok.
Qed.

Lemma update_service_shape now s db db' n :
  UpdateService_sql now s db = Ok (db', n) ->
  nodes db' = nodes db /\ workloads db' = workloads db /\
  updated service_row_ok (svc_ID s) no_guard (UpdateService_row now s)
    (services db) (services db') n.
Proof.
  unfold UpdateService_sql. intros H. inv_ok.
  destruct (services db !! svc_ID s) eqn:Hs; inv_ok; [done|].
  split_and!; [done..|]. constructor. congruence.
Qed.

(** The account only depends on the nodes and the workloads. *)
Lemma accounted_same_tables db db' :
  nodes db' = nodes db -> workloads db' = workloads db -> Accounted db -> Accounted db'.
Proof.
  intros Hn Hw Ha k n Hk. unfold reserved. rewrite Hw. apply Ha. by rewrite <- Hn.
Qed.

Lemma apply_op_accounted now op db db' n :
  WF db -> Accounted db -> disciplined db op -> apply_op now op db = Ok (db', n) ->
  Accounted db'.
Proof.
  intros Hwf Ha Hd H. destruct op; cbn in H; unfold_sql H;
    try (inv_ok; (by eapply accounted_updated_node) || by eapply accounted_same_tables).
  - by eapply accounted_register_node.
  - apply create_service_shape in H as (? & ? & _). by eapply accounted_same_tables.
  - apply update_service_shape in H as (? & ? & _). by eapply accounted_same_tables.
  - by eapply accounted_create_workload.
  - inv_ok. by eapply accounted_reserve.
  - inv_ok. eapply accounted_updated_workload; [done|eassumption| |done..].
    intros w nid Hw Hg. guards. apply occupies_with_state. left. symmetry. by apply (Hd w).
  - inv_ok. eapply accounted_updated_workload; [done|eassumption| |done..].
    intros w nid Hw _. apply occupies_with_state. destruct (Hd w Hw); [by right|by left].
  - inv_ok. eapply accounted_updated_workload; [done|eassumption| |done..].
    intros w nid Hw _. apply occupies_with_state. destruct (Hd w Hw); [by right|by left].
  - inv_ok. eapply accounted_updated_workload; [done|eassumption| |done..].
    intros w nid Hw _. apply occupies_with_state. by left.
  - inv_ok. eapply (accounted_released _ _ _ WorkloadFailed); [done..| |by apply failed_tx_inv].
    intros w Hw. destruct (Hd w Hw); [by left|]. right. destruct (wl_ActualState w); auto.
  - inv_ok. eapply (accounted_released _ _ _ WorkloadStopped); [done..| |by apply stopped_tx_inv].
    intros w Hw. destruct (Hd w Hw); [by left|]. right. destruct (wl_ActualState w); auto.
  - inv_ok. by eapply accounted_recover.
Qed.

(** ** Capacity *)

(** A registration that does not shrink a node below what it has promised. *)
Definition registration_fits (db : DB) (op : StoreOp) : Prop :=
  match op with
  | OpRegisterNode node => forall old, nodes db !! nd_ID node = Some old ->
      nd_CPUAllocated old <= nd_CPUCapacity node /\
      nd_MemoryAllocated old <= nd_MemoryCapacity node
  | _ => True
  end.

Lemma node_row_bounds n :
  node_row_ok n = true ->
  0 < nd_CPUCapacity n <= 2147483647 /\ 0 < nd_MemoryCapacity n <= 2147483647 /\
  0 <= nd_CPUAllocated n <= 2147483647 /\ 0 <= nd_MemoryAllocated n <= 2147483647.
Proof.
  unfold node_row_ok. intros H. guards.
  destruct H as ((((_ & [H1 ?]) & [H2 ?]) & [H3 ?]) & [H4 ?]).
  apply int4_spec in H1, H2, H3, H4. lia.
Qed.

Lemma overcommit_updated_node db k f t n :
  NoOvercommit db -> updated node_row_ok k no_guard f (nodes db) t n ->
  (forall r, nodes db !! k = Some r ->
     nd_CPUAllocated (f r) <= nd_CPUCapacity (f r) /\
     nd_MemoryAllocated (f r) <= nd_MemoryCapacity (f r)) ->
  NoOvercommit (mkDB t (services db) (workloads db)).
Proof.
  intros Hno [|r Hr _ _] Hf; [by destruct db|].
  intros k' n' Hn. cbn in Hn. apply lookup_insert_Some in Hn as [[<- <-]|[_ Hn]]; [|by apply (Hno k')].
  by apply Hf.
Qed.

Lemma overcommit_same_nodes db db' : nodes db' = nodes db -> NoOvercommit db -> NoOvercommit db'.
Proof. unfold NoOvercommit. by intros ->. Qed.

Lemma overcommit_released db db' wid state now :
  WF db -> NoOvercommit db -> released db wid state now db' -> NoOvercommit db'.
Proof.
  intros Hwf Hno [w Hw _|w tn tw nid n m Hw Hs Hnid Hun Huw|w tw m Hw Hs Hnid Huw]; [done| |].
  - eapply overcommit_same_nodes; [|eapply overcommit_updated_node; [done|exact Hun|]]; [done|].
    intros r Hr. destruct (Hno _ _ Hr), (wf_node _ Hwf _ _ Hr) as [_ Hok%node_row_bounds].
    destruct (workload_requests_pos _ _ _ Hwf Hw). cbn. unfold release. lia.
  - by eapply overcommit_same_nodes.
Qed.

Lemma apply_op_overcommit now op db db' n :
  WF db -> NoOvercommit db -> registration_fits db op -> apply_op now op db = Ok (db', n) ->
  NoOvercommit db'.
Proof.
  intros Hwf Hno Hfit H. destruct op; cbn in H; unfold_sql H;
    try (inv_ok; (by eapply overcommit_same_nodes) ||
         (eapply overcommit_updated_node; [done|eassumption|];
          intros ? Hr; exact (Hno _ _ Hr))).
  - unfold RegisterNode_sql in H. inv_ok.
    intros k n Hn. cbn in Hn. apply lookup_insert_Some in Hn as [[<- <-]|[_ Hn]]; [|by apply (Hno k)].
    match goal with H : node_row_ok _ = true |- _ => apply node_row_bounds in H end.
    destruct (nodes db !! nd_ID node) as [old|] eqn:Hold; cbn in *; [by apply Hfit|lia].
  - apply create_service_shape in H as (? & _). by eapply overcommit_same_nodes.
  - apply update_service_shape in H as (? & _). by eapply overcommit_same_nodes.
  - unfold CreateWorkload_sql in H. inv_ok. destruct (workloads db !! wl_ID w); [done|]. by inv_ok.
  - inv_ok. apply reserve_tx_inv in H as (nd & w & Hn & _ & _ & Hc & Hm & _ & _ & ->).
    destruct (wf_node _ Hwf _ _ Hn) as [_ Hok%node_row_bounds]. unwrap.
    intros k n Hk. cbn in Hk. apply lookup_insert_Some in Hk as [[<- <-]|[_ Hk]]; [|by apply (Hno k)].
    cbn. lia.
  - inv_ok. by eapply overcommit_released, failed_tx_inv.
  - inv_ok. by eapply overcommit_released, stopped_tx_inv.
  - inv_ok. apply recover_tx_inv in H as (_ & _ & HN). intros k n Hk. rewrite HN in Hk.
    case_decide; [|by apply (Hno k)]. apply fmap_Some in Hk as (r & Hr & ->).
    destruct (wf_node _ Hwf _ _ Hr) as [_ Hok%node_row_bounds]. cbn. lia.
Qed.
