(* ===== verification/Env.v ===== *)
(** * The running control plane: its world, its environment, and a program logic

    A component of the control plane is a computation in [M]: it reads and
    writes a [World] and ends with a value or a Go error.  What the source does
    not determine is the class [Env]: whether a call to the database fails, and
    with or without its effect; in which order equal rows come back; the clock;
    random bytes; and what the other goroutines (API handlers, health checker,
    autoscaler, reconciler) write to the database between two calls of this
    one.  Each call to the database moves the time [world_tick] on; the
    environment is a function of the time, and theorems hold for every
    environment, so every run is covered by the environment that behaves as in
    that run. *)

From Stdlib Require Import Strings.Byte.
From S2P Require Import Prelude Float64 Model Sql.

(** A failing call: the statement was never executed, or it was and the answer
    was lost. *)
Inductive fault := NoFault | LostRequest | LostReply.

Class Env := {
  env_fault : nat -> fault;
  (** the clock, in nanoseconds since the Unix epoch *)
  env_now : nat -> Z;
  (** the 16 bytes of [rand.Read], which never fails *)
  env_rand : nat -> list byte;
  env_rand_length : forall t, length (env_rand t) = 16%nat;
  (** the order in which a query without a full ORDER BY returns its rows *)
  env_scan : nat -> forall A : Type, list A -> list A;
  env_scan_perm : forall t (A : Type) (l : list A), env_scan t A l ≡ₚ l;
  (** the collation of the database, which orders node identifiers *)
  env_collate : string -> string -> bool;
  (** the writes of the other goroutines before the call at this time *)
  env_peers : nat -> list StoreOp;
  (** what converting a [float64] that does not fit to [int] gives *)
  env_float_oob : float64 -> Z
}.

(** ** internal/observability: the counters (atomic [int64]s) *)

Record Metrics := mkMetrics {
  reconcileRuns : Z;
  reconcileErrors : Z;
  workloadsFailed : Z;
  missingContainers : Z
}.

(** A call of the node client, as logged in the world. *)
Inductive NodeCall :=
  | CallCreate (address : string) (config : ContainerConfig)
  | CallStart (address containerID : string)
  | CallList (address : string)
  | CallStop (address containerID : string)
  | CallDelete (address containerID : string)
  | CallStats (address containerID : string).

(** The database, the time, the calls to the nodes and the writes to the
    database issued so far (a history, which no computation reads), and the
    counters. *)
Record World := mkWorld {
  world_db : DB;
  world_tick : nat;
  world_calls : list NodeCall;
  world_writes : list StoreOp;
  world_metrics : Metrics
}.

Definition M (A : Type) : Type := World -> res A * World.

#[export] Instance M_ret : MRet M := fun A a w => (Ok a, w).
#[export] Instance M_bind : MBind M := fun A B f m w =>
  match m w with
  | (Ok a, w') => f a w'
  | (Err e, w') => (Err e, w')
  end.

Definition fail {A} (e : error) : M A := fun w => (Err e, w).

(** The value or error of a pure function. *)
Definition lift {A} (r : res A) : M A := fun w => (r, w).

(** [if err := m; err != nil { ... }] without leaving the function. *)
Definition try {A} (m : M A) : M (res A) := fun w =>
  let '(r, w') := m w in (Ok r, w').

(** [return fmt.Errorf(format, args, err)] when [m] fails. *)
Definition context {A} (format : string) (args : list fmt_arg) (m : M A) : M A := fun w =>
  let '(r, w') := m w in (wrapf format args r, w').

(** [for _, x := range l { body }] where [body] returns on error. *)
Fixpoint for_each {A} (l : list A) (body : A -> M unit) : M unit :=
  match l with
  | [] => mret tt
  | x :: l => body x ;; for_each l body
  end.

(** [if err := m; err != nil { slog.Error(...) }]: go on. *)
Definition log_error (m : M unit) : M unit := _ ← try m; mret tt.

Section Database.
Context `{Env}.

(** The database once the other goroutines had their turn. *)
Definition peers_db (t : nat) (db : DB) : DB :=
  foldl (fun db op => match apply_op (env_now t) op db with
                      | Ok (db', _) => db'
                      | Err _ => db
                      end) db (env_peers t).

Definition set_db (db : DB) (w : World) : World :=
  mkWorld db (S (world_tick w)) (world_calls w) (world_writes w) (world_metrics w).

Definition add_write (op : StoreOp) (w : World) : World :=
  mkWorld (world_db w) (world_tick w) (world_calls w) (world_writes w ++ [op])
    (world_metrics w).

Definition tick (w : World) : World := set_db (world_db w) w.

(** One write of the store: the rows affected. *)
Definition exec (op : StoreOp) : M Z := fun w =>
  let t := world_tick w in
  let db := peers_db t (world_db w) in
  let w := add_write op w in
  match env_fault t, apply_op (env_now t) op db with
  | LostRequest, _ => (Err (DBError Unavailable), set_db db w)
  | LostReply, Ok (db', _) => (Err (DBError Unavailable), set_db db' w)
  | NoFault, Ok (db', n) => (Ok n, set_db db' w)
  | _, Err e => (Err e, set_db db w)
  end.

(** One query. *)
Definition query {A} (q : nat -> DB -> res A) : M A := fun w =>
  let t := world_tick w in
  let db := peers_db t (world_db w) in
  match env_fault t with
  | NoFault => (q t db, set_db db w)
  | _ => (Err (DBError Unavailable), set_db db w)
  end.

(** [time.Now()] *)
Definition now : M Z := fun w => (Ok (env_now (world_tick w)), tick w).

(** [rand.Read] of a 16-byte array. *)
Definition rand_read : M (list byte) := fun w => (Ok (env_rand (world_tick w)), tick w).
End Database.

Definition on_metrics (f : Metrics -> Metrics) : M unit := fun w =>
  (Ok tt, mkWorld (world_db w) (world_tick w) (world_calls w) (world_writes w)
            (f (world_metrics w))).

(** internal/observability/metrics.go *)

Definition ReconcileSucceeded : M unit := on_metrics (fun m =>
  mkMetrics (reconcileRuns m +w 1) (reconcileErrors m) (workloadsFailed m) (missingContainers m)).
Definition ReconcileFailed : M unit := on_metrics (fun m =>
  mkMetrics (reconcileRuns m) (reconcileErrors m +w 1) (workloadsFailed m) (missingContainers m)).
Definition WorkloadFailed_inc : M unit := on_metrics (fun m =>
  mkMetrics (reconcileRuns m) (reconcileErrors m) (workloadsFailed m +w 1) (missingContainers m)).
Definition ContainerMissing : M unit := on_metrics (fun m =>
  mkMetrics (reconcileRuns m) (reconcileErrors m) (workloadsFailed m) (missingContainers m +w 1)).
