(* ===== verification/Logic.v ===== *)
(** * A program logic for the control plane

    [wp m Q w]: running [m] from [w] ends in a result and a world that satisfy
    [Q].  Computations are total, so [wp] is also a termination statement. *)

From Stdlib Require Import Strings.Byte.
From S2P Require Import Prelude Float64 Model Sql StoreInv Accounting Env.

Definition wp {A} (m : M A) (Q : res A -> World -> Prop) (w : World) : Prop :=
  Q (m w).1 (m w).2.

Section Rules.
Context {A B : Type}.
Implicit Types (m : M A) (Q : res A -> World -> Prop).

Lemma wp_mono m Q Q' w : (forall r w', Q r w' -> Q' r w') -> wp m Q w -> wp m Q' w.
Proof. intros H. apply H. Qed.

Lemma wp_and m Q Q' w : wp m Q w -> wp m Q' w -> wp m (fun r w' => Q r w' /\ Q' r w') w.
Proof. by split. Qed.

Lemma wp_ret (a : A) Q w : Q (Ok a) w -> wp (mret a) Q w.
Proof. done. Qed.

Lemma wp_fail e Q w : Q (Err e) w -> wp (fail e) Q w.
Proof. done. Qed.

Lemma wp_bind m (f : A -> M B) (Q : res B -> World -> Prop) w :
  wp m (fun r w' => match r with Ok a => wp (f a) Q w' | Err e => Q (Err e) w' end) w ->
  wp (m ≫= f) Q w.
Proof.
  unfold wp, mbind, M_bind. destruct (m w) as [[a|e] w']; cbn; done.
Qed.

Lemma wp_try m (Q : res (res A) -> World -> Prop) w :
  wp m (fun r w' => Q (Ok r) w') w -> wp (try m) Q w.
Proof. unfold wp, try. by destruct (m w). Qed.

Lemma wp_context fm args m Q w :
  wp m (fun r w' => Q (wrapf fm args r) w') w -> wp (context fm args m) Q w.
Proof. unfold wp, context. by destruct (m w). Qed.
End Rules.

Lemma wp_log_error m (Q : res unit -> World -> Prop) w :
  wp m (fun _ w' => Q (Ok tt) w') w -> wp (log_error m) Q w.
Proof. intros H. by apply wp_bind, wp_try. Qed.

(** Loops: the invariant speaks of the elements still to come. *)
Lemma wp_for_each {A} (I : list A -> World -> Prop) l body (Q : res unit -> World -> Prop) w :
  I l w ->
  (forall x l' w, I (x :: l') w ->
     wp (body x) (fun r w' => match r with Ok _ => I l' w' | Err e => Q (Err e) w' end) w) ->
  (forall w, I [] w -> Q (Ok tt) w) ->
  wp (for_each l body) Q w.
Proof.
  intros HI Hbody Hend. revert w HI. induction l as [|x l IH]; intros w HI; cbn [for_each].
  - apply wp_ret, Hend, HI.
  - apply wp_bind. eapply wp_mono; [|by apply Hbody]. intros [[]|e] w'; [apply IH|done].
Qed.

(** ** The database *)

(** The possible outcomes of a write at time [t] on [db]. *)
Variant exec_spec `{Env} (t : nat) (op : StoreOp) (db : DB) : res Z -> DB -> Prop :=
  | exec_done n db' : apply_op (env_now t) op db = Ok (db', n) ->
      exec_spec t op db (Ok n) db'
  | exec_lost n db' : apply_op (env_now t) op db = Ok (db', n) ->
      exec_spec t op db (Err (DBError Unavailable)) db'
  | exec_error e : exec_spec t op db (Err e) db.

Section DatabaseRules.
Context `{Env}.

Lemma wp_exec op Q w :
  (forall r db', exec_spec (world_tick w) op (peers_db (world_tick w) (world_db w)) r db' ->
     Q r (set_db db' (add_write op w))) ->
  wp (exec op) Q w.
Proof.
  intros HQ. unfold wp, exec. cbv zeta.
  destruct (env_fault (world_tick w)), (apply_op (env_now (world_tick w)) op (peers_db (world_tick w) (world_db w))) as [[db' n]|e] eqn:Hop;
    cbn; apply HQ; by econstructor.
Qed.

Lemma wp_query {A} (q : nat -> DB -> res A) Q w :
  let db := peers_db (world_tick w) (world_db w) in
  Q (q (world_tick w) db) (set_db db w) ->
  Q (Err (DBError Unavailable)) (set_db db w) ->
  wp (query q) Q w.
Proof.
  intros db H1 H2. unfold wp, query. cbv zeta. by destruct (env_fault (world_tick w)).
Qed.

Lemma wp_now Q w : Q (Ok (env_now (world_tick w))) (tick w) -> wp now Q w.
Proof. done. Qed.

Lemma wp_rand_read Q w : Q (Ok (env_rand (world_tick w))) (tick w) -> wp rand_read Q w.
Proof. done. Qed.

(** What the other goroutines maintain. *)
Lemma peers_db_inv (P : DB -> Prop) t db :
  (forall op db db' n, op ∈ env_peers t -> P db ->
     apply_op (env_now t) op db = Ok (db', n) -> P db') ->
  P db -> P (peers_db t db).
Proof.
  intros Hop. unfold peers_db. revert db Hop. induction (env_peers t) as [|op l IH];
    intros db Hop HP; [done|].
  cbn. apply IH; [intros; eapply Hop; [by right|..]; eauto|].
  destruct (apply_op (env_now t) op db) as [[db' n]|] eqn:E; [|done].
  eapply Hop; [by left|..]; eauto.
Qed.
End DatabaseRules.

(** ** Triples on the database

    [triple P m Q]: from a database with [P], [m] ends with a result and a
    database in [Q], whatever the other components of the world. *)

Definition triple {A} (P : DB -> Prop) (m : M A) (Q : res A -> DB -> Prop) : Prop :=
  forall w, P (world_db w) -> wp m (fun r w' => Q r (world_db w')) w.

(** The other goroutines keep [P]. *)
Definition stable `{Env} (P : DB -> Prop) : Prop := forall t db, P db -> P (peers_db t db).

Section Triples.
Context `{Env} {A B : Type}.
Implicit Types (P : DB -> Prop) (m : M A).

Lemma triple_conseq P P' m (Q Q' : res A -> DB -> Prop) :
  (forall db, P db -> P' db) -> (forall r db, Q' r db -> Q r db) ->
  triple P' m Q' -> triple P m Q.
Proof. intros HP HQ Hm w Hw. eapply wp_mono; [|by apply Hm, HP]. intros. by apply HQ. Qed.

(** A fact that the precondition entails. *)
Lemma triple_pure (phi : Prop) P m (Q : res A -> DB -> Prop) :
  (forall db, P db -> phi) -> (phi -> triple P m Q) -> triple P m Q.
Proof. intros HP Hm w Hw. apply Hm; [by eapply HP|done]. Qed.

Lemma triple_ret P (a : A) (Q : res A -> DB -> Prop) :
  (forall db, P db -> Q (Ok a) db) -> triple P (mret a) Q.
Proof. intros HQ w Hw. by apply wp_ret, HQ. Qed.

Lemma triple_lift P (r : res A) (Q : res A -> DB -> Prop) :
  (forall db, P db -> Q r db) -> triple P (lift r) Q.
Proof. intros HQ w Hw. by apply HQ. Qed.

Lemma triple_bind P R m (f : A -> M B) (Q : res B -> DB -> Prop) :
  triple P m (fun r db => match r with Ok a => R a db | Err e => Q (Err e) db end) ->
  (forall a, triple (R a) (f a) Q) -> triple P (m ≫= f) Q.
Proof.
  intros Hm Hf w Hw. apply wp_bind. eapply wp_mono; [|by apply Hm].
  intros [a|e] w'; [apply Hf|done].
Qed.

Lemma triple_try P m (Q : res (res A) -> DB -> Prop) :
  triple P m (fun r db => Q (Ok r) db) -> triple P (try m) Q.
Proof. intros Hm w Hw. by apply wp_try, Hm. Qed.

Lemma triple_context P fm args m (Q : res A -> DB -> Prop) :
  triple P m (fun r db => Q (wrapf fm args r) db) -> triple P (context fm args m) Q.
Proof. intros Hm w Hw. by apply wp_context, Hm. Qed.

Lemma triple_query P (q : nat -> DB -> res A) (Q : res A -> DB -> Prop) :
  stable P -> (forall t db, P db -> Q (q t db) db) -> (forall e db, P db -> Q (Err e) db) ->
  triple P (query q) Q.
Proof.
  intros Hs Hq He w Hw. apply wp_query; [apply Hq|apply He]; by apply Hs.
Qed.
End Triples.

Section TripleExec.
Context `{Env}.

Lemma triple_exec P op (Q : res Z -> DB -> Prop) :
  stable P -> (forall t db r db', P db -> exec_spec t op db r db' -> Q r db') ->
  triple P (exec op) Q.
Proof.
  intros Hs Hop w Hw. apply wp_exec. intros r db' He. cbn. eapply Hop; [|exact He].
  by apply Hs.
Qed.

Lemma triple_log_error P m (Q : res unit -> DB -> Prop) :
  triple P m (fun _ db => Q (Ok tt) db) -> triple P (log_error m) Q.
Proof. intros Hm w Hw. by apply wp_log_error, Hm. Qed.

Lemma triple_for_each {A} (I : list A -> DB -> Prop) l body (Q : res unit -> DB -> Prop) P :
  (forall db, P db -> I l db) ->
  (forall x l', triple (I (x :: l')) (body x)
     (fun r db => match r with Ok _ => I l' db | Err e => Q (Err e) db end)) ->
  (forall db, I [] db -> Q (Ok tt) db) ->
  triple P (for_each l body) Q.
Proof.
  intros HP Hbody Hend w Hw.
  apply (wp_for_each (fun l w => I l (world_db w))); [by apply HP| |intros; by apply Hend].
  intros x l' w' Hw'. by apply Hbody.
Qed.

(** A computation that leaves the database alone keeps every fact about it. *)
Definition no_db_effect {A} (m : M A) : Prop := forall w, world_db (m w).2 = world_db w.

Lemma triple_no_effect {A} P (m : M A) (Q : res A -> DB -> Prop) :
  no_db_effect m -> (forall r db, P db -> Q r db) -> triple P m Q.
Proof. intros Hm HQ w Hw. unfold wp. rewrite Hm. by apply HQ. Qed.
End TripleExec.

Lemma now_no_effect `{Env} : no_db_effect now.
Proof. by intros w. Qed.
Lemma rand_read_no_effect `{Env} : no_db_effect rand_read.
Proof. by intros w. Qed.
Lemma on_metrics_no_effect f : no_db_effect (on_metrics f).
Proof. by intros w. Qed.
#[export] Hint Resolve now_no_effect rand_read_no_effect on_metrics_no_effect : core.
