(* ===== verification/Postgres.v ===== *)
(** * internal/store: the methods of [store.Postgres]

    Each method as the rest of the program calls it: its statement or
    transaction from [Sql.v], run against the database of the world, with the
    error wrapping and the tests of [RowsAffected] of the source. *)

From S2P Require Import Prelude Float64 Model Sql StoreInv Accounting Env Logic.

(** The order ORDER BY id imposes, under the collation of the database. *)
Definition collated `{Env} (a b : Node) : Prop := env_collate (nd_ID a) (nd_ID b) = true.

#[export] Instance collated_dec `{Env} : RelDecision collated.
Proof. intros a b. unfold collated. apply _. Defined.

Definition created_before_wl (a b : Workload) : Prop := wl_CreatedAt a <= wl_CreatedAt b.
Definition created_before_svc (a b : Service) : Prop := svc_CreatedAt a <= svc_CreatedAt b.

#[export] Instance created_before_wl_dec : RelDecision created_before_wl.
Proof. intros a b. unfold created_before_wl. apply _. Defined.
#[export] Instance created_before_svc_dec : RelDecision created_before_svc.
Proof. intros a b. unfold created_before_svc. apply _. Defined.

(** The rows of a table, in no particular order. *)
Definition rows {A} (t : gmap string A) : list A := (map_to_list t).*2.

(** The results of the queries that return several workloads. *)
Section Queries.
Context `{Env}.

Definition all_nodes (t : nat) (db : DB) : list Node :=
  merge_sort collated (env_scan t _ (rows (nodes db))).

Definition all_services (t : nat) (db : DB) : list Service :=
  merge_sort created_before_svc (env_scan t _ (rows (services db))).

Definition workloads_by_service (serviceID : string) (t : nat) (db : DB) : list Workload :=
  merge_sort created_before_wl
    (env_scan t _ (filter (fun w => wl_ServiceID w = serviceID) (rows (workloads db)))).

Definition workloads_by_node (nodeID : string) (t : nat) (db : DB) : list Workload :=
  merge_sort created_before_wl
    (env_scan t _ (filter (fun w => wl_NodeID w = Some nodeID) (rows (workloads db)))).

Definition workloads_by_container (containerID : string) (t : nat) (db : DB) : list Workload :=
  env_scan t _ (filter (fun w => wl_ContainerID w = Some containerID) (rows (workloads db))).
End Queries.

Section Postgres.
Context `{Env}.

(** ** postgres.go *)

Definition Ping : M unit := query (fun _ _ => Ok tt).

(** ** nodes.go *)

Definition RegisterNode (node : Node) : M unit :=
  _ ← context "register node %q: %w" [AStr (nd_ID node)] (exec (OpRegisterNode node));
  mret tt.

Definition GetNode (id : string) : M Node :=
  context "get node %q: %w" [AStr id] (query (fun _ db =>
    match nodes db !! id with
    | Some n => Ok n
    | None => Err (DBError NoRows)
    end)).

Definition ListNodes : M (list Node) :=
  context "list nodes: %w" [] (query (fun t db => Ok (all_nodes t db))).

Definition UpdateHeartbeat (id : string) (status : NodeStatus) (hb : Z) : M unit :=
  n ← context "update heartbeat for node %q: %w" [AStr id]
        (exec (OpUpdateHeartbeat id status hb));
  if n =? 0 then fail (Errorf "node %q not found" [AStr id]) else mret tt.

Definition SetNodeStatus (id : string) (status : NodeStatus) : M unit :=
  n ← context "set node %q status: %w" [AStr id] (exec (OpSetNodeStatus id status));
  if n =? 0 then fail (Errorf "node %q not found" [AStr id]) else mret tt.

(** ** service.go *)

Definition CreateService (s : Service) : M unit :=
  _ ← context "create service: %w" [] (exec (OpCreateService s)); mret tt.

Definition GetService (id : string) : M Service :=
  context "get service %q: %w" [AStr id] (query (fun _ db =>
    match services db !! id with
    | Some s => Ok s
    | None => Err (DBError NoRows)
    end)).

Definition UpdateService (s : Service) : M unit :=
  _ ← context "update service: %w" [] (exec (OpUpdateService s)); mret tt.

Definition ListServices : M (list Service) :=
  context "list services: %w" [] (query (fun t db => Ok (all_services t db))).

Definition StartDeployment (serviceID : string) (version startedAt : Z) : M unit :=
  _ ← context "start deployment: %w" [] (exec (OpStartDeployment serviceID version startedAt));
  mret tt.

Definition UpdateDeploymentStatus (serviceID : string) (status : DeploymentStatus) : M unit :=
  _ ← context "update deployment status: %w" []
        (exec (OpUpdateDeploymentStatus serviceID status));
  mret tt.

Definition UpdateDesiredReplicas (serviceID : string) (replicas : Z) : M unit :=
  _ ← context "update desired replicas: %w" []
        (exec (OpUpdateDesiredReplicas serviceID replicas));
  mret tt.

Definition MarkServiceDeleting (serviceID : string) : M unit :=
  n ← context "mark service deleting: %w" [] (exec (OpMarkServiceDeleting serviceID));
  if n =? 0 then
    exists_ ← context "check service existence: %w" []
      (query (fun _ db => Ok (bool_decide (is_Some (services db !! serviceID)))));
    if negb exists_ then fail (Errorf "service not found" []) else mret tt
  else mret tt.

Definition MarkServiceDeleted (serviceID : string) : M unit :=
  n ← context "mark service deleted: %w" [] (exec (OpMarkServiceDeleted serviceID));
  if n =? 0 then fail (Errorf "service is not deleting" []) else mret tt.

(** ** workload.go *)

Definition CreateWorkload (w : Workload) : M unit :=
  _ ← context "create workload %q: %w" [AStr (wl_ID w)] (exec (OpCreateWorkload w)); mret tt.

Definition CreatePendingWorkload (w : Workload) : M unit :=
  CreateWorkload
    (mkWorkload (wl_ID w) (wl_ServiceID w) None None (wl_Image w)
       (wl_CPURequestMillis w) (wl_MemoryRequestMB w) (wl_DeploymentVersion w)
       WorkloadPending WorkloadPending (wl_CreatedAt w) (wl_UpdatedAt w)).

Definition GetWorkload (id : string) : M Workload :=
  context "get workload %q: %w" [AStr id] (query (fun _ db =>
    match workloads db !! id with
    | Some w => Ok w
    | None => Err (DBError NoRows)
    end)).

Definition ListWorkloadsByService (serviceID : string) : M (list Workload) :=
  context "list workloads for service %q: %w" [AStr serviceID] (query (fun t db =>
    Ok (workloads_by_service serviceID t db))).

(** [node_id = $1] *)
Definition ListWorkloadsByNode (nodeID : string) : M (list Workload) :=
  context "list workloads by node: %w" [] (query (fun t db =>
    Ok (workloads_by_node nodeID t db))).

(** [QueryRow] takes the first row of those that match. *)
Definition GetWorkloadByContainerID (containerID : string) : M Workload :=
  context "get workload by container ID: %w" [] (query (fun t db =>
    match workloads_by_container containerID t db with
    | w :: _ => Ok w
    | [] => Err (DBError NoRows)
    end)).

Definition ReserveNodeForWorkload (workloadID nodeID : string) (cpuMillis memoryMB : Z)
    : M unit :=
  _ ← exec (OpReserveNode workloadID nodeID cpuMillis memoryMB); mret tt.

Definition MarkWorkloadRunning (workloadID containerID : string) : M unit :=
  n ← context "mark workload running: %w" []
        (exec (OpMarkWorkloadRunning workloadID containerID));
  if n =? 0 then fail (Errorf "workload %q is not scheduled" [AStr workloadID]) else mret tt.

Definition MarkWorkloadFailed (workloadID : string) : M unit :=
  _ ← context "mark workload failed: %w" [] (exec (OpMarkWorkloadFailed workloadID)); mret tt.

Definition UpdateWorkloadActualState (workloadID : string) (state : WorkloadState) : M unit :=
  _ ← context "update workload actual state: %w" []
        (exec (OpUpdateWorkloadActualState workloadID state));
  mret tt.

Definition UpdateWorkloadDesiredState (workloadID : string) (state : WorkloadState) : M unit :=
  _ ← context "update workload desired state: %w" []
        (exec (OpUpdateWorkloadDesiredState workloadID state));
  mret tt.

Definition MarkWorkloadFailedAndReleaseResources (workloadID : string) : M unit :=
  _ ← exec (OpMarkFailedAndRelease workloadID); mret tt.

Definition MarkWorkloadStoppedAndReleaseResources (workloadID : string) : M unit :=
  _ ← exec (OpMarkStoppedAndRelease workloadID); mret tt.

Definition RecoverWorkloadsFromNode (nodeID : string) : M unit :=
  _ ← exec (OpRecoverWorkloads nodeID); mret tt.
End Postgres.

(** ** What the queries return *)

Lemma elem_of_rows {A} (t : gmap string A) x : x ∈ rows t <-> exists k, t !! k = Some x.
Proof.
  unfold rows. rewrite list_elem_of_fmap. split.
  - intros ([k y] & -> & Hy%elem_of_map_to_list). by exists k.
  - intros [k Hk]. exists (k, x). by rewrite elem_of_map_to_list.
Qed.

Lemma rows_keys_NoDup {A} (key : A -> string) (t : gmap string A) :
  (forall k x, t !! k = Some x -> key x = k) -> NoDup (key <$> rows t).
Proof.
  intros Hk. unfold rows. rewrite <- list_fmap_compose.
  rewrite (list_fmap_ext _ fst); [apply NoDup_fst_map_to_list|].
  intros i [k x] Hi. cbn. apply Hk, elem_of_map_to_list. by apply list_elem_of_lookup_2 in Hi.
Qed.

Section QueryLemmas.
Context `{Env}.

Lemma all_nodes_perm t db : all_nodes t db ≡ₚ rows (nodes db).
Proof. unfold all_nodes. by rewrite merge_sort_Permutation, env_scan_perm. Qed.

Lemma all_services_perm t db : all_services t db ≡ₚ rows (services db).
Proof. unfold all_services. by rewrite merge_sort_Permutation, env_scan_perm. Qed.

Lemma workloads_by_service_perm sid t db :
  workloads_by_service sid t db ≡ₚ
    filter (fun w => wl_ServiceID w = sid) (rows (workloads db)).
Proof. unfold workloads_by_service. by rewrite merge_sort_Permutation, env_scan_perm. Qed.

Lemma workloads_by_node_perm nid t db :
  workloads_by_node nid t db ≡ₚ
    filter (fun w => wl_NodeID w = Some nid) (rows (workloads db)).
Proof. unfold workloads_by_node. by rewrite merge_sort_Permutation, env_scan_perm. Qed.

Lemma elem_of_all_nodes t db n :
  WF db -> n ∈ all_nodes t db <-> nodes db !! nd_ID n = Some n.
Proof.
  intros Hwf. rewrite all_nodes_perm, elem_of_rows. split; [|by eexists].
  intros [k Hk]. destruct (wf_node _ Hwf _ _ Hk) as [-> _]. done.
Qed.

Lemma elem_of_by_service sid t db w :
  WF db -> w ∈ workloads_by_service sid t db <->
    workloads db !! wl_ID w = Some w /\ wl_ServiceID w = sid.
Proof.
  intros Hwf. rewrite workloads_by_service_perm, list_elem_of_filter, elem_of_rows. split.
  - intros [Hs [k Hk]]. by destruct (wf_workload _ Hwf _ _ Hk) as [-> _].
  - intros [? ?]. eauto.
Qed.

Lemma elem_of_by_node nid t db w :
  WF db -> w ∈ workloads_by_node nid t db <->
    workloads db !! wl_ID w = Some w /\ wl_NodeID w = Some nid.
Proof.
  intros Hwf. rewrite workloads_by_node_perm, list_elem_of_filter, elem_of_rows. split.
  - intros [Hs [k Hk]]. by destruct (wf_workload _ Hwf _ _ Hk) as [-> _].
  - intros [? ?]. eauto.
Qed.

Lemma elem_of_by_container cid t db w :
  WF db -> w ∈ workloads_by_container cid t db <->
    workloads db !! wl_ID w = Some w /\ wl_ContainerID w = Some cid.
Proof.
  intros Hwf. unfold workloads_by_container.
  rewrite env_scan_perm, list_elem_of_filter, elem_of_rows. split.
  - intros [Hs [k Hk]]. by destruct (wf_workload _ Hwf _ _ Hk) as [-> _].
  - intros [? ?]. eauto.
Qed.

Lemma workload_ids_NoDup db (P : Workload -> Prop) `{forall w, Decision (P w)} l :
  WF db -> l ≡ₚ filter P (rows (workloads db)) -> NoDup (wl_ID <$> l).
Proof.
  intros Hwf ->. eapply sublist_NoDup.
  - apply (rows_keys_NoDup wl_ID (workloads db)). intros k w Hk.
    by apply (wf_workload _ Hwf).
  - apply fmap_sublist, sublist_filter.
Qed.
End QueryLemmas.
