(* ===== verification/Discipline.v ===== *)
(** * The states workloads go through

    The control loop uses the store with a discipline that the store does not
    enforce: a workload is placed while it is pending and on no node, and its
    resources are given back once.  [Inv] is what the loop maintains between
    any two statements; the other goroutines never touch the workloads. *)

From S2P Require Import Prelude Float64 Model Sql StoreInv Accounting Env Logic Postgres.

(** A workload to place is pending and on no node; a workload to stop that has
    failed has already given its node back. *)
Definition row_disciplined (w : Workload) : Prop :=
  (wl_DesiredState w = WorkloadPending ->
     wl_NodeID w = None /\ wl_ContainerID w = None /\ wl_ActualState w = WorkloadPending) /\
  (wl_DesiredState w = WorkloadStopped -> wl_ActualState w = WorkloadFailed ->
     wl_NodeID w = None).

Definition Disciplined (ws : gmap string Workload) : Prop :=
  map_Forall (fun _ => row_disciplined) ws.

Record Inv (db : DB) : Prop := {
  inv_wf : WF db;
  inv_accounted : Accounted db;
  inv_disciplined : Disciplined (workloads db)
}.

(** The writes of the goroutines other than the reconciler: the API handlers
    (register, heartbeat, create, update, delete), the health checker and the
    autoscaler. *)
Definition reconciler_peer (op : StoreOp) : bool :=
  match op with
  | OpRegisterNode _ | OpUpdateHeartbeat _ _ _ | OpSetNodeStatus _ _
  | OpCreateService _ | OpUpdateService _ | OpUpdateDesiredReplicas _ _
  | OpMarkServiceDeleting _ => true
  | _ => false
  end.

(** What one workload operation does to the workload table. *)
Definition written (k : string) (ws ws' : gmap string Workload) : Prop :=
  forall k', k' <> k -> ws' !! k' = ws !! k'.

Lemma peer_workloads now op db db' n :
  reconciler_peer op = true -> apply_op now op db = Ok (db', n) -> workloads db' = workloads db.
Proof.
  intros Hp H. destruct op; try done; cbn in H; unfold_sql H; try (by inv_ok).
  - unfold RegisterNode_sql in H. by inv_ok.
  - by apply create_service_shape in H as (_ & ? & _).
  - by apply update_service_shape in H as (_ & ? & _).
Qed.

Lemma peer_inv now op db db' n :
  reconciler_peer op = true -> Inv db -> apply_op now op db = Ok (db', n) -> Inv db'.
Proof.
  intros Hp [Hwf Ha Hd] H. constructor.
  - by eapply apply_op_wf.
  - eapply apply_op_accounted; [done..| |done]. by destruct op.
  - by erewrite peer_workloads.
Qed.

(** An environment whose other goroutines are those of the control plane. *)
Class ReconcilerEnv `{Env} : Prop :=
  peers_ok : forall t op, op ∈ env_peers t -> reconciler_peer op = true.

(** The facts the loop's proofs carry: the invariant, and a fact [F] on the
    workload table. *)
Definition inv_and (F : gmap string Workload -> Prop) (db : DB) : Prop :=
  Inv db /\ F (workloads db).

Lemma stable_inv_and `{ReconcilerEnv} F : stable (inv_and F).
Proof.
  intros t db. apply peers_db_inv. intros op d d' n Hop%peers_ok [Hi HF] Ha. split.
  - by eapply peer_inv.
  - by erewrite peer_workloads.
Qed.
#[export] Hint Resolve stable_inv_and : core.

(** ** Writes of single workloads *)

Lemma updated_lookup {A} (row_ok : A -> bool) k g f (t t' : gmap string A) n k' :
  updated row_ok k g f t t' n -> k' <> k -> t' !! k' = t !! k'.
Proof. intros [|r Hr _ _] Hne; [done|]. by apply lookup_insert_ne. Qed.

Lemma disciplined_updated row_ok k g f ws ws' n :
  Disciplined ws -> updated row_ok k g f ws ws' n ->
  (forall w, ws !! k = Some w -> g w = true -> row_disciplined w -> row_disciplined (f w)) ->
  Disciplined ws'.
Proof.
  intros Hd [|w Hw Hg _] Hf; [done|]. apply map_Forall_insert_2; [|done].
  apply Hf; [done..|]. by eapply Hd.
Qed.

Lemma written_refl k ws : written k ws ws.
Proof. done. Qed.

Lemma written_insert k w ws : written k ws (<[k := w]> ws).
Proof. intros k' Hne. by apply lookup_insert_ne. Qed.

Lemma released_written db wid st now db' :
  released db wid st now db' -> written wid (workloads db) (workloads db').
Proof.
  intros [|w tn tw nid n m _ _ _ _ Hu|w tw m _ _ _ Hu]; cbn; [done| |];
    intros k' Hne; by eapply updated_lookup.
Qed.

(** The row a release leaves. *)
Lemma released_row db wid st now db' :
  released db wid st now db' ->
  exists w w', workloads db !! wid = Some w /\ workloads db' !! wid = Some w' /\
    wl_ActualState w' = st /\ wl_DesiredState w' = wl_DesiredState w /\
    wl_NodeID w' = wl_NodeID w /\ wl_ContainerID w' = wl_ContainerID w.
Proof.
  intros [w Hw <-|w tn tw nid n m Hw _ _ _ Hu|w tw m Hw _ _ Hu].
  - by exists w, w.
  - destruct Hu as [Hskip|r Hr _ _]; [by specialize (Hskip _ Hw)|].
    assert (r = w) as -> by congruence. exists w, (with_actual st now w). cbn.
    by rewrite lookup_insert_eq.
  - destruct Hu as [Hskip|r Hr _ _]; [by specialize (Hskip _ Hw)|].
    assert (r = w) as -> by congruence. exists w, (with_actual st now w). cbn.
    by rewrite lookup_insert_eq.
Qed.

Lemma disciplined_written k ws ws' :
  Disciplined ws -> written k ws ws' ->
  (forall w', ws' !! k = Some w' -> row_disciplined w') -> Disciplined ws'.
Proof.
  intros Hd Hw Hk k' w' Hw'. destruct (decide (k' = k)) as [->|Hne]; [by apply Hk|].
  rewrite Hw in Hw' by done. by eapply Hd.
Qed.

(** ** The writes of the loop *)

(** When the reconciler may issue a write. *)
Definition loop_allowed (db : DB) (op : StoreOp) : Prop :=
  match op with
  | OpCreateWorkload w => wl_NodeID w = None /\ wl_ContainerID w = None /\
      wl_DesiredState w = WorkloadPending /\ wl_ActualState w = WorkloadPending
  | OpReserveNode wid _ cpu mem => forall w, workloads db !! wid = Some w ->
      wl_NodeID w = None /\ occupying (wl_ActualState w) = true /\
      cpu = wl_CPURequestMillis w /\ mem = wl_MemoryRequestMB w
  | OpMarkWorkloadRunning wid _ => forall w, workloads db !! wid = Some w ->
      wl_DesiredState w = WorkloadScheduled -> occupying (wl_ActualState w) = true
  | OpUpdateWorkloadDesiredState wid st => st = WorkloadStopped /\
      forall w, workloads db !! wid = Some w -> wl_ActualState w <> WorkloadFailed
  | OpUpdateWorkloadActualState wid st => forall w, workloads db !! wid = Some w ->
      (occupying st = true /\ wl_DesiredState w <> WorkloadPending /\
       occupying (wl_ActualState w) = true) \/
      (st = WorkloadStopped /\ wl_DesiredState w = WorkloadStopped /\
       wl_ActualState w = WorkloadFailed)
  | OpMarkFailedAndRelease wid => forall w, workloads db !! wid = Some w ->
      wl_DesiredState w = WorkloadScheduled /\ wl_ActualState w <> WorkloadStopped
  | OpMarkStoppedAndRelease wid => forall w, workloads db !! wid = Some w ->
      wl_DesiredState w = WorkloadStopped
  | OpRecoverWorkloads _ | OpUpdateDeploymentStatus _ _ | OpMarkServiceDeleted _ => True
  | _ => reconciler_peer op = true
  end.

(** The workload a write is about. *)
Definition op_target (op : StoreOp) : option string :=
  match op with
  | OpCreateWorkload w => Some (wl_ID w)
  | OpReserveNode wid _ _ _ | OpMarkWorkloadRunning wid _ | OpMarkWorkloadFailed wid
  | OpUpdateWorkloadActualState wid _ | OpUpdateWorkloadDesiredState wid _
  | OpMarkFailedAndRelease wid | OpMarkStoppedAndRelease wid => Some wid
  | _ => None
  end.

Lemma loop_allowed_disciplined db op : Inv db -> loop_allowed db op -> disciplined db op.
Proof.
  intros [_ _ Hd] H. destruct op; cbn in *; try done; try tauto.
  - intros w Hw. destruct (H w Hw) as [(-> & _ & ->)|(_ & Hst & Hf)]; [by right|].
    left. by apply (Hd _ _ Hw).
  - intros w Hw. right. by apply H.
  - intros w Hw. destruct (wl_ActualState w) eqn:Ha; try by right.
    left. by apply (Hd _ _ Hw); [apply H|].
Qed.

Lemma op_written now op db db' n k :
  op_target op = Some k -> apply_op now op db = Ok (db', n) ->
  written k (workloads db) (workloads db').
Proof.
  intros Hk H k' Hne. destruct op; try done; cbn in Hk; injection Hk as <-; cbn in H;
    unfold_sql H; try (inv_ok; by eapply updated_lookup).
  - unfold CreateWorkload_sql in H. inv_ok. destruct (workloads db !! wl_ID w); [done|].
    inv_ok. cbn. by rewrite lookup_insert_ne.
  - inv_ok. apply reserve_tx_inv in H as (? & ? & _ & _ & _ & _ & _ & _ & _ & ->).
    cbn. by rewrite lookup_insert_ne.
  - inv_ok. by eapply released_written; [apply failed_tx_inv|].
  - inv_ok. by eapply released_written; [apply stopped_tx_inv|].
Qed.

Lemma disciplined_recover now nid db db' :
  Disciplined (workloads db) -> RecoverWorkloadsFromNode_tx now nid db = Ok db' ->
  Disciplined (workloads db').
Proof.
  intros Hd (_ & HW & _)%recover_tx_inv k w' Hw'. rewrite HW in Hw'.
  apply fmap_Some in Hw' as (w & Hw & ->). destruct (occupies nid w); [|by eapply Hd].
  unfold row_disciplined. cbn. naive_solver.
Qed.

Lemma loop_op_inv now op db db' n :
  Inv db -> loop_allowed db op -> apply_op now op db = Ok (db', n) -> Inv db'.
Proof.
  intros Hi Hal H. pose proof Hi as [Hwf Ha Hd]. constructor.
  { by eapply apply_op_wf. }
  { eapply apply_op_accounted; [done..| |done]. by apply loop_allowed_disciplined. }
  destruct (op_target op) as [k|] eqn:Hk.
  - eapply disciplined_written; [exact Hd|by eapply op_written|].
    intros w' Hw'. destruct op; try done; injection Hk as <-; cbn in H, Hal; unfold_sql H.
    + unfold CreateWorkload_sql in H. inv_ok. destruct (workloads db !! wl_ID w); [done|]. inv_ok.
      cbn in Hw'. rewrite lookup_insert_eq in Hw'. injection Hw' as <-.
      destruct Hal as (? & ? & ? & ?). split; [done|congruence].
    + inv_ok. apply reserve_tx_inv in H as (? & ? & _ & _ & _ & _ & _ & _ & _ & ->).
      cbn in Hw'. rewrite lookup_insert_eq in Hw'. injection Hw' as <-. done.
    + inv_ok. match goal with H : updated _ _ _ _ _ _ _ |- _ => destruct H as [|r Hr Hg _] end;
        [by eapply Hd|]. guards.
      cbn in Hw'. rewrite lookup_insert_eq in Hw'. injection Hw' as <-.
      unfold row_disciplined. cbn. by rewrite Hg.
    + inv_ok. match goal with H : updated _ _ _ _ _ _ _ |- _ => destruct H as [|r Hr Hg _] end;
        [by eapply Hd|]. pose proof (Hal _ Hr) as Hst.
      cbn in Hw'. rewrite lookup_insert_eq in Hw'. injection Hw' as <-.
      unfold row_disciplined. cbn.
      destruct Hst as [(Hocc & Hp & _)|(-> & Hde & _)]; [|by rewrite Hde].
      split; [done|]. by intros _ ->.
    + inv_ok. match goal with H : updated _ _ _ _ _ _ _ |- _ => destruct H as [|r Hr Hg _] end;
        [by eapply Hd|]. destruct Hal as [-> Hal].
      cbn in Hw'. rewrite lookup_insert_eq in Hw'. injection Hw' as <-.
      unfold row_disciplined. cbn. split; [done|]. intros _ Hf. by destruct (Hal _ Hr).
    + inv_ok. apply failed_tx_inv, released_row in H as (w & w1 & Hw & Hw1 & _ & Hde & _ & _).
      destruct (Hal _ Hw) as [Hs _]. simplify_eq.
      unfold row_disciplined. by rewrite Hde, Hs.
    + inv_ok. apply stopped_tx_inv, released_row in H as (w & w1 & Hw & Hw1 & Hst & Hde & _ & _).
      pose proof (Hal _ Hw) as Hs. simplify_eq.
      unfold row_disciplined. rewrite Hde, Hs, Hst. done.
  - destruct op; try done;
      try (by erewrite peer_workloads); cbn in H; unfold_sql H; try (by inv_ok).
    inv_ok. by eapply disciplined_recover.
Qed.
