(* ===== verification/Scheduler.v ===== *)
(** * internal/scheduler: node eligibility, scoring, placement *)

From S2P Require Import Prelude Float64 Model Sql StoreInv Accounting Env Logic Postgres.

(** ** filters.go *)

Fixpoint FilterNodes (workload : Workload) (ns : list Node) : list Node :=
  match ns with
  | [] => []
  | node :: rest =>
      if negb (nd_Status node =s? NodeReady) then FilterNodes workload rest
      else
        let availableCPU := nd_CPUCapacity node -w nd_CPUAllocated node in
        let availableMemory := nd_MemoryCapacity node -w nd_MemoryAllocated node in
        if availableCPU <? wl_CPURequestMillis workload then FilterNodes workload rest
        else if availableMemory <? wl_MemoryRequestMB workload then FilterNodes workload rest
        else node :: FilterNodes workload rest
  end.

(** ** scoring.go *)

Definition scoreNode (workload : Workload) (node : Node) : float64 :=
  let availableCPU :=
    nd_CPUCapacity node -w nd_CPUAllocated node -w wl_CPURequestMillis workload in
  let availableMemory :=
    nd_MemoryCapacity node -w nd_MemoryAllocated node -w wl_MemoryRequestMB workload in
  let cpuRatio := f_div (f_of_int availableCPU) (f_of_int (nd_CPUCapacity node)) in
  let memoryRatio := f_div (f_of_int availableMemory) (f_of_int (nd_MemoryCapacity node)) in
  f_add cpuRatio memoryRatio.

(** The loop over the candidates: the best node and score so far. *)
Fixpoint select_loop (workload : Workload) (ns : list Node) (best : Node)
    (bestScore : float64) : Node :=
  match ns with
  | [] => best
  | node :: rest =>
      let score := scoreNode workload node in
      if f_lt bestScore score then select_loop workload rest node score
      else select_loop workload rest best bestScore
  end.

(** [nodes[0]] of an empty slice panics. *)
Definition SelectBestNode (workload : Workload) (ns : list Node) : res Node :=
  match ns with
  | [] => Err (Panic "index out of range [0] with length 0")
  | first :: _ => Ok (select_loop workload ns first f_neg_inf)
  end.

(** ** scheduler.go *)

Definition Schedule (workload : Workload) (ns : list Node) : res Node :=
  let candidates := FilterNodes workload ns in
  if Z.of_nat (length candidates) =? 0 then
    Err (Errorf "no suitable node found for workload %q" [AStr (wl_ID workload)])
  else SelectBestNode workload candidates.

(** ** service.go *)

Definition ScheduleWorkload `{Env} (workload : Workload) : M unit :=
  ns ← context "list nodes: %w" [] ListNodes;
  selectedNode ← lift (Schedule workload ns);
  context "reserve selected node %q: %w" [AStr (nd_ID selectedNode)]
    (ReserveNodeForWorkload (wl_ID workload) (nd_ID selectedNode)
       (wl_CPURequestMillis workload) (wl_MemoryRequestMB workload)).

(** ** Specification: placement on the freest ready node with room *)

Definition feasible (workload : Workload) (node : Node) : Prop :=
  nd_Status node = NodeReady /\
  wl_CPURequestMillis workload <= nd_CPUCapacity node - nd_CPUAllocated node /\
  wl_MemoryRequestMB workload <= nd_MemoryCapacity node - nd_MemoryAllocated node.

Lemma elem_of_FilterNodes w ns n :
  (forall m, m ∈ ns -> node_row_ok m = true) ->
  n ∈ FilterNodes w ns <-> n ∈ ns /\ feasible w n.
Proof.
  induction ns as [|m ns IH]; intros Hok; cbn [FilterNodes]; [set_solver|].
  assert (n ∈ FilterNodes w ns <-> n ∈ ns /\ feasible w n) as IH'
    by (apply IH; intros; apply Hok; by right). clear IH.
  pose proof (node_row_bounds _ (Hok m ltac:(left))) as Hm.
  rewrite elem_of_cons. unfold feasible in *.
  destruct (String.eqb_spec (nd_Status m) NodeReady) as [Hs|Hs]; cbn.
  - unwrap. destruct (Z.ltb_spec (nd_CPUCapacity m - nd_CPUAllocated m) (wl_CPURequestMillis w));
      [rewrite IH'; intuition (subst; lia)|].
    destruct (Z.ltb_spec (nd_MemoryCapacity m - nd_MemoryAllocated m) (wl_MemoryRequestMB w));
      [rewrite IH'; intuition (subst; lia)|].
    rewrite elem_of_cons, IH'. intuition (subst; auto).
  - rewrite IH'. intuition (subst; congruence).
Qed.

Lemma FilterNodes_sublist w ns : FilterNodes w ns `sublist_of` ns.
Proof.
  induction ns as [|m ns IH]; cbn; [done|].
  repeat case_match; by constructor.
Qed.

(** The loop keeps the first node whose score nothing seen so far beats. *)
Lemma select_loop_spec w seen ns best bestScore :
  (exists before after, seen ++ ns = before ++ best :: after /\
     forall m, m ∈ before -> f_le (scoreNode w best) (scoreNode w m) = false) ->
  (bestScore = scoreNode w best \/ bestScore = f_neg_inf) ->
  (forall m, m ∈ seen -> f_lt bestScore (scoreNode w m) = false) ->
  let n := select_loop w ns best bestScore in
  (exists before after, seen ++ ns = before ++ n :: after /\
     forall m, m ∈ before -> f_le (scoreNode w n) (scoreNode w m) = false) /\
  forall m, m ∈ seen ++ ns -> f_lt (scoreNode w n) (scoreNode w m) = false.
Proof.
  revert seen best bestScore.
  induction ns as [|m ns IH]; intros seen best bestScore Hin Hs Hseen; cbn [select_loop].
  - split; [done|]. rewrite app_nil_r. intros m Hm. specialize (Hseen m Hm).
    destruct Hs as [-> | ->]; [done|by apply f_lt_neg_inf].
  - destruct (f_lt bestScore (scoreNode w m)) eqn:Hlt.
    + replace (seen ++ m :: ns) with ((seen ++ [m]) ++ ns) by by rewrite <- app_assoc.
      apply IH; [|by left|].
      * exists seen, ns. rewrite <- app_assoc. split; [done|]. intros m' Hm'.
        apply not_true_iff_false. intros Hle.
        pose proof (f_lt_le_trans _ _ _ Hlt Hle). rewrite Hseen in *; done.
      * intros m' [Hm'| ->%list_elem_of_singleton]%elem_of_app; [|apply f_lt_irrefl].
        apply not_true_iff_false. intros Hlt'.
        pose proof (f_lt_trans _ _ _ Hlt Hlt'). rewrite Hseen in *; done.
    + replace (seen ++ m :: ns) with ((seen ++ [m]) ++ ns) in * by by rewrite <- app_assoc.
      apply IH; [done..|].
      intros m' [Hm'| ->%list_elem_of_singleton]%elem_of_app; [by apply Hseen|done].
Qed.
