(* ===== verification/Controllers.v ===== *)
(** * internal/controller: replicas, rolling deployments, status, deletion *)

From Stdlib Require Import Strings.Byte.
From S2P Require Import Prelude Float64 Model Sql StoreInv Accounting Env Logic Postgres.

(** ** replica_controller.go *)

Definition hex_digit (n : N) : Ascii.ascii :=
  Ascii.ascii_of_N (if (n <? 10)%N then 48 + n else 87 + n).

(** [hex.EncodeToString] *)
Fixpoint EncodeToString (bs : list byte) : string :=
  match bs with
  | [] => EmptyString
  | b :: bs =>
      String (hex_digit (Byte.to_N b / 16)) (String (hex_digit (Byte.to_N b mod 16))
        (EncodeToString bs))
  end.

Definition newWorkloadID `{Env} : M string :=
  b ← rand_read; mret ("wl-" +:+ EncodeToString b).

Definition isActive (workload : Workload) : bool :=
  match wl_ActualState workload with
  | WorkloadPending | WorkloadScheduled | WorkloadRunning =>
      negb (wl_DesiredState workload =w? WorkloadStopped)
  | _ => false
  end.

Fixpoint countActiveReplicas (workloads : list Workload) (currentVersion : Z) : Z :=
  match workloads with
  | [] => 0
  | workload :: rest =>
      if negb (wl_DeploymentVersion workload =? 0) &&
         negb (wl_DeploymentVersion workload =? currentVersion)
      then countActiveReplicas rest currentVersion
      else
        match wl_ActualState workload with
        | WorkloadPending | WorkloadScheduled | WorkloadRunning =>
            if negb (wl_DesiredState workload =w? WorkloadStopped)
            then 1 + countActiveReplicas rest currentVersion
            else countActiveReplicas rest currentVersion
        | _ => countActiveReplicas rest currentVersion
        end
  end.

(** The loop from the last workload to the first, [remaining] being the
    workloads before the current one, last first. *)
Fixpoint scale_down_loop (remaining : list Workload) (count : Z) (candidates : list Workload)
    : list Workload :=
  match remaining with
  | [] => candidates
  | workload :: rest =>
      if negb (Z.of_nat (length candidates) <? count) then candidates
      else
        match wl_ActualState workload with
        | WorkloadPending | WorkloadScheduled | WorkloadRunning =>
            if negb (wl_DesiredState workload =w? WorkloadStopped)
            then scale_down_loop rest count (candidates ++ [workload])
            else scale_down_loop rest count candidates
        | _ => scale_down_loop rest count candidates
        end
  end.

Definition selectScaleDownCandidates (workloads : list Workload) (count : Z) : list Workload :=
  scale_down_loop (reverse workloads) count [].

Fixpoint hasOldActiveWorkloads (workloads : list Workload) (currentVersion : Z) : bool :=
  match workloads with
  | [] => false
  | workload :: rest =>
      if (wl_DeploymentVersion workload <? currentVersion) && isActive workload then true
      else hasOldActiveWorkloads rest currentVersion
  end.

(** The workload literal of both controllers: [CreatedAt] and [UpdatedAt] are
    left at their zero value. *)
Definition pending_replica (id : string) (service : Service) : Workload :=
  mkWorkload id (svc_ID service) None None (svc_Image service)
    (svc_CPURequestMillis service) (svc_MemoryRequestMB service)
    (svc_DeploymentVersion service) WorkloadPending WorkloadPending zero_time zero_time.

Definition is_running_version (version : Z) (w : Workload) : bool :=
  (wl_DeploymentVersion w =? version) && (wl_ActualState w =w? WorkloadRunning).

Definition Replica_ReconcileService `{Env} (service : Service) : M unit :=
  if negb (svc_Status service =s? ServiceActive) then mret tt
  else if svc_DeploymentStatus service =s? DeploymentFailed then mret tt
  else
    workloads ← context "list workloads for service %q: %w" [AStr (svc_ID service)]
      (ListWorkloadsByService (svc_ID service));
    let activeReplicas := countActiveReplicas workloads (svc_DeploymentVersion service) in
    if hasOldActiveWorkloads workloads (svc_DeploymentVersion service) then mret tt
    else if activeReplicas <? svc_DesiredReplicas service then
      let missing := svc_DesiredReplicas service -w activeReplicas in
      for_each (seqZ 0 missing) (fun _ =>
        id ← newWorkloadID;
        context "create pending workload: %w" []
          (CreatePendingWorkload (pending_replica id service)))
    else if activeReplicas =? svc_DesiredReplicas service then mret tt
    else
      let excess := activeReplicas -w svc_DesiredReplicas service in
      let candidates := selectScaleDownCandidates workloads excess in
      let newRunning := countb (is_running_version (svc_DeploymentVersion service)) workloads in
      if (newRunning =? 0) && (0 <? svc_DesiredReplicas service) then mret tt
      else
        for_each candidates (fun workload =>
          context "mark workload %q for shutdown: %w" [AStr (wl_ID workload)]
            (UpdateWorkloadDesiredState (wl_ID workload) WorkloadStopped)).

(** ** deployment_controller.go *)

Definition runningActiveWorkloads (workloads : list Workload) : Z :=
  countb (fun w => (wl_ActualState w =w? WorkloadRunning) &&
                   negb (wl_DesiredState w =w? WorkloadStopped)) workloads.

Fixpoint oldActiveWorkloads (workloads : list Workload) (currentVersion : Z) : list Workload :=
  match workloads with
  | [] => []
  | workload :: rest =>
      if currentVersion <=? wl_DeploymentVersion workload then
        oldActiveWorkloads rest currentVersion
      else if isActive workload then workload :: oldActiveWorkloads rest currentVersion
      else oldActiveWorkloads rest currentVersion
  end.

Fixpoint newActiveWorkloads (workloads : list Workload) (currentVersion : Z) : list Workload :=
  match workloads with
  | [] => []
  | workload :: rest =>
      if negb (wl_DeploymentVersion workload =? currentVersion) then
        newActiveWorkloads rest currentVersion
      else if isActive workload then workload :: newActiveWorkloads rest currentVersion
      else newActiveWorkloads rest currentVersion
  end.

Definition createReplacementWorkload `{Env} (service : Service) : M unit :=
  id ← newWorkloadID;
  context "create replacement workload: %w" []
    (CreatePendingWorkload (pending_replica id service)).

Definition is_failed_version (version : Z) (w : Workload) : bool :=
  (wl_DeploymentVersion w =? version) && (wl_ActualState w =w? WorkloadFailed).

Definition Deployment_ReconcileService `{Env} (service : Service) : M unit :=
  if svc_DeploymentStatus service =s? DeploymentFailed then mret tt
  else
    workloads ← context "list service workloads: %w" [] (ListWorkloadsByService (svc_ID service));
    match oldActiveWorkloads workloads (svc_DeploymentVersion service) with
    | [] => mret tt
    | (old :: _) as oldWorkloads =>
        if existsb (is_failed_version (svc_DeploymentVersion service)) workloads then mret tt
        else
          let newWorkloads := newActiveWorkloads workloads (svc_DeploymentVersion service) in
          let totalActive :=
            Z.of_nat (length oldWorkloads) +w Z.of_nat (length newWorkloads) in
          let maxTotal := svc_DesiredReplicas service +w svc_MaxSurge service in
          if totalActive <? maxTotal then createReplacementWorkload service
          else if (wl_ActualState old =w? WorkloadRunning) &&
                  (runningActiveWorkloads workloads -w 1 <?
                     svc_DesiredReplicas service -w svc_MaxUnavailable service)
          then mret tt
          else
            context "stop old workload %q: %w" [AStr (wl_ID old)]
              (UpdateWorkloadDesiredState (wl_ID old) WorkloadStopped)
    end.

(** ** deployment_status.go *)

(** The loop counting [oldActive], [newRunning], [newFailed]. *)
Fixpoint status_counts (workloads : list Workload) (version oldActive newRunning newFailed : Z)
    : Z * Z * Z :=
  match workloads with
  | [] => (oldActive, newRunning, newFailed)
  | workload :: rest =>
      if wl_DeploymentVersion workload <? version then
        if isActive workload then status_counts rest version (oldActive + 1) newRunning newFailed
        else status_counts rest version oldActive newRunning newFailed
      else if version <? wl_DeploymentVersion workload then
        status_counts rest version oldActive newRunning newFailed
      else
        match wl_ActualState workload with
        | WorkloadRunning => status_counts rest version oldActive (newRunning + 1) newFailed
        | WorkloadFailed => status_counts rest version oldActive newRunning (newFailed + 1)
        | _ => status_counts rest version oldActive newRunning newFailed
        end
  end.

Definition Status_ReconcileService `{Env} (timeout : Z) (service : Service) : M unit :=
  if svc_DeploymentStatus service =s? DeploymentFailed then mret tt
  else
    workloads ← context "list workloads: %w" [] (ListWorkloadsByService (svc_ID service));
    let '(oldActive, newRunning, newFailed) :=
      status_counts workloads (svc_DeploymentVersion service) 0 0 0 in
    if (newRunning =? svc_DesiredReplicas service) && (oldActive =? 0) then
      UpdateDeploymentStatus (svc_ID service) DeploymentAvailable
    else if 0 <? newFailed then UpdateDeploymentStatus (svc_ID service) DeploymentFailed
    else
      expired ← match svc_DeploymentStartedAt service with
                | None => mret false
                | Some startedAt => t ← now; mret (timeout <? time_sub t startedAt)
                end;
      if (expired : bool) then UpdateDeploymentStatus (svc_ID service) DeploymentFailed
      else UpdateDeploymentStatus (svc_ID service) DeploymentProgressing.

(** ** deletion_controller.go *)

Fixpoint deletion_loop `{Env} (workloads : list Workload) (allFinished : bool) : M bool :=
  match workloads with
  | [] => mret allFinished
  | workload :: rest =>
      match wl_ActualState workload with
      | WorkloadRunning | WorkloadScheduled | WorkloadPending =>
          (if negb (wl_DesiredState workload =w? WorkloadStopped)
           then UpdateWorkloadDesiredState (wl_ID workload) WorkloadStopped
           else mret tt) ;;
          deletion_loop rest false
      | WorkloadStopped | WorkloadFailed => deletion_loop rest allFinished
      end
  end.

Definition Deletion_ReconcileService `{Env} (service : Service) : M unit :=
  if negb (svc_Status service =s? ServiceDeleting) then mret tt
  else
    workloads ← ListWorkloadsByService (svc_ID service);
    allFinished ← deletion_loop workloads true;
    if negb allFinished then mret tt else MarkServiceDeleted (svc_ID service).
