(* ===== verification/ServiceCounts.v ===== *)
(** * Counting the workloads of a service

    The controllers count over the list a query returned; their promises are
    about the table.  [svc_count f sid ws] is the number of workloads of the
    service in the table that satisfy [f], and the loops of the controllers
    are shown to compute it. *)

From S2P Require Import Prelude Float64 Model Sql StoreInv Accounting Env Logic Postgres.
From S2P Require Import Discipline Scheduler Controllers.

Definition of_service (f : Workload -> bool) (sid : string) (w : Workload) : Z :=
  if (wl_ServiceID w =s? sid) && f w then 1 else 0.

Definition svc_count (f : Workload -> bool) (sid : string) (ws : gmap string Workload) : Z :=
  msum (of_service f sid) ws.

Lemma countb_filter_rows {A} (P : A -> Prop) `{forall x, Decision (P x)} (f : A -> bool) l :
  countb f (filter P l) = zsum (fun x => if bool_decide (P x) && f x then 1 else 0) l.
Proof.
  induction l as [|x l IH]; [done|]. rewrite filter_cons. cbn [zsum].
  case_decide as HP; cbn [countb]; rewrite IH.
  - by rewrite bool_decide_eq_true_2.
  - by rewrite bool_decide_eq_false_2.
Qed.

Lemma msum_rows {A} (f : A -> Z) (t : gmap string A) : msum f t = zsum f (rows t).
Proof. unfold msum, rows. induction (map_to_list t) as [|kv l IH]; cbn; [done|]. by rewrite IH. Qed.

Section Counts.
Context `{Env}.

Lemma by_service_count f sid t db :
  countb f (workloads_by_service sid t db) = svc_count f sid (workloads db).
Proof.
  unfold svc_count. rewrite workloads_by_service_perm, countb_filter_rows, msum_rows.
  apply zsum_ext. intros w _. unfold of_service.
  destruct (String.eqb_spec (wl_ServiceID w) sid).
  - by rewrite bool_decide_eq_true_2.
  - by rewrite bool_decide_eq_false_2.
Qed.
End Counts.

Section CountLemmas.
Context (f : Workload -> bool) (sid : string).
Implicit Types (ws : gmap string Workload).

Lemma of_service_bounds w : 0 <= of_service f sid w <= 1.
Proof. unfold of_service. destruct (_ && _); lia. Qed.

Lemma svc_count_nonneg ws : 0 <= svc_count f sid ws.
Proof. apply msum_nonneg. intros k w _. apply of_service_bounds. Qed.

Lemma svc_count_zero ws :
  svc_count f sid ws = 0 <->
  forall k w, ws !! k = Some w -> wl_ServiceID w = sid -> f w = false.
Proof.
  split.
  - intros Hz k w Hw Hs. apply not_true_iff_false. intros Hf.
    pose proof (msum_lookup_le (of_service f sid) ws k w) as Hle.
    unfold svc_count in Hz. rewrite Hz in Hle. unfold of_service in Hle at 2.
    rewrite Hs, String.eqb_refl, Hf in Hle. cbn in Hle.
    pose proof (Hle ltac:(intros; apply of_service_bounds) Hw). lia.
  - intros Hall. apply msum_zero. intros k w Hw. unfold of_service.
    destruct (String.eqb_spec (wl_ServiceID w) sid) as [Hs|]; [|done].
    by rewrite (Hall k w Hw Hs).
Qed.

Lemma svc_count_insert_new ws k w :
  ws !! k = None -> svc_count f sid (<[k := w]> ws) = of_service f sid w + svc_count f sid ws.
Proof. apply msum_insert_new. Qed.

Lemma svc_count_insert ws k w w' :
  ws !! k = Some w ->
  svc_count f sid (<[k := w']> ws) =
    svc_count f sid ws - of_service f sid w + of_service f sid w'.
Proof. apply msum_insert. Qed.

Lemma svc_count_le_size ws : svc_count f sid ws <= Z.of_nat (size ws).
Proof.
  unfold svc_count, msum. rewrite <- length_map_to_list.
  induction (map_to_list ws) as [|[k w] l IH]; cbn [zsum length]; [done|].
  pose proof (of_service_bounds w). cbn. lia.
Qed.
End CountLemmas.

Lemma svc_count_ext f g sid ws :
  (forall k w, ws !! k = Some w -> wl_ServiceID w = sid -> f w = g w) ->
  svc_count f sid ws = svc_count g sid ws.
Proof.
  intros Hfg. apply msum_ext. intros k w Hw. unfold of_service.
  destruct (String.eqb_spec (wl_ServiceID w) sid); [|done]. by rewrite (Hfg k w).
Qed.

(** ** The loops of the controllers *)

Definition counts_for (version : Z) (w : Workload) : bool :=
  ((wl_DeploymentVersion w =? 0) || (wl_DeploymentVersion w =? version)) && isActive w.

Definition old_active (version : Z) (w : Workload) : bool :=
  (wl_DeploymentVersion w <? version) && isActive w.

Definition new_active (version : Z) (w : Workload) : bool :=
  (wl_DeploymentVersion w =? version) && isActive w.

Lemma countActiveReplicas_spec l v : countActiveReplicas l v = countb (counts_for v) l.
Proof.
  induction l as [|w l IH]; [done|]. cbn [countActiveReplicas countb]. rewrite IH.
  unfold counts_for, isActive.
  destruct (wl_DeploymentVersion w =? 0), (wl_DeploymentVersion w =? v); cbn; try done;
    destruct (wl_ActualState w), (wl_DesiredState w =w? WorkloadStopped); done.
Qed.

Lemma hasOldActiveWorkloads_spec l v :
  hasOldActiveWorkloads l v = (0 <? countb (old_active v) l).
Proof.
  rewrite <- existsb_countb. induction l as [|w l IH]; [done|].
  cbn [hasOldActiveWorkloads existsb]. unfold old_active at 1. by destruct (_ && _).
Qed.

Lemma oldActiveWorkloads_filter l v : oldActiveWorkloads l v = filter (old_active v) l.
Proof.
  induction l as [|w l IH]; [done|]. cbn [oldActiveWorkloads]. rewrite filter_cons, IH.
  unfold old_active. destruct (Z.leb_spec v (wl_DeploymentVersion w)) as [Hv|Hv].
  - apply Z.ltb_ge in Hv as ->. done.
  - apply Z.ltb_lt in Hv as ->. by destruct (isActive w).
Qed.

Lemma newActiveWorkloads_filter l v : newActiveWorkloads l v = filter (new_active v) l.
Proof.
  induction l as [|w l IH]; [done|]. cbn [newActiveWorkloads]. rewrite filter_cons, IH.
  unfold new_active. destruct (wl_DeploymentVersion w =? v); [|done]. by destruct (isActive w).
Qed.

Lemma length_filter_countb (f : Workload -> bool) l : Z.of_nat (length (filter f l)) = countb f l.
Proof. symmetry. apply countb_filter. Qed.

Lemma triple_eq {A B C} (a a' : A) (b b' : B) (c c' : C) :
  a = a' -> b = b' -> c = c' -> (a, b, c) = (a', b', c').
Proof. congruence. Qed.

Lemma status_counts_spec l v a b c :
  status_counts l v a b c =
    (a + countb (old_active v) l, b + countb (is_running_version v) l,
     c + countb (is_failed_version v) l).
Proof.
  revert a b c. induction l as [|w l IH]; intros a b c; cbn [status_counts countb].
  { by rewrite !Z.add_0_r. }
  unfold old_active, is_running_version, is_failed_version in *.
  destruct (Z.ltb_spec (wl_DeploymentVersion w) v) as [Hv|Hv].
  - replace (wl_DeploymentVersion w =? v) with false by (symmetry; apply Z.eqb_neq; lia).
    cbn. destruct (isActive w); rewrite IH; apply triple_eq; lia.
  - cbn. destruct (Z.ltb_spec v (wl_DeploymentVersion w)) as [Hv'|Hv'].
    + replace (wl_DeploymentVersion w =? v) with false by (symmetry; apply Z.eqb_neq; lia).
      cbn. by rewrite IH, !Z.add_0_l.
    + replace (wl_DeploymentVersion w =? v) with true by (symmetry; apply Z.eqb_eq; lia).
      destruct (wl_ActualState w); eval_states; cbn; rewrite IH; apply triple_eq; lia.
Qed.

(** The scale-down loop takes active workloads, as many as asked or all. *)
Lemma scale_down_loop_length ws count acc :
  Z.of_nat (length (scale_down_loop ws count acc)) =
    Z.max (Z.of_nat (length acc)) (Z.min count (Z.of_nat (length acc) + countb isActive ws)).
Proof.
  revert acc. induction ws as [|w ws IH]; intros acc; cbn [scale_down_loop countb]; [lia|].
  pose proof (countb_nonneg isActive ws) as Hnn.
  destruct (Z.ltb_spec (Z.of_nat (length acc)) count) as [Hlt|Hge]; cbn [negb].
  - unfold isActive at 1. destruct (wl_ActualState w); cbn;
      try destruct (negb (wl_DesiredState w =w? WorkloadStopped)); rewrite IH, ?length_app; cbn; lia.
  - destruct (isActive w); lia.
Qed.

Lemma selectScaleDownCandidates_length l count :
  Z.of_nat (length (selectScaleDownCandidates l count)) =
    Z.max 0 (Z.min count (countb isActive l)).
Proof.
  unfold selectScaleDownCandidates. rewrite scale_down_loop_length, reverse_Permutation. done.
Qed.
