(* ===== verification/NodeClient.v ===== *)
(** * The interface to the node agents

    The control plane reaches containers through [node.Client] only.  Its
    clients' theorems need one promise: a call to a node does not touch the
    database. *)

From S2P Require Import Prelude Float64 Model Sql StoreInv Accounting Env Logic.

Class NodeClient := {
  CreateContainer : string -> ContainerConfig -> M Container;
  StartContainer : string -> string -> M unit;
  ListContainers : string -> M (list Container);
  StopContainer : string -> string -> M unit;
  DeleteContainer : string -> string -> M unit;
  GetContainerStats : string -> string -> M ContainerStats
}.

Class NodeClientLaws `{NodeClient} : Prop := {
  create_no_effect address config : no_db_effect (CreateContainer address config);
  start_no_effect address id : no_db_effect (StartContainer address id);
  list_no_effect address : no_db_effect (ListContainers address);
  stop_no_effect address id : no_db_effect (StopContainer address id);
  delete_no_effect address id : no_db_effect (DeleteContainer address id);
  stats_no_effect address id : no_db_effect (GetContainerStats address id)
}.
#[export] Hint Resolve create_no_effect start_no_effect list_no_effect stop_no_effect
  delete_no_effect stats_no_effect : core.

(** ** A client over given answers

    The nodes of a run: what each answers at each time.  Every call is logged. *)

Class NodeAnswers := {
  answer_create : nat -> string -> ContainerConfig -> res Container;
  answer_start : nat -> string -> string -> res unit;
  answer_list : nat -> string -> res (list Container);
  answer_stop : nat -> string -> string -> res unit;
  answer_delete : nat -> string -> string -> res unit;
  answer_stats : nat -> string -> string -> res ContainerStats
}.

Definition call_node {A} (call : NodeCall) (answer : nat -> res A) : M A := fun w =>
  (answer (world_tick w),
   mkWorld (world_db w) (S (world_tick w)) (world_calls w ++ [call])
     (world_writes w) (world_metrics w)).

#[export] Instance answering_client `{NodeAnswers} : NodeClient := {
  CreateContainer address config :=
    call_node (CallCreate address config) (fun t => answer_create t address config);
  StartContainer address id :=
    call_node (CallStart address id) (fun t => answer_start t address id);
  ListContainers address := call_node (CallList address) (fun t => answer_list t address);
  StopContainer address id :=
    call_node (CallStop address id) (fun t => answer_stop t address id);
  DeleteContainer address id :=
    call_node (CallDelete address id) (fun t => answer_delete t address id);
  GetContainerStats address id :=
    call_node (CallStats address id) (fun t => answer_stats t address id)
}.

#[export] Instance answering_client_laws `{NodeAnswers} : NodeClientLaws.
Proof. constructor; by intros. Qed.
