(* ===== verification/Quiet.v ===== *)
(** * Undisturbed runs

    The rules of [Logic.v] when no call to the database fails and no other
    goroutine writes: each call then has one outcome. *)

From S2P Require Import Prelude Float64 Model Sql StoreInv Accounting Env Logic Postgres.

(** Nobody interferes and nothing fails. *)
Class Quiet `{Env} : Prop := {
  quiet_fault t : env_fault t = NoFault;
  quiet_peers t : env_peers t = []
}.

(** The world after a write that gave [db]. *)
Definition wrote (op : StoreOp) (db : DB) (w : World) : World := set_db db (add_write op w).

Section QuietRules.
Context `{Quiet}.

Lemma quiet_peers_db t db : peers_db t db = db.
Proof. unfold peers_db. by rewrite quiet_peers. Qed.

Lemma quiet_exec op w :
  exec op w =
    match apply_op (env_now (world_tick w)) op (world_db w) with
    | Ok (db', n) => (Ok n, wrote op db' w)
    | Err e => (Err e, wrote op (world_db w) w)
    end.
Proof.
  unfold exec, wrote. rewrite quiet_fault, quiet_peers_db.
  by destruct (apply_op _ op _) as [[db' n]|e].
Qed.

Lemma quiet_query {A} (q : nat -> DB -> res A) w :
  query q w = (q (world_tick w) (world_db w), tick w).
Proof. unfold query, tick. by rewrite quiet_fault, quiet_peers_db. Qed.

Lemma wp_exec_quiet op Q w :
  match apply_op (env_now (world_tick w)) op (world_db w) with
  | Ok (db', n) => Q (Ok n) (wrote op db' w)
  | Err e => Q (Err e) (wrote op (world_db w) w)
  end -> wp (exec op) Q w.
Proof. unfold wp. rewrite quiet_exec. by destruct (apply_op _ op _) as [[db' n]|e]. Qed.

Lemma wp_query_quiet {A} (q : nat -> DB -> res A) Q w :
  Q (q (world_tick w) (world_db w)) (tick w) -> wp (query q) Q w.
Proof. unfold wp. by rewrite quiet_query. Qed.
End QuietRules.

(** Step through the methods of the store down to the database. *)
Ltac wp_step :=
  cbv beta iota;
  lazymatch goal with
  | |- wp (_ ≫= _) _ _ => apply wp_bind
  | |- wp (try _) _ _ => apply wp_try
  | |- wp (context _ _ _) _ _ => apply wp_context
  | |- wp (log_error _) _ _ => apply wp_log_error
  | |- wp (query _) _ _ => apply wp_query_quiet
  | |- wp (exec _) _ _ => apply wp_exec_quiet
  | |- wp now _ _ => apply wp_now
  | |- wp rand_read _ _ => apply wp_rand_read
  | |- wp (mret _) _ _ => apply wp_ret
  | |- wp (fail _) _ _ => apply wp_fail
  end.

(** What a computation may write: the writes it issues, in order. *)
Definition writes_of {A} (m : M A) (w : World) : list StoreOp :=
  drop (length (world_writes w)) (world_writes (m w).2).
