(* ===== verification/Writes.v ===== *)
(** * Which writes a component issues

    [writes_only P m]: every write [m] issues, on every path and whatever the
    environment does, satisfies [P]. *)

From S2P Require Import Prelude Float64 Model Sql StoreInv Accounting Env Logic Postgres.

Definition writes_only {A} (P : StoreOp -> bool) (m : M A) : Prop :=
  forall w, exists ops, world_writes (m w).2 = world_writes w ++ ops /\
    forall op, op ∈ ops -> P op = true.

Create HintDb writes.

Section Rules.
Context (P : StoreOp -> bool).

Lemma writes_none {A} (m : M A) :
  (forall w, world_writes (m w).2 = world_writes w) -> writes_only P m.
Proof.
  intros Hm w. exists []. rewrite app_nil_r. split; [apply Hm|].
  intros op Hop. by apply not_elem_of_nil in Hop.
Qed.

Lemma writes_ret {A} (a : A) : writes_only P (mret a).
Proof. by apply writes_none. Qed.

Lemma writes_fail {A} e : writes_only P (fail e : M A).
Proof. by apply writes_none. Qed.

Lemma writes_lift {A} (r : res A) : writes_only P (lift r).
Proof. by apply writes_none. Qed.

Lemma writes_bind {A B} (m : M A) (f : A -> M B) :
  writes_only P m -> (forall a, writes_only P (f a)) -> writes_only P (m ≫= f).
Proof.
  intros Hm Hf w. unfold mbind, M_bind. destruct (Hm w) as (ops & Hops & HP).
  destruct (m w) as [[a|e] w1]; cbn in Hops; [|by exists ops].
  destruct (Hf a w1) as (ops' & Hops' & HP'). exists (ops ++ ops'). split.
  - by rewrite Hops', Hops, (assoc app).
  - intros op [?|?]%elem_of_app; auto.
Qed.

Lemma writes_try {A} (m : M A) : writes_only P m -> writes_only P (try m).
Proof. intros Hm w. unfold try. specialize (Hm w). by destruct (m w). Qed.

Lemma writes_context {A} fm args (m : M A) :
  writes_only P m -> writes_only P (context fm args m).
Proof. intros Hm w. unfold context. specialize (Hm w). by destruct (m w). Qed.

Lemma writes_log_error m : writes_only P m -> writes_only P (log_error m).
Proof. intros Hm. apply writes_bind; [by apply writes_try|intros; apply writes_ret]. Qed.

Lemma writes_for_each {A} (l : list A) body :
  (forall x, writes_only P (body x)) -> writes_only P (for_each l body).
Proof.
  intros Hb. induction l as [|x l IH]; [apply writes_ret|]. by apply writes_bind.
Qed.

Lemma writes_query `{Env} {A} (q : nat -> DB -> res A) : writes_only P (query q).
Proof. apply writes_none. intros w. unfold query. by destruct (env_fault _). Qed.

Lemma writes_now `{Env} : writes_only P now.
Proof. by apply writes_none. Qed.

Lemma writes_exec `{Env} op : P op = true -> writes_only P (exec op).
Proof.
  intros Hop w. exists [op]. split; [|by intros op' ->%list_elem_of_singleton].
  unfold exec. cbv zeta. destruct (env_fault _); [|done|]; by case_match; [case_match|].
Qed.
End Rules.
#[export] Hint Resolve writes_ret writes_fail writes_lift writes_query writes_now : writes.

(** Walk through a computation down to its writes. *)
Ltac writes_step :=
  first
    [ progress eauto with writes
    | apply writes_try | apply writes_context | apply writes_log_error
    | apply writes_for_each; intros
    | apply writes_bind; [|intros]
    | apply writes_exec; reflexivity
    | case_match ].
Ltac solve_writes := repeat writes_step.
