(* ===== verification/Samples.v ===== *)
(** * Concrete databases and environments

    The inputs at which the theorems with hypotheses are applied: a cluster of
    two nodes and one service, a database that never fails and nobody else
    writes to, and nodes that do what they are told. *)

From Stdlib Require Import Strings.Byte.
From S2P Require Import Prelude Float64 Model Sql StoreInv Accounting Env NodeClient Quiet.

Definition empty_db : DB := mkDB ∅ ∅ ∅.

#[export] Instance quiet_env : Env := {
  env_fault _ := NoFault;
  env_now t := Z.of_nat t * time_second;
  env_rand t := repeat (match Byte.of_N (N.of_nat t mod 256) with Some b => b | None => x00 end) 16;
  env_rand_length t := repeat_length _ 16;
  env_scan _ _ l := l;
  env_scan_perm _ _ _ := Permutation_refl _;
  env_collate a b := String.leb a b;
  env_peers _ := [];
  env_float_oob _ := - 2 ^ 63
}.

#[export] Instance quiet_env_quiet : Quiet.
Proof. by constructor. Qed.

(** Nodes that create, start, stop and delete, and list nothing. *)
#[export] Instance obedient_nodes : NodeAnswers := {
  answer_create _ _ config :=
    Ok (mkContainer ("c-" +:+ cc_Name config) (cc_Name config) (cc_Image config) "created" 0);
  answer_start _ _ _ := Ok tt;
  answer_list _ _ := Ok [];
  answer_stop _ _ _ := Ok tt;
  answer_delete _ _ _ := Ok tt;
  answer_stats _ _ _ := Ok (mkContainerStats 350)
}.

Definition sample_node (id : string) (cpu_alloc mem_alloc : Z) : Node :=
  mkNode id (id +:+ ":9001") 4000 8192 cpu_alloc mem_alloc NodeReady 0 0 0.

Definition sample_autoscaling : AutoscalingConfig :=
  mkAutoscalingConfig true 1 5 (f_of_int 70) 30 60 2 2.

Definition sample_service (replicas version : Z) : Service :=
  mkService "web" "web" "nginx:1" replicas 500 512 version 1 0 DeploymentAvailable None
    sample_autoscaling None ServiceActive 0 0.

(** A workload of the service. *)
Definition sample_workload (id : string) (node container : option string)
    (desired actual : WorkloadState) (version : Z) : Workload :=
  mkWorkload id "web" node container "nginx:1" 500 512 version desired actual zero_time zero_time.

Definition sample_db (s : Service) (n1 n2 : Node) (ws : list Workload) : DB :=
  mkDB (list_to_map [(nd_ID n1, n1); (nd_ID n2, n2)])
    (list_to_map [(svc_ID s, s)])
    (list_to_map ((fun w => (wl_ID w, w)) <$> ws)).

Definition sample_world (db : DB) : World := mkWorld db 0 [] [] (mkMetrics 0 0 0 0).

(** The constraints of a concrete database are decided by evaluation. *)
Definition rows_ok {A} (key : A -> string) (ok : A -> bool) (t : gmap string A) : bool :=
  forallb (fun kv => (key kv.2 =s? kv.1) && ok kv.2) (map_to_list t).

Definition wf_check (db : DB) : bool :=
  rows_ok nd_ID node_row_ok (nodes db) && rows_ok svc_ID service_row_ok (services db) &&
  rows_ok wl_ID workload_row_ok (workloads db) &&
  forallb (fun kv => negb (name_taken kv.1 (svc_Name kv.2) db)) (map_to_list (services db)) &&
  forallb (fun kv => bool_decide (is_Some (services db !! wl_ServiceID kv.2)) &&
                     match wl_NodeID kv.2 with
                     | Some n => bool_decide (is_Some (nodes db !! n))
                     | None => true
                     end) (map_to_list (workloads db)).

Lemma forallb_rows {A} (f : string * A -> bool) (t : gmap string A) k x :
  forallb f (map_to_list t) = true -> t !! k = Some x -> f (k, x) = true.
Proof.
  rewrite forallb_forall. intros H Hx. apply H, list_elem_of_In. by apply elem_of_map_to_list.
Qed.

Lemma rows_ok_spec {A} (key : A -> string) ok (t : gmap string A) k x :
  rows_ok key ok t = true -> t !! k = Some x -> key x = k /\ ok x = true.
Proof. intros H Hx. pose proof (forallb_rows _ _ _ _ H Hx) as H'. cbn in H'. by guards. Qed.

Lemma wf_check_sound db : wf_check db = true -> WF db.
Proof.
  unfold wf_check. intros H. guards. destruct H as [[[[Hn Hs] Hw] Hnames] Hfk].
  assert (forall k w, workloads db !! k = Some w ->
    bool_decide (is_Some (services db !! wl_ServiceID w)) = true /\
    forall nid, wl_NodeID w = Some nid -> is_Some (nodes db !! nid)) as Hfk'.
  { intros k w Hkw. pose proof (forallb_rows _ _ _ _ Hfk Hkw) as Hb. cbn in Hb. guards.
    destruct Hb as [Hb1 Hb2]. split; [done|]. intros nid Hnid. rewrite Hnid in Hb2.
    by apply bool_decide_eq_true in Hb2. }
  constructor.
  - intros k n. by apply rows_ok_spec.
  - intros k s. by apply rows_ok_spec.
  - intros k1 s1 k2 s2 H1 H2 He. pose proof (forallb_rows _ _ _ _ Hnames H2) as Hb. cbn in Hb.
    guards. apply (proj1 (name_taken_false _ _ _) Hb _ _ H1 He).
  - intros k w. by apply rows_ok_spec.
  - intros k w Hkw. destruct (Hfk' k w Hkw) as [H _]. by apply bool_decide_eq_true in H.
  - intros k w nid Hkw. by apply (Hfk' k).
Qed.

Definition accounted_check (db : DB) : bool :=
  forallb (fun kv => (nd_CPUAllocated kv.2 =? reserved wl_CPURequestMillis kv.1 db) &&
                     (nd_MemoryAllocated kv.2 =? reserved wl_MemoryRequestMB kv.1 db))
    (map_to_list (nodes db)).

Lemma accounted_check_sound db : accounted_check db = true -> Accounted db.
Proof.
  intros H k n Hn. pose proof (forallb_rows _ _ _ _ H Hn) as Hb. cbn in Hb. by guards.
Qed.

Example sample_db_wf :
  wf_check (sample_db (sample_service 2 1) (sample_node "n1" 500 512) (sample_node "n2" 0 0)
    [sample_workload "w1" (Some "n1") (Some "c1") WorkloadScheduled WorkloadRunning 1]) = true.
Proof. vm_compute. reflexivity. Qed.
