(* ===== verification/Histories.v ===== *)
(** * Histories of the store

    The states the database can reach from empty tables by writes of the
    store, in any order and from any goroutine. *)

From S2P Require Import Prelude Float64 Model Sql StoreInv Accounting Env NodeClient Quiet.
From S2P Require Import Samples.

(** One successful write that the caller's discipline [P] admits. *)
Inductive store_step (P : DB -> StoreOp -> Prop) (db : DB) : DB -> Prop :=
  | store_write now op db' n :
      P db op -> apply_op now op db = Ok (db', n) -> store_step P db db'.

Definition reachable (P : DB -> StoreOp -> Prop) : DB -> Prop := rtc (store_step P) empty_db.

(** Workload operations in the states they are written for, and no node
    re-registered with less than it has promised. *)
Definition careful (db : DB) (op : StoreOp) : Prop :=
  disciplined db op /\ registration_fits db op.

Lemma reachable_ind_inv P (I : DB -> Prop) db :
  I empty_db -> (forall d d', I d -> store_step P d d' -> I d') -> reachable P db -> I db.
Proof.
  intros H0 Hs Hr. revert db Hr. apply (rtc_ind_r I); [done|]. intros d d' _ Hstep Hd. eauto.
Qed.

Lemma empty_wf : WF empty_db.
Proof. by apply wf_check_sound. Qed.

Lemma careful_invariant db :
  reachable careful db -> WF db /\ Accounted db /\ NoOvercommit db.
Proof.
  apply (reachable_ind_inv careful (fun db => WF db /\ Accounted db /\ NoOvercommit db)).
  - split_and!; [apply empty_wf|done..].
  - intros d d' (Hwf & Ha & Hno) [now op db' n [Hd Hr] Hop]. split_and!.
    + by eapply apply_op_wf.
    + by eapply apply_op_accounted.
    + by eapply apply_op_overcommit.
Qed.

(** C2: Every node's account is exact and covered by its capacity: after any
    careful history, what a node has promised is the sum of the requests of
    the workloads that occupy it, and that sum fits the node. *)
Theorem careful_history_accounts db k n :
  reachable careful db -> nodes db !! k = Some n ->
  nd_CPUAllocated n = reserved wl_CPURequestMillis k db /\
  nd_MemoryAllocated n = reserved wl_MemoryRequestMB k db /\
  reserved wl_CPURequestMillis k db <= nd_CPUCapacity n /\
  reserved wl_MemoryRequestMB k db <= nd_MemoryCapacity n.
Proof.
  intros (_ & Ha & Hno)%careful_invariant Hn.
  destruct (Ha k n Hn) as [Hc Hm], (Hno k n Hn). rewrite <- Hc, <- Hm. done.
Qed.

(** A history: a node and a service arrive, a workload is created and placed. *)
Definition placed_db : DB :=
  mkDB {[ "n1" := mkNode "n1" "n1:9001" 4000 8192 500 512 NodeReady 0 7 7 ]}
    {[ "web" := sample_service 2 1 ]}
    {[ "w1" := mkWorkload "w1" "web" (Some "n1") None "nginx:1" 500 512 1
                 WorkloadScheduled WorkloadPending zero_time 7 ]}.

Ltac by_computation := vm_compute; reflexivity.

Lemma placed_db_history : reachable careful placed_db.
Proof.
  eapply rtc_l.
  { eapply (store_write _ _ 7 (OpRegisterNode (mkNode "n1" "n1:9001" 4000 8192 0 0 NodeReady 0 0 0)));
      [by split|by_computation]. }
  eapply rtc_l.
  { eapply (store_write _ _ 7 (OpCreateService (sample_service 2 1))); [by split|by_computation]. }
  eapply rtc_l.
  { eapply (store_write _ _ 7 (OpCreateWorkload
      (sample_workload "w1" None None WorkloadPending WorkloadPending 1))); [by split|by_computation]. }
  eapply rtc_l.
  { eapply (store_write _ _ 7 (OpReserveNode "w1" "n1" 500 512)); [|by_computation].
    split; [|done]. intros w Hw. vm_compute in Hw. by injection Hw as <-. }
  match goal with |- rtc _ ?d _ => replace d with placed_db by by_computation end. apply rtc_refl.
Defined.

Lemma careful_history_accounts_witness :
  exists n, nodes placed_db !! "n1" = Some n /\
    nd_CPUAllocated n = reserved wl_CPURequestMillis "n1" placed_db.
Proof.
  eexists. split; [reflexivity|].
  apply (careful_history_accounts placed_db "n1"); [exact placed_db_history|reflexivity].
Defined.
