(* ===== verification/StoreSpec.v ===== *)
(** * What the store promises its callers

    The outcome of each transaction on a well-formed database, and what no
    sequence of writes can do to a service. *)

From S2P Require Import Prelude Float64 Model Sql StoreInv Accounting Env Logic Postgres.
From S2P Require Import Discipline Scheduler NodeClient Quiet Samples Histories.

(** ** Reservation *)

(** The node row of a reservation is valid when the workload fits. *)
Lemma reserved_row_ok now w n :
  node_row_ok n = true -> 0 < wl_CPURequestMillis w -> 0 < wl_MemoryRequestMB w ->
  feasible w n ->
  node_row_ok (with_allocation (fun a => a + wl_CPURequestMillis w)
                 (fun a => a + wl_MemoryRequestMB w) now n) = true.
Proof.
  intros Hok Hc Hm (_ & Hfc & Hfm). pose proof (node_row_bounds _ Hok).
  unfold node_row_ok in *. cbn. guards.
  destruct Hok as ((((? & [? ?]) & [? ?]) & _) & _).
  split_and!; try tauto; try lia; apply int4_spec; lia.
Qed.

Lemma placed_row_ok now nid w :
  varchar 64 nid = true -> workload_row_ok w = true ->
  workload_row_ok (with_state (Some nid) (wl_ContainerID w) WorkloadScheduled
                     (wl_ActualState w) now w) = true.
Proof. unfold workload_row_ok. intros Hn Hw. cbn. guards. naive_solver. Qed.

Lemma feasible_dec_spec w n :
  node_row_ok n = true ->
  negb (nd_Status n =s? NodeReady) = false /\
  (nd_CPUCapacity n -w nd_CPUAllocated n <? wl_CPURequestMillis w) = false /\
  (nd_MemoryCapacity n -w nd_MemoryAllocated n <? wl_MemoryRequestMB w) = false <->
  feasible w n.
Proof.
  intros Hok%node_row_bounds. unwrap. unfold feasible. guards. intuition lia.
Qed.

Lemma encode_requests w :
  workload_row_ok w = true ->
  encode_int4 [wl_CPURequestMillis w; wl_MemoryRequestMB w] = Ok tt.
Proof.
  intros Hok. unfold workload_row_ok in Hok. guards. unfold encode_int4. cbn.
  destruct Hok as [[[_ [Hc _]] [Hm _]] _]. by rewrite Hc, Hm.
Qed.

(** The database after a reservation. *)
Definition with_reservation (now : Z) (nid : string) (n : Node) (w : Workload) (db : DB) : DB :=
  mkDB
    (<[nid := with_allocation (fun a => a + wl_CPURequestMillis w)
                (fun a => a + wl_MemoryRequestMB w) now n]> (nodes db))
    (services db)
    (<[wl_ID w := with_state (Some nid) (wl_ContainerID w) WorkloadScheduled
                    (wl_ActualState w) now w]> (workloads db)).

Lemma reserve_granted now nid n w db :
  WF db -> nodes db !! nid = Some n -> workloads db !! wl_ID w = Some w -> feasible w n ->
  ReserveNodeForWorkload_tx now (wl_ID w) nid (wl_CPURequestMillis w) (wl_MemoryRequestMB w) db =
    Ok (with_reservation now nid n w db).
Proof.
  intros Hwf Hn Hw Hf.
  destruct (wf_node _ Hwf _ _ Hn) as [Hid Hok], (wf_workload _ Hwf _ _ Hw) as [_ Hwok].
  destruct (workload_requests_pos _ _ _ Hwf Hw) as [Hc Hm].
  pose proof (proj2 (feasible_dec_spec w n Hok) Hf) as (E1 & E2 & E3).
  unfold ReserveNodeForWorkload_tx. rewrite Hn, E1. cbv zeta. rewrite E2, E3.
  rewrite (encode_requests w Hwok). cbn [mbind res_bind].
  rewrite (update_node_hit _ _ _ n Hn) by by apply reserved_row_ok.
  cbn [wrapf mbind res_bind].
  rewrite (update_workload_hit _ _ _ _ w); [done|done|done|].
  apply placed_row_ok; [|done]. unfold node_row_ok in Hok. guards. rewrite <- Hid. tauto.
Qed.

(** C8: A request is granted exactly when the locked node is ready and has room,
    and a grant changes these two rows and nothing else. *)
Theorem reserve_decides now nid n w db :
  WF db -> nodes db !! nid = Some n -> workloads db !! wl_ID w = Some w ->
  match ReserveNodeForWorkload_tx now (wl_ID w) nid (wl_CPURequestMillis w)
          (wl_MemoryRequestMB w) db with
  | Ok db' => feasible w n /\ db' = with_reservation now nid n w db
  | Err _ => ~ feasible w n
  end.
Proof.
  intros Hwf Hn Hw.
  destruct (ReserveNodeForWorkload_tx now (wl_ID w) nid _ _ db) as [db'|e] eqn:Hr.
  - assert (feasible w n) as Hf.
    { apply reserve_tx_inv in Hr as (n1 & w1 & ? & ? & ? & ? & ? & _). simplify_eq.
      destruct (wf_node _ Hwf _ _ Hn) as [_ Hok%node_row_bounds]. unwrap. done. }
    split; [done|]. rewrite (reserve_granted now nid n w db) in Hr by done. by injection Hr as <-.
  - intros Hf. by rewrite (reserve_granted now nid n w db) in Hr by done.
Qed.

(** A cluster with one workload waiting and one running. *)
Definition busy_node : Node := sample_node "n1" 500 512.
Definition waiting_workload : Workload :=
  sample_workload "w2" None None WorkloadPending WorkloadPending 1.
Definition running_workload : Workload :=
  sample_workload "w1" (Some "n1") (Some "c1") WorkloadScheduled WorkloadRunning 1.
Definition busy_db : DB :=
  sample_db (sample_service 2 1) busy_node (sample_node "n2" 0 0)
    [running_workload; waiting_workload].

Lemma busy_db_wf : WF busy_db.
Proof. apply wf_check_sound. by_computation. Qed.

Lemma reserve_decides_witness :
  exists db', ReserveNodeForWorkload_tx 9 "w2" "n1" 500 512 busy_db = Ok db'.
Proof.
  pose proof (reserve_decides 9 "n1" busy_node waiting_workload busy_db busy_db_wf
    eq_refl eq_refl) as H.
  cbn [wl_ID waiting_workload sample_workload wl_CPURequestMillis wl_MemoryRequestMB] in H.
  destruct (ReserveNodeForWorkload_tx 9 "w2" "n1" 500 512 busy_db) as [db'|e].
  - by exists db'.
  - destruct H. vm_compute. by split_and!.
Defined.

(** ** Release *)

(** Releasing twice to the same state releases once. *)
Lemma released_done db wid state now db' :
  released db wid state now db' ->
  exists w', workloads db' !! wid = Some w' /\ wl_ActualState w' = state.
Proof. intros (w & w' & _ & Hw' & Hst & _)%released_row. eauto. Qed.

(** C20: A repeated failure report, or a repeated shutdown, gives nothing back a
    second time: the transaction is idempotent. *)
Theorem release_idempotent t1 t2 wid db db1 :
  (MarkWorkloadFailedAndReleaseResources_tx t1 wid db = Ok db1 ->
   MarkWorkloadFailedAndReleaseResources_tx t2 wid db1 = Ok db1) /\
  (MarkWorkloadStoppedAndReleaseResources_tx t1 wid db = Ok db1 ->
   MarkWorkloadStoppedAndReleaseResources_tx t2 wid db1 = Ok db1).
Proof.
  split.
  - intros (w & Hw & Hst)%failed_tx_inv%released_done.
    unfold MarkWorkloadFailedAndReleaseResources_tx. by rewrite Hw, Hst.
  - intros (w & Hw & Hst)%stopped_tx_inv%released_done.
    unfold MarkWorkloadStoppedAndReleaseResources_tx. by rewrite Hw, Hst.
Qed.

Definition released_busy_db : DB :=
  sample_db (sample_service 2 1)
    (mkNode "n1" "n1:9001" 4000 8192 0 0 NodeReady 0 0 9) (sample_node "n2" 0 0)
    [mkWorkload "w1" "web" (Some "n1") (Some "c1") "nginx:1" 500 512 1
       WorkloadScheduled WorkloadFailed zero_time 9; waiting_workload].

Lemma release_idempotent_witness :
  MarkWorkloadFailedAndReleaseResources_tx 10 "w1" released_busy_db = Ok released_busy_db.
Proof.
  apply (release_idempotent 9 10 "w1" busy_db). by_computation.
Defined.

(** ** Recovery *)

Lemma recovered_row_ok now w : workload_row_ok w = true -> workload_row_ok (recovered now w) = true.
Proof. unfold workload_row_ok. cbn. intros H. guards. tauto. Qed.

(** The reset loop does not fail on rows that satisfy the constraints. *)
Lemma reset_loop_total now l db :
  (forall k w, workloads db !! k = Some w -> workload_row_ok w = true) ->
  exists db', foldM (reset_workload now) l db = Ok db'.
Proof.
  revert db. induction l as [|[k w] l IH]; intros db Hok; [by exists db|].
  cbn [foldM]. assert (exists db1, reset_workload now (k, w) db = Ok db1 /\
    forall k w, workloads db1 !! k = Some w -> workload_row_ok w = true) as (db1 & H1 & Hok1).
  { unfold reset_workload. destruct (workloads db !! k) as [w0|] eqn:Hw.
    - rewrite (update_workload_hit _ _ _ _ w0) by
        (done || exact (recovered_row_ok now w0 (Hok _ _ Hw))).
      eexists. split; [done|]. cbn. intros k' w' [[<- <-]|[_ ?]]%lookup_insert_Some; eauto.
      by apply recovered_row_ok, (Hok k).
    - rewrite update_workload_miss by (cbn; congruence). eauto. }
  rewrite H1. by apply IH.
Qed.

Lemma recover_runs now nid db :
  WF db -> exists db', RecoverWorkloadsFromNode_tx now nid db = Ok db'.
Proof.
  intros Hwf. unfold RecoverWorkloadsFromNode_tx.
  destruct (reset_loop_total now
    (filter (fun kv => occupies nid kv.2) (map_to_list (workloads db))) db) as [db1 H1].
  { intros k w Hw. by apply (wf_workload _ Hwf k). }
  rewrite H1. cbn [mbind res_bind].
  destruct (nodes db1 !! nid) as [n|] eqn:Hn; [|rewrite update_node_miss by done; by eexists].
  assert (nodes db1 = nodes db) as Hnodes.
  { eapply (foldM_inv (fun d => nodes d = nodes db)); [|done|exact H1].
    intros [k w] d d' _ Hd Hs. unfold reset_workload in Hs. by inv_ok. }
  rewrite Hnodes in Hn. destruct (wf_node _ Hwf _ _ Hn) as [_ Hok].
  rewrite (update_node_hit _ _ _ n); [by eexists|congruence|].
  unfold node_row_ok in *. cbn. guards. tauto.
Qed.

(** C9: Recovering a node cannot fail on a well-formed database, whatever the node
    identifier; afterwards nothing occupies the node, the workloads that did
    are pending on no node, its account is empty, and nothing else changed. *)
Theorem recover_total now nid db :
  WF db ->
  exists db', RecoverWorkloadsFromNode_tx now nid db = Ok db' /\
    services db' = services db /\
    (forall k, workloads db' !! k =
       (fun w => if occupies nid w then recovered now w else w) <$> workloads db !! k) /\
    (forall k, nodes db' !! k =
       if decide (k = nid) then with_allocation (fun _ => 0) (fun _ => 0) now <$> nodes db !! k
       else nodes db !! k) /\
    (forall f, reserved f nid db' = 0).
Proof.
  intros Hwf. destruct (recover_runs now nid db Hwf) as [db' Hdb'].
  exists db'. split; [done|]. pose proof (recover_tx_inv _ _ _ _ Hdb') as (Hs & HW & HN).
  split_and!; [done..|]. intros f. apply msum_zero. intros k w Hw. rewrite HW in Hw.
  apply fmap_Some in Hw as (w0 & _ & ->). unfold share.
  destruct (occupies nid w0) eqn:Ho; [done|by rewrite Ho].
Qed.

Lemma recover_total_witness :
  exists db', RecoverWorkloadsFromNode_tx 9 "n1" busy_db = Ok db' /\
    reserved wl_CPURequestMillis "n1" db' = 0.
Proof.
  destruct (recover_total 9 "n1" busy_db busy_db_wf) as (db' & H & _ & _ & _ & Hr).
  exists db'. by split.
Defined.

(** ** Services *)

(** The cast of [UpdateService] leaves a string that fits alone. *)
Lemma varchar_cast_fits n s : char_length s <= Z.of_nat n -> varchar_cast n s = s.
Proof.
  revert n. induction s as [|c s IH]; intros n Hn; [done|]. cbn in *.
  destruct (is_continuation c).
  - by rewrite IH.
  - pose proof (char_length_nonneg s). destruct n as [|n]; [lia|]. rewrite IH by lia. done.
Qed.

Lemma varchar_cast_id s : varchar 512 s = true -> varchar_cast 512 s = s.
Proof. unfold varchar. intros H. guards. by apply varchar_cast_fits. Qed.

(** The life of a service: active, then deleting, then deleted. *)
Definition service_moves (s s' : ServiceStatus) : Prop :=
  s' = s \/ (s = ServiceActive /\ s' = ServiceDeleting) \/
  (s = ServiceDeleting /\ s' = ServiceDeleted).

(** What one write leaves of a service: a row keeps its identity, its rollout
    limits and its autoscaling policy, and moves along its life. *)
Record service_after (s s' : Service) : Prop := {
  sa_id : svc_ID s' = svc_ID s;
  sa_surge : svc_MaxSurge s' = svc_MaxSurge s;
  sa_unavailable : svc_MaxUnavailable s' = svc_MaxUnavailable s;
  sa_autoscaling : svc_Autoscaling s' = svc_Autoscaling s;
  sa_moves : service_moves (svc_Status s) (svc_Status s')
}.

Lemma service_after_refl s : service_after s s.
Proof. constructor; try done. by left. Qed.

Lemma updated_service_after k0 g f t t' n k s :
  updated service_row_ok k0 g f t t' n -> t !! k = Some s ->
  (forall r, g r = true -> service_after r (f r)) ->
  exists s', t' !! k = Some s' /\ service_after s s'.
Proof.
  intros [_|r Hr Hg _] Hs Hf; [eauto using service_after_refl|].
  destruct (decide (k = k0)) as [->|Hne].
  - rewrite lookup_insert_eq. simplify_eq. eauto.
  - rewrite lookup_insert_ne by done. eauto using service_after_refl.
Qed.

(** Writes that touch no service. *)
Lemma same_services_after db db' k s :
  services db' = services db -> services db !! k = Some s ->
  exists s', services db' !! k = Some s' /\ service_after s s'.
Proof. intros -> Hs. eauto using service_after_refl. Qed.

Lemma workload_tx_services now op db db' n :
  (exists wid, op = OpMarkFailedAndRelease wid \/ op = OpMarkStoppedAndRelease wid) ->
  apply_op now op db = Ok (db', n) -> services db' = services db.
Proof.
  intros [wid [-> | ->]] H; cbn in H; inv_ok.
  - by apply failed_tx_inv in H as [| |].
  - by apply stopped_tx_inv in H as [| |].
Qed.

Lemma apply_op_service now op db db' n k s :
  apply_op now op db = Ok (db', n) -> services db !! k = Some s ->
  exists s', services db' !! k = Some s' /\ service_after s s'.
Proof.
  intros H Hs. destruct op; cbn in H; unfold_sql H;
    try (by inv_ok; eapply same_services_after);
    try (inv_ok; eapply updated_service_after;
         [eassumption|exact Hs|]; intros r Hg; guards; constructor; cbn; try done; unfold service_moves; by auto).
  - unfold RegisterNode_sql in H. inv_ok. by eapply same_services_after.
  - apply create_service_shape in H as (_ & _ & Hnew & ->).
    rewrite lookup_insert_ne by congruence. eauto using service_after_refl.
  - apply update_service_shape in H as (_ & _ & Hu).
    eapply updated_service_after; [exact Hu|exact Hs|]. intros r _. constructor; try done. by left.
  - unfold CreateWorkload_sql in H. inv_ok. destruct (workloads db !! wl_ID w); [done|].
    inv_ok. by eapply same_services_after.
  - inv_ok. apply reserve_tx_inv in H as (? & ? & _ & _ & _ & _ & _ & _ & _ & ->).
    by eapply same_services_after.
  - eapply same_services_after; [|exact Hs].
    eapply (workload_tx_services _ (OpMarkFailedAndRelease workloadID)); eauto.
  - eapply same_services_after; [|exact Hs].
    eapply (workload_tx_services _ (OpMarkStoppedAndRelease workloadID)); eauto.
  - inv_ok. apply recover_tx_inv in H as (? & _). by eapply same_services_after.
Qed.

(** Along the life of a service: how far it is. *)
Definition service_stage (s : ServiceStatus) : Z :=
  if s =s? ServiceDeleted then 2 else if s =s? ServiceDeleting then 1 else 0.

Lemma service_moves_stage s s' : service_moves s s' -> service_stage s <= service_stage s'.
Proof. intros [->|[[-> ->]|[-> ->]]]; [lia|by vm_compute..]. Qed.

Lemma history_service P db db' k s :
  rtc (store_step P) db db' -> services db !! k = Some s ->
  exists s', services db' !! k = Some s' /\ svc_MaxSurge s' = svc_MaxSurge s /\
    svc_MaxUnavailable s' = svc_MaxUnavailable s /\ svc_Autoscaling s' = svc_Autoscaling s /\
    service_stage (svc_Status s) <= service_stage (svc_Status s').
Proof.
  intros Hr. revert s. induction Hr as [db|db d1 db' [now op d1' n _ Hop] _ IH]; intros s Hs.
  - exists s. split_and!; done.
  - destruct (apply_op_service _ _ _ _ _ _ _ Hop Hs) as (s1 & Hs1 & [_ H1 H2 H3 H4]).
    destruct (IH _ Hs1) as (s' & Hs' & ? & ? & ? & Hst). exists s'.
    apply service_moves_stage in H4. split_and!; [done|congruence..|lia].
Qed.

(** C19: A service is never resurrected: no sequence of writes brings a deleted
    service back, nor a deleting one back to active, and no row disappears. *)
Theorem service_life_is_one_way db db' k s :
  rtc (store_step (fun _ _ => True)) db db' -> services db !! k = Some s ->
  exists s', services db' !! k = Some s' /\
    (svc_Status s = ServiceDeleted -> svc_Status s' = ServiceDeleted) /\
    (svc_Status s = ServiceDeleting ->
       svc_Status s' = ServiceDeleting \/ svc_Status s' = ServiceDeleted).
Proof.
  intros Hr Hs. destruct (history_service _ _ _ _ _ Hr Hs) as (s' & Hs' & _ & _ & _ & Hst).
  exists s'. split; [done|]. unfold service_stage in Hst.
  split; intros He; rewrite He in Hst; cbn in Hst;
    destruct (String.eqb_spec (svc_Status s') ServiceDeleted);
    destruct (String.eqb_spec (svc_Status s') ServiceDeleting); cbn in Hst; auto; lia.
Qed.

Definition deleting_service : Service :=
  with_service_status ServiceDeleting 3 (sample_service 2 1).
Definition deleting_db : DB := sample_db deleting_service busy_node (sample_node "n2" 0 0) [].
Definition deleted_db : DB :=
  mkDB (nodes deleting_db) {[ "web" := with_service_status ServiceDeleted 9 deleting_service ]} ∅.

Lemma deleting_history : rtc (store_step (fun _ _ => True)) deleting_db deleted_db.
Proof.
  apply rtc_once. eapply (store_write _ _ 9 (OpMarkServiceDeleted "web")); [done|]. by_computation.
Defined.

Lemma service_life_is_one_way_witness :
  exists s', services deleted_db !! "web" = Some s' /\
    (svc_Status s' = ServiceDeleting \/ svc_Status s' = ServiceDeleted).
Proof.
  destruct (service_life_is_one_way deleting_db deleted_db "web" deleting_service
    deleting_history eq_refl) as (s' & Hs' & _ & H).
  exists s'. split; [exact Hs'|]. apply H. reflexivity.
Defined.

(** C25: The rollout limits and the autoscaling policy of a service are those it
    was created with, whatever is written later: no statement sets these
    columns, the one of [UpdateService] included. *)
Theorem rollout_limits_never_change db db' k s :
  rtc (store_step (fun _ _ => True)) db db' -> services db !! k = Some s ->
  exists s', services db' !! k = Some s' /\
    svc_MaxSurge s' = svc_MaxSurge s /\ svc_MaxUnavailable s' = svc_MaxUnavailable s /\
    svc_Autoscaling s' = svc_Autoscaling s.
Proof.
  intros Hr Hs. destruct (history_service _ _ _ _ _ Hr Hs) as (s' & Hs' & ? & ? & ? & _). eauto.
Qed.

(** An update that asks for a surge of 3. *)
Definition surge_request : Service :=
  mkService "web" "web" "nginx:2" 2 500 512 1 3 2 DeploymentAvailable None
    sample_autoscaling None ServiceActive 0 0.
Definition surged_db : DB :=
  mkDB (nodes busy_db)
    {[ "web" := UpdateService_row 9 surge_request (sample_service 2 1) ]} (workloads busy_db).

Lemma surge_history : rtc (store_step (fun _ _ => True)) busy_db surged_db.
Proof.
  apply rtc_once. eapply (store_write _ _ 9 (OpUpdateService surge_request)); [done|]. by_computation.
Defined.

Lemma rollout_limits_never_change_witness :
  exists s', services surged_db !! "web" = Some s' /\ svc_MaxSurge s' = 1 /\
    svc_Image s' = "nginx:2".
Proof.
  destruct (rollout_limits_never_change busy_db surged_db "web" (sample_service 2 1)
    surge_history eq_refl) as (s' & Hs' & Hm & _).
  exists s'. split; [exact Hs'|]. split; [exact Hm|]. vm_compute in Hs'. by injection Hs' as <-.
Defined.

(** C18: A successful update of an existing service, with an image of at most 512
    characters, starts a rollout exactly when it changes the image, and a
    rollout is a new version: the version grows by one, the status is
    progressing and the rollout starts now; otherwise all three are kept.  The
    requested name, image, replicas and resources are written. *)
Theorem update_service_starts_rollout now req old db db' n :
  services db !! svc_ID req = Some old -> varchar 512 (svc_Image req) = true ->
  UpdateService_sql now req db = Ok (db', n) ->
  exists s, services db' !! svc_ID req = Some s /\ n = 1 /\
    svc_Name s = svc_Name req /\ svc_Image s = svc_Image req /\
    svc_DesiredReplicas s = svc_DesiredReplicas req /\
    svc_CPURequestMillis s = svc_CPURequestMillis req /\
    svc_MemoryRequestMB s = svc_MemoryRequestMB req /\
    (svc_Image req <> svc_Image old ->
       svc_DeploymentVersion s = svc_DeploymentVersion old + 1 /\
       svc_DeploymentStatus s = DeploymentProgressing /\
       svc_DeploymentStartedAt s = Some now) /\
    (svc_Image req = svc_Image old ->
       svc_DeploymentVersion s = svc_DeploymentVersion old /\
       svc_DeploymentStatus s = svc_DeploymentStatus old /\
       svc_DeploymentStartedAt s = svc_DeploymentStartedAt old).
Proof.
  intros Hold Himg H. apply update_service_shape in H as (_ & _ & Hu).
  destruct Hu as [Hskip|r Hr _ _]; [by specialize (Hskip _ Hold)|]. simplify_eq.
  rewrite lookup_insert_eq. eexists. split; [done|]. cbn.
  assert (varchar_cast 512 (svc_Image req) = svc_Image req) as -> by by apply varchar_cast_id.
  split_and!; try done.
  - intros Hne. assert ((svc_Image old =s? svc_Image req) = false) as ->; [|done].
    apply String.eqb_neq. congruence.
  - intros ->. by rewrite String.eqb_refl.
Qed.

Lemma update_service_starts_rollout_witness :
  exists s, services surged_db !! "web" = Some s /\ svc_DeploymentVersion s = 2.
Proof.
  destruct (update_service_starts_rollout 9 surge_request (sample_service 2 1) busy_db surged_db 1)
    as (s & Hs & _ & _ & _ & _ & _ & _ & H & _); [by_computation..|].
  exists s. split; [exact Hs|]. apply H. by vm_compute.
Defined.
