(* ===== verification/SchedulerSpec.v ===== *)
(** * What the scheduler promises

    [Schedule] finds a node whenever one has room, never panics, and takes the
    first of the best; [ScheduleWorkload] then gets its reservation. *)

From S2P Require Import Prelude Float64 Model Sql StoreInv Accounting Env Logic Postgres.
From S2P Require Import Discipline Scheduler NodeClient Quiet Samples Histories StoreSpec.

(** A split of the candidates comes from a split of the nodes. *)
Lemma FilterNodes_split w ns n before after :
  FilterNodes w ns = before ++ n :: after ->
  exists before' after', ns = before' ++ n :: after' /\ FilterNodes w before' = before.
Proof.
  revert before. induction ns as [|m ns IH]; intros before H; [by destruct before|].
  destruct (FilterNodes w (m :: ns)) as [|x l] eqn:Hm; [by destruct before|].
  assert (FilterNodes w (m :: ns) = FilterNodes w ns \/
    (forall l, FilterNodes w (m :: l) = m :: FilterNodes w l)) as Hstep.
  { cbn. repeat case_match; auto. }
  assert (forall l, FilterNodes w (m :: ns) = FilterNodes w ns ->
    FilterNodes w (m :: l) = FilterNodes w l) as Hskip.
  { cbn. intros l'. repeat case_match; try done. intros He.
    pose proof (f_equal length He). cbn in *. lia. }
  destruct Hstep as [Hs|Hs].
  - destruct (IH before) as (b & a & -> & Hb); [congruence|].
    exists (m :: b), a. split; [done|]. by rewrite Hskip.
  - rewrite Hs in Hm. injection Hm as <- <-. destruct before as [|y before]; cbn in H.
    + injection H as -> <-. by exists [], ns.
    + injection H as -> H. destruct (IH _ H) as (b & a & -> & Hb).
      exists (y :: b), a. split; [done|]. by rewrite Hs, Hb.
Qed.

(** The contract of placement: the first of the ready nodes with room that no
    other such node outscores, or the error that there is none. *)
Definition placement (w : Workload) (ns : list Node) (r : res Node) : Prop :=
  match r with
  | Ok n =>
      feasible w n /\
      (forall m, m ∈ ns -> feasible w m -> f_lt (scoreNode w n) (scoreNode w m) = false) /\
      exists before after, ns = before ++ n :: after /\
        forall m, m ∈ before -> feasible w m -> f_le (scoreNode w n) (scoreNode w m) = false
  | Err e =>
      e = Errorf "no suitable node found for workload %q" [AStr (wl_ID w)] /\
      forall m, m ∈ ns -> ~ feasible w m
  end.

Lemma Schedule_placement w ns :
  (forall m, m ∈ ns -> node_row_ok m = true) -> placement w ns (Schedule w ns).
Proof.
  intros Hok. unfold Schedule, placement.
  pose proof (fun n => elem_of_FilterNodes w ns n Hok) as Hel.
  pose proof (FilterNodes_split w ns) as Hsplit.
  destruct (FilterNodes w ns) as [|c l]; cbn [length].
  - split; [done|]. intros m Hm Hf. by apply (not_elem_of_nil m), Hel.
  - cbn [SelectBestNode]. replace (Z.of_nat (S (length l)) =? 0) with false
      by (symmetry; apply Z.eqb_neq; lia).
    edestruct (select_loop_spec w [] (c :: l) c f_neg_inf) as [(b & a & Heq & Hfirst) Hbest].
    { exists [], l. split; [done|]. by intros m ?%not_elem_of_nil. }
    { by right. }
    { by intros m ?%not_elem_of_nil. }
    set (n := select_loop w (c :: l) c f_neg_inf) in *. cbn [app] in *.
    destruct (Hsplit n b a Heq) as (b' & a' & -> & Hb).
    split; [apply Hel; rewrite Heq; set_solver|]. split.
    { intros m Hm Hfm. by apply Hbest, Hel. }
    exists b', a'. split; [done|]. intros m Hm Hfm. apply Hfirst. rewrite <- Hb.
    apply elem_of_FilterNodes; [|done]. intros m' Hm'. apply Hok. set_solver.
Qed.

(** C5: Placement: the first of the ready nodes with room that no other such node
    outscores; an error exactly when there is none, and never a panic. *)
Theorem Schedule_spec w ns :
  (forall m, m ∈ ns -> node_row_ok m = true) -> placement w ns (Schedule w ns).
Proof. apply Schedule_placement. Qed.

Lemma Schedule_spec_witness :
  Schedule waiting_workload [sample_node "n1" 500 512; sample_node "n2" 0 0] =
    Ok (sample_node "n2" 0 0) /\
  feasible waiting_workload (sample_node "n2" 0 0).
Proof.
  pose proof (Schedule_spec waiting_workload [sample_node "n1" 500 512; sample_node "n2" 0 0]) as H.
  assert (Schedule waiting_workload [sample_node "n1" 500 512; sample_node "n2" 0 0] =
    Ok (sample_node "n2" 0 0)) as He by by_computation.
  split; [reflexivity|]. rewrite He in H. apply H.
  intros m [->|[->|[]%not_elem_of_nil]%elem_of_cons]%elem_of_cons; by_computation.
Defined.

(** C13: In an undisturbed run a pending workload is placed exactly when some node
    is ready with room for it: on the node [Schedule] picks, whose account
    grows by the request.  Otherwise the call fails and changes nothing. *)
Theorem ScheduleWorkload_places `{Quiet} wl w :
  WF (world_db w) -> workloads (world_db w) !! wl_ID wl = Some wl ->
  wp (ScheduleWorkload wl) (fun r w' =>
    match r with
    | Ok _ =>
        exists n t, Schedule wl (all_nodes (world_tick w) (world_db w)) = Ok n /\
          feasible wl n /\
          workloads (world_db w') !! wl_ID wl =
            Some (with_state (Some (nd_ID n)) (wl_ContainerID wl) WorkloadScheduled
                    (wl_ActualState wl) t wl) /\
          nodes (world_db w') !! nd_ID n =
            Some (with_allocation (fun a => a + wl_CPURequestMillis wl)
                    (fun a => a + wl_MemoryRequestMB wl) t n)
    | Err _ =>
        (forall n, nodes (world_db w) !! nd_ID n = Some n -> ~ feasible wl n) /\
        world_db w' = world_db w
    end) w.
Proof.
  intros Hwf Hwl. unfold ScheduleWorkload, ListNodes. do 4 wp_step. cbn [wrapf].
  pose proof (Schedule_placement wl (all_nodes (world_tick w) (world_db w))) as Hs.
  assert (forall m, m ∈ all_nodes (world_tick w) (world_db w) ->
    nodes (world_db w) !! nd_ID m = Some m) as Hin by by intros m ?%elem_of_all_nodes.
  specialize (Hs ltac:(intros m Hm; by apply (wf_node _ Hwf (nd_ID m)), Hin)).
  wp_step. unfold wp at 1, lift. cbn.
  destruct (Schedule wl _) as [n|e] eqn:HS; cbn.
  - destruct Hs as (Hf & _ & before & after & Hsplit & _).
    assert (nodes (world_db w) !! nd_ID n = Some n) as Hn.
    { apply Hin. rewrite Hsplit. set_solver. }
    unfold ReserveNodeForWorkload. do 3 wp_step. cbn [apply_op world_db tick set_db world_tick].
    pose proof (reserve_granted (env_now (S (world_tick w))) (nd_ID n) n wl (world_db w)
      Hwf Hn Hwl Hf) as Hr.
    unfold transaction. rewrite Hr. cbn. exists n, (env_now (S (world_tick w))).
    by rewrite !lookup_insert_eq.
  - split; [|done]. intros n Hn. apply Hs. by apply elem_of_all_nodes.
Qed.

Lemma ScheduleWorkload_places_witness :
  exists t n, workloads (world_db (ScheduleWorkload waiting_workload (sample_world busy_db)).2) !! "w2" =
    Some (with_state (Some (nd_ID n)) None WorkloadScheduled WorkloadPending t waiting_workload).
Proof.
  pose proof (ScheduleWorkload_places waiting_workload (sample_world busy_db) busy_db_wf eq_refl) as H.
  unfold wp in H.
  assert ((ScheduleWorkload waiting_workload (sample_world busy_db)).1 = Ok tt) as He by by_computation.
  rewrite He in H. destruct H as (n & t & _ & _ & Hw & _). exists t, n. exact Hw.
Defined.
