(* ===== verification/Reconciler.v ===== *)
(** * internal/reconciler: the executor, the runtime reconciler, the loop *)

From S2P Require Import Prelude Float64 Model Sql StoreInv Accounting Env Logic Postgres.
From S2P Require Import Scheduler Controllers NodeClient.

(** ** executor.go *)

Section Executor.
Context `{Env} `{NodeClient}.

Definition Execute (workload : Workload) (node : Node) : M unit :=
  if negb (wl_DesiredState workload =w? WorkloadScheduled) then mret tt
  else
    let containerName := "workload-" +:+ wl_ID workload in
    container ← context "create container: %w" []
      (CreateContainer (nd_Address node)
         (mkContainerConfig containerName (wl_Image workload)
            (wl_CPURequestMillis workload) (wl_MemoryRequestMB workload)));
    started ← try (StartContainer (nd_Address node) (ct_ID container));
    match started with
    | Err err =>
        context "persist failed workload: %w" []
          (MarkWorkloadFailedAndReleaseResources (wl_ID workload)) ;;
        fail (Wrapf "start container: %w" [] err)
    | Ok _ =>
        context "persist running workload: %w" []
          (MarkWorkloadRunning (wl_ID workload) (ct_ID container))
    end.

Definition Stop (workload : Workload) (node : Node) : M unit :=
  if negb (wl_DesiredState workload =w? WorkloadStopped) then mret tt
  else if wl_ActualState workload =w? WorkloadStopped then mret tt
  else
    match wl_ContainerID workload with
    | None => MarkWorkloadStoppedAndReleaseResources (wl_ID workload)
    | Some containerID =>
        context "stop container %q: %w" [AStr containerID]
          (StopContainer (nd_Address node) containerID) ;;
        context "delete container %q: %w" [AStr containerID]
          (DeleteContainer (nd_Address node) containerID) ;;
        context "persist stopped workload: %w" []
          (MarkWorkloadStoppedAndReleaseResources (wl_ID workload))
    end.
End Executor.

(** ** runtime_reconciler.go *)

Definition containerState (status : string) : WorkloadState :=
  if status =s? "running" then WorkloadRunning
  else if status =s? "created" then WorkloadScheduled
  else if (status =s? "exited") || (status =s? "dead") then WorkloadFailed
  else WorkloadFailed.

Section Runtime.
Context `{Env} `{NodeClient}.

(** Step 3, for one container. *)
Definition reconcile_container (node : Node) (container : Container) : M unit :=
  tracked ← try (GetWorkloadByContainerID (ct_ID container));
  match tracked with
  | Err _ => mret tt
  | Ok workload =>
      if (wl_DesiredState workload =w? WorkloadStopped) &&
         negb (wl_ActualState workload =w? WorkloadStopped) then
        stopped ← try (StopContainer (nd_Address node) (ct_ID container));
        match stopped with
        | Err _ => mret tt
        | Ok _ => UpdateWorkloadActualState (wl_ID workload) WorkloadStopped
        end
      else
        let state := containerState (ct_Status container) in
        if wl_ActualState workload =w? state then mret tt
        else if state =w? WorkloadFailed then
          MarkWorkloadFailedAndReleaseResources (wl_ID workload) ;;
          WorkloadFailed_inc
        else UpdateWorkloadActualState (wl_ID workload) state
  end.

(** Step 4, for one workload of the node. *)
Definition reconcile_missing (existingContainers : gset string) (workload : Workload) : M unit :=
  match wl_ContainerID workload with
  | None => mret tt
  | Some containerID =>
      if negb (wl_ActualState workload =w? WorkloadRunning) &&
         negb (wl_ActualState workload =w? WorkloadScheduled) then mret tt
      else if bool_decide (containerID ∈ existingContainers) then mret tt
      else
        context "mark missing workload failed: %w" []
          (MarkWorkloadFailedAndReleaseResources (wl_ID workload)) ;;
        ContainerMissing ;;
        WorkloadFailed_inc
  end.

Definition ReconcileNode (node : Node) : M unit :=
  containers ← ListContainers (nd_Address node);
  let existingContainers : gset string := list_to_set (ct_ID <$> containers) in
  for_each containers (reconcile_container node) ;;
  workloads ← ListWorkloadsByNode (nd_ID node);
  for_each workloads (reconcile_missing existingContainers).
End Runtime.

(** ** reconciler.go *)

Section Loop.
Context `{Env} `{NodeClient}.

(** One workload of [executeScheduledWorkloads]. *)
Definition execute_workload (workload : Workload) : M unit :=
  let on_node (nodeID : string) : M unit :=
    found ← try (GetNode nodeID);
    match found with
    | Err _ => mret tt
    | Ok node =>
        if wl_DesiredState workload =w? WorkloadStopped
        then log_error (Stop workload node)
        else log_error (Execute workload node)
    end in
  if wl_DesiredState workload =w? WorkloadStopped then
    match wl_NodeID workload with
    | None => log_error (Stop workload zero_node)
    | Some nodeID => on_node nodeID
    end
  else if negb (wl_DesiredState workload =w? WorkloadScheduled) ||
          (negb (wl_ActualState workload =w? WorkloadPending) &&
           negb (wl_ActualState workload =w? WorkloadScheduled)) then mret tt
  else
    match wl_NodeID workload with
    | None => mret tt
    | Some nodeID => on_node nodeID
    end.

Definition executeScheduledWorkloads (service : Service) : M unit :=
  workloads ← ListWorkloadsByService (svc_ID service);
  for_each workloads execute_workload.

Definition schedule_workload (service : Service) (workload : Workload) : M unit :=
  if negb (wl_ActualState workload =w? WorkloadPending) then mret tt
  else
    scheduled ← (if wl_DesiredState workload =w? WorkloadPending
                 then try (ScheduleWorkload workload) else mret (Ok tt));
    match scheduled with
    | Err _ => mret tt
    | Ok _ => log_error (executeScheduledWorkloads service)
    end.

Definition schedulePendingWorkloads (service : Service) : M unit :=
  workloads ← ListWorkloadsByService (svc_ID service);
  for_each workloads (schedule_workload service).

Definition reconcile_node (node : Node) : M unit :=
  if nd_Status node =s? NodeUnhealthy then log_error (RecoverWorkloadsFromNode (nd_ID node))
  else if negb (nd_Status node =s? NodeReady) then mret tt
  else log_error (ReconcileNode node).

Definition reconcile_service (timeout : Z) (service : Service) : M unit :=
  if svc_Status service =s? ServiceDeleting then
    log_error (Deletion_ReconcileService service) ;;
    log_error (executeScheduledWorkloads service)
  else if negb (svc_Status service =s? ServiceActive) then mret tt
  else
    deployed ← try (Deployment_ReconcileService service);
    match deployed with
    | Err _ => mret tt
    | Ok _ =>
        replicated ← try (Replica_ReconcileService service);
        match replicated with
        | Err _ => mret tt
        | Ok _ =>
            log_error (schedulePendingWorkloads service) ;;
            log_error (Status_ReconcileService timeout service)
        end
    end.

Definition reconcile (timeout : Z) : M unit :=
  services ← ListServices;
  ns ← ListNodes;
  for_each ns reconcile_node ;;
  for_each services (reconcile_service timeout).

(** One turn of [Run]: the cycle and its counter. *)
Definition run_cycle (timeout : Z) : M unit :=
  r ← try (reconcile timeout);
  match r with
  | Err _ => ReconcileFailed
  | Ok _ => ReconcileSucceeded
  end.

(** [Run] until [ctx] is done: a cycle at once, then one per tick. *)
Fixpoint Run (timeout : Z) (ticks : nat) : M unit :=
  run_cycle timeout ;;
  match ticks with
  | O => mret tt
  | S ticks => Run timeout ticks
  end.
End Loop.
