(* ===== verification/LoopSafety.v ===== *)
(** * The control loop maintains the account

    Every controller, the scheduling and execution of workloads, and the
    recovery of nodes keep [Inv] whatever fails and however the other
    goroutines interleave. *)

From S2P Require Import Prelude Float64 Model Sql StoreInv Accounting Env Logic Postgres.
From S2P Require Import Discipline Scheduler Controllers NodeClient Reconciler.

(** From [Inv] and a fact [F] on the workloads to [Inv] and a fact [F'],
    whatever the result. *)
Definition loop_keeps {A} (F : gmap string Workload -> Prop) (m : M A)
    (F' : gmap string Workload -> Prop) : Prop :=
  triple (inv_and F) m (fun _ => inv_and F').

Section Keeps.
Context `{ReconcilerEnv} {A B : Type}.
Implicit Types (F : gmap string Workload -> Prop) (m : M A).

Lemma keeps_conseq F F1 F2 F' m :
  (forall ws, F ws -> F1 ws) -> (forall ws, F2 ws -> F' ws) ->
  loop_keeps F1 m F2 -> loop_keeps F m F'.
Proof.
  intros H1 H2. apply triple_conseq.
  - intros db [? ?]. split; [done|by apply H1].
  - intros _ db [? ?]. split; [done|by apply H2].
Qed.

Lemma keeps_ret F F' (a : A) : (forall ws, F ws -> F' ws) -> loop_keeps F (mret a) F'.
Proof. intros HF. apply triple_ret. intros db [? ?]. split; [done|by apply HF]. Qed.

Lemma keeps_fail F F' e : (forall ws, F ws -> F' ws) -> loop_keeps F (fail e : M A) F'.
Proof. intros HF w [? ?]. apply wp_fail. split; [done|by apply HF]. Qed.

Lemma keeps_bind F F' m (f : A -> M B) :
  loop_keeps F m F' -> (forall a, loop_keeps F' (f a) F') -> loop_keeps F (m ≫= f) F'.
Proof.
  intros Hm Hf. eapply (triple_bind _ (fun _ => inv_and F')); [|exact Hf].
  eapply triple_conseq; [done| |exact Hm]. by intros [a|e] db.
Qed.

(** The first computation knows more when it succeeds. *)
Lemma keeps_bind_ok (R : A -> gmap string Workload -> Prop) F F' m (f : A -> M B) :
  triple (inv_and F) m
    (fun r db => match r with Ok a => inv_and (R a) db | Err _ => inv_and F' db end) ->
  (forall a, loop_keeps (R a) (f a) F') -> loop_keeps F (m ≫= f) F'.
Proof. intros Hm Hf. by eapply (triple_bind _ (fun a => inv_and (R a))). Qed.

Lemma keeps_try F F' m : loop_keeps F m F' -> loop_keeps F (try m) F'.
Proof. intros Hm. by apply triple_try. Qed.

Lemma keeps_context F F' fm args m : loop_keeps F m F' -> loop_keeps F (context fm args m) F'.
Proof. intros Hm. by apply triple_context. Qed.

Lemma keeps_no_effect F m : no_db_effect m -> loop_keeps F m F.
Proof. intros Hm. by apply triple_no_effect. Qed.

Lemma keeps_query F (q : nat -> DB -> res A) : loop_keeps F (query q) F.
Proof. apply triple_query; [apply stable_inv_and|done|done]. Qed.
End Keeps.

Section KeepsLoop.
Context `{ReconcilerEnv}.
Implicit Types (F : gmap string Workload -> Prop).

Lemma keeps_log_error F F' m : loop_keeps F m F' -> loop_keeps F (log_error m) F'.
Proof. intros Hm. by apply triple_log_error. Qed.

Lemma keeps_for_each {A} (I : list A -> gmap string Workload -> Prop) F' l body :
  (forall ws, I [] ws -> F' ws) ->
  (forall x l', triple (inv_and (I (x :: l'))) (body x)
     (fun r => match r with Ok _ => inv_and (I l') | Err _ => inv_and F' end)) ->
  loop_keeps (I l) (for_each l body) F'.
Proof.
  intros Hend Hbody. apply (triple_for_each (fun l => inv_and (I l))); [done| |].
  - intros x l'. eapply triple_conseq; [done| |apply Hbody]. by intros [[]|e] db.
  - intros db [? ?]. split; [done|by apply Hend].
Qed.

Lemma keeps_for_each_true {A} (l : list A) body :
  (forall x, loop_keeps (fun _ => True) (body x) (fun _ => True)) ->
  loop_keeps (fun _ => True) (for_each l body) (fun _ => True).
Proof.
  intros Hbody. apply (keeps_for_each (fun _ _ => True)); [done|]. intros x l'.
  eapply triple_conseq; [done| |apply Hbody]. by intros [[]|e] db.
Qed.

(** ** Writes *)

Lemma keeps_write k F op :
  op_target op = Some k ->
  (forall db, Inv db -> F (workloads db) -> loop_allowed db op) ->
  loop_keeps F (exec op) (fun ws' => exists ws, F ws /\ written k ws ws').
Proof.
  intros Hk Hal. apply triple_exec; [apply stable_inv_and|].
  intros t db r db' [Hi HF] [n d' Hop|n d' Hop|e].
  - split; [by eapply loop_op_inv; [| |done]; [|by apply Hal]|].
    exists (workloads db). split; [done|by eapply op_written].
  - split; [by eapply loop_op_inv; [| |done]; [|by apply Hal]|].
    exists (workloads db). split; [done|by eapply op_written].
  - split; [done|]. by exists (workloads db).
Qed.

Lemma keeps_write_same F op :
  (forall db, Inv db -> F (workloads db) -> loop_allowed db op) ->
  (forall now db db' n, apply_op now op db = Ok (db', n) -> workloads db' = workloads db) ->
  loop_keeps F (exec op) F.
Proof.
  intros Hal Hsame. apply triple_exec; [apply stable_inv_and|].
  intros t db r db' [Hi HF] [n d' Hop|n d' Hop|e]; [| |done];
    (split; [by eapply loop_op_inv; [| |done]; [|by apply Hal]|by erewrite Hsame]).
Qed.

Lemma keeps_recover nid : loop_keeps (fun _ => True) (RecoverWorkloadsFromNode nid) (fun _ => True).
Proof.
  apply keeps_bind; [|intros; by apply keeps_ret]. apply triple_exec; [apply stable_inv_and|].
  intros t db r db' [Hi _] [n d' Hop|n d' Hop|e]; (split; [|done]);
    first [done | by eapply loop_op_inv; [exact Hi| |exact Hop]].
Qed.
End KeepsLoop.

(** Peel the wrappers of a store method down to its [exec]. *)
Ltac keeps_method :=
  repeat first
    [ apply keeps_context
    | apply keeps_bind; [|intros; try case_match;
        first [by apply keeps_ret | by apply keeps_fail]] ].

Ltac no_effect :=
  first [ apply create_no_effect | apply start_no_effect | apply list_no_effect
        | apply stop_no_effect | apply delete_no_effect | apply stats_no_effect
        | apply now_no_effect | apply rand_read_no_effect | apply on_metrics_no_effect ].

(** ** Facts the loops carry about the workloads still to visit *)

Definition current (l : list Workload) (ws : gmap string Workload) : Prop :=
  NoDup (wl_ID <$> l) /\ forall w, w ∈ l -> ws !! wl_ID w = Some w.

(** The workloads of [l] that were waiting for a node still are. *)
Definition waiting (l : list Workload) (ws : gmap string Workload) : Prop :=
  NoDup (wl_ID <$> l) /\
  forall w, w ∈ l -> wl_DesiredState w = WorkloadPending -> ws !! wl_ID w = Some w.

Lemma waiting_nil ws : waiting [] ws.
Proof. split; [by constructor|]. by intros w ?%not_elem_of_nil. Qed.

Lemma current_waiting l ws : current l ws -> waiting l ws.
Proof. intros [? H]. split; [done|]. intros w Hw _. by apply H. Qed.

Lemma current_sublist l l' ws : l' `sublist_of` l -> current l ws -> current l' ws.
Proof.
  intros Hs [Hnd Hl]. split.
  - eapply sublist_NoDup; [exact Hnd|]. by apply fmap_sublist.
  - intros w Hw. apply Hl. by eapply elem_of_sublist.
Qed.

Lemma ids_ne x l w : NoDup (wl_ID <$> x :: l) -> w ∈ l -> wl_ID w <> wl_ID x.
Proof.
  rewrite fmap_cons, NoDup_cons. intros [Hx _] Hw He. apply Hx. rewrite <- He.
  by apply list_elem_of_fmap_2.
Qed.

Lemma current_cons x l ws : current (x :: l) ws -> ws !! wl_ID x = Some x /\ current l ws.
Proof.
  intros [Hnd Hl]. split; [apply Hl; left|]. split; [by apply NoDup_cons in Hnd as [_ ?]|].
  intros w Hw. apply Hl. by right.
Qed.

Lemma current_written x l ws ws' :
  current (x :: l) ws -> written (wl_ID x) ws ws' -> current l ws'.
Proof.
  intros [Hnd Hl] Hw. split; [by apply NoDup_cons in Hnd as [_ ?]|].
  intros w Hin. rewrite Hw; [apply Hl; by right|]. by eapply ids_ne.
Qed.

Lemma waiting_cons x l ws : waiting (x :: l) ws -> waiting l ws.
Proof.
  intros [Hnd Hl]. split; [by apply NoDup_cons in Hnd as [_ ?]|].
  intros w Hw. apply Hl. by right.
Qed.

Lemma waiting_written_head x l ws ws' :
  waiting (x :: l) ws -> written (wl_ID x) ws ws' -> waiting l ws'.
Proof.
  intros [Hnd Hl] Hw. split; [by apply NoDup_cons in Hnd as [_ ?]|].
  intros w Hin Hp. rewrite Hw; [apply Hl; [by right|done]|]. by eapply ids_ne.
Qed.

(** A write to a workload that was not waiting disturbs none that is. *)
Lemma waiting_written x l ws ws' :
  waiting l ws -> ws !! wl_ID x = Some x -> wl_DesiredState x <> WorkloadPending ->
  written (wl_ID x) ws ws' -> waiting l ws'.
Proof.
  intros [Hnd Hl] Hx Hp Hw. split; [done|]. intros w Hin Hpw.
  rewrite Hw; [by apply Hl|]. intros He. pose proof (Hl w Hin Hpw) as Hlw.
  rewrite He in Hlw. congruence.
Qed.

Section Components.
Context `{ReconcilerEnv} `{!NodeClient} `{!NodeClientLaws}.
Implicit Types (F : gmap string Workload -> Prop).

Lemma by_service_current t sid db : WF db -> current (workloads_by_service sid t db) (workloads db).
Proof.
  intros Hwf. split.
  - eapply (workload_ids_NoDup db (fun w => wl_ServiceID w = sid)); [done|].
    apply workloads_by_service_perm.
  - intros w [? _]%elem_of_by_service; done.
Qed.

Lemma list_by_service_current F sid :
  triple (inv_and F) (ListWorkloadsByService sid)
    (fun r db => match r with
                 | Ok l => inv_and (fun ws => F ws /\ current l ws) db
                 | Err _ => inv_and F db
                 end).
Proof.
  apply triple_context, triple_query; [apply stable_inv_and| |done].
  intros t db [Hi HF]. split; [done|]. split; [done|]. apply by_service_current, Hi.
Qed.

(** The same under a further error context. *)
Lemma list_by_service_context F fm args sid :
  triple (inv_and F) (context fm args (ListWorkloadsByService sid))
    (fun r db => match r with
                 | Ok l => inv_and (fun ws => F ws /\ current l ws) db
                 | Err _ => inv_and F db
                 end).
Proof.
  apply triple_context. eapply triple_conseq; [done| |apply list_by_service_current].
  by intros [l|e] db.
Qed.

(** *** Executor *)

Lemma keeps_execute w node F :
  occupying (wl_ActualState w) = true ->
  loop_keeps (fun ws => F ws /\ ws !! wl_ID w = Some w) (Execute w node)
    (fun ws' => exists ws, (F ws /\ ws !! wl_ID w = Some w) /\ written (wl_ID w) ws ws').
Proof.
  intros Hocc. unfold Execute.
  destruct (wl_DesiredState w =w? WorkloadScheduled) eqn:Hs; cbn; guards;
    [|apply keeps_ret; eauto using written_refl].
  eapply (keeps_bind_ok (fun _ ws => F ws /\ ws !! wl_ID w = Some w)).
  { apply triple_context, triple_no_effect; [no_effect|].
    intros [c|e] db [Hi HF]; (split; [done|]); eauto using written_refl. }
  intros c. eapply (keeps_bind_ok (fun _ ws => F ws /\ ws !! wl_ID w = Some w)).
  { apply triple_try, triple_no_effect; [no_effect|]. by intros r db. }
  intros [[]|e].
  - keeps_method. apply keeps_write; [done|].
    intros db _ [_ Hw] w' Hw' _. by simplify_eq.
  - apply keeps_bind; [|intros; by apply keeps_fail]. keeps_method.
    apply keeps_write; [done|]. intros db _ [_ Hw] w' Hw'. simplify_eq.
    split; [done|]. intros Hf. by rewrite Hf in Hocc.
Qed.

Lemma keeps_stop w node F :
  loop_keeps (fun ws => F ws /\ ws !! wl_ID w = Some w) (Stop w node)
    (fun ws' => exists ws, (F ws /\ ws !! wl_ID w = Some w) /\ written (wl_ID w) ws ws').
Proof.
  unfold Stop.
  destruct (wl_DesiredState w =w? WorkloadStopped) eqn:Hs; cbn; guards;
    [|apply keeps_ret; eauto using written_refl].
  destruct (wl_ActualState w =w? WorkloadStopped) eqn:Ha; cbn; guards;
    [apply keeps_ret; eauto using written_refl|].
  assert (loop_keeps (fun ws => F ws /\ ws !! wl_ID w = Some w)
    (MarkWorkloadStoppedAndReleaseResources (wl_ID w))
    (fun ws' => exists ws, (F ws /\ ws !! wl_ID w = Some w) /\ written (wl_ID w) ws ws')) as Hmark.
  { keeps_method. apply keeps_write; [done|].
    intros db _ [_ Hw] w' Hw'. by simplify_eq. }
  destruct (wl_ContainerID w) as [cid|]; [|done].
  eapply (keeps_bind_ok (fun _ ws => F ws /\ ws !! wl_ID w = Some w)).
  { apply triple_context, triple_no_effect; [no_effect|].
    intros [c|e] db [Hi HF]; (split; [done|]); eauto using written_refl. }
  intros _. eapply (keeps_bind_ok (fun _ ws => F ws /\ ws !! wl_ID w = Some w)).
  { apply triple_context, triple_no_effect; [no_effect|].
    intros [c|e] db [Hi HF]; (split; [done|]); eauto using written_refl. }
  intros _. by apply keeps_context.
Qed.

(** *** [executeScheduledWorkloads] *)

Lemma keeps_execute_workload w F :
  loop_keeps (fun ws => F ws /\ ws !! wl_ID w = Some w) (execute_workload w)
    (fun ws' => exists ws, (F ws /\ ws !! wl_ID w = Some w) /\ written (wl_ID w) ws ws' /\
       (wl_DesiredState w = WorkloadPending -> ws' = ws)).
Proof.
  assert (forall (m : M unit), wl_DesiredState w <> WorkloadPending ->
    loop_keeps (fun ws => F ws /\ ws !! wl_ID w = Some w) m
      (fun ws' => exists ws, (F ws /\ ws !! wl_ID w = Some w) /\ written (wl_ID w) ws ws') ->
    loop_keeps (fun ws => F ws /\ ws !! wl_ID w = Some w) (log_error m)
      (fun ws' => exists ws, (F ws /\ ws !! wl_ID w = Some w) /\ written (wl_ID w) ws ws' /\
         (wl_DesiredState w = WorkloadPending -> ws' = ws))) as Hlog.
  { intros m Hp Hm. apply keeps_log_error. eapply keeps_conseq; [| |exact Hm]; [done|].
    intros ws' (ws & HF & Hw). exists ws. split; [done|]. split; [done|congruence]. }
  assert (forall (nid : string) (k : Node -> M unit),
    (forall n, loop_keeps (fun ws => F ws /\ ws !! wl_ID w = Some w) (k n)
      (fun ws' => exists ws, (F ws /\ ws !! wl_ID w = Some w) /\ written (wl_ID w) ws ws' /\
         (wl_DesiredState w = WorkloadPending -> ws' = ws))) ->
    loop_keeps (fun ws => F ws /\ ws !! wl_ID w = Some w)
      (found ← try (GetNode nid); match found with Err _ => mret tt | Ok n => k n end)
      (fun ws' => exists ws, (F ws /\ ws !! wl_ID w = Some w) /\ written (wl_ID w) ws ws' /\
         (wl_DesiredState w = WorkloadPending -> ws' = ws))) as Hnode.
  { intros nid k Hk. eapply (keeps_bind_ok (fun _ ws => F ws /\ ws !! wl_ID w = Some w)).
    - apply triple_try. eapply triple_conseq; [| |apply keeps_context, keeps_query]; [done|].
      by intros r db.
    - intros [n|e]; [apply Hk|]. apply keeps_ret. eauto using written_refl. }
  unfold execute_workload.
  destruct (wl_DesiredState w =w? WorkloadStopped) eqn:Hs; cbn; guards.
  - destruct (wl_NodeID w) as [nid|].
    + apply Hnode. intros n. apply Hlog; [congruence|apply keeps_stop].
    + apply Hlog; [congruence|apply keeps_stop].
  - match goal with |- context [if ?b then _ else _] => destruct b eqn:Hb end.
    { apply keeps_ret. eauto using written_refl. }
    guards. destruct Hb as [Hd Hb].
    destruct (wl_NodeID w) as [nid|]; [|apply keeps_ret; eauto using written_refl].
    apply Hnode. intros n. apply Hlog; [congruence|]. apply keeps_execute.
    by destruct Hb as [-> | ->].
Qed.

Lemma keeps_executeScheduledWorkloads l service :
  loop_keeps (waiting l) (executeScheduledWorkloads service) (waiting l).
Proof.
  apply (keeps_bind_ok (fun vs ws => waiting l ws /\ current vs ws)).
  { apply list_by_service_current. }
  intros vs. eapply (keeps_for_each (fun rest ws => waiting l ws /\ current rest ws));
    [by intros ws [? _]|].
  intros w rest. eapply triple_conseq;
    [| |apply (keeps_execute_workload w (fun ws => waiting l ws /\ current (w :: rest) ws))].
  - intros db [Hi [Hl Hc]]. split; [done|]. split; [done|]. by apply current_cons in Hc as [? _].
  - intros r db [Hi (ws & [[Hl Hc] Hw] & Hwr & Hsame)].
    assert (waiting l (workloads db)) as Hl'.
    { destruct (decide (wl_DesiredState w = WorkloadPending)) as [Hp|Hp].
      - by rewrite Hsame.
      - by eapply waiting_written. }
    destruct r as [[]|e]; split; try done. split; [done|]. by eapply current_written.
Qed.

(** *** [schedulePendingWorkloads] *)

Lemma keeps_ScheduleWorkload w F :
  wl_DesiredState w = WorkloadPending ->
  loop_keeps (fun ws => F ws /\ ws !! wl_ID w = Some w) (ScheduleWorkload w)
    (fun ws' => exists ws, (F ws /\ ws !! wl_ID w = Some w) /\ written (wl_ID w) ws ws').
Proof.
  intros Hp. unfold ScheduleWorkload.
  eapply (keeps_bind_ok (fun _ ws => F ws /\ ws !! wl_ID w = Some w)).
  { apply triple_context. eapply triple_conseq; [| |apply keeps_context, keeps_query]; [done|].
    intros [r|e] db [Hi HF]; (split; [done|]); eauto using written_refl. }
  intros ns. eapply (keeps_bind_ok (fun _ ws => F ws /\ ws !! wl_ID w = Some w)).
  { apply triple_lift. intros db [Hi HF]. destruct (Schedule w ns); (split; [done|]);
      eauto using written_refl. }
  intros n. keeps_method. apply keeps_write; [done|].
  intros db Hi [_ Hw] w' Hw'. simplify_eq.
  destruct (inv_disciplined _ Hi _ _ Hw) as [Hd _]. destruct (Hd Hp) as (? & _ & Ha).
  by rewrite Ha.
Qed.

Lemma keeps_schedule_workload service w rest :
  loop_keeps (waiting (w :: rest)) (schedule_workload service w) (waiting rest).
Proof.
  unfold schedule_workload.
  destruct (wl_ActualState w =w? WorkloadPending); cbn;
    [|apply keeps_ret; apply waiting_cons].
  apply (keeps_bind_ok (fun _ => waiting rest)).
  - destruct (wl_DesiredState w =w? WorkloadPending) eqn:Hp; guards.
    + apply triple_try. eapply triple_conseq;
        [| |by apply (keeps_ScheduleWorkload w (waiting (w :: rest)))].
      * intros db [Hi Hl]. split; [done|]. split; [done|]. by apply Hl; [left|].
      * intros r db [Hi (ws & [Hl Hw] & Hwr)]. split; [done|]. by eapply waiting_written_head.
    + apply triple_ret. intros db [Hi Hl]. split; [done|]. by eapply waiting_cons.
  - intros [[]|e]; [|by apply keeps_ret].
    apply keeps_log_error, keeps_executeScheduledWorkloads.
Qed.

Lemma keeps_schedulePendingWorkloads service :
  loop_keeps (fun _ => True) (schedulePendingWorkloads service) (fun _ => True).
Proof.
  apply (keeps_bind_ok (fun l ws => waiting l ws)).
  { eapply triple_conseq; [done| |apply (list_by_service_current (fun _ => True))].
    intros [l|e] db; [|done]. intros [Hi [_ Hc]]. split; [done|]. by apply current_waiting. }
  intros l. apply (keeps_for_each waiting); [done|]. intros w rest.
  eapply triple_conseq; [done| |apply keeps_schedule_workload]. intros [[]|e] db [Hi Hl]; done.
Qed.

Lemma keeps_executeScheduled_any service :
  loop_keeps (fun _ => True) (executeScheduledWorkloads service) (fun _ => True).
Proof.
  eapply keeps_conseq; [| |apply (keeps_executeScheduledWorkloads [])]; [|done].
  intros ws _. apply waiting_nil.
Qed.

(** *** Controllers *)

Lemma keeps_mark_stopped w F :
  wl_ActualState w <> WorkloadFailed ->
  loop_keeps (fun ws => F ws /\ ws !! wl_ID w = Some w)
    (UpdateWorkloadDesiredState (wl_ID w) WorkloadStopped)
    (fun ws' => exists ws, (F ws /\ ws !! wl_ID w = Some w) /\ written (wl_ID w) ws ws').
Proof.
  intros Ha. keeps_method. apply keeps_write; [done|].
  intros db _ [_ Hw]. split; [done|]. intros w' Hw'. by simplify_eq.
Qed.

Lemma keeps_create_replica service fm args :
  loop_keeps (fun _ => True)
    (id ← newWorkloadID; context fm args (CreatePendingWorkload (pending_replica id service)))
    (fun _ => True).
Proof.
  apply keeps_bind.
  - apply keeps_bind; [apply keeps_no_effect; no_effect|]. intros b. by apply keeps_ret.
  - intros id. keeps_method.
    by eapply keeps_conseq; [| |apply (keeps_write id (fun _ => True))].
Qed.

Lemma isActive_not_failed w : isActive w = true -> wl_ActualState w <> WorkloadFailed.
Proof. unfold isActive. by destruct (wl_ActualState w). Qed.

(** Marking each workload of a current list for shutdown. *)
Lemma keeps_shutdown_loop l (fm : string) (args : Workload -> list fmt_arg) :
  (forall w, w ∈ l -> wl_ActualState w <> WorkloadFailed) ->
  loop_keeps (current l)
    (for_each l (fun w => context fm (args w)
       (UpdateWorkloadDesiredState (wl_ID w) WorkloadStopped)))
    (fun _ => True).
Proof.
  intros Hl. set (I := fun rest ws =>
    current rest ws /\ forall w, w ∈ rest -> wl_ActualState w <> WorkloadFailed).
  apply (keeps_conseq _ (I l) (fun _ => True)); [by intros|done|].
  apply (keeps_for_each I); [done|]. intros w rest.
  apply (triple_pure (wl_ActualState w <> WorkloadFailed)).
  { intros db [_ [_ Hf]]. apply Hf. left. }
  intros Ha. eapply triple_conseq; [| |apply keeps_context, (keeps_mark_stopped w (I (w :: rest)) Ha)].
  - intros db [Hi HI]. split; [done|]. split; [done|].
    by destruct HI as [[? _]%current_cons _].
  - intros r db [Hi (ws & [[Hc Hf] Hw] & Hwr)]. destruct r as [[]|e]; (split; [done|]); [|done].
    split; [by eapply current_written|]. intros v Hv. apply Hf. by right.
Qed.

Lemma scale_down_loop_elem ws count acc w :
  w ∈ scale_down_loop ws count acc -> w ∈ acc \/ (w ∈ ws /\ isActive w = true).
Proof.
  revert acc. induction ws as [|v ws IH]; intros acc Hw; cbn in Hw; [by left|].
  assert (w ∈ acc ++ [v] -> isActive v = true ->
    w ∈ acc \/ (w ∈ v :: ws /\ isActive w = true)) as Happ.
  { intros [?| ->%list_elem_of_singleton]%elem_of_app ?; [by left|]. right. by split; [left|]. }
  destruct (negb (Z.of_nat (length acc) <? count)); [by left|].
  unfold isActive in Happ at 1.
  destruct (wl_ActualState v); try destruct (negb (wl_DesiredState v =w? WorkloadStopped));
    destruct (IH _ Hw) as [?|[? ?]]; auto; right; (split; [by right|done]).
Qed.

Lemma scale_down_loop_sublist ws count acc :
  exists l, l `sublist_of` ws /\ scale_down_loop ws count acc = acc ++ l.
Proof.
  revert acc. induction ws as [|v ws IH]; intros acc; cbn.
  - exists []. by rewrite app_nil_r.
  - assert (exists l, l `sublist_of` v :: ws /\
      scale_down_loop ws count acc = acc ++ l) as Hskip.
    { destruct (IH acc) as (l & Hl & ->). exists l. split; [by constructor|done]. }
    assert (exists l, l `sublist_of` v :: ws /\
      scale_down_loop ws count (acc ++ [v]) = acc ++ l) as Htake.
    { destruct (IH (acc ++ [v])) as (l & Hl & ->). exists (v :: l).
      split; [by constructor|]. by rewrite <- app_assoc. }
    destruct (negb (Z.of_nat (length acc) <? count)).
    { exists []. rewrite app_nil_r. split; [|done]. apply sublist_nil_l. }
    destruct (wl_ActualState v), (negb (wl_DesiredState v =w? WorkloadStopped)); done.
Qed.

Lemma scale_down_current l count ws :
  current l ws -> current (selectScaleDownCandidates l count) ws.
Proof.
  intros [Hnd Hl]. unfold selectScaleDownCandidates.
  destruct (scale_down_loop_sublist (reverse l) count []) as (c & Hc & ->). cbn.
  apply (current_sublist (reverse l)); [done|]. split.
  - by rewrite fmap_reverse, reverse_Permutation.
  - intros w Hw. apply Hl. by rewrite <- elem_of_reverse.
Qed.

Lemma keeps_Replica service :
  loop_keeps (fun _ => True) (Replica_ReconcileService service) (fun _ => True).
Proof.
  unfold Replica_ReconcileService.
  case_match; [by apply keeps_ret|]. case_match; [by apply keeps_ret|].
  apply (keeps_bind_ok (fun l ws => current l ws)).
  { eapply triple_conseq; [| |apply (list_by_service_context (fun _ => True))]; [done|].
    intros [l|e] db; [|done]. by intros [Hi [_ Hc]]. }
  intros l. cbv zeta. apply (keeps_conseq _ (current l) (fun _ => True)); [done..|].
  case_match; [by apply keeps_ret|]. case_match.
  { eapply keeps_conseq; [| |apply keeps_for_each_true]; [done..|].
    intros i. apply keeps_create_replica. }
  case_match; [by apply keeps_ret|]. case_match; [by apply keeps_ret|].
  eapply keeps_conseq; [| |apply keeps_shutdown_loop]; [|done|].
  - intros ws. apply scale_down_current.
  - intros w [Hw|[_ Hw]]%scale_down_loop_elem; [by apply not_elem_of_nil in Hw|].
    by apply isActive_not_failed.
Qed.

Lemma oldActiveWorkloads_elem l v w :
  w ∈ oldActiveWorkloads l v <->
    w ∈ l /\ wl_DeploymentVersion w < v /\ isActive w = true.
Proof.
  induction l as [|x l IH]; cbn; [split; [by intros ?%not_elem_of_nil|by intros [?%not_elem_of_nil _]]|].
  rewrite elem_of_cons.
  destruct (Z.leb_spec v (wl_DeploymentVersion x)); [rewrite IH; intuition (subst; lia)|].
  destruct (isActive x) eqn:Ha; [rewrite elem_of_cons|]; rewrite IH;
    intuition (subst; auto; congruence).
Qed.

Lemma keeps_Deployment service :
  loop_keeps (fun _ => True) (Deployment_ReconcileService service) (fun _ => True).
Proof.
  unfold Deployment_ReconcileService. case_match; [by apply keeps_ret|].
  apply (keeps_bind_ok (fun l ws => current l ws)).
  { eapply triple_conseq; [| |apply (list_by_service_context (fun _ => True))]; [done|].
    intros [l|e] db; [|done]. by intros [Hi [_ Hc]]. }
  intros l. destruct (oldActiveWorkloads l _) as [|old rest] eqn:Hold; [by apply keeps_ret|].
  case_match; [by apply keeps_ret|]. cbv zeta. case_match.
  { eapply keeps_conseq; [| |apply keeps_create_replica]; done. }
  case_match; [by apply keeps_ret|].
  assert (old ∈ l /\ wl_DeploymentVersion old < svc_DeploymentVersion service /\
    isActive old = true) as (Hin & _ & Ha).
  { apply oldActiveWorkloads_elem. rewrite Hold. left. }
  eapply keeps_conseq; [| |apply keeps_context, (keeps_mark_stopped old (fun _ => True))]; [|done|].
  - intros ws [_ Hc]. split; [done|]. by apply Hc.
  - by apply isActive_not_failed.
Qed.

Lemma keeps_UpdateDeploymentStatus id status F :
  loop_keeps F (UpdateDeploymentStatus id status) F.
Proof.
  keeps_method. apply keeps_write_same; [done|].
  intros t db db' n Hop. cbn in Hop. unfold_sql Hop. by inv_ok.
Qed.

Lemma keeps_Status timeout service :
  loop_keeps (fun _ => True) (Status_ReconcileService timeout service) (fun _ => True).
Proof.
  unfold Status_ReconcileService. case_match; [by apply keeps_ret|].
  apply keeps_bind; [apply keeps_context, keeps_context, keeps_query|]. intros l.
  destruct (status_counts l _ 0 0 0) as [[oldActive newRunning] newFailed].
  case_match; [apply keeps_UpdateDeploymentStatus|].
  case_match; [apply keeps_UpdateDeploymentStatus|].
  apply keeps_bind.
  - case_match; [|by apply keeps_ret].
    apply keeps_bind; [apply keeps_no_effect; no_effect|]. intros t. by apply keeps_ret.
  - intros []; apply keeps_UpdateDeploymentStatus.
Qed.

Lemma keeps_deletion_loop l b : loop_keeps (current l) (deletion_loop l b) (fun _ => True).
Proof.
  revert b. induction l as [|w l IH]; intros b; cbn [deletion_loop]; [by apply keeps_ret|].
  assert (wl_ActualState w <> WorkloadFailed ->
    loop_keeps (current (w :: l))
      ((if negb (wl_DesiredState w =w? WorkloadStopped)
        then UpdateWorkloadDesiredState (wl_ID w) WorkloadStopped else mret tt) ;;
       deletion_loop l false) (fun _ => True)) as Hmark.
  { intros Hf. apply (keeps_bind_ok (fun _ => current l)).
    - case_match.
      + eapply triple_conseq; [| |apply (keeps_mark_stopped w (current (w :: l)) Hf)].
        * intros db [Hi Hc]. split; [done|]. split; [done|]. by apply current_cons in Hc as [? _].
        * intros [z|e] db [Hi (ws & [Hc _] & Hw)]; (split; [done|]); cbn; [|done].
          by eapply current_written.
      + apply triple_ret. intros db [Hi Hc]. split; [done|]. by apply current_cons in Hc as [_ ?].
    - intros _. apply IH. }
  assert (loop_keeps (current (w :: l)) (deletion_loop l b) (fun _ => True)) as Hskip.
  { eapply keeps_conseq; [| |apply (IH b)]; [|done]. intros ws [_ ?]%current_cons. done. }
  destruct (wl_ActualState w); first [apply Hskip | by apply Hmark].
Qed.

Lemma keeps_Deletion service :
  loop_keeps (fun _ => True) (Deletion_ReconcileService service) (fun _ => True).
Proof.
  unfold Deletion_ReconcileService. case_match; [by apply keeps_ret|].
  apply (keeps_bind_ok (fun l ws => current l ws)).
  { eapply triple_conseq; [| |apply (list_by_service_current (fun _ => True))]; [done|].
    intros [l|e] db; [|done]. by intros [Hi [_ Hc]]. }
  intros l. eapply keeps_bind; [apply keeps_deletion_loop|].
  intros b. case_match; [by apply keeps_ret|]. keeps_method.
  apply keeps_write_same; [done|]. intros t db db' n Hop. cbn in Hop. unfold_sql Hop. by inv_ok.
Qed.

(** *** The cycle *)

Lemma keeps_reconcile_service timeout service :
  loop_keeps (fun _ => True) (reconcile_service timeout service) (fun _ => True).
Proof.
  unfold reconcile_service. case_match.
  { apply keeps_bind; [apply keeps_log_error, keeps_Deletion|]. intros _.
    apply keeps_log_error, keeps_executeScheduled_any. }
  case_match; [by apply keeps_ret|].
  apply keeps_bind; [apply keeps_try, keeps_Deployment|]. intros [[]|e]; [|by apply keeps_ret].
  apply keeps_bind; [apply keeps_try, keeps_Replica|]. intros [[]|e]; [|by apply keeps_ret].
  apply keeps_bind; [apply keeps_log_error, keeps_schedulePendingWorkloads|]. intros _.
  apply keeps_log_error, keeps_Status.
Qed.
End Components.
