(* ===== verification/ReplicaSpec.v ===== *)
(** * What the replica controller promises

    Fresh identifiers, and the desired number of replicas. *)

From Stdlib Require Import Strings.Byte.
From S2P Require Import Prelude Float64 Model Sql StoreInv Accounting Env Logic Postgres.
From S2P Require Import Discipline Scheduler Controllers ServiceCounts NodeClient Quiet Samples.
From S2P Require Import Histories StoreSpec Reconciler LoopSafety.

(** ** Identifiers *)

Lemma hex_digit_inj m n : (m < 16)%N -> (n < 16)%N -> hex_digit m = hex_digit n -> m = n.
Proof.
  intros Hm Hn Heq. unfold hex_digit in Heq.
  apply (f_equal Ascii.N_of_ascii) in Heq.
  destruct (N.ltb_spec m 10), (N.ltb_spec n 10);
    rewrite !Ascii.N_ascii_embedding in Heq by lia; lia.
Qed.

Lemma byte_digits (b : byte) : (Byte.to_N b / 16 < 16)%N /\ (Byte.to_N b mod 16 < 16)%N.
Proof. by destruct b. Qed.

Lemma byte_of_digits (a b : byte) :
  hex_digit (Byte.to_N a / 16) = hex_digit (Byte.to_N b / 16) ->
  hex_digit (Byte.to_N a mod 16) = hex_digit (Byte.to_N b mod 16) -> a = b.
Proof.
  intros H1 H2. pose proof (byte_digits a) as [Ha1 Ha2]. pose proof (byte_digits b) as [Hb1 Hb2].
  apply hex_digit_inj in H1, H2; try done.
  enough (Some a = Some b) by congruence. rewrite <- (Byte.of_to_N a), <- (Byte.of_to_N b).
  rewrite (N.div_mod (Byte.to_N a) 16), (N.div_mod (Byte.to_N b) 16) by done. congruence.
Qed.

Lemma EncodeToString_inj bs bs' : EncodeToString bs = EncodeToString bs' -> bs = bs'.
Proof.
  revert bs'. induction bs as [|b bs IH]; intros [|b' bs'] H; try done.
  cbn [EncodeToString] in H. injection H as H1 H2 H3. f_equal; [|by apply IH].
  by apply byte_of_digits.
Qed.

Lemma hex_digit_ascii n : (n < 16)%N -> is_continuation (hex_digit n) = false.
Proof.
  intros Hn. unfold is_continuation, hex_digit.
  destruct (N.ltb_spec n 10); rewrite Ascii.N_ascii_embedding by lia;
    apply andb_false_iff; left; apply Z.leb_gt; lia.
Qed.

Lemma EncodeToString_length bs :
  char_length (EncodeToString bs) = 2 * Z.of_nat (length bs).
Proof.
  induction bs as [|b bs IH]; [done|]. cbn [EncodeToString char_length length].
  destruct (byte_digits b). rewrite !hex_digit_ascii by done. lia.
Qed.

Lemma workload_id_fits bs :
  length bs = 16%nat -> char_length ("wl-" +:+ EncodeToString bs) = 35.
Proof.
  intros Hl. rewrite char_length_app, EncodeToString_length, Hl. done.
Qed.

(** C21: A new identifier has 35 characters, which the 64 of its column hold, and
    two identifiers are equal only when the random bytes are. *)
Theorem newWorkloadID_spec `{Env} w1 w2 :
  exists id1 id2,
    newWorkloadID w1 = (Ok id1, tick w1) /\ newWorkloadID w2 = (Ok id2, tick w2) /\
    char_length id1 = 35 /\
    (id1 = id2 <-> env_rand (world_tick w1) = env_rand (world_tick w2)).
Proof.
  do 2 eexists. split; [done|]. split; [done|]. split.
  - apply workload_id_fits, env_rand_length.
  - split; [|by intros ->]. cbn. intros [= Heq]. by apply EncodeToString_inj.
Qed.

(** ** Creating and shutting down workloads *)

Lemma pending_replica_row_ok id service :
  char_length id <= 64 -> service_row_ok service = true ->
  workload_row_ok (pending_replica id service) = true.
Proof.
  intros Hid Hs. unfold service_row_ok in Hs. unfold workload_row_ok, pending_replica. cbn.
  guards. unfold varchar in *. guards. tauto.
Qed.

Lemma stopped_row_ok t w : workload_row_ok w = true -> workload_row_ok (with_desired WorkloadStopped t w) = true.
Proof. done. Qed.

Lemma of_service_pending id service :
  of_service isActive (svc_ID service) (pending_replica id service) = 1.
Proof. unfold of_service. cbn. by rewrite String.eqb_refl. Qed.

Lemma of_service_stopped t sid w : of_service isActive sid (with_desired WorkloadStopped t w) = 0.
Proof. unfold of_service, isActive. cbn. destruct (wl_ActualState w); by rewrite andb_false_r. Qed.

Lemma of_service_here f sid w : wl_ServiceID w = sid -> f w = true -> of_service f sid w = 1.
Proof. unfold of_service. intros -> ->. by rewrite String.eqb_refl. Qed.

Section Steps.
Context `{Quiet}.

(** The database once one more replica is recorded. *)
Definition with_workload (wl : Workload) (db : DB) : DB :=
  mkDB (nodes db) (services db) (<[wl_ID wl := wl]> (workloads db)).

Definition duplicate (fm id : string) : error :=
  Wrapf fm [] (Wrapf "create workload %q: %w" [AStr id] (DBError UniqueViolation)).

Lemma create_replica_wp fm service (Q : res unit -> World -> Prop) w :
  services (world_db w) !! svc_ID service = Some service -> service_row_ok service = true ->
  (forall id, workloads (world_db w) !! id = None -> char_length id <= 64 ->
     let wl := pending_replica id service in
     Q (Ok tt) (wrote (OpCreateWorkload wl) (with_workload wl (world_db w)) (tick w))) ->
  (forall id, is_Some (workloads (world_db w) !! id) ->
     Q (Err (duplicate fm id)) (wrote (OpCreateWorkload (pending_replica id service)) (world_db w) (tick w))) ->
  wp (id ← newWorkloadID;
      context fm [] (CreatePendingWorkload (pending_replica id service))) Q w.
Proof.
  intros Hs Hok Hnew Hdup. apply wp_bind. unfold newWorkloadID. do 3 wp_step.
  set (id := "wl-" +:+ EncodeToString (env_rand (world_tick w))).
  assert (char_length id <= 64) as Hid.
  { unfold id. rewrite workload_id_fits by apply env_rand_length. lia. }
  unfold CreatePendingWorkload, CreateWorkload. do 4 wp_step.
  cbn [apply_op world_db tick set_db world_tick].
  change (mkWorkload _ _ _ _ _ _ _ _ _ _ _ _) with (pending_replica id service).
  unfold CreateWorkload_sql. rewrite (pending_replica_row_ok id service Hid Hok).
  cbn [negb wl_ID pending_replica wl_ServiceID wl_NodeID].
  destruct (workloads (world_db w) !! id) eqn:Hw.
  - apply Hdup. by rewrite Hw.
  - rewrite Hs. rewrite bool_decide_eq_true_2 by done. cbn [negb wrapf]. wp_step.
    by apply (Hnew id).
Qed.

Lemma mark_stopped_wp wl (Q : res unit -> World -> Prop) w :
  workloads (world_db w) !! wl_ID wl = Some wl -> workload_row_ok wl = true ->
  (let wl' := with_desired WorkloadStopped (env_now (world_tick w)) wl in
   Q (Ok tt) (wrote (OpUpdateWorkloadDesiredState (wl_ID wl) WorkloadStopped)
                (with_workload wl' (world_db w)) w)) ->
  wp (UpdateWorkloadDesiredState (wl_ID wl) WorkloadStopped) Q w.
Proof.
  intros Hw Hok HQ. unfold UpdateWorkloadDesiredState. do 3 wp_step. cbn [apply_op].
  unfold UpdateWorkloadDesiredState_sql.
  rewrite (update_workload_hit _ _ _ _ wl Hw) by done. by apply wp_ret.
Qed.
End Steps.

(** ** Convergence *)

(** What the loops keep: the tables are well formed and the service is there. *)
Definition serving (service : Service) (w : World) : Prop :=
  WF (world_db w) /\ services (world_db w) !! svc_ID service = Some service.

Definition active_count (service : Service) (w : World) : Z :=
  svc_count isActive (svc_ID service) (workloads (world_db w)).

Section Convergence.
Context `{Quiet} (service : Service).

Lemma serving_row w : serving service w -> service_row_ok service = true.
Proof using. intros [Hwf Hs]. by apply (wf_service _ Hwf _ _ Hs). Qed.

Lemma serving_with_workload wl op w w' :
  serving service w -> world_db w' = with_workload wl (world_db w) ->
  workload_row_ok wl = true -> wl_ServiceID wl = svc_ID service ->
  (forall nid, wl_NodeID wl = Some nid -> is_Some (nodes (world_db w) !! nid)) ->
  serving service (wrote op (world_db w') w).
Proof using.
  intros [Hwf Hs] -> Hok Hsid Hn. split; cbn; [|done].
  apply wf_insert_workload; [done..| |done]. by rewrite Hsid, Hs.
Qed.

(** The creation loop adds one active replica per turn. *)
Lemma create_loop_wp fm l target w :
  serving service w -> active_count service w = target - Z.of_nat (length l) ->
  wp (for_each l (fun _ : Z =>
        id ← newWorkloadID;
        context fm [] (CreatePendingWorkload (pending_replica id service))))
    (fun r w' => match r with
      | Ok _ => serving service w' /\ active_count service w' = target
      | Err e => exists id, e = duplicate fm id /\ active_count service w' < target
      end) w.
Proof using All.
  intros Hs Hc. apply (wp_for_each (fun l w =>
    serving service w /\ active_count service w = target - Z.of_nat (length l))); [done| |].
  - intros x l' w1 [Hs1 Hc1]. cbn [length] in Hc1.
    apply create_replica_wp; [apply Hs1|by eapply serving_row| |].
    + intros id Hid Hlen. cbn zeta. split.
      * split; [|apply Hs1]. cbn. apply wf_insert_workload; [apply Hs1|done| | |done].
        -- apply pending_replica_row_ok; [done|by eapply serving_row].
        -- cbn. by rewrite (proj2 Hs1).
      * unfold active_count in *. cbn.
        rewrite svc_count_insert_new, of_service_pending by done. lia.
    + intros id Hid. exists id. split; [done|]. unfold active_count in *. cbn. lia.
  - intros w1 [Hs1 Hc1]. split; [done|]. cbn in Hc1. lia.
Qed.

(** The shutdown loop takes one active replica away per turn. *)
Lemma shutdown_loop_wp fm args l target w :
  serving service w -> active_count service w = target + Z.of_nat (length l) ->
  current l (workloads (world_db w)) ->
  (forall x, x ∈ l -> isActive x = true /\ wl_ServiceID x = svc_ID service) ->
  wp (for_each l (fun wl => context fm (args wl)
        (UpdateWorkloadDesiredState (wl_ID wl) WorkloadStopped)))
    (fun r w' => r = Ok tt /\ serving service w' /\ active_count service w' = target) w.
Proof using All.
  intros Hs Hc Hcur Hl. apply (wp_for_each (fun l w =>
    serving service w /\ active_count service w = target + Z.of_nat (length l) /\
    current l (workloads (world_db w)) /\
    forall x, x ∈ l -> isActive x = true /\ wl_ServiceID x = svc_ID service)); [done| |].
  - intros wl l' w1 ([Hwf Hsv] & Hc1 & Hcur1 & Hl1). cbn [length] in Hc1.
    destruct (current_cons _ _ _ Hcur1) as [Hwl _].
    destruct (Hl1 wl ltac:(left)) as [Hact Hsid].
    destruct (wf_workload _ Hwf _ _ Hwl) as [_ Hok].
    wp_step. apply mark_stopped_wp; [done..|]. cbn zeta. split_and!.
    + split; [|done]. cbn. apply wf_insert_workload; [done..| |].
      * cbn. by rewrite Hsid, Hsv.
      * cbn. intros nid Hnid. by apply (wf_fk_node _ Hwf _ _ _ Hwl).
    + unfold active_count in *. cbn. rewrite (svc_count_insert _ _ _ _ wl) by done.
      rewrite of_service_stopped, of_service_here by done. lia.
    + eapply current_written; [exact Hcur1|]. cbn. apply written_insert.
    + intros x Hx. apply Hl1. by right.
  - intros w1 (Hs1 & Hc1 & _). cbn in Hc1. split_and!; [done..|lia].
Qed.

(** The version of the service is the newest of its workloads'. *)
Definition newest_version (ws : gmap string Workload) : Prop :=
  forall k wl, ws !! k = Some wl -> wl_ServiceID wl = svc_ID service ->
    wl_DeploymentVersion wl <= svc_DeploymentVersion service.

Lemma counts_for_active w :
  newest_version (workloads (world_db w)) ->
  svc_count (old_active (svc_DeploymentVersion service)) (svc_ID service)
    (workloads (world_db w)) = 0 ->
  svc_count (counts_for (svc_DeploymentVersion service)) (svc_ID service)
    (workloads (world_db w)) = active_count service w.
Proof using.
  intros Hv Hz. apply svc_count_ext. intros k wl Hwl Hs.
  pose proof (proj1 (svc_count_zero _ _ _) Hz k wl Hwl Hs) as Hold.
  unfold old_active in Hold. unfold counts_for. destruct (isActive wl); [|by rewrite andb_false_r].
  rewrite andb_true_r in *. specialize (Hv k wl Hwl Hs). apply Z.ltb_ge in Hold.
  apply orb_true_iff. right. apply Z.eqb_eq. lia.
Qed.
End Convergence.

Lemma service_row_bounds s :
  service_row_ok s = true ->
  0 <= svc_DesiredReplicas s <= 2147483647 /\ -2147483648 <= svc_MaxSurge s <= 2147483647 /\
  -2147483648 <= svc_MaxUnavailable s <= 2147483647.
Proof.
  unfold service_row_ok. intros H. guards.
  destruct H as [[[[[[[[[[[_ _] _] [H1 H1']] _] _] _] H2] H3] _] _] _].
  apply int4_spec in H1, H2, H3. lia.
Qed.

(** The list of a service's workloads, read undisturbed. *)
Lemma list_by_service_quiet `{Quiet} sid (Q : res (list Workload) -> World -> Prop) w :
  Q (Ok (workloads_by_service sid (world_tick w) (world_db w))) (tick w) ->
  wp (ListWorkloadsByService sid) Q w.
Proof. intros HQ. unfold ListWorkloadsByService. do 2 wp_step. done. Qed.

Lemma active_count_bounds service w :
  Z.of_nat (size (workloads (world_db w))) < 2 ^ 62 -> 0 <= active_count service w < 2 ^ 62.
Proof.
  unfold active_count. intros Hsz.
  pose proof (svc_count_nonneg isActive (svc_ID service) (workloads (world_db w))).
  pose proof (svc_count_le_size isActive (svc_ID service) (workloads (world_db w))). lia.
Qed.


(** Two replicas are wanted and one runs. *)
Definition one_running_db : DB :=
  sample_db (sample_service 2 1) busy_node (sample_node "n2" 0 0) [running_workload].

Lemma one_running_wf : WF one_running_db.
Proof. apply wf_check_sound. by_computation. Qed.

Definition all_versions (v : Z) (db : DB) : bool :=
  forallb (fun kv => wl_DeploymentVersion kv.2 <=? v) (map_to_list (workloads db)).

Lemma newest_version_check service db :
  all_versions (svc_DeploymentVersion service) db = true -> newest_version service (workloads db).
Proof.
  intros H k wl Hwl _. pose proof (forallb_rows _ _ _ _ H Hwl) as Hb. cbn in Hb. by apply Z.leb_le.
Qed.

