(* ===== verification/RolloutSpec.v ===== *)
(** * What the deployment controllers promise

    A step of a rolling deployment respects the surge and availability limits
    in every run, failures and interleavings included; the status controller
    writes the status its table says; the deletion controller finishes exactly
    when nothing of the service occupies a node any more. *)

From S2P Require Import Prelude Float64 Model Sql StoreInv Accounting Env Logic Postgres.
From S2P Require Import Discipline Scheduler Controllers ServiceCounts NodeClient Quiet Samples.
From S2P Require Import Histories StoreSpec Reconciler LoopSafety ReplicaSpec.

(** ** Reading and writing workloads while others write the rest *)

Section Others.
Context `{ReconcilerEnv}.

Lemma peers_workloads t db : workloads (peers_db t db) = workloads db.
Proof.
  apply (peers_db_inv (fun d => workloads d = workloads db)); [|done].
  intros op d d' n Hop%peers_ok <- Ha. by eapply peer_workloads.
Qed.

Lemma peers_wf t db : WF db -> WF (peers_db t db).
Proof. apply peers_db_inv. intros op d d' n _. apply apply_op_wf. Qed.

(** What a list of a service's workloads says about the table. *)
Definition listed (sid : string) (l : list Workload) (ws : gmap string Workload) : Prop :=
  (forall f, countb f l = svc_count f sid ws) /\
  forall wl, wl ∈ l -> ws !! wl_ID wl = Some wl /\ wl_ServiceID wl = sid.

Lemma list_by_service_wp sid (Q : res (list Workload) -> World -> Prop) w :
  WF (world_db w) ->
  (forall r w', WF (world_db w') -> workloads (world_db w') = workloads (world_db w) ->
     match r with Ok l => listed sid l (workloads (world_db w)) | Err _ => True end -> Q r w') ->
  wp (ListWorkloadsByService sid) Q w.
Proof.
  intros Hwf HQ. apply wp_context, wp_query; cbn [wrapf].
  - pose proof (peers_wf (world_tick w) _ Hwf) as Hwf'.
    apply HQ; cbn; [done|apply peers_workloads|]. split.
    + intros f. by rewrite by_service_count, peers_workloads.
    + intros wl Hwl. apply elem_of_by_service in Hwl; [|done]. by rewrite peers_workloads in Hwl.
  - apply HQ; cbn; [by apply peers_wf|apply peers_workloads|done].
Qed.

(** A write to the workloads: not done, or done on the table as it was. *)
Lemma exec_workloads_wp op (R : gmap string Workload -> Prop) w
    (Q : res Z -> World -> Prop) :
  WF (world_db w) -> R (workloads (world_db w)) ->
  (forall t db db' n, WF db -> workloads db = workloads (world_db w) ->
     apply_op t op db = Ok (db', n) -> R (workloads db')) ->
  (forall r w', R (workloads (world_db w')) -> Q r w') ->
  wp (exec op) Q w.
Proof.
  intros Hwf Hsame Hop HQ. apply wp_exec. intros r db' He. apply HQ. cbn.
  pose proof (peers_wf (world_tick w) _ Hwf) as Hwf'.
  destruct He as [n db' Ha|n db' Ha|e]; [by eapply Hop; [|apply peers_workloads|]..|].
  by rewrite peers_workloads.
Qed.
End Others.

(** ** Rolling deployments *)

(** Running and not asked to stop. *)
Definition available (w : Workload) : bool :=
  (wl_ActualState w =w? WorkloadRunning) && negb (wl_DesiredState w =w? WorkloadStopped).

Lemma available_active w : available w = true -> isActive w = true.
Proof. unfold available, isActive. intros H. guards. destruct H as [-> H]. by guards. Qed.

(** The three things a step may do to the workloads. *)
Variant rollout_step (service : Service) (ws : gmap string Workload)
    : gmap string Workload -> Prop :=
  | rollout_wait : rollout_step service ws ws
  | rollout_surge id :
      ws !! id = None ->
      svc_count isActive (svc_ID service) ws < svc_DesiredReplicas service + svc_MaxSurge service ->
      rollout_step service ws (<[id := pending_replica id service]> ws)
  | rollout_retire old t :
      ws !! wl_ID old = Some old -> wl_ServiceID old = svc_ID service ->
      wl_DeploymentVersion old < svc_DeploymentVersion service -> isActive old = true ->
      (wl_ActualState old = WorkloadRunning ->
         svc_DesiredReplicas service - svc_MaxUnavailable service <=
           svc_count available (svc_ID service) ws - 1) ->
      rollout_step service ws (<[wl_ID old := with_desired WorkloadStopped t old]> ws).

Lemma old_new_active service ws :
  newest_version service ws ->
  svc_count (old_active (svc_DeploymentVersion service)) (svc_ID service) ws +
  svc_count (new_active (svc_DeploymentVersion service)) (svc_ID service) ws =
  svc_count isActive (svc_ID service) ws.
Proof.
  intros Hv. unfold svc_count. apply msum_add. intros k wl Hwl. unfold of_service.
  destruct (String.eqb_spec (wl_ServiceID wl) (svc_ID service)) as [Hs|]; [|done].
  specialize (Hv k wl Hwl Hs). unfold old_active, new_active. cbn.
  destruct (isActive wl); rewrite ?andb_false_r, ?andb_true_r; [|done].
  destruct (Z.ltb_spec (wl_DeploymentVersion wl) (svc_DeploymentVersion service));
    destruct (Z.eqb_spec (wl_DeploymentVersion wl) (svc_DeploymentVersion service)); lia.
Qed.

Section Rollout.
Context `{ReconcilerEnv}.

Lemma create_replica_step service fm w :
  WF (world_db w) ->
  svc_count isActive (svc_ID service) (workloads (world_db w)) <
    svc_DesiredReplicas service + svc_MaxSurge service ->
  wp (id ← newWorkloadID; context fm [] (CreatePendingWorkload (pending_replica id service)))
    (fun _ w' => rollout_step service (workloads (world_db w)) (workloads (world_db w'))) w.
Proof.
  intros Hwf Hlt. apply wp_bind, wp_bind, wp_rand_read, wp_ret.
  set (id := "wl-" +:+ EncodeToString (env_rand (world_tick w))).
  apply wp_context, wp_bind, wp_context.
  apply (exec_workloads_wp _
    (fun ws => rollout_step service (workloads (world_db w)) ws)); [done|constructor| |].
  - intros t db db' n _ Hws Hop. cbn in Hop.
    change (mkWorkload _ _ _ _ _ _ _ _ _ _ _ _) with (pending_replica id service) in Hop.
    unfold CreateWorkload_sql in Hop. inv_ok. cbn [wl_ID pending_replica] in Hop.
    destruct (workloads db !! id) eqn:Hid; [done|]. inv_ok. cbn. rewrite Hws.
    constructor; [by rewrite <- Hws|done].
  - intros [n|e] w' HR; [|done]. by apply wp_ret.
Qed.

Lemma retire_step service old fm args w :
  WF (world_db w) ->
  (forall t, rollout_step service (workloads (world_db w))
     (<[wl_ID old := with_desired WorkloadStopped t old]> (workloads (world_db w)))) ->
  workloads (world_db w) !! wl_ID old = Some old ->
  wp (context fm args (UpdateWorkloadDesiredState (wl_ID old) WorkloadStopped))
    (fun _ w' => rollout_step service (workloads (world_db w)) (workloads (world_db w'))) w.
Proof.
  intros Hwf Hstep Hold. apply wp_context, wp_bind, wp_context.
  apply (exec_workloads_wp _
    (fun ws => rollout_step service (workloads (world_db w)) ws)); [done|constructor| |].
  - intros t db db' n _ Hws Hop. cbn in Hop. unfold_sql Hop. inv_ok. cbn.
    match goal with Hu : updated _ _ _ _ _ _ _ |- _ => destruct Hu as [|r Hr _ _] end.
    + rewrite Hws. constructor.
    + rewrite Hws in *. assert (r = old) as -> by congruence. apply Hstep.
  - intros [n|e] w' HR; [|done]. by apply wp_ret.
Qed.
End Rollout.

Lemma Deployment_effect `{ReconcilerEnv} service w :
  WF (world_db w) -> service_row_ok service = true ->
  newest_version service (workloads (world_db w)) ->
  Z.of_nat (size (workloads (world_db w))) < 2 ^ 62 ->
  wp (Deployment_ReconcileService service)
    (fun _ w' => rollout_step service (workloads (world_db w)) (workloads (world_db w'))) w.
Proof.
  intros Hwf Hrow Hv Hsz. unfold Deployment_ReconcileService.
  case_match; [apply wp_ret; constructor|].
  apply wp_bind, wp_context, list_by_service_wp; [done|].
  intros [l|e] w1 Hwf1 Hws Hl; cbn [wrapf]; [|rewrite Hws; constructor].
  rewrite oldActiveWorkloads_filter, newActiveWorkloads_filter.
  destruct Hl as [Hcount Hmem]. rewrite <- Hws in *.
  set (ws := workloads (world_db w1)) in *.
  destruct (filter (old_active (svc_DeploymentVersion service)) l) as [|old rest] eqn:Hold;
    [apply wp_ret; constructor|].
  case_match; [apply wp_ret; constructor|]. cbv zeta. rewrite <- Hold.
  rewrite !length_filter_countb, !Hcount.
  pose proof (old_new_active service ws Hv) as Hsum.
  pose proof (svc_count_nonneg isActive (svc_ID service) ws).
  pose proof (svc_count_le_size isActive (svc_ID service) ws).
  pose proof (svc_count_nonneg available (svc_ID service) ws).
  pose proof (svc_count_le_size available (svc_ID service) ws).
  destruct (service_row_bounds _ Hrow) as (Hd & Hsg & Hun).
  change (runningActiveWorkloads l) with (countb available l). rewrite Hcount. unwrap.
  rewrite Hsum.
  assert (old ∈ l /\ old_active (svc_DeploymentVersion service) old = true) as [Hin Ha].
  { assert (old ∈ filter (old_active (svc_DeploymentVersion service)) l) as Hin
      by (rewrite Hold; left).
    apply list_elem_of_filter in Hin as [Ho Hin]. by apply Is_true_true in Ho. }
  destruct (Hmem old Hin) as [Hlook Hsid]. unfold old_active in Ha. guards. destruct Ha as [Hver Hact].
  case_match eqn:Hlt; guards; [by apply create_replica_step|].
  case_match eqn:Hav; [apply wp_ret; constructor|].
  apply retire_step; [done| |done]. intros t. apply rollout_retire; [done..|].
  intros Hrun. apply andb_false_iff in Hav as [Hav|Hav]; guards; [done|exact Hav].
Qed.

(** C3: A step of a rolling deployment never has more replicas active than the
    desired number plus the surge (or than there were), never takes an
    available replica away below the desired number minus what may be
    unavailable, retires no replica of the current version, and changes the
    number of active replicas by at most one -- whichever calls fail and
    whatever the API, the autoscaler and the health checker write meanwhile. *)
Theorem rollout_step_is_bounded `{ReconcilerEnv} service w :
  WF (world_db w) -> service_row_ok service = true ->
  newest_version service (workloads (world_db w)) ->
  Z.of_nat (size (workloads (world_db w))) < 2 ^ 62 ->
  let count f w := svc_count f (svc_ID service) (workloads (world_db w)) in
  let version := svc_DeploymentVersion service in
  wp (Deployment_ReconcileService service) (fun _ w' =>
    count isActive w' <=
      Z.max (count isActive w) (svc_DesiredReplicas service + svc_MaxSurge service) /\
    Z.abs (count isActive w' - count isActive w) <= 1 /\
    (count available w' = count available w \/
     (count available w' = count available w - 1 /\
      svc_DesiredReplicas service - svc_MaxUnavailable service <= count available w')) /\
    count (new_active version) w <= count (new_active version) w') w.
Proof.
  intros Hwf Hrow Hv Hsz. cbv zeta.
  eapply wp_mono; [|by apply Deployment_effect]. intros r w' Hstep. cbv beta in Hstep.
  remember (workloads (world_db w')) as ws' eqn:Hws'. clear Hws'.
  destruct Hstep as [|id Hid Hlt|old t Hold Hsid Hver Hact Hav].
  - split_and!; lia || by left.
  - rewrite !svc_count_insert_new by done. unfold of_service, new_active, available. cbn.
    rewrite !String.eqb_refl, Z.eqb_refl. eval_states. cbn. split_and!; lia.
  - rewrite !(svc_count_insert _ _ _ _ old) by done.
    rewrite of_service_stopped, (of_service_here isActive) by done.
    assert (of_service (new_active (svc_DeploymentVersion service)) (svc_ID service) old = 0) as ->.
    { unfold of_service, new_active. replace (_ =? _) with false by (symmetry; apply Z.eqb_neq; lia).
      by rewrite andb_false_r. }
    pose proof (of_service_bounds (new_active (svc_DeploymentVersion service)) (svc_ID service)
      (with_desired WorkloadStopped t old)).
    assert (of_service available (svc_ID service) (with_desired WorkloadStopped t old) = 0) as ->.
    { unfold of_service, available. cbn. by rewrite !andb_false_r. }
    split_and!; [lia..| |lia].
    destruct (available old) eqn:Hao.
    + rewrite (of_service_here available) by done. unfold available in Hao. guards.
      specialize (Hav (proj1 Hao)). right. lia.
    + left. unfold of_service. rewrite Hao, andb_false_r. lia.
Qed.

(** A rollout from version 1 to version 2 under way. *)
Definition rolling_db : DB :=
  sample_db (sample_service 1 2) busy_node (sample_node "n2" 0 0) [running_workload].

Lemma rolling_db_wf : WF rolling_db.
Proof. apply wf_check_sound. by_computation. Qed.

#[export] Instance quiet_reconciler : ReconcilerEnv.
Proof. intros t op Hop. by apply not_elem_of_nil in Hop. Qed.

Lemma rollout_step_is_bounded_witness :
  svc_count isActive "web" (workloads (world_db
    (Deployment_ReconcileService (sample_service 1 2) (sample_world rolling_db)).2)) <= 2 /\
  length (world_writes (Deployment_ReconcileService (sample_service 1 2)
    (sample_world rolling_db)).2) = 1%nat.
Proof.
  split; [|by_computation].
  pose proof (rollout_step_is_bounded (sample_service 1 2) (sample_world rolling_db) rolling_db_wf
    ltac:(by_computation) (newest_version_check (sample_service 1 2) rolling_db eq_refl)
    ltac:(by vm_compute)) as [H _].
  etransitivity; [exact H|]. by vm_compute.
Defined.

(** ** The status of a deployment *)

Lemma deployment_status_row_ok v status started t s :
  char_length status <= 32 -> int4 v = true -> service_row_ok s = true ->
  service_row_ok (with_deployment v status started t s) = true.
Proof.
  intros Hst Hv Hs. unfold service_row_ok in *. cbn. guards.
  unfold varchar at 4. guards. tauto.
Qed.

Lemma update_status_wp `{Quiet} service status (Q : res unit -> World -> Prop) w :
  services (world_db w) !! svc_ID service = Some service -> service_row_ok service = true ->
  char_length status <= 32 ->
  (forall w', 
     world_db w' = mkDB (nodes (world_db w))
       (<[svc_ID service := with_deployment (svc_DeploymentVersion service) status
            (svc_DeploymentStartedAt service) (env_now (world_tick w)) service]>
          (services (world_db w))) (workloads (world_db w)) -> Q (Ok tt) w') ->
  wp (UpdateDeploymentStatus (svc_ID service) status) Q w.
Proof.
  intros Hs Hok Hlen HQ. unfold UpdateDeploymentStatus. do 3 wp_step. cbn [apply_op].
  unfold UpdateDeploymentStatus_sql.
  rewrite (update_service_hit _ _ _ _ service Hs); [|done|].
  - apply wp_ret, HQ. done.
  - apply deployment_status_row_ok; [done| |done]. unfold service_row_ok in Hok. guards. tauto.
Qed.

(** C10: The verdict on a rollout, in an undisturbed run of the status controller
    over well-formed tables that hold the service as it was read.  A rollout
    that has FAILED keeps its status: nothing is written.  For any other one
    the verdict recorded is available when exactly the desired number of
    replicas of the version run and no older one is active; otherwise failed
    when a replica of the version failed or the time is up; otherwise still
    progressing.  Nothing but the status of the service is written. *)
Theorem Status_verdict `{Quiet} timeout service w :
  WF (world_db w) -> services (world_db w) !! svc_ID service = Some service ->
  let count f := svc_count f (svc_ID service) (workloads (world_db w)) in
  let version := svc_DeploymentVersion service in
  let complete := count (is_running_version version) = svc_DesiredReplicas service /\
                  count (old_active version) = 0 in
  let broken := 0 < count (is_failed_version version) \/
    exists started, svc_DeploymentStartedAt service = Some started /\
      timeout < time_sub (env_now (S (world_tick w))) started in
  wp (Status_ReconcileService timeout service) (fun r w' =>
    r = Ok tt /\
    if (svc_DeploymentStatus service =? DeploymentFailed)%string then w' = w
    else exists status t,
      world_db w' = mkDB (nodes (world_db w))
        (<[svc_ID service := with_deployment version status
             (svc_DeploymentStartedAt service) t service]> (services (world_db w)))
        (workloads (world_db w)) /\
      (complete -> status = DeploymentAvailable) /\
      (~ complete -> broken -> status = DeploymentFailed) /\
      (~ complete -> ~ broken -> status = DeploymentProgressing)) w.
Proof.
  intros Hwf Hs count version complete broken. unfold Status_ReconcileService.
  destruct (svc_DeploymentStatus service =? DeploymentFailed)%string eqn:Hf0; [by apply wp_ret|].
  wp_step. wp_step.
  apply list_by_service_quiet. cbn [wrapf]. rewrite status_counts_spec, !by_service_count, !Z.add_0_l.
  fold version. change (svc_count ?f (svc_ID service) _) with (count f).
  destruct (wf_service _ Hwf _ _ Hs) as [_ Hok].
  destruct (_ && _) eqn:Hc.
  { guards. apply update_status_wp; [done..|by vm_compute|]. intros w' Hw'.
    split; [done|]. do 2 eexists. split; [exact Hw'|]. unfold complete. tauto. }
  assert (~ complete) as Hnc by (intros [H1 H2]; unfold count in *; rewrite H1, H2, !Z.eqb_refl in Hc; done).
  destruct (Z.ltb_spec 0 (count (is_failed_version version))) as [Hf|Hf].
  { apply update_status_wp; [done..|by vm_compute|]. intros w' Hw'.
    split; [done|]. do 2 eexists. split; [exact Hw'|]. split_and!; [tauto|done|].
    intros _ []. by left. }
  wp_step. destruct (svc_DeploymentStartedAt service) as [started|] eqn:Hst.
  - do 3 wp_step. cbn [world_tick tick set_db].
    destruct (Z.ltb_spec timeout (time_sub (env_now (S (world_tick w))) started)) as [Ht|Ht];
      (apply update_status_wp; [done..|by vm_compute|]); intros w' Hw'; rewrite Hst in Hw';
      (split; [done|]); do 2 eexists; (split; [exact Hw'|]); (split_and!; [tauto| |]).
    + done.
    + intros _ []. right. eauto.
    + intros _ [?|(st & [= <-] & ?)]; lia.
    + done.
  - wp_step. apply update_status_wp; [done..|by vm_compute|]. intros w' Hw'. rewrite Hst in Hw'.
    split; [done|]. do 2 eexists. split; [exact Hw'|]. split_and!; [tauto| |done].
    intros _ [?|(st & ? & _)]; [lia|done].
Qed.

(** The rollout to version 2 has its replica and the old one is gone. *)
Definition rolled_db : DB :=
  sample_db (sample_service 1 2) busy_node (sample_node "n2" 0 0)
    [sample_workload "w2" (Some "n1") (Some "c2") WorkloadScheduled WorkloadRunning 2].

Lemma rolled_db_wf : WF rolled_db.
Proof. apply wf_check_sound. by_computation. Qed.

Lemma Status_verdict_witness :
  exists s, services (world_db (Status_ReconcileService time_minute (sample_service 1 2)
    (sample_world rolled_db)).2) !! "web" = Some s /\ svc_DeploymentStatus s = DeploymentAvailable.
Proof.
  destruct (Status_verdict time_minute (sample_service 1 2) (sample_world rolled_db) rolled_db_wf
    eq_refl) as (_ & status & t & Hdb & Ha & _).
  rewrite Hdb. eexists. split; [reflexivity|]. cbn. apply Ha. by vm_compute.
Defined.

(** ** Deletion *)

(** A workload that still holds, or may come to hold, a container. *)
Definition unfinished (w : Workload) : bool := occupying (wl_ActualState w).

(** The workloads of [l] that are unfinished are asked to stop; nothing else
    about the workloads changes. *)
Definition marked (l : list Workload) (ws ws' : gmap string Workload) : Prop :=
  forall k, option_Forall2 (fun wl wl' =>
      (wl' = wl \/ exists t, wl' = with_desired WorkloadStopped t wl) /\
      (wl ∈ l -> unfinished wl = true -> wl_DesiredState wl' = WorkloadStopped) /\
      (wl ∉ l \/ unfinished wl = false -> wl' = wl))
    (ws !! k) (ws' !! k).

Lemma marked_nil ws : marked [] ws ws.
Proof.
  intros k. destruct (ws !! k); constructor. split_and!; [by left| |done].
  by intros ?%not_elem_of_nil.
Qed.

Lemma marked_cons x l ws ws1 ws' :
  (forall k wl, ws !! k = Some wl -> wl_ID wl = k) -> current (x :: l) ws ->
  (ws1 = ws /\ (unfinished x = false \/ wl_DesiredState x = WorkloadStopped) \/
   exists t, ws1 = <[wl_ID x := with_desired WorkloadStopped t x]> ws /\ unfinished x = true) ->
  marked l ws1 ws' -> marked (x :: l) ws ws'.
Proof.
  intros Hkey Hc H1 Hm k. destruct (current_cons _ _ _ Hc) as [Hx [_ Hl]].
  specialize (Hm k). destruct H1 as [[-> Hx1]|(t & -> & Hx1)].
  - inversion Hm as [wl wl' (Hor & Hst & Hid) Hwl Hwl'|Hwl Hwl']; constructor.
    split_and!; [done| |].
    + intros [->|Hin]%elem_of_cons Hu; [|by apply Hst].
      destruct Hx1 as [Hx1|Hx1]; [congruence|]. destruct Hor as [->|[t ->]]; done.
    + intros [Hn|Hf]; apply Hid; [left; set_solver|by right].
  - destruct (decide (k = wl_ID x)) as [->|Hne].
    + rewrite lookup_insert_eq in Hm. rewrite Hx.
      inversion Hm as [wl wl' (Hor & _ & _) Hwl Hwl'|]. constructor.
      assert (exists t', wl' = with_desired WorkloadStopped t' x) as [t' ->] by
        (destruct Hor as [->|[t' ->]]; [by exists t|by exists t']).
      split_and!; [right; by exists t'|done|].
      intros [Hn|Hf]; [destruct Hn; left|congruence].
    + rewrite lookup_insert_ne in Hm by done.
      inversion Hm as [wl wl' (Hor & Hst & Hid) Hwl Hwl'|Hwl Hwl']; constructor.
      symmetry in Hwl. apply Hkey in Hwl. assert (wl <> x) by congruence.
      split_and!; [done| |].
      * intros [->|Hin]%elem_of_cons Hu; [done|by apply Hst].
      * intros [Hn|Hf]; apply Hid; [left; set_solver|by right].
Qed.

Section Deletion.
Context `{Quiet}.

Lemma deletion_loop_wp l b (Q : res bool -> World -> Prop) w :
  WF (world_db w) -> current l (workloads (world_db w)) ->
  (forall w', nodes (world_db w') = nodes (world_db w) ->
     services (world_db w') = services (world_db w) ->
     marked l (workloads (world_db w)) (workloads (world_db w')) ->
     Q (Ok (b && (countb unfinished l =? 0))) w') ->
  wp (deletion_loop l b) Q w.
Proof using All.
  revert b Q w. induction l as [|x l IH]; intros b Q w Hwf Hc HQ; cbn [deletion_loop].
  { apply wp_ret. rewrite <- (andb_true_r b). apply HQ; [done..|apply marked_nil]. }
  destruct (current_cons _ _ _ Hc) as [Hx Hc'].
  pose proof (fun k wl H => proj1 (wf_workload _ Hwf k wl H)) as Hkey.
  pose proof (countb_nonneg unfinished l) as Hnn.
  assert (unfinished x = false -> wp (deletion_loop l b) Q w) as Hfinished.
  { intros Hu. apply IH; [done..|]. intros w' Hn Hs Hm. cbn [countb] in HQ. rewrite Hu in HQ.
    apply HQ; [done..|]. eapply marked_cons; [done..| |exact Hm]. left. by split; [|left]. }
  assert (unfinished x = true ->
    wp ((if negb (wl_DesiredState x =w? WorkloadStopped)
         then UpdateWorkloadDesiredState (wl_ID x) WorkloadStopped else mret tt) ;;
        deletion_loop l false) Q w) as Hmark.
  { intros Hu. apply wp_bind.
    assert (b && (countb unfinished (x :: l) =? 0) = false) as Hfalse.
    { cbn [countb]. rewrite Hu. replace (_ =? 0) with false by (symmetry; apply Z.eqb_neq; lia).
      by rewrite andb_false_r. }
    rewrite Hfalse in HQ.
    destruct (wl_DesiredState x =w? WorkloadStopped) eqn:Hd; cbn [negb]; guards.
    - apply wp_ret, IH; [done..|]. intros w' Hn Hs Hm. apply HQ; [done..|].
      eapply marked_cons; [done..| |exact Hm]. left. by split; [|right].
    - apply mark_stopped_wp; [done|by apply (wf_workload _ Hwf _ _ Hx)|]. cbn zeta.
      set (t := env_now _). apply IH.
      + cbn. apply wf_insert_workload; [done..| | |].
        * by apply (wf_workload _ Hwf _ _ Hx).
        * by apply (wf_fk_service _ Hwf _ _ Hx).
        * intros nid. by apply (wf_fk_node _ Hwf _ _ _ Hx).
      + cbn. eapply current_written; [exact Hc|]. apply written_insert.
      + intros w' Hn Hs Hm. apply HQ; [done..|].
        eapply marked_cons; [done..| |exact Hm]. right. by exists t. }
  unfold unfinished in *. destruct (wl_ActualState x); auto.
Qed.
End Deletion.

(** The effect of a pass over a service being deleted. *)
Definition deletion_passed (service : Service) (w : World) (r : res unit) (w' : World) : Prop :=
  r = Ok tt /\ nodes (world_db w') = nodes (world_db w) /\
  (if svc_count unfinished (svc_ID service) (workloads (world_db w)) =? 0
   then workloads (world_db w') = workloads (world_db w) /\
     exists t, services (world_db w') =
       <[svc_ID service := with_service_status ServiceDeleted t service]> (services (world_db w))
   else services (world_db w') = services (world_db w) /\
     forall k, option_Forall2 (fun wl wl' =>
         if (wl_ServiceID wl =s? svc_ID service) && unfinished wl
         then wl_DesiredState wl' = WorkloadStopped /\ wl_ActualState wl' = wl_ActualState wl /\
              wl_NodeID wl' = wl_NodeID wl /\ wl_ContainerID wl' = wl_ContainerID wl
         else wl' = wl)
       (workloads (world_db w) !! k) (workloads (world_db w') !! k)).

Lemma deletion_pass_effect `{Quiet} service w :
  WF (world_db w) -> services (world_db w) !! svc_ID service = Some service ->
  svc_Status service = ServiceDeleting ->
  wp (Deletion_ReconcileService service) (deletion_passed service w) w.
Proof.
  intros Hwf Hs Hdel. set (ws := workloads (world_db w)). unfold Deletion_ReconcileService. rewrite Hdel, String.eqb_refl. cbn [negb].
  wp_step. apply list_by_service_quiet. apply wp_bind.
  set (l := workloads_by_service _ _ _).
  assert (forall x, x ∈ l <-> ws !! wl_ID x = Some x /\ wl_ServiceID x = svc_ID service) as Hl.
  { intros x. by apply elem_of_by_service. }
  apply deletion_loop_wp; [done|by apply by_service_current|]. intros w1 Hn1 Hs1 Hm.
  unfold deletion_passed. change (workloads (world_db (tick w))) with ws in Hm. fold ws. cbn [andb]. unfold l at 1. rewrite by_service_count. fold ws.
  destruct (Z.eqb_spec (svc_count unfinished (svc_ID service) ws) 0) as [Hz|Hz]; cbn [negb].
  - assert (workloads (world_db w1) = ws) as Hws.
    { apply map_eq. intros k. specialize (Hm k).
      inversion Hm as [wl wl' (_ & _ & Hid) Hwl Hwl'|Hwl Hwl']; [|congruence].
      f_equal. apply Hid. destruct (String.eqb_spec (wl_ServiceID wl) (svc_ID service)) as [He|He].
      + right. by apply (proj1 (svc_count_zero _ _ _) Hz k).
      + left. by intros [_ ?]%Hl. }
    unfold MarkServiceDeleted. do 3 wp_step. cbn [apply_op]. unfold MarkServiceDeleted_sql.
    rewrite (update_service_hit _ _ _ _ service).
    + cbn [wrapf]. change (1 =? 0) with false. wp_step. cbn. rewrite Hws. split_and!; [done|done|done|]. rewrite Hs1. by eexists.
    + by rewrite Hs1.
    + by rewrite Hdel.
    + destruct (wf_service _ Hwf _ _ Hs) as [_ Hok]. unfold service_row_ok in *. cbn. guards. tauto.
  - apply wp_ret. split_and!; [done..|]. intros k. specialize (Hm k).
    inversion Hm as [wl wl' (Hor & Hst & Hid) Hwl Hwl'|Hwl Hwl']; constructor.
    pose proof (proj1 (wf_workload _ Hwf k wl (eq_sym Hwl))) as Hk.
    destruct (String.eqb_spec (wl_ServiceID wl) (svc_ID service)) as [He|He]; cbn.
    + destruct (unfinished wl) eqn:Hu; [|apply Hid; by right].
      split; [apply Hst; [|done]; apply Hl; by rewrite Hk|].
      by destruct Hor as [->|[t ->]].
    + apply Hid. left. intros Hin. by apply Hl in Hin as [_ ?].
Qed.

(** C12: A pass over a service being deleted: when nothing of it is pending,
    scheduled or running, the service becomes deleted and its workloads are
    left alone; otherwise it stays deleting, and every unfinished workload of
    it, and no other, is asked to stop. *)
Theorem Deletion_pass `{Quiet} service w :
  WF (world_db w) -> services (world_db w) !! svc_ID service = Some service ->
  svc_Status service = ServiceDeleting ->
  wp (Deletion_ReconcileService service) (deletion_passed service w) w.
Proof. apply deletion_pass_effect. Qed.

(** The service is being deleted and one of its workloads runs. *)
Definition stopping_db : DB :=
  sample_db deleting_service busy_node (sample_node "n2" 0 0) [running_workload].

Lemma stopping_db_wf : WF stopping_db.
Proof. apply wf_check_sound. by_computation. Qed.

Lemma Deletion_pass_witness :
  exists wl, workloads (world_db (Deletion_ReconcileService deleting_service
    (sample_world stopping_db)).2) !! "w1" = Some wl /\ wl_DesiredState wl = WorkloadStopped.
Proof.
  destruct (Deletion_pass deleting_service (sample_world stopping_db) stopping_db_wf eq_refl eq_refl)
    as (_ & _ & H).
  change (svc_count _ _ _ =? 0) with false in H. destruct H as [_ H]. specialize (H "w1").
  change (workloads (world_db (sample_world stopping_db)) !! "w1") with (Some running_workload) in H.
  match type of H with option_Forall2 _ _ ?o => set (x := o) in *; clearbody x end.
  inversion H as [wl wl' Hw|]. exists wl'. split; [reflexivity|apply Hw].
Defined.
