(* ===== verification/ReconcilerSpec.v ===== *)
(** * What the control loop promises

    The account is kept by every component of the loop, except that the
    reconciliation of a node's containers keeps it only while each of them can
    be served: it belongs to no workload, to one that is to run and occupies
    its node, or to one that has failed and is either to stop or not reported
    alive again.  [RuntimeFindings.v] shows what the other reports come to. *)

From S2P Require Import Prelude Float64 Model Sql StoreInv Accounting Env Logic Postgres.
From S2P Require Import Discipline Scheduler Controllers ServiceCounts NodeClient Quiet Samples.
From S2P Require Import Histories StoreSpec Reconciler LoopSafety ReplicaSpec RolloutSpec.

(** ** Services *)

(** C1: Deployments, replicas, scheduling, execution, shutdown, status and deletion
    of any list of services keep the tables well formed, every node's account
    exact and the workloads in the states the store expects -- whatever calls
    fail, lose their answer or meet writes of the other goroutines, and
    whatever the nodes answer. *)
Theorem services_phase_keeps_account `{ReconcilerEnv} `{NodeClientLaws} timeout services w :
  Inv (world_db w) ->
  wp (for_each services (reconcile_service timeout)) (fun _ w' => Inv (world_db w')) w.
Proof.
  intros Hi. eapply wp_mono;
    [|by apply (keeps_for_each_true services (reconcile_service timeout));
      [intros s; apply keeps_reconcile_service|]].
  by intros r w' [? _].
Qed.

Lemma row_check_sound db :
  forallb (fun kv =>
    (negb (wl_DesiredState kv.2 =w? WorkloadPending) ||
       (match wl_NodeID kv.2, wl_ContainerID kv.2 with None, None => true | _, _ => false end &&
        (wl_ActualState kv.2 =w? WorkloadPending))) &&
    (negb (wl_DesiredState kv.2 =w? WorkloadStopped) ||
       negb (wl_ActualState kv.2 =w? WorkloadFailed) ||
       match wl_NodeID kv.2 with None => true | Some _ => false end))
    (map_to_list (workloads db)) = true ->
  Disciplined (workloads db).
Proof.
  intros H k w Hw. pose proof (forallb_rows _ _ _ _ H Hw) as Hb. cbn in Hb.
  apply andb_true_iff in Hb as [H1 H2]. split.
  - intros Hd. rewrite Hd in H1.
    change (WorkloadPending =w? WorkloadPending) with true in H1. cbn [negb orb] in H1.
    destruct (wl_NodeID w), (wl_ContainerID w); try done. cbn [andb] in H1. by guards.
  - intros Hd Ha. rewrite Hd, Ha in H2. destruct (wl_NodeID w); [|done].
    by vm_compute in H2.
Qed.

Lemma busy_db_inv : Inv busy_db.
Proof.
  constructor; [apply busy_db_wf|by apply accounted_check_sound|by apply row_check_sound].
Qed.

Lemma services_phase_keeps_account_witness :
  Inv (world_db (for_each [sample_service 2 1] (reconcile_service time_minute)
    (sample_world busy_db)).2).
Proof.
  apply (services_phase_keeps_account time_minute [sample_service 2 1] (sample_world busy_db)).
  exact busy_db_inv.
Defined.

(** ** Nodes *)

(** The pass can serve a listed container of the workload without harm to the
    account: the workload is to run and occupies its node; or it has failed,
    and either is to stop or its container is not reported alive again. *)
Definition servable (c : Container) (wl : Workload) : Prop :=
  (wl_DesiredState wl = WorkloadScheduled /\ occupying (wl_ActualState wl) = true) \/
  (wl_ActualState wl = WorkloadFailed /\
   (wl_DesiredState wl = WorkloadStopped \/
    wl_DesiredState wl = WorkloadScheduled /\
    containerState (ct_Status c) = WorkloadFailed)).

(** A report on a node all of whose containers can be served, and in which the
    containers that are missing belong to workloads that are to run. *)
Record settled (nodeID : string) (containers : list Container)
    (ws : gmap string Workload) : Prop := {
  settled_ids : NoDup (ct_ID <$> containers);
  settled_listed c k wl : c ∈ containers -> ws !! k = Some wl ->
    wl_ContainerID wl = Some (ct_ID c) -> servable c wl;
  settled_missing cid k wl : ws !! k = Some wl -> wl_NodeID wl = Some nodeID ->
    wl_ContainerID wl = Some cid -> cid ∉ ct_ID <$> containers ->
    occupying (wl_ActualState wl) = true -> wl_DesiredState wl = WorkloadScheduled
}.

(** A write to one workload that keeps its binding and its desired state. *)
Definition kept (k : string) (ws ws' : gmap string Workload) : Prop :=
  written k ws ws' /\
  forall w', ws' !! k = Some w' -> exists w, ws !! k = Some w /\
    wl_DesiredState w' = wl_DesiredState w /\ wl_NodeID w' = wl_NodeID w /\
    wl_ContainerID w' = wl_ContainerID w.

Lemma kept_refl k ws : kept k ws ws.
Proof. split; [done|]. eauto. Qed.

Lemma kept_lookup k ws ws' k' w' :
  kept k ws ws' -> ws' !! k' = Some w' ->
  exists w, ws !! k' = Some w /\ wl_DesiredState w' = wl_DesiredState w /\
    wl_NodeID w' = wl_NodeID w /\ wl_ContainerID w' = wl_ContainerID w /\
    (k' <> k -> w = w').
Proof.
  intros [Hwr Hk] Hw'. destruct (decide (k' = k)) as [->|Hne].
  - destruct (Hk _ Hw') as (w & ? & ? & ? & ?). exists w. by split_and!.
  - rewrite Hwr in Hw' by done. exists w'. by split_and!.
Qed.

(** What is left of a settled report after its first containers. *)
Record settled_rest (nodeID : string) (all rest : list Container)
    (ws : gmap string Workload) : Prop := {
  rest_ids : NoDup (ct_ID <$> rest);
  rest_listed c k wl : c ∈ rest -> ws !! k = Some wl ->
    wl_ContainerID wl = Some (ct_ID c) -> servable c wl;
  rest_all c : c ∈ rest -> ct_ID c ∈ ct_ID <$> all;
  rest_missing cid k wl : ws !! k = Some wl -> wl_NodeID wl = Some nodeID ->
    wl_ContainerID wl = Some cid -> cid ∉ ct_ID <$> all ->
    occupying (wl_ActualState wl) = true -> wl_DesiredState wl = WorkloadScheduled
}.

Lemma settled_start nid l ws : settled nid l ws -> settled_rest nid l l ws.
Proof. intros [? ? ?]. constructor; try done. intros c Hc. by apply list_elem_of_fmap_2. Qed.

Lemma settled_rest_skip nid all c rest ws :
  settled_rest nid all (c :: rest) ws -> settled_rest nid all rest ws.
Proof.
  intros [Hnd Hl Ha Hm]. constructor.
  - by apply NoDup_cons in Hnd as [_ ?].
  - intros c' k wl Hc'. apply Hl. by right.
  - intros c' Hc'. apply Ha. by right.
  - done.
Qed.

Lemma settled_rest_kept nid all c rest k wl ws ws' :
  settled_rest nid all (c :: rest) ws -> ws !! k = Some wl ->
  wl_ContainerID wl = Some (ct_ID c) -> kept k ws ws' -> settled_rest nid all rest ws'.
Proof.
  intros [Hnd Hl Ha Hm] Hwl Hcid Hkept. rewrite fmap_cons, NoDup_cons in Hnd.
  destruct Hnd as [Hc Hnd]. constructor; [done| | |].
  - intros c' k' w' Hc' Hw' Hcw'.
    destruct (kept_lookup _ _ _ _ _ Hkept Hw') as (w & Hw & _ & _ & Hcw & Hsame).
    destruct (decide (k' = k)) as [->|Hne].
    + exfalso. apply Hc. assert (ct_ID c = ct_ID c') as -> by congruence.
      by apply list_elem_of_fmap_2.
    + rewrite <- Hsame in * by done. apply (Hl c' k'); [by right|done..].
  - intros c' Hc'. apply Ha. by right.
  - intros cid k' w' Hw' Hn Hcw' Hcid' Hocc.
    destruct (kept_lookup _ _ _ _ _ Hkept Hw') as (w & Hw & Hd & Hnw & Hcw & Hsame).
    destruct (decide (k' = k)) as [->|Hne].
    + destruct Hcid'. assert (cid = ct_ID c) as -> by congruence. apply Ha. left.
    + rewrite Hsame in * by done. eauto.
Qed.

Section Nodes.
Context `{ReconcilerEnv} `{NodeClientLaws}.

(** A loop-allowed write to one row that keeps its binding. *)
Lemma keeps_kept_write k F op :
  (forall db, Inv db -> F (workloads db) -> loop_allowed db op) ->
  (forall t db db' n, apply_op t op db = Ok (db', n) -> kept k (workloads db) (workloads db')) ->
  loop_keeps F (exec op) (fun ws' => exists ws, F ws /\ kept k ws ws').
Proof.
  intros Hal Hk. apply triple_exec; [apply stable_inv_and|].
  intros t db r db' [Hi HF] [n d' Hop|n d' Hop|e].
  - split; [by eapply loop_op_inv; [| |done]; [|by apply Hal]|]. eauto.
  - split; [by eapply loop_op_inv; [| |done]; [|by apply Hal]|]. eauto.
  - split; [done|]. eauto using kept_refl.
Qed.

Lemma failed_kept t wid db db' n :
  apply_op t (OpMarkFailedAndRelease wid) db = Ok (db', n) ->
  kept wid (workloads db) (workloads db').
Proof using.
  intros Hop. cbn in Hop. inv_ok. apply failed_tx_inv in Hop. split.
  - by eapply released_written.
  - intros w' Hw'. apply released_row in Hop as (w & w1 & Hw & Hw1 & _ & Hd & Hn & Hc).
    exists w. by simplify_eq.
Qed.

Lemma actual_kept t wid st db db' n :
  apply_op t (OpUpdateWorkloadActualState wid st) db = Ok (db', n) ->
  kept wid (workloads db) (workloads db').
Proof using.
  intros Hop. cbn in Hop. unfold_sql Hop. inv_ok.
  match goal with Hu : updated _ _ _ _ _ _ _ |- _ => destruct Hu as [|r Hr _ _] end;
    [apply kept_refl|].
  split; [apply written_insert|]. cbn. intros w' Hw'. rewrite lookup_insert_eq in Hw'.
  injection Hw' as <-. by exists r.
Qed.

Lemma containerState_occupying st :
  containerState st <> WorkloadFailed -> occupying (containerState st) = true.
Proof using. unfold containerState. by repeat case_match. Qed.

Lemma keeps_reconcile_container nid all node c rest :
  loop_keeps (settled_rest nid all (c :: rest)) (reconcile_container node c)
    (settled_rest nid all rest).
Proof.
  unfold reconcile_container.
  apply (keeps_bind_ok (fun r ws => settled_rest nid all (c :: rest) ws /\
    match r with
    | Ok wl => ws !! wl_ID wl = Some wl /\ wl_ContainerID wl = Some (ct_ID c)
    | Err _ => True
    end)).
  { apply triple_try, triple_context, triple_query; [apply stable_inv_and| |].
    - intros t db [Hi HF]. pose proof (elem_of_by_container (ct_ID c) t db) as Hel.
      destruct (workloads_by_container (ct_ID c) t db) as [|wl l]; [done|]. cbn.
      split; [done|]. split; [done|]. apply Hel; [apply Hi|left].
    - intros e db [Hi HF]. done. }
  intros [wl|e]; [|apply keeps_ret; intros ws [Hr _]; by eapply settled_rest_skip].
  apply (triple_pure (servable c wl)).
  { intros db [Hi [Hr [Hw Hc]]]. eapply (rest_listed _ _ _ _ Hr c); [left|done..]. }
  intros Hserv. cbv zeta.
  set (F := fun ws => settled_rest nid all (c :: rest) ws /\ ws !! wl_ID wl = Some wl /\
    wl_ContainerID wl = Some (ct_ID c)).
  assert (forall ws', (exists ws, F ws /\ kept (wl_ID wl) ws ws') -> settled_rest nid all rest ws')
    as Hrest.
  { intros ws' (ws & (Hr & Hw & Hc) & Hk). by eapply settled_rest_kept. }
  assert (loop_keeps F (mret tt) (settled_rest nid all rest)) as Hskip
    by (apply keeps_ret; intros ws [Hr _]; by eapply settled_rest_skip).
  assert (forall st, (forall db, Inv db -> F (workloads db) ->
      loop_allowed db (OpUpdateWorkloadActualState (wl_ID wl) st)) ->
    loop_keeps F (UpdateWorkloadActualState (wl_ID wl) st) (settled_rest nid all rest)) as Hactual.
  { intros st Hal. apply (keeps_conseq _ F (fun ws' => exists ws, F ws /\ kept (wl_ID wl) ws ws'));
      [done..|]. keeps_method. apply keeps_kept_write; [done|intros *; apply actual_kept]. }
  case_match eqn:Hstop.
  { (* a stop request *)
    guards. destruct Hstop as [Hd _]. destruct Hserv as [[Hd' _]|[Hf _]]; [congruence|].
    apply (keeps_bind_ok (fun _ => F)).
    { apply triple_try, triple_no_effect; [no_effect|]. by intros. }
    intros [[]|e]; [|exact Hskip]. apply Hactual. intros db Hi (_ & Hw & _) w' Hw'.
    simplify_eq. by right. }
  case_match eqn:Hsame; [exact Hskip|]. guards.
  destruct Hserv as [[Hd Hocc]|[Hf [Hd|[_ Hst]]]];
    [|by destruct Hstop as [Hs|Hs]; [destruct Hs|rewrite Hf in Hs]|congruence].
  case_match eqn:Hfail; guards.
  - apply keeps_bind; [|intros _; apply keeps_no_effect; no_effect].
    apply (keeps_conseq _ F (fun ws' => exists ws, F ws /\ kept (wl_ID wl) ws ws')); [done..|].
    keeps_method. apply keeps_kept_write; [|intros *; apply failed_kept].
    intros db Hi (_ & Hw & _) w' Hw'. simplify_eq. split; [done|].
    intros Hst. by rewrite Hst in Hocc.
  - apply Hactual. intros db Hi (_ & Hw & _) w' Hw'. simplify_eq. left.
    split; [by apply containerState_occupying|]. by rewrite Hd.
Qed.

(** The rows of the second pass: all of this node, and those whose container
    is missing are to run. *)
Definition missing_rest (existing : gset string) (l : list Workload)
    (ws : gmap string Workload) : Prop :=
  current l ws /\
  forall wl cid, wl ∈ l -> wl_ContainerID wl = Some cid -> cid ∉ existing ->
    occupying (wl_ActualState wl) = true -> wl_DesiredState wl = WorkloadScheduled.

Lemma keeps_reconcile_missing existing wl rest :
  triple (inv_and (missing_rest existing (wl :: rest))) (reconcile_missing existing wl)
    (fun r => match r with Ok _ => inv_and (missing_rest existing rest)
              | Err _ => inv_and (fun _ => True) end).
Proof.
  assert (forall ws ws', missing_rest existing (wl :: rest) ws ->
    written (wl_ID wl) ws ws' -> missing_rest existing rest ws') as Hnext.
  { intros ws ws' [Hc Hm] Hw. split; [by eapply current_written|].
    intros x cid Hx. apply Hm. by right. }
  assert (triple (inv_and (missing_rest existing (wl :: rest))) (mret tt)
    (fun r => match r with Ok _ => inv_and (missing_rest existing rest)
              | Err _ => inv_and (fun _ => True) end)) as Hskip.
  { apply triple_ret. intros db [Hi Hm]. split; [done|]. eapply Hnext; [done|apply written_refl]. }
  unfold reconcile_missing. destruct (wl_ContainerID wl) as [cid|] eqn:Hcid; [|done].
  case_match eqn:Hst; [done|]. case_match eqn:Hex; [done|]. apply bool_decide_eq_false in Hex.
  assert (occupying (wl_ActualState wl) = true) as Hocc.
  { apply andb_false_iff in Hst as [Hst|Hst]; guards; by rewrite Hst. }
  eapply triple_conseq;
    [| |apply (keeps_bind (missing_rest existing (wl :: rest)) (missing_rest existing rest))].
  - done.
  - intros [[]|e] db [Hi Hm]; [done|by split].
  - apply keeps_context. keeps_method.
    eapply keeps_conseq; [| |apply (keeps_write (wl_ID wl) (missing_rest existing (wl :: rest)))].
    + done.
    + intros ws' (ws & Hm & Hw). by eapply Hnext.
    + done.
    + intros db Hi [Hc Hm] w' Hw'. apply current_cons in Hc as [Hc _]. simplify_eq.
      split; [apply (Hm _ cid); [left|done..]|]. intros Hs. by rewrite Hs in Hocc.
  - intros _. apply keeps_bind; [apply keeps_no_effect; no_effect|].
    intros _. apply keeps_no_effect; no_effect.
Qed.
End Nodes.

Lemma keeps_node_passes `{ReconcilerEnv} `{NodeClientLaws} node cs :
  loop_keeps (settled_rest (nd_ID node) cs cs)
    (for_each cs (reconcile_container node) ;;
     workloads ← ListWorkloadsByNode (nd_ID node);
     for_each workloads (reconcile_missing (list_to_set (ct_ID <$> cs))))
    (fun _ => True).
Proof.
  apply (keeps_bind_ok (fun _ => settled_rest (nd_ID node) cs [])).
  { apply (triple_for_each (fun l => inv_and (settled_rest (nd_ID node) cs l))); [done| |done].
    intros c l'. eapply triple_conseq; [done| |apply keeps_reconcile_container].
    intros [[]|e] db [Hi Hr]; [done|by split]. }
  intros _. set (ex := list_to_set (ct_ID <$> cs) : gset string).
  apply (keeps_bind_ok (fun l => missing_rest ex l)).
  { apply triple_context, triple_query; [apply stable_inv_and| |].
    - intros t db [Hi Hr]. cbn. split; [done|]. split.
      + split.
        * eapply (workload_ids_NoDup db (fun w => wl_NodeID w = Some (nd_ID node)));
            [apply Hi|apply workloads_by_node_perm].
        * intros w [? _]%elem_of_by_node; [done|apply Hi].
      + intros wl cid [Hw Hn]%elem_of_by_node Hc Hex Hocc; [|apply Hi].
        eapply (rest_missing _ _ _ _ Hr); [done..| |done].
        intros Hin. apply Hex, elem_of_list_to_set, Hin.
    - intros e db [Hi _]. by split. }
  intros l. apply (keeps_for_each (missing_rest ex)); [done|].
  intros wl rest. apply keeps_reconcile_missing.
Qed.

(** C7: Reconciling a node keeps the tables well formed, every node's account exact
    and the workloads in the states the store expects, whatever fails and
    whatever the other goroutines write, when the node's report is settled: the
    containers have different identifiers; a listed container that belongs to
    a workload belongs to one that is to run and is pending, scheduled or
    running, or to a failed one that is to stop, or to a failed one that is to
    run whose container is not reported running or created; and a workload of
    the node that is pending, scheduled or running and whose container is
    missing from the report is to run. *)
Theorem ReconcileNode_keeps_account `{ReconcilerEnv} `{NodeClientLaws} node w :
  Inv (world_db w) ->
  (forall cs, (ListContainers (nd_Address node) w).1 = Ok cs ->
     settled (nd_ID node) cs (workloads (world_db w))) ->
  wp (ReconcileNode node) (fun _ w' => Inv (world_db w')) w.
Proof.
  intros Hi Hset. unfold ReconcileNode. apply wp_bind. unfold wp at 1.
  pose proof (list_no_effect (nd_Address node) w) as Heff.
  destruct (ListContainers (nd_Address node) w) as [[cs|e] w1]; cbn in *; [|by rewrite Heff].
  eapply wp_mono; [|apply (keeps_node_passes node cs)].
  - by intros r w' [? _].
  - rewrite Heff. split; [done|]. apply settled_start, Hset. done.
Qed.

(** The node lists the container of [busy_db] as running. *)
Definition nodes_listing (status : string) : NodeAnswers := {|
  answer_create _ _ config :=
    Ok (mkContainer ("c-" +:+ cc_Name config) (cc_Name config) (cc_Image config) "created" 0);
  answer_start _ _ _ := Ok tt;
  answer_list _ address :=
    Ok (if address =s? "n1:9001" then [mkContainer "c1" "workload-w1" "nginx:1" status 0] else []);
  answer_stop _ _ _ := Ok tt;
  answer_delete _ _ _ := Ok tt;
  answer_stats _ _ _ := Ok (mkContainerStats 350)
|}.

Lemma ReconcileNode_keeps_account_witness :
  Inv (world_db (ReconcileNode (H0 := @answering_client (nodes_listing "exited")) busy_node
    (sample_world busy_db)).2).
Proof.
  apply (ReconcileNode_keeps_account (H1 := @answering_client (nodes_listing "exited"))
    busy_node (sample_world busy_db) busy_db_inv).
  intros cs Hcs. injection Hcs as <-.
  assert (forall k wl, workloads busy_db !! k = Some wl -> is_Some (wl_ContainerID wl) ->
    wl = running_workload) as Hone.
  { intros k wl Hwl Hc. cbn in Hwl.
    repeat (apply lookup_insert_Some in Hwl as [[_ <-]|[_ Hwl]]; [try reflexivity|]).
    - by destruct Hc.
    - by rewrite lookup_empty in Hwl. }
  constructor.
  - cbn. apply NoDup_singleton.
  - intros c k wl _ Hwl Hc. rewrite (Hone k wl Hwl); [by left|by rewrite Hc].
  - intros cid k wl Hwl _ Hc _ _. rewrite (Hone k wl Hwl); [done|by rewrite Hc].
Defined.
