(* ===== verification/RuntimeFindings.v ===== *)
(** * Where the runtime reconciler breaks the account

    [ReconcileNode] stops the container of a workload that is to stop, and
    records it as stopped without giving its resources back; a stopped
    container that is still listed is then taken for a failure, which does give
    them back, at every other pass.  A workload that has failed, and gave its
    resources back, is set running again when its container is listed alive,
    without a new reservation.  The theorems state the three effects, and that
    an undisturbed scale-down runs into the first one. *)

From S2P Require Import Prelude Float64 Model Sql StoreInv Accounting Env Logic Postgres.
From S2P Require Import Discipline Scheduler Controllers ServiceCounts NodeClient Quiet Samples.
From S2P Require Import Histories StoreSpec Reconciler LoopSafety ReplicaSpec RolloutSpec.
From S2P Require Import ReconcilerSpec.

(** ** The releasing transactions on a well-formed database *)

Definition released_node (now : Z) (w : Workload) (n : Node) : Node :=
  with_allocation (release (wl_CPURequestMillis w)) (release (wl_MemoryRequestMB w)) now n.

Lemma released_node_ok now w n :
  node_row_ok n = true -> 0 < wl_CPURequestMillis w -> 0 < wl_MemoryRequestMB w ->
  node_row_ok (released_node now w n) = true.
Proof.
  intros Hok Hc Hm. pose proof (node_row_bounds _ Hok).
  unfold node_row_ok, released_node, release in *. cbn. guards.
  destruct Hok as ((((? & [? ?]) & [? ?]) & _) & _).
  split_and!; try tauto; try lia; apply int4_spec; lia.
Qed.

Lemma actual_row_ok st t w : workload_row_ok w = true -> workload_row_ok (with_actual st t w) = true.
Proof. done. Qed.

Definition release_db (now : Z) (state : WorkloadState) (nid : string) (n : Node) (wl : Workload)
    (db : DB) : DB :=
  mkDB (<[nid := released_node now wl n]> (nodes db)) (services db)
    (<[wl_ID wl := with_actual state now wl]> (workloads db)).

Section Releases.
Context (now : Z) (db : DB) (wl : Workload) (nid : string) (n : Node).
Context (Hwf : WF db) (Hw : workloads db !! wl_ID wl = Some wl).
Context (Hnid : wl_NodeID wl = Some nid) (Hn : nodes db !! nid = Some n).

Lemma released_node_update :
  update_node nid (with_allocation (release (wl_CPURequestMillis wl))
    (release (wl_MemoryRequestMB wl)) now) db =
  Ok (mkDB (<[nid := released_node now wl n]> (nodes db)) (services db) (workloads db), 1).
Proof using All.
  destruct (workload_requests_pos _ _ _ Hwf Hw).
  apply update_node_hit; [done|]. apply released_node_ok; [|done..].
  by apply (wf_node _ Hwf nid).
Qed.

Lemma actual_update st db' :
  workloads db' = workloads db ->
  update_workload (wl_ID wl) no_guard (with_actual st now) db' =
  Ok (mkDB (nodes db') (services db') (<[wl_ID wl := with_actual st now wl]> (workloads db')), 1).
Proof using Hwf Hw.
  intros He. apply (update_workload_hit _ _ _ _ wl); [by rewrite He|done|].
  apply actual_row_ok. by apply (wf_workload _ Hwf _ _ Hw).
Qed.

Lemma failed_tx_hit :
  wl_ActualState wl <> WorkloadFailed ->
  MarkWorkloadFailedAndReleaseResources_tx now (wl_ID wl) db =
    Ok (release_db now WorkloadFailed nid n wl db).
Proof using All.
  intros Ha%workload_state_eqb_neq. unfold MarkWorkloadFailedAndReleaseResources_tx.
  rewrite Hw, Ha, Hnid, released_node_update. cbn [wrapf mbind res_bind].
  change (1 =? 0) with false. cbn [mret res_ret mbind res_bind].
  by rewrite actual_update.
Qed.

Lemma stopped_tx_hit :
  wl_ActualState wl <> WorkloadStopped ->
  MarkWorkloadStoppedAndReleaseResources_tx now (wl_ID wl) db =
    Ok (release_db now WorkloadStopped nid n wl db).
Proof using All.
  intros Ha%workload_state_eqb_neq. unfold MarkWorkloadStoppedAndReleaseResources_tx.
  rewrite Hw, Ha, Hnid, released_node_update. cbn [wrapf mbind res_bind mret res_ret].
  by rewrite actual_update.
Qed.
End Releases.

Lemma release_db_wf now st nid n wl db :
  WF db -> workloads db !! wl_ID wl = Some wl -> nodes db !! nid = Some n ->
  WF (release_db now st nid n wl db).
Proof.
  intros Hwf Hw Hn. destruct (workload_requests_pos _ _ _ Hwf Hw).
  destruct (wf_node _ Hwf _ _ Hn) as [Hid Hok], (wf_workload _ Hwf _ _ Hw) as [_ Hwok].
  pose proof (wf_insert_node _ Hwf nid (released_node now wl n) Hid
    (released_node_ok _ _ _ Hok ltac:(done) ltac:(done))) as Hwf1.
  apply (wf_insert_workload _ Hwf1); [done|by apply actual_row_ok| |].
  - by apply (wf_fk_service _ Hwf _ _ Hw).
  - intros nid' Hn'. by apply (wf_fk_node _ Hwf1 (wl_ID wl) wl).
Qed.

(** ** The stop path *)

(** [wl] is the one workload of a container. *)
Definition sole_owner (c : Container) (wl : Workload) (ws : gmap string Workload) : Prop :=
  ws !! wl_ID wl = Some wl /\ wl_ContainerID wl = Some (ct_ID c) /\
  forall k w, ws !! k = Some w -> wl_ContainerID w = Some (ct_ID c) -> k = wl_ID wl.

Lemma sole_owner_listed `{Env} c wl t db :
  WF db -> sole_owner c wl (workloads db) -> exists l, workloads_by_container (ct_ID c) t db = wl :: l.
Proof.
  intros Hwf (Hw & Hc & Hone). pose proof (elem_of_by_container (ct_ID c) t db) as Hel.
  destruct (workloads_by_container (ct_ID c) t db) as [|x l].
  - exfalso. apply (not_elem_of_nil wl). by apply Hel.
  - exists l. f_equal. destruct (proj1 (Hel x Hwf) ltac:(left)) as [Hx Hcx].
    rewrite (Hone _ _ Hx Hcx) in Hx. congruence.
Qed.

Lemma sole_owner_actual c wl st t ws :
  sole_owner c wl ws -> sole_owner c (with_actual st t wl) (<[wl_ID wl := with_actual st t wl]> ws).
Proof.
  intros (Hw & Hc & Hone). split; [apply lookup_insert_eq|]. split; [done|].
  intros k w [[<- _]|[_ Hkw]]%lookup_insert_Some Hcw; [done|]. by eapply Hone.
Qed.

Section StopPath.
Context `{Quiet} `{NodeAnswers}.

(** The two branches taken below. *)
Lemma reconcile_container_stops node c wl (Q : res unit -> World -> Prop) w :
  WF (world_db w) -> sole_owner c wl (workloads (world_db w)) ->
  wl_DesiredState wl = WorkloadStopped -> wl_ActualState wl <> WorkloadStopped ->
  (forall t, answer_stop t (nd_Address node) (ct_ID c) = Ok tt) ->
  (forall t w', world_db w' = mkDB (nodes (world_db w)) (services (world_db w))
       (<[wl_ID wl := with_actual WorkloadStopped t wl]> (workloads (world_db w))) ->
     Q (Ok tt) w') ->
  wp (reconcile_container node c) Q w.
Proof using All.
  intros Hwf Hown Hd Ha Hstop HQ. unfold reconcile_container, GetWorkloadByContainerID.
  do 4 wp_step. destruct (sole_owner_listed c wl (world_tick w) _ Hwf Hown) as [l ->].
  cbn [wrapf]. rewrite Hd, (proj2 (workload_state_eqb_neq _ _) Ha).
  change (WorkloadStopped =w? WorkloadStopped) with true. cbn [andb negb].
  do 2 wp_step. unfold wp at 1. cbn [StopContainer answering_client call_node fst snd].
  rewrite Hstop. unfold UpdateWorkloadActualState. do 3 wp_step. cbn [apply_op world_db tick set_db].
  unfold UpdateWorkloadActualState_sql. destruct Hown as (Hw & _).
  rewrite (update_workload_hit _ _ _ _ wl) by
    (done || by apply actual_row_ok, (wf_workload _ Hwf _ _ Hw)).
  cbn [wrapf]. wp_step. by eapply HQ.
Qed.

Lemma reconcile_container_fails node c wl nid n (Q : res unit -> World -> Prop) w :
  WF (world_db w) -> sole_owner c wl (workloads (world_db w)) ->
  wl_NodeID wl = Some nid -> nodes (world_db w) !! nid = Some n ->
  wl_ActualState wl = WorkloadStopped -> containerState (ct_Status c) = WorkloadFailed ->
  (forall t w', world_db w' = release_db t WorkloadFailed nid n wl (world_db w) -> Q (Ok tt) w') ->
  wp (reconcile_container node c) Q w.
Proof using All.
  intros Hwf Hown Hnid Hn Ha Hf HQ. unfold reconcile_container, GetWorkloadByContainerID.
  do 4 wp_step. destruct (sole_owner_listed c wl (world_tick w) _ Hwf Hown) as [l ->].
  cbn [wrapf]. rewrite Ha, Hf. eval_states. rewrite andb_false_r.
  unfold MarkWorkloadFailedAndReleaseResources. wp_step. do 2 wp_step.
  cbn [apply_op world_db tick set_db]. unfold transaction.
  destruct Hown as (Hw & _).
  rewrite (failed_tx_hit _ _ wl nid n) by (done || by rewrite Ha). cbn [mbind res_bind mret res_ret].
  wp_step. unfold wp, WorkloadFailed_inc, on_metrics. cbn [fst snd]. by eapply HQ.
Qed.
Lemma reconcile_container_revives node c wl (Q : res unit -> World -> Prop) w :
  WF (world_db w) -> sole_owner c wl (workloads (world_db w)) ->
  occupying (wl_ActualState wl) = false ->
  (wl_DesiredState wl <> WorkloadStopped \/ wl_ActualState wl = WorkloadStopped) ->
  containerState (ct_Status c) <> WorkloadFailed ->
  (forall t w', world_db w' = mkDB (nodes (world_db w)) (services (world_db w))
       (<[wl_ID wl := with_actual (containerState (ct_Status c)) t wl]>
          (workloads (world_db w))) ->
     Q (Ok tt) w') ->
  wp (reconcile_container node c) Q w.
Proof using All.
  intros Hwf Hown Hocc Hnostop Halive HQ. unfold reconcile_container, GetWorkloadByContainerID.
  do 4 wp_step. destruct (sole_owner_listed c wl (world_tick w) _ Hwf Hown) as [l ->].
  cbn [wrapf]. pose proof (containerState_occupying _ Halive) as Hocc'.
  assert ((wl_DesiredState wl =w? WorkloadStopped) &&
    negb (wl_ActualState wl =w? WorkloadStopped) = false) as ->.
  { destruct Hnostop as [Hd%workload_state_eqb_neq| ->]; [by rewrite Hd|]. by rewrite andb_false_r. }
  assert ((wl_ActualState wl =w? containerState (ct_Status c)) = false) as ->.
  { apply workload_state_eqb_neq. intros He. by rewrite He, Hocc' in Hocc. }
  rewrite (proj2 (workload_state_eqb_neq _ _) Halive).
  unfold UpdateWorkloadActualState. do 3 wp_step. cbn [apply_op world_db tick set_db].
  unfold UpdateWorkloadActualState_sql. destruct Hown as (Hw & _).
  rewrite (update_workload_hit _ _ _ _ wl) by
    (done || by apply actual_row_ok, (wf_workload _ Hwf _ _ Hw)).
  cbn [wrapf]. wp_step. by eapply HQ.
Qed.
End StopPath.

Section Leak.
Context `{Quiet} `{NodeAnswers}.

(** C22: A stop request served by the runtime reconciler keeps the reservation:
    the workload is stopped, its node's columns are untouched, so the account
    is no longer exact; and nothing later repairs it by way of [Stop], which
    takes a stopped workload for done. *)
Theorem runtime_stop_leaks node c wl nid w :
  WF (world_db w) -> Accounted (world_db w) -> sole_owner c wl (workloads (world_db w)) ->
  wl_NodeID wl = Some nid -> wl_DesiredState wl = WorkloadStopped ->
  occupying (wl_ActualState wl) = true ->
  (forall t, answer_stop t (nd_Address node) (ct_ID c) = Ok tt) ->
  wp (reconcile_container node c) (fun r w' =>
    r = Ok tt /\ nodes (world_db w') = nodes (world_db w) /\
    ~ Accounted (world_db w') /\
    exists wl', workloads (world_db w') !! wl_ID wl = Some wl' /\
      wl_ActualState wl' = WorkloadStopped /\ forall m w'', Stop wl' m w'' = (Ok tt, w'')) w.
Proof.
  intros Hwf Hacc Hown Hnid Hd Hocc Hstop.
  assert (wl_ActualState wl <> WorkloadStopped) as Ha by (intros He; by rewrite He in Hocc).
  apply (reconcile_container_stops node c wl); [done..|]. intros t w' ->. cbn.
  destruct Hown as (Hw & _). destruct (wf_fk_node _ Hwf _ _ _ Hw Hnid) as [n Hn].
  split_and!; [done|done| |].
  - intros Hacc'. destruct (Hacc' nid n Hn) as [Hc' _]. destruct (Hacc nid n Hn) as [Hc _].
    unfold reserved in Hc'. cbn [workloads] in Hc'.
    rewrite (reserved_insert _ nid _ _ wl) in Hc' by done.
    rewrite share_here, share_idle in Hc' by done.
    destruct (workload_requests_pos _ _ _ Hwf Hw). lia.
  - eexists. split; [apply lookup_insert_eq|]. split; [done|]. intros m w''.
    unfold Stop. cbn [wl_DesiredState with_actual with_state wl_ActualState]. by rewrite Hd.
Qed.

(** C17: A workload that gave its resources back (it has failed or stopped) and whose
    container the node lists as running or created is alive again without a
    reservation: its row takes the state reported, the columns of its node stay
    as they are, and the requests of the workloads that occupy the node then
    exceed what the node has recorded by the workload's own. *)
Theorem revived_workload_is_unaccounted node c wl nid n w :
  WF (world_db w) -> Accounted (world_db w) -> sole_owner c wl (workloads (world_db w)) ->
  wl_NodeID wl = Some nid -> nodes (world_db w) !! nid = Some n ->
  occupying (wl_ActualState wl) = false ->
  (wl_DesiredState wl <> WorkloadStopped \/ wl_ActualState wl = WorkloadStopped) ->
  containerState (ct_Status c) <> WorkloadFailed ->
  wp (reconcile_container node c) (fun r w' =>
    r = Ok tt /\ nodes (world_db w') = nodes (world_db w) /\
    (exists wl', workloads (world_db w') !! wl_ID wl = Some wl' /\
       wl_ActualState wl' = containerState (ct_Status c)) /\
    reserved wl_CPURequestMillis nid (world_db w') =
      nd_CPUAllocated n + wl_CPURequestMillis wl /\
    reserved wl_MemoryRequestMB nid (world_db w') =
      nd_MemoryAllocated n + wl_MemoryRequestMB wl /\
    ~ Accounted (world_db w')) w.
Proof.
  intros Hwf Hacc Hown Hnid Hn Hocc Hnostop Halive.
  apply (reconcile_container_revives node c wl); [done..|]. intros t w' Hdb.
  pose proof (containerState_occupying _ Halive) as Hocc'. destruct Hown as (Hw & _).
  destruct (Hacc nid n Hn) as [Hc Hm]. destruct (workload_requests_pos _ _ _ Hwf Hw).
  assert (forall f, (forall st, f (with_actual st t wl) = f wl) ->
    reserved f nid (world_db w') = reserved f nid (world_db w) + f wl) as Hsum.
  { intros f Hf. rewrite Hdb. unfold reserved at 1. cbn [workloads].
    rewrite (reserved_insert _ nid _ _ wl) by done.
    rewrite share_idle, share_here by done. rewrite Hf. lia. }
  rewrite !Hsum, <- Hc, <- Hm by done. split_and!; try done.
  - by rewrite Hdb.
  - eexists. rewrite Hdb. cbn. split; [apply lookup_insert_eq|done].
  - intros Hacc'. destruct (Hacc' nid n) as [Hc' _]; [by rewrite Hdb|].
    rewrite Hsum in Hc' by done. lia.
Qed.

(** Two passes over such a container. *)
Lemma double_release_step node c wl nid n w (Q : res unit -> World -> Prop) :
  WF (world_db w) -> sole_owner c wl (workloads (world_db w)) ->
  wl_NodeID wl = Some nid -> nodes (world_db w) !! nid = Some n ->
  wl_DesiredState wl = WorkloadStopped -> wl_ActualState wl = WorkloadStopped ->
  containerState (ct_Status c) = WorkloadFailed ->
  (forall t, answer_stop t (nd_Address node) (ct_ID c) = Ok tt) ->
  (forall wl' n' w', WF (world_db w') -> sole_owner c wl' (workloads (world_db w')) ->
     wl_NodeID wl' = Some nid -> nodes (world_db w') !! nid = Some n' ->
     wl_DesiredState wl' = WorkloadStopped -> wl_ActualState wl' = WorkloadStopped ->
     wl_ID wl' = wl_ID wl -> wl_CPURequestMillis wl' = wl_CPURequestMillis wl ->
     nd_CPUAllocated n' = release (wl_CPURequestMillis wl) (nd_CPUAllocated n) ->
     Q (Ok tt) w') ->
  wp (reconcile_container node c ;; reconcile_container node c) Q w.
Proof using All.
  intros Hwf Hown Hnid Hn Hd Ha Hst Hstop HQ. wp_step.
  apply (reconcile_container_fails node c wl nid n); [done..|]. intros t1 w1 Hdb1.
  pose proof Hown as (Hw & _).
  set (wl1 := with_actual WorkloadFailed t1 wl).
  assert (WF (world_db w1)) as Hwf1 by (rewrite Hdb1; by apply release_db_wf).
  assert (sole_owner c wl1 (workloads (world_db w1))) as Hown1
    by (rewrite Hdb1; by apply sole_owner_actual).
  apply (reconcile_container_stops node c wl1); [done..|]. intros t2 w2 Hdb2.
  apply (HQ (with_actual WorkloadStopped t2 wl1) (released_node t1 wl n)); try done.
  - rewrite Hdb2. pose proof Hown1 as (Hw1 & _).
    apply wf_insert_workload; [done|done|by apply (wf_workload _ Hwf1 _ _ Hw1)| |].
    + by apply (wf_fk_service _ Hwf1 _ _ Hw1).
    + intros nid' Hn'. by apply (wf_fk_node _ Hwf1 _ _ _ Hw1).
  - rewrite Hdb2. by apply sole_owner_actual.
  - rewrite Hdb2. cbn. rewrite Hdb1. apply lookup_insert_eq.
Qed.

(** C23: A stopped workload whose container is still listed as exited is released
    again at every second pass: [k] double passes take [k] times its CPU request
    off the CPU allocation of the node, down to zero, whatever else runs there. *)
Theorem repeated_release_drains_node k node c wl nid n w :
  WF (world_db w) -> sole_owner c wl (workloads (world_db w)) ->
  wl_NodeID wl = Some nid -> nodes (world_db w) !! nid = Some n ->
  wl_DesiredState wl = WorkloadStopped -> wl_ActualState wl = WorkloadStopped ->
  containerState (ct_Status c) = WorkloadFailed ->
  (forall t, answer_stop t (nd_Address node) (ct_ID c) = Ok tt) ->
  wp (for_each (seqZ 0 (Z.of_nat k)) (fun _ =>
        reconcile_container node c ;; reconcile_container node c))
    (fun r w' => r = Ok tt /\ exists n', nodes (world_db w') !! nid = Some n' /\
       nd_CPUAllocated n' =
         Z.max 0 (nd_CPUAllocated n - Z.of_nat k * wl_CPURequestMillis wl)) w.
Proof.
  intros Hwf Hown Hnid Hn Hd Ha Hst Hstop.
  destruct (wf_node _ Hwf _ _ Hn) as [_ Hb%node_row_bounds].
  destruct (workload_requests_pos _ _ _ Hwf (proj1 Hown)) as [Hpos _].
  set (I := fun (l : list Z) w' => exists wl' n', WF (world_db w') /\
    sole_owner c wl' (workloads (world_db w')) /\ wl_NodeID wl' = Some nid /\
    nodes (world_db w') !! nid = Some n' /\ wl_DesiredState wl' = WorkloadStopped /\
    wl_ActualState wl' = WorkloadStopped /\
    wl_CPURequestMillis wl' = wl_CPURequestMillis wl /\
    nd_CPUAllocated n' = Z.max 0 (nd_CPUAllocated n -
      (Z.of_nat k - Z.of_nat (length l)) * wl_CPURequestMillis wl)).
  apply (wp_for_each I).
  - exists wl, n. split_and!; try done. rewrite length_seqZ, Nat2Z.id. lia.
  - intros x l w1 (wl1 & n1 & ? & ? & ? & ? & ? & ? & Hcpu & Hal).
    apply (double_release_step node c wl1 nid n1); [done..|].
    intros wl2 n2 w2 ? ? ? ? ? ? _ Hcpu2 Hal2. exists wl2, n2. split_and!; try done; [congruence|].
    rewrite Hal2, Hal, Hcpu. unfold release. cbn [length]. nia.
  - intros w1 (wl1 & n1 & _ & _ & _ & Hn1 & _ & _ & _ & Hal). split; [done|].
    exists n1. split; [done|]. rewrite Hal. cbn [length]. f_equal. lia.
Qed.
End Leak.

(** ** Concrete runs *)

(** The node runs [c1] and [c2]. *)
Definition listing (s1 s2 : string) : NodeAnswers := {|
  answer_create _ _ config :=
    Ok (mkContainer ("c-" +:+ cc_Name config) (cc_Name config) (cc_Image config) "created" 0);
  answer_start _ _ _ := Ok tt;
  answer_list _ address :=
    Ok (if address =s? "n1:9001"
        then [mkContainer "c1" "workload-w1" "nginx:1" s1 0;
              mkContainer "c2" "workload-w2" "nginx:1" s2 0] else []);
  answer_stop _ _ _ := Ok tt;
  answer_delete _ _ _ := Ok tt;
  answer_stats _ _ _ := Ok (mkContainerStats 350)
|}.

Definition second_workload (desired actual : WorkloadState) : Workload :=
  sample_workload "w2" (Some "n1") (Some "c2") desired actual 1.

(** Two replicas run and [replicas] are wanted. *)
Definition pair_db (replicas alloc_cpu alloc_mem : Z) (desired actual : WorkloadState) : DB :=
  sample_db (sample_service replicas 1) (sample_node "n1" alloc_cpu alloc_mem) (sample_node "n2" 0 0)
    [running_workload; second_workload desired actual].

Definition second_container (status : string) : Container :=
  mkContainer "c2" "workload-w2" "nginx:1" status 0.

Lemma second_sole_owner replicas cpu mem desired actual status :
  sole_owner (second_container status) (second_workload desired actual)
    (workloads (pair_db replicas cpu mem desired actual)).
Proof.
  split_and!; [reflexivity..|]. intros k w Hw Hc. cbn in Hw.
  repeat (apply lookup_insert_Some in Hw as [[<- <-]|[_ Hw]]; [try done|]).
  by rewrite lookup_empty in Hw.
Qed.

Lemma runtime_stop_leaks_witness :
  ~ Accounted (world_db (reconcile_container (H0 := @answering_client (listing "running" "running"))
      (sample_node "n1" 1000 1024) (second_container "running")
      (sample_world (pair_db 1 1000 1024 WorkloadStopped WorkloadRunning))).2).
Proof.
  apply (runtime_stop_leaks (H1 := listing "running" "running") (sample_node "n1" 1000 1024)
    (second_container "running") (second_workload WorkloadStopped WorkloadRunning) "n1"
    (sample_world (pair_db 1 1000 1024 WorkloadStopped WorkloadRunning))); try reflexivity.
  - apply wf_check_sound. by_computation.
  - apply accounted_check_sound. by_computation.
  - apply second_sole_owner.
Defined.

Lemma revived_workload_is_unaccounted_witness :
  ~ Accounted (world_db (reconcile_container (H0 := @answering_client (listing "running" "running"))
      (sample_node "n1" 500 512) (second_container "running")
      (sample_world (pair_db 2 500 512 WorkloadScheduled WorkloadFailed))).2).
Proof.
  apply (revived_workload_is_unaccounted (H1 := listing "running" "running")
    (sample_node "n1" 500 512) (second_container "running")
    (second_workload WorkloadScheduled WorkloadFailed) "n1" (sample_node "n1" 500 512)
    (sample_world (pair_db 2 500 512 WorkloadScheduled WorkloadFailed))); try reflexivity.
  - apply wf_check_sound. by_computation.
  - apply accounted_check_sound. by_computation.
  - apply second_sole_owner.
  - by left.
  - discriminate.
Defined.

Lemma repeated_release_drains_node_witness :
  exists n, nodes (world_db (for_each (seqZ 0 (Z.of_nat 1)) (fun _ =>
      reconcile_container (H0 := @answering_client (listing "running" "exited"))
        (sample_node "n1" 500 512) (second_container "exited") ;;
      reconcile_container (H0 := @answering_client (listing "running" "exited"))
        (sample_node "n1" 500 512) (second_container "exited"))
    (sample_world (pair_db 1 500 512 WorkloadStopped WorkloadStopped))).2) !! "n1" = Some n /\
    nd_CPUAllocated n = 0.
Proof.
  apply (repeated_release_drains_node (H1 := listing "running" "exited") 1 (sample_node "n1" 500 512)
    (second_container "exited") (second_workload WorkloadStopped WorkloadStopped) "n1"
    (sample_node "n1" 500 512)
    (sample_world (pair_db 1 500 512 WorkloadStopped WorkloadStopped))); try reflexivity.
  - apply wf_check_sound. by_computation.
  - apply second_sole_owner.
Defined.

(** C24: Two undisturbed cycles of the whole loop over a service scaled down from
    two replicas to one, on a node that reports both containers as running:
    the first cycle marks one workload, the second stops its container, and
    the node keeps 500 millicores reserved for nobody, from a database in
    which every invariant of the loop held. *)
Theorem scale_down_leaks :
  let db := pair_db 1 1000 1024 WorkloadScheduled WorkloadRunning in
  let client := @answering_client (listing "running" "running") in
  let w := (reconcile (H0 := client) time_minute ;; reconcile (H0 := client) time_minute)
             (sample_world db) in
  Inv db /\ w.1 = Ok tt /\
  exists n, nodes (world_db w.2) !! "n1" = Some n /\
    nd_CPUAllocated n = 1000 /\ reserved wl_CPURequestMillis "n1" (world_db w.2) = 500.
Proof.
  cbv zeta. split.
  { constructor; [apply wf_check_sound|apply accounted_check_sound|apply row_check_sound];
      by_computation. }
  split; [by_computation|]. eexists. split; [by_computation|]. split; by_computation.
Qed.
