(* ===== verification/ExecutorSpec.v ===== *)
(** * What the executor promises, and that deletion ends

    [Execute] leaves a workload running or failed-and-released; [Stop] leaves it
    stopped-and-released; and two passes of the loop over a service being
    deleted, with nodes that obey, end in a deleted service. *)

From S2P Require Import Prelude Float64 Model Sql StoreInv Accounting Env Logic Postgres.
From S2P Require Import Discipline Scheduler Controllers ServiceCounts NodeClient Quiet Samples.
From S2P Require Import Histories StoreSpec Reconciler LoopSafety ReplicaSpec RolloutSpec.
From S2P Require Import ReconcilerSpec RuntimeFindings.

(** The workload once it runs. *)
Definition running_db (t : Z) (cid : string) (wl : Workload) (db : DB) : DB :=
  mkDB (nodes db) (services db)
    (<[wl_ID wl := with_state (wl_NodeID wl) (Some cid) (wl_DesiredState wl) WorkloadRunning t wl]>
       (workloads db)).

Lemma running_row_ok t cid d wl :
  workload_row_ok wl = true ->
  workload_row_ok (with_state (wl_NodeID wl) (Some cid) d WorkloadRunning t wl) =
    varchar 128 cid.
Proof.
  unfold workload_row_ok. cbn. intros H. guards. destruct H as [[[[[[[H1 H2] H3] _] H4] H5] H6] H7].
  rewrite H1, H2, H3, H4, H7. destruct H5 as [-> ->%Z.ltb_lt], H6 as [-> ->%Z.ltb_lt].
  cbn. by rewrite !andb_true_r.
Qed.

(** C11: Executing a scheduled workload creates its container, then starts it.  If
    creation fails nothing is recorded; if the start fails the workload is
    failed and its reservation given back; otherwise it runs in that container,
    unless the identifier does not fit its column. *)
Theorem Execute_outcomes `{Quiet} `{NodeAnswers} wl node nid n w :
  WF (world_db w) -> workloads (world_db w) !! wl_ID wl = Some wl ->
  wl_DesiredState wl = WorkloadScheduled -> occupying (wl_ActualState wl) = true ->
  wl_NodeID wl = Some nid -> nodes (world_db w) !! nid = Some n ->
  let config := mkContainerConfig ("workload-" +:+ wl_ID wl) (wl_Image wl)
    (wl_CPURequestMillis wl) (wl_MemoryRequestMB wl) in
  let addr := nd_Address node in
  wp (Execute wl node) (fun r w' =>
    match answer_create (world_tick w) addr config with
    | Err e =>
        r = Err (Wrapf "create container: %w" [] e) /\ world_db w' = world_db w /\
        world_calls w' = world_calls w ++ [CallCreate addr config]
    | Ok c =>
        world_calls w' = world_calls w ++ [CallCreate addr config; CallStart addr (ct_ID c)] /\
        match answer_start (S (world_tick w)) addr (ct_ID c) with
        | Err e =>
            r = Err (Wrapf "start container: %w" [] e) /\
            exists t, world_db w' = release_db t WorkloadFailed nid n wl (world_db w)
        | Ok _ =>
            if varchar 128 (ct_ID c)
            then r = Ok tt /\ exists t, world_db w' = running_db t (ct_ID c) wl (world_db w)
            else is_ok r = false /\ world_db w' = world_db w
        end
    end) w.
Proof.
  intros Hwf Hw Hd Hocc Hnid Hn config addr. unfold Execute. rewrite Hd.
  change (WorkloadScheduled =w? WorkloadScheduled) with true. cbn [negb]. cbv zeta.
  fold config. fold addr. do 2 wp_step. unfold wp at 1. cbn [CreateContainer answering_client call_node fst snd].
  destruct (answer_create (world_tick w) addr config) as [c|e]; cbn [wrapf]; [|by split_and!].
  do 2 wp_step. unfold wp at 1. cbn [StartContainer answering_client call_node fst snd world_tick].
  destruct (answer_start (S (world_tick w)) addr (ct_ID c)) as [u|e].
  - unfold MarkWorkloadRunning. do 4 wp_step. cbn [apply_op world_db].
    unfold MarkWorkloadRunning_sql, update_workload, update_row. rewrite Hw, Hd.
    change (WorkloadScheduled =w? WorkloadScheduled) with true. cbn [negb]. cbv beta.
    rewrite running_row_ok by apply (wf_workload _ Hwf _ _ Hw).
    destruct (varchar 128 (ct_ID c)); cbn [mbind res_bind mret res_ret wrapf].
    + change (1 =? 0) with false. wp_step. cbn. rewrite <- app_assoc. split; [done|].
      split; [done|]. unfold running_db. rewrite Hd. by eexists.
    + cbn. rewrite <- app_assoc. by split_and!.
  - unfold MarkWorkloadFailedAndReleaseResources. do 4 wp_step. cbn [apply_op world_db].
    unfold transaction. rewrite (failed_tx_hit _ _ wl nid n) by
      (done || by intros Hf; rewrite Hf in Hocc). cbn [mbind res_bind mret res_ret].
    wp_step. cbn [wrapf]. wp_step. cbn. rewrite <- app_assoc. split; [done|]. split; [done|].
    by eexists.
Qed.

(** A workload placed on its node and not started yet. *)
Definition placed_workload : Workload :=
  sample_workload "w1" (Some "n1") None WorkloadScheduled WorkloadPending 1.
Definition scheduled_db : DB :=
  sample_db (sample_service 1 1) busy_node (sample_node "n2" 0 0) [placed_workload].

Lemma Execute_outcomes_witness :
  exists t, world_db (Execute placed_workload busy_node (sample_world scheduled_db)).2 =
    running_db t "c-workload-w1" placed_workload scheduled_db.
Proof.
  pose proof (Execute_outcomes placed_workload busy_node "n1" busy_node (sample_world scheduled_db)
    (wf_check_sound scheduled_db eq_refl) eq_refl eq_refl eq_refl eq_refl eq_refl) as H.
  destruct H as [_ H]. destruct H as [_ H]. exact H.
Defined.

(** ** Shutdown and deletion *)

(** Nodes that do what they are told when told to stop. *)
Class Obedient `{NodeAnswers} : Prop := {
  obey_stop t address id : answer_stop t address id = Ok tt;
  obey_delete t address id : answer_delete t address id = Ok tt
}.

(** The facts the passes carry. *)
Definition same_services (w w' : World) : Prop := services (world_db w') = services (world_db w).

Section Shutdown.
Context `{Quiet} `{Obedient}.

(** A shutdown ends with the workload stopped, its container gone. *)
Lemma stop_transaction t wl db :
  WF db -> workloads db !! wl_ID wl = Some wl -> wl_ActualState wl <> WorkloadStopped ->
  exists db', MarkWorkloadStoppedAndReleaseResources_tx t (wl_ID wl) db = Ok db' /\
    services db' = services db /\ WF db' /\
    workloads db' = <[wl_ID wl := with_actual WorkloadStopped t wl]> (workloads db).
Proof using.
  intros Hwf Hw Ha. destruct (wl_NodeID wl) as [nid|] eqn:Hnid.
  - destruct (wf_fk_node _ Hwf _ _ _ Hw Hnid) as [n Hn].
    exists (release_db t WorkloadStopped nid n wl db). split_and!; try done.
    + by apply stopped_tx_hit.
    + by apply release_db_wf.
  - assert (MarkWorkloadStoppedAndReleaseResources_tx t (wl_ID wl) db =
      Ok (mkDB (nodes db) (services db)
        (<[wl_ID wl := with_actual WorkloadStopped t wl]> (workloads db)))) as Htx.
    { unfold MarkWorkloadStoppedAndReleaseResources_tx.
      rewrite Hw, (proj2 (workload_state_eqb_neq _ _) Ha), Hnid. cbn [mbind res_bind mret res_ret].
      by rewrite (actual_update t db wl) by done. }
    eexists. split; [exact Htx|]. split_and!; [done| |done].
    by eapply released_wf, stopped_tx_inv.
Qed.

Lemma Stop_wp wl node (Q : res unit -> World -> Prop) w :
  WF (world_db w) -> workloads (world_db w) !! wl_ID wl = Some wl ->
  wl_DesiredState wl = WorkloadStopped -> wl_ActualState wl <> WorkloadStopped ->
  (forall t w', WF (world_db w') -> same_services w w' ->
     workloads (world_db w') = <[wl_ID wl := with_actual WorkloadStopped t wl]>
       (workloads (world_db w)) -> Q (Ok tt) w') ->
  wp (Stop wl node) Q w.
Proof using All.
  intros Hwf Hw Hd Ha HQ. unfold Stop.
  rewrite Hd, (proj2 (workload_state_eqb_neq _ _) Ha).
  change (WorkloadStopped =w? WorkloadStopped) with true. cbn [negb].
  assert (forall (P : res unit -> World -> Prop) w1, world_db w1 = world_db w ->
    (forall t w', WF (world_db w') -> same_services w w' ->
       workloads (world_db w') = <[wl_ID wl := with_actual WorkloadStopped t wl]>
         (workloads (world_db w)) -> P (Ok tt) w') ->
    wp (MarkWorkloadStoppedAndReleaseResources (wl_ID wl)) P w1) as Hmark.
  { intros P w1 Hdb HP. unfold MarkWorkloadStoppedAndReleaseResources. do 2 wp_step.
    cbn [apply_op]. rewrite Hdb. unfold transaction.
    destruct (stop_transaction (env_now (world_tick w1)) wl (world_db w) Hwf Hw Ha)
      as (db' & -> & Hs & Hwf' & Hws). cbn [mbind res_bind mret res_ret].
    wp_step. by eapply HP. }
  destruct (wl_ContainerID wl) as [cid|]; [|by apply Hmark].
  do 2 wp_step. unfold wp at 1. cbn [StopContainer answering_client call_node fst snd].
  rewrite obey_stop. cbn [wrapf]. do 2 wp_step. unfold wp at 1.
  cbn [DeleteContainer answering_client call_node fst snd]. rewrite obey_delete. cbn [wrapf].
  wp_step. apply Hmark; [done|]. intros t w' ? ? ?. cbn [wrapf]. by eapply HQ.
Qed.

(** The unfinished workloads of the service are asked to stop and still to
    be visited. *)
Record closing (sid : string) (S0 : gmap string Service) (rest : list Workload)
    (w : World) : Prop := {
  closing_wf : WF (world_db w);
  closing_services : services (world_db w) = S0;
  closing_current : current rest (workloads (world_db w));
  closing_unfinished k wl : workloads (world_db w) !! k = Some wl -> wl_ServiceID wl = sid ->
    unfinished wl = true -> wl ∈ rest /\ wl_DesiredState wl = WorkloadStopped
}.

Lemma closing_skip sid S0 x rest w w' :
  closing sid S0 (x :: rest) w -> unfinished x = false -> world_db w' = world_db w ->
  closing sid S0 rest w'.
Proof using.
  intros [Hwf Hs Hc Hu] Hx He. constructor; rewrite ?He; try done.
  - by apply current_cons in Hc as [_ ?].
  - intros k wl Hwl Hsid Huw. destruct (Hu k wl Hwl Hsid Huw) as [Hin Hd].
    apply elem_of_cons in Hin as [->|Hin]; [congruence|done].
Qed.

Lemma closing_stopped sid S0 x rest t w w' :
  closing sid S0 (x :: rest) w -> WF (world_db w') -> same_services w w' ->
  workloads (world_db w') = <[wl_ID x := with_actual WorkloadStopped t x]> (workloads (world_db w)) ->
  closing sid S0 rest w'.
Proof using.
  intros [Hwf Hs Hc Hu] Hwf' Hss Hws. constructor.
  - done.
  - by rewrite Hss.
  - rewrite Hws. eapply current_written; [exact Hc|apply written_insert].
  - rewrite Hws. intros k wl Hwl Hsid Huw.
    apply lookup_insert_Some in Hwl as [[<- <-]|[Hne Hwl]]; [done|].
    destruct (Hu k wl Hwl Hsid Huw) as [Hin Hd].
    apply elem_of_cons in Hin as [->|Hin]; [|done].
    by destruct (wf_workload _ Hwf _ _ Hwl).
Qed.

Lemma execute_closing sid S0 x rest w :
  closing sid S0 (x :: rest) w -> wl_ServiceID x = sid ->
  wp (execute_workload x) (fun r w' => r = Ok tt /\ closing sid S0 rest w') w.
Proof using All.
  intros Hcl Hsid. pose proof Hcl as [Hwf Hs Hc Hu].
  destruct (current_cons _ _ _ Hc) as [Hx _].
  assert (forall node (k : World -> Prop) w1, world_db w1 = world_db w ->
    wl_DesiredState x = WorkloadStopped ->
    wp (log_error (Stop x node)) (fun r w' => r = Ok tt /\ closing sid S0 rest w') w1) as Hstop.
  { intros node _ w1 Hdb Hd. apply wp_log_error.
    destruct (decide (wl_ActualState x = WorkloadStopped)) as [Ha|Ha].
    - unfold Stop. rewrite Hd, Ha. cbn. apply wp_ret. split; [done|].
      eapply closing_skip; [exact Hcl| |done]. unfold unfinished. by rewrite Ha.
    - apply Stop_wp; [by rewrite Hdb|by rewrite Hdb|done..|].
      intros t w' Hwf' Hss Hws. split; [done|]. rewrite Hdb in Hws. unfold same_services in Hss.
      rewrite Hdb in Hss. by eapply closing_stopped. }
  unfold execute_workload. destruct (wl_DesiredState x =w? WorkloadStopped) eqn:Hd; guards.
  - destruct (wl_NodeID x) as [nid|] eqn:Hnid; [|by apply (Hstop _ (fun _ => True))].
    destruct (wf_fk_node _ Hwf _ _ _ Hx Hnid) as [n Hn].
    unfold GetNode. do 4 wp_step. rewrite Hn. cbn [wrapf]. by apply (Hstop _ (fun _ => True)).
  - assert (unfinished x = false) as Hf.
    { apply not_true_iff_false. intros Hux. by destruct (Hu _ _ Hx Hsid Hux). }
    replace (negb (wl_DesiredState x =w? WorkloadScheduled) ||
      negb (wl_ActualState x =w? WorkloadPending) && negb (wl_ActualState x =w? WorkloadScheduled))
      with true.
    + apply wp_ret. split; [done|]. by eapply closing_skip.
    + unfold unfinished in Hf. destruct (wl_ActualState x); try done; eval_states;
        by rewrite orb_true_r.
Qed.

Lemma shutdown_pass service S0 w :
  WF (world_db w) -> services (world_db w) = S0 ->
  (forall k wl, workloads (world_db w) !! k = Some wl -> wl_ServiceID wl = svc_ID service ->
     unfinished wl = true -> wl_DesiredState wl = WorkloadStopped) ->
  wp (log_error (executeScheduledWorkloads service)) (fun r w' =>
    r = Ok tt /\ closing (svc_ID service) S0 [] w') w.
Proof using All.
  intros Hwf Hs Hu. apply wp_log_error. unfold executeScheduledWorkloads.
  apply wp_bind, list_by_service_quiet. set (l := workloads_by_service _ _ _).
  assert (forall x, x ∈ l <-> workloads (world_db w) !! wl_ID x = Some x /\
    wl_ServiceID x = svc_ID service) as Hl by (intros x; by apply elem_of_by_service).
  apply (wp_for_each (fun rest w' => closing (svc_ID service) S0 rest w' /\
    forall x, x ∈ rest -> wl_ServiceID x = svc_ID service)).
  - split; [|intros x Hx; by apply Hl]. constructor; [done..|by apply by_service_current|].
    intros k wl Hwl Hsid Huw. split; [|by eapply Hu]. apply Hl.
    by destruct (wf_workload _ Hwf _ _ Hwl) as [-> _].
  - intros x rest w1 [Hcl Hsid]. eapply wp_mono; [|apply (execute_closing _ _ _ _ _ Hcl)].
    + intros r w' [-> Hcl']. split; [done|]. intros y Hy. apply Hsid. by right.
    + apply Hsid. left.
  - intros w1 [Hcl _]. by split.
Qed.
End Shutdown.

(** ** The constraints hold after any computation of the store *)

Section WellFormed.
Context `{Env}.

Definition keeps_wf {A} (m : M A) : Prop := triple WF m (fun _ => WF).

Lemma stable_wf : stable WF.
Proof. intros t db. apply peers_db_inv. intros op d d' n _. apply apply_op_wf. Qed.

Lemma wf_exec op : keeps_wf (exec op).
Proof.
  apply triple_exec; [apply stable_wf|]. intros t db r db' Hwf [n d' Hop|n d' Hop|e];
    [by eapply apply_op_wf..|done].
Qed.

Lemma wf_query {A} (q : nat -> DB -> res A) : keeps_wf (query q).
Proof. apply triple_query; [apply stable_wf|done..]. Qed.

Lemma wf_ret {A} (a : A) : keeps_wf (mret a).
Proof. by apply triple_ret. Qed.

Lemma wf_fail {A} e : keeps_wf (fail e : M A).
Proof. intros w Hw. by apply wp_fail. Qed.

Lemma wf_bind {A B} (m : M A) (f : A -> M B) :
  keeps_wf m -> (forall a, keeps_wf (f a)) -> keeps_wf (m ≫= f).
Proof.
  intros Hm Hf. apply (triple_bind _ (fun _ => WF)); [|done].
  eapply triple_conseq; [done| |exact Hm]. by intros [a|e].
Qed.

Lemma wf_context {A} fm args (m : M A) : keeps_wf m -> keeps_wf (context fm args m).
Proof. intros Hm. by apply triple_context. Qed.

Lemma Deletion_keeps_wf service : keeps_wf (Deletion_ReconcileService service).
Proof.
  unfold Deletion_ReconcileService. case_match; [apply wf_ret|].
  apply wf_bind; [apply wf_context, wf_query|]. intros l. apply wf_bind.
  - generalize true. induction l as [|x l IH]; intros b; cbn [deletion_loop]; [apply wf_ret|].
    assert (keeps_wf (UpdateWorkloadDesiredState (wl_ID x) WorkloadStopped)) as Hmark.
    { apply wf_bind; [apply wf_context, wf_exec|]. intros n. apply wf_ret. }
    destruct (wl_ActualState x); try apply IH;
      (apply wf_bind; [case_match; [exact Hmark|apply wf_ret]|intros _; apply IH]).
  - intros b. case_match; [apply wf_ret|]. apply wf_bind; [apply wf_context, wf_exec|].
    intros n. case_match; [apply wf_fail|apply wf_ret].
Qed.
End WellFormed.

Section DeletionCompletes.
Context `{Quiet} `{Obedient}.

(** One pass over a service being deleted. *)
Lemma deleting_pass timeout service w (Q : res unit -> World -> Prop) :
  WF (world_db w) -> services (world_db w) !! svc_ID service = Some service ->
  svc_Status service = ServiceDeleting ->
  (forall w', WF (world_db w') ->
     svc_count unfinished (svc_ID service) (workloads (world_db w')) = 0 ->
     (if svc_count unfinished (svc_ID service) (workloads (world_db w)) =? 0
      then exists t, services (world_db w') !! svc_ID service =
             Some (with_service_status ServiceDeleted t service)
      else services (world_db w') !! svc_ID service = Some service) ->
     Q (Ok tt) w') ->
  wp (reconcile_service timeout service) Q w.
Proof using All.
  intros Hwf Hs Hdel HQ. unfold reconcile_service. rewrite Hdel, String.eqb_refl.
  apply wp_bind, wp_log_error.
  pose proof (deletion_pass_effect service w Hwf Hs Hdel) as Hpass.
  pose proof (Deletion_keeps_wf service w Hwf) as Hwf1.
  eapply wp_mono; [|apply wp_and; [exact Hpass|exact Hwf1]].
  intros r w1 [(-> & _ & Hw1) Hwf']. cbn beta in *.
  eapply wp_mono; [|apply (shutdown_pass service (services (world_db w1))); [done|done|]].
  - intros r' w2 [-> [Hwf2 Hs2 _ Hu2]]. apply HQ; [done| |].
    + apply svc_count_zero. intros k wl Hwl Hsid. apply not_true_iff_false. intros Hu.
      destruct (Hu2 k wl Hwl Hsid Hu) as [Hin _]. by apply not_elem_of_nil in Hin.
    + rewrite Hs2. destruct (_ =? 0).
      * destruct Hw1 as [_ [t ->]]. exists t. apply lookup_insert_eq.
      * destruct Hw1 as [-> _]. done.
  - intros k wl' Hwl' Hsid Hu.
    destruct (Z.eqb_spec (svc_count unfinished (svc_ID service) (workloads (world_db w))) 0) as [Hz|Hz].
    + destruct Hw1 as [Hws _]. rewrite Hws in Hwl'.
      by rewrite (proj1 (svc_count_zero _ _ _) Hz k wl' Hwl' Hsid) in Hu.
    + destruct Hw1 as [_ Hall]. specialize (Hall k). rewrite Hwl' in Hall.
      inversion Hall as [wl x Hrel Hwl Hx|]. subst x.
      destruct ((wl_ServiceID wl =s? svc_ID service) && unfinished wl) eqn:Hb; [apply Hrel|].
      subst wl'. rewrite Hsid, String.eqb_refl, Hu in Hb. done.
Qed.

(** A pass of the loop over one service, read afresh. *)
Definition fresh_pass (timeout : Z) (sid : string) : M unit :=
  s ← GetService sid; reconcile_service timeout s.

Lemma fresh_pass_wp timeout sid s (Q : res unit -> World -> Prop) w :
  services (world_db w) !! sid = Some s ->
  wp (reconcile_service timeout s) Q (tick w) -> wp (fresh_pass timeout sid) Q w.
Proof using All.
  intros Hs HQ. unfold fresh_pass, GetService. do 3 wp_step. by rewrite Hs.
Qed.

(** C6: Two undisturbed passes, with nodes that stop and delete what they are
    told to, delete a service: its status is [DELETED] and none of its
    workloads is pending, scheduled or running. *)
Theorem deletion_completes timeout service w :
  WF (world_db w) -> services (world_db w) !! svc_ID service = Some service ->
  svc_Status service = ServiceDeleting ->
  wp (fresh_pass timeout (svc_ID service) ;; fresh_pass timeout (svc_ID service)) (fun r w' =>
    r = Ok tt /\ svc_count unfinished (svc_ID service) (workloads (world_db w')) = 0 /\
    exists t, services (world_db w') !! svc_ID service =
      Some (with_service_status ServiceDeleted t service)) w.
Proof.
  intros Hwf Hs Hdel. wp_step. apply (fresh_pass_wp _ _ service); [done|].
  apply deleting_pass; [done..|]. intros w1 Hwf1 Hu1 Hs1.
  destruct (_ =? 0).
  - destruct Hs1 as [t Hs1]. eapply fresh_pass_wp; [exact Hs1|]. unfold reconcile_service.
    cbn [svc_Status with_service_status].
    change (ServiceDeleted =s? ServiceDeleting) with false.
    change (negb (ServiceDeleted =s? ServiceActive)) with true.
    apply wp_ret. split_and!; [done..|]. by exists t.
  - eapply fresh_pass_wp; [exact Hs1|]. apply deleting_pass; [done..|]. intros w2 _ Hu2 Hs2.
    change (world_db (tick w1)) with (world_db w1) in Hs2. rewrite Hu1 in Hs2.
    by split_and!.
Qed.
End DeletionCompletes.

#[export] Instance obedient_obey : Obedient.
Proof. by constructor. Qed.

Lemma deletion_completes_witness :
  exists t, services (world_db
    ((fresh_pass time_minute "web" ;; fresh_pass time_minute "web") (sample_world stopping_db)).2)
      !! "web" = Some (with_service_status ServiceDeleted t deleting_service).
Proof.
  apply (deletion_completes time_minute deleting_service (sample_world stopping_db) stopping_db_wf);
    reflexivity.
Defined.
