(* ===== verification/Autoscaler.v ===== *)
(** * internal/autoscaler and internal/metrics

    The autoscaler keeps a map of observations across cycles.  Its map is a Go
    map written in place, also on the paths that end in an error, so a
    computation returns the map beside its error. *)

From S2P Require Import Prelude Float64 Model Sql StoreInv Accounting Env Logic Postgres.
From S2P Require Import NodeClient.

(** ** internal/metrics *)

Record WorkloadMetrics := mkWorkloadMetrics { wm_CPUUsageMillis : Z }.

(** [metrics.Provider] *)
Class Provider := { GetWorkloadMetrics : string -> M WorkloadMetrics }.

(** node_provider.go *)
Definition NodeProvider_GetWorkloadMetrics `{Env} `{NodeClient} (workloadID : string)
    : M WorkloadMetrics :=
  workload ← context "get workload: %w" [] (GetWorkload workloadID);
  match wl_NodeID workload with
  | None => fail (Errorf "workload %q has no node" [AStr workloadID])
  | Some nodeID =>
      match wl_ContainerID workload with
      | None => fail (Errorf "workload %q has no container" [AStr workloadID])
      | Some containerID =>
          stats ← context "get container stats: %w" [] (GetContainerStats nodeID containerID);
          mret (mkWorkloadMetrics (cs_CPUUsageMillis stats))
      end
  end.

#[export] Instance node_provider `{Env} `{NodeClient} : Provider :=
  { GetWorkloadMetrics := NodeProvider_GetWorkloadMetrics }.

(** ** observation.go, policy.go *)

Record observation := mkObservation {
  desiredReplicas : Z;
  count : Z;
  lastSeen : Z
}.

Definition cooldownActive (service : Service) (desired now : Z) : bool :=
  match svc_AutoscalingLastScaledAt service with
  | None => false
  | Some last =>
      let elapsed := time_sub now last in
      if svc_DesiredReplicas service <? desired then
        elapsed <? as_ScaleUpCooldownSeconds (svc_Autoscaling service) *w time_second
      else if desired <? svc_DesiredReplicas service then
        elapsed <? as_ScaleDownCooldownSeconds (svc_Autoscaling service) *w time_second
      else false
  end.

Definition limitScaleStep (current desired maxStep : Z) : Z :=
  if maxStep <=? 0 then current
  else if current +w maxStep <? desired then current +w maxStep
  else if desired <? current -w maxStep then current -w maxStep
  else desired.

Definition stableObservation (observations : gmap string observation) (serviceID : string)
    (desired required now : Z) : bool * gmap string observation :=
  if required <=? 1 then (true, observations)
  else
    match observations !! serviceID with
    | None => (false, <[serviceID := mkObservation desired 1 now]> observations)
    | Some current =>
        if negb (desiredReplicas current =? desired) then
          (false, <[serviceID := mkObservation desired 1 now]> observations)
        else
          let current := mkObservation (desiredReplicas current) (count current +w 1) now in
          (required <=? count current, <[serviceID := current]> observations)
    end.

(** ** autoscaler.go *)

Definition cleanupObservations (observations : gmap string observation) (now : Z)
    : gmap string observation :=
  filter (fun kv => negb (10 * time_minute <? time_sub now (lastSeen kv.2))) observations.

(** The loop over the workloads: total usage and number of running ones. *)
Fixpoint usage_loop `{Provider} (service : Service) (workloads : list Workload)
    (totalUsage : float64) (running : Z) : M (float64 * Z) :=
  match workloads with
  | [] => mret (totalUsage, running)
  | workload :: rest =>
      if negb (wl_DeploymentVersion workload =? svc_DeploymentVersion service) then
        usage_loop service rest totalUsage running
      else if negb (wl_ActualState workload =w? WorkloadRunning) then
        usage_loop service rest totalUsage running
      else
        stats ← context "get metrics for workload %q: %w" [AStr (wl_ID workload)]
          (GetWorkloadMetrics (wl_ID workload));
        usage_loop service rest (f_add totalUsage (f_of_int (wm_CPUUsageMillis stats)))
          (running + 1)
  end.

Definition targetPerReplica (service : Service) : float64 :=
  f_div (f_mul (f_of_int (svc_CPURequestMillis service)) (as_TargetCPU (svc_Autoscaling service)))
    (f_of_int 100).

(** The replicas the load asks for, within the configured bounds. *)
Definition bounded_desired `{Env} (service : Service) (totalUsage : float64) : Z :=
  let config := svc_Autoscaling service in
  let desired := f_to_int env_float_oob (f_ceil (f_div totalUsage (targetPerReplica service))) in
  let desired := if desired <? as_MinReplicas config then as_MinReplicas config else desired in
  if as_MaxReplicas config <? desired then as_MaxReplicas config else desired.

(** From the bounds on: step limit, cooldown, stability, write. *)
Definition scale `{Env} (observations : gmap string observation) (service : Service)
    (desired : Z) : M (gmap string observation * res unit) :=
  let config := svc_Autoscaling service in
  if desired =? svc_DesiredReplicas service then mret (observations, Ok tt)
  else
    t ← now;
    let desired := limitScaleStep (svc_DesiredReplicas service) desired (as_MaxScaleStep config) in
    if desired =? svc_DesiredReplicas service then mret (observations, Ok tt)
    else if cooldownActive service desired t then mret (observations, Ok tt)
    else
      let '(stable_now, observations) :=
        stableObservation observations (svc_ID service) desired
          (as_RequiredObservations config) t in
      if negb stable_now then mret (observations, Ok tt)
      else
        r ← try (UpdateDesiredReplicas (svc_ID service) desired);
        mret (observations, r).

Definition Autoscaler_ReconcileService `{Env} `{Provider}
    (observations : gmap string observation) (service : Service)
    : M (gmap string observation * res unit) :=
  if negb (svc_Status service =s? ServiceActive) then mret (observations, Ok tt)
  else
    t ← now;
    let observations := cleanupObservations observations t in
    let config := svc_Autoscaling service in
    if svc_DeploymentStatus service =s? DeploymentProgressing then mret (observations, Ok tt)
    else if negb (as_Enabled config) then mret (observations, Ok tt)
    else if f_le (as_TargetCPU config) f_zero then mret (observations, Ok tt)
    else
      listed ← try (context "list workloads: %w" [] (ListWorkloadsByService (svc_ID service)));
      match listed with
      | Err e => mret (observations, Err e)
      | Ok workloads =>
          usage ← try (usage_loop service workloads f_zero 0);
          match usage with
          | Err e => mret (delete (svc_ID service) observations, Err e)
          | Ok (totalUsage, running) =>
              if running =? 0 then mret (observations, Ok tt)
              else if f_le (targetPerReplica service) f_zero then mret (observations, Ok tt)
              else scale observations service (bounded_desired service totalUsage)
          end
      end.

(** ** loop.go *)

Fixpoint autoscale_services `{Env} `{Provider} (services : list Service)
    (observations : gmap string observation) : M (gmap string observation) :=
  match services with
  | [] => mret observations
  | service :: rest =>
      '(observations, _) ← Autoscaler_ReconcileService observations service;
      autoscale_services rest observations
  end.

Definition autoscaler_reconcile `{Env} `{Provider} (observations : gmap string observation)
    : M (gmap string observation) :=
  listed ← try ListServices;
  match listed with
  | Err _ => mret observations
  | Ok services => autoscale_services services observations
  end.

(** [Run] for a number of ticks. *)
Fixpoint autoscaler_Run `{Env} `{Provider} (observations : gmap string observation)
    (ticks : nat) : M (gmap string observation) :=
  match ticks with
  | O => mret observations
  | S ticks => observations ← autoscaler_reconcile observations; autoscaler_Run observations ticks
  end.
