(* ===== verification/AutoscalerSpec.v ===== *)
(** * What the autoscaler promises

    A pass over a service writes at most one new number of replicas, and that
    number respects the bounds, the step limit and the cooldown; a scaling
    decision is taken when it has been seen the required number of times. *)

From S2P Require Import Prelude Float64 Model Sql StoreInv Accounting Env Logic Postgres.
From S2P Require Import NodeClient Quiet Samples Histories StoreSpec Autoscaler.

(** ** Computations that issue no write *)

Definition writes_nothing {A} (m : M A) : Prop :=
  forall w, world_writes (m w).2 = world_writes w.

Class ProviderLaws `{Provider} : Prop :=
  provider_reads id : writes_nothing (GetWorkloadMetrics id).

Create HintDb reads.

Section Reads.
Lemma reads_ret {A} (a : A) : writes_nothing (mret a).
Proof. by intros w. Qed.

Lemma reads_fail {A} e : writes_nothing (fail e : M A).
Proof. by intros w. Qed.

Lemma reads_bind {A B} (m : M A) (f : A -> M B) :
  writes_nothing m -> (forall a, writes_nothing (f a)) -> writes_nothing (m ≫= f).
Proof.
  intros Hm Hf w. unfold mbind, M_bind. specialize (Hm w). destruct (m w) as [[a|e] w1]; [|done].
  by rewrite Hf.
Qed.

Lemma reads_context {A} fm args (m : M A) : writes_nothing m -> writes_nothing (context fm args m).
Proof. intros Hm w. unfold context. specialize (Hm w). by destruct (m w). Qed.

Lemma reads_try {A} (m : M A) : writes_nothing m -> writes_nothing (try m).
Proof. intros Hm w. unfold try. specialize (Hm w). by destruct (m w). Qed.

Lemma reads_query `{Env} {A} (q : nat -> DB -> res A) : writes_nothing (query q).
Proof. intros w. unfold query. by destruct (env_fault _). Qed.

Lemma reads_now `{Env} : writes_nothing now.
Proof. by intros w. Qed.
End Reads.
#[export] Hint Resolve reads_ret reads_fail reads_context reads_try reads_query reads_now : reads.

(** The provider of the control plane only reads. *)
#[export] Instance node_provider_laws `{Env} `{NodeAnswers} : ProviderLaws.
Proof.
  intros id. apply reads_bind; [apply reads_context, reads_context, reads_query|]. intros wl. case_match; [|auto with reads].
  case_match; [|auto with reads]. apply reads_bind; [|auto with reads].
  apply reads_context. by intros w.
Qed.

Lemma usage_loop_reads `{ProviderLaws} service l total running :
  writes_nothing (usage_loop service l total running).
Proof.
  revert total running. induction l as [|wl l IH]; intros total running; cbn [usage_loop].
  - apply reads_ret.
  - repeat case_match; auto. apply reads_bind; [apply reads_context, provider_reads|]. auto.
Qed.

(** ** The number written *)

Lemma limitScaleStep_between current desired step :
  -2147483648 <= current <= 2147483647 -> -2147483648 <= step <= 2147483647 ->
  let d := limitScaleStep current desired step in
  (d = current \/ current < d <= desired \/ desired <= d < current) /\
  Z.abs (d - current) <= Z.max 0 step.
Proof.
  intros Hc Hs. cbv zeta. unfold limitScaleStep. unwrap.
  repeat case_match; guards; lia.
Qed.

Lemma bounded_desired_between `{Env} service usage :
  let config := svc_Autoscaling service in
  bounded_desired service usage <= as_MaxReplicas config /\
  (as_MinReplicas config <= as_MaxReplicas config ->
     as_MinReplicas config <= bounded_desired service usage).
Proof. cbv zeta. unfold bounded_desired. repeat case_match; guards; lia. Qed.

(** When the autoscaler may write [d] at time [t]. *)
Definition scaling_allowed (service : Service) (t d : Z) : Prop :=
  let config := svc_Autoscaling service in
  let current := svc_DesiredReplicas service in
  svc_Status service = ServiceActive /\ as_Enabled config = true /\
  svc_DeploymentStatus service <> DeploymentProgressing /\
  Z.abs (d - current) <= Z.max 0 (as_MaxScaleStep config) /\
  (current < d -> d <= as_MaxReplicas config) /\
  (d < current -> as_MinReplicas config <= as_MaxReplicas config -> as_MinReplicas config <= d) /\
  d <> current /\
  forall last, svc_AutoscalingLastScaledAt service = Some last ->
    (current < d -> as_ScaleUpCooldownSeconds config * time_second <= time_sub t last) /\
    (d < current -> as_ScaleDownCooldownSeconds config * time_second <= time_sub t last).

Lemma autoscaling_row_bounds s :
  service_row_ok s = true ->
  let a := svc_Autoscaling s in
  -2147483648 <= as_ScaleUpCooldownSeconds a <= 2147483647 /\
  -2147483648 <= as_ScaleDownCooldownSeconds a <= 2147483647 /\
  -2147483648 <= as_MaxScaleStep a <= 2147483647 /\
  -2147483648 <= as_RequiredObservations a <= 2147483647 /\
  0 <= svc_DesiredReplicas s <= 2147483647.
Proof.
  unfold service_row_ok, autoscaling_row_ok. intros H. guards.
  destruct H as [[[[[[[[[[[_ _] _] [H1 H1']] _] _] _] _] _] _] _] [[[[[_ _] H2] H3] H4] H5]].
  apply int4_spec in H1, H2, H3, H4, H5. cbv zeta. lia.
Qed.

Lemma cooldown_over service d t :
  service_row_ok service = true -> cooldownActive service d t = false ->
  forall last, svc_AutoscalingLastScaledAt service = Some last ->
    (svc_DesiredReplicas service < d ->
       as_ScaleUpCooldownSeconds (svc_Autoscaling service) * time_second <= time_sub t last) /\
    (d < svc_DesiredReplicas service ->
       as_ScaleDownCooldownSeconds (svc_Autoscaling service) * time_second <= time_sub t last).
Proof.
  intros Hrow Hc last Hl. pose proof (autoscaling_row_bounds _ Hrow) as (H1 & H2 & _).
  unfold cooldownActive in Hc. rewrite Hl in Hc. unfold time_second in *. cbv zeta in *.
  rewrite !wrap64_small in Hc by lia. repeat case_match; guards; lia.
Qed.

Section Writes.
Context `{Env} `{ProviderLaws}.

(** At most one write, of an allowed number. *)
Definition scaled_within (service : Service) (w w' : World) : Prop :=
  world_writes w' = world_writes w \/
  exists d t, world_writes w' = world_writes w ++ [OpUpdateDesiredReplicas (svc_ID service) d] /\
    scaling_allowed service (env_now t) d.

Lemma reads_wp {A} (m : M A) (Q : res A -> World -> Prop) w :
  writes_nothing m -> (forall r w', world_writes w' = world_writes w -> Q r w') -> wp m Q w.
Proof using. intros Hm HQ. apply HQ, Hm. Qed.

Lemma scale_writes obs service usage w :
  service_row_ok service = true -> svc_Status service = ServiceActive ->
  as_Enabled (svc_Autoscaling service) = true ->
  svc_DeploymentStatus service <> DeploymentProgressing ->
  wp (scale obs service (bounded_desired service usage))
    (fun _ w' => scaled_within service w w') w.
Proof using.
  intros Hrow Hact Hen Hdep. unfold scale.
  case_match; [by left|]. apply wp_bind, wp_now.
  pose proof (autoscaling_row_bounds _ Hrow) as (_ & _ & H3 & _ & H4).
  pose proof (limitScaleStep_between (svc_DesiredReplicas service) (bounded_desired service usage)
    (as_MaxScaleStep (svc_Autoscaling service)) ltac:(lia) H3) as [Hbetween Hstep].
  pose proof (bounded_desired_between service usage) as [Hmax Hmin].
  cbv zeta in *. set (d := limitScaleStep _ _ _) in *.
  case_match eqn:Hd; [by left|]. case_match eqn:Hcool; [by left|].
  destruct (stableObservation _ _ _ _ _) as [fire obs']. case_match; [by left|].
  guards. apply wp_bind, wp_try. unfold UpdateDesiredReplicas.
  apply wp_bind, wp_context, wp_exec. intros r db' _.
  assert (scaled_within service w
    (set_db db' (add_write (OpUpdateDesiredReplicas (svc_ID service) d) (tick w)))) as Hw.
  { right. exists d, (world_tick w). split; [done|]. split_and!; try done; try lia.
    by apply cooldown_over. }
  destruct r; cbn [wrapf]; done.
Qed.
End Writes.

(** C14: A pass of the autoscaler over a service issues at most one write, whatever
    fails and whatever the load: a new number of replicas for this service,
    while it is active, enabled and not in a rollout, no further from the
    current number than the maximal step, not above the maximum when scaling
    up, not below the minimum when scaling down, and after the cooldown of that
    direction. *)
Theorem autoscaler_scales_within_limits `{Env} `{ProviderLaws} observations service w :
  service_row_ok service = true ->
  wp (Autoscaler_ReconcileService observations service)
    (fun _ w' => scaled_within service w w') w.
Proof.
  intros Hrow. unfold Autoscaler_ReconcileService.
  case_match eqn:Hact; [by left|]. apply wp_bind, wp_now. cbv zeta.
  case_match eqn:Hdep; [by left|]. case_match eqn:Hen; [by left|].
  case_match; [by left|]. guards.
  apply wp_bind, reads_wp; [apply reads_try, reads_context, reads_context, reads_query|].
  intros [[l|e]|e] w1 Hw1; [|by left..].
  apply wp_bind, reads_wp; [apply reads_try, usage_loop_reads|].
  intros [[[total running]|e]|e] w2 Hw2; [|left; cbn in *; congruence..].
  assert (world_writes w2 = world_writes w) as Hw by (cbn in *; congruence).
  case_match; [by left|]. case_match; [by left|].
  eapply wp_mono; [|by apply scale_writes]. intros r w3 [Hw3|(d & t & Hw3 & Hal)].
  - left. congruence.
  - right. exists d, t. split; [congruence|done].
Qed.

(** One replica runs under a load of four, and the decision to go to three --
    one step of two -- was observed once. *)
Definition one_replica_db : DB :=
  sample_db (sample_service 1 1) busy_node (sample_node "n2" 0 0) [running_workload].

Definition loaded_nodes : NodeAnswers := {|
  answer_create _ _ config := Ok (mkContainer "c" (cc_Name config) (cc_Image config) "created" 0);
  answer_start _ _ _ := Ok tt;
  answer_list _ _ := Ok [];
  answer_stop _ _ _ := Ok tt;
  answer_delete _ _ _ := Ok tt;
  answer_stats _ _ _ := Ok (mkContainerStats 1400)
|}.

Lemma autoscaler_scales_within_limits_witness :
  exists t d, scaling_allowed (sample_service 1 1) t d /\ d = 3.
Proof.
  pose proof (autoscaler_scales_within_limits
    (H0 := @node_provider quiet_env (@answering_client loaded_nodes))
    (H1 := @node_provider_laws quiet_env loaded_nodes)
    {[ "web" := mkObservation 3 1 0 ]} (sample_service 1 1)
    (sample_world one_replica_db) ltac:(by_computation)) as H.
  destruct H as [H|(d & t & H & Hal)]; vm_compute in H; [discriminate H|].
  eexists _, d. split; [exact Hal|]. by injection H.
Defined.

(** ** Stability *)

Definition observations_after (serviceID : string) (desired required : Z) (times : list Z)
    (observations : gmap string observation) : gmap string observation :=
  foldl (fun o t => (stableObservation o serviceID desired required t).2) observations times.

(** No decision for this number of replicas is being observed. *)
Definition unobserved (observations : gmap string observation) (serviceID : string)
    (desired : Z) : Prop :=
  forall o, observations !! serviceID = Some o -> desiredReplicas o <> desired.

Section Stability.
Context (sid : string) (desired required : Z) (Hreq : 2 <= required).

Lemma stable_first o t :
  unobserved o sid desired ->
  stableObservation o sid desired required t =
    (false, <[sid := mkObservation desired 1 t]> o).
Proof using Hreq.
  intros Hu. unfold stableObservation. replace (required <=? 1) with false
    by (symmetry; apply Z.leb_gt; lia).
  destruct (o !! sid) as [cur|] eqn:Ho; [|done].
  by rewrite (proj2 (Z.eqb_neq _ _) (Hu cur Ho)).
Qed.

Lemma stable_next o n t0 t :
  o !! sid = Some (mkObservation desired n t0) -> 1 <= n < 2 ^ 62 ->
  stableObservation o sid desired required t =
    (required <=? n + 1, <[sid := mkObservation desired (n + 1) t]> o).
Proof using Hreq.
  intros Ho Hn. unfold stableObservation. replace (required <=? 1) with false
    by (symmetry; apply Z.leb_gt; lia).
  rewrite Ho. cbn [desiredReplicas count]. rewrite Z.eqb_refl. cbn [negb count]. by unwrap.
Qed.

Lemma observed_count times t o :
  unobserved o sid desired -> Z.of_nat (length times) < 2 ^ 62 ->
  observations_after sid desired required (times ++ [t]) o !! sid =
    Some (mkObservation desired (Z.of_nat (length times) + 1) t) /\
  forall sid', sid' <> sid ->
    observations_after sid desired required (times ++ [t]) o !! sid' = o !! sid'.
Proof using Hreq.
  intros Hu. revert t. induction times as [|t0 times IH] using rev_ind; intros t Hl.
  - cbn. rewrite stable_first by done. cbn.
    split; [apply lookup_insert_eq|]. intros sid' Hne. by rewrite lookup_insert_ne.
  - rewrite length_app in *. cbn [length] in *.
    destruct (IH t0 ltac:(lia)) as [Hlook Hother].
    unfold observations_after in *. rewrite foldl_app. cbn [foldl].
    rewrite (stable_next _ _ _ _ Hlook) by lia. cbn [snd]. split.
    + rewrite lookup_insert_eq. do 2 f_equal. lia.
    + intros sid' Hne. rewrite lookup_insert_ne by done. by apply Hother.
Qed.
End Stability.

(** C15: A decision that starts being observed is taken at the required-th
    observation in a row and not before, the memory holds that many
    observations of it, and those of other services are not touched. *)
Theorem decision_needs_required_observations sid desired required times t observations :
  2 <= required -> unobserved observations sid desired -> Z.of_nat (length times) < 2 ^ 62 ->
  let o := observations_after sid desired required times observations in
  (stableObservation o sid desired required t).1 = (required <=? Z.of_nat (length times) + 1) /\
  (stableObservation o sid desired required t).2 !! sid =
    Some (mkObservation desired (Z.of_nat (length times) + 1) t) /\
  forall sid', sid' <> sid ->
    (stableObservation o sid desired required t).2 !! sid' = observations !! sid'.
Proof.
  intros Hreq Hu Hl. cbv zeta.
  pose proof (observed_count sid desired required Hreq times t observations Hu Hl) as [H1 H2].
  unfold observations_after in H1, H2. rewrite foldl_app in H1, H2. cbn [foldl] in H1, H2.
  split; [|by split]. destruct times as [|t0 times _] using rev_ind.
  - cbn. rewrite stable_first by done. cbn. symmetry. apply Z.leb_gt. lia.
  - rewrite length_app in *. cbn [length] in *.
    destruct (observed_count sid desired required Hreq times t0 observations Hu ltac:(lia)) as [H0 _].
    rewrite (stable_next _ _ _ Hreq _ _ _ _ H0) by lia. cbn. f_equal. lia.
Qed.

Lemma decision_needs_required_observations_witness :
  (stableObservation (observations_after "web" 3 3 [10; 20] ∅) "web" 3 3 30).1 = true.
Proof.
  apply (decision_needs_required_observations "web" 3 3 [10; 20] 30 ∅); [lia| |by vm_compute].
  intros o Ho. discriminate Ho.
Defined.

(** ** The load of a workload *)

(** C26: The load of a workload is asked of its container, with the identifier of
    its node as the address to call -- not the address the node registered,
    which the rest of the control plane uses. *)
Theorem metrics_call_addresses_node_id `{Quiet} `{NodeAnswers} id w :
  wp (NodeProvider_GetWorkloadMetrics id) (fun r w' =>
    match workloads (world_db w) !! id with
    | None =>
        r = Err (Wrapf "get workload: %w" []
                   (Wrapf "get workload %q: %w" [AStr id] (DBError NoRows))) /\
        world_calls w' = world_calls w
    | Some wl =>
        match wl_NodeID wl, wl_ContainerID wl with
        | Some nodeID, Some containerID =>
            world_calls w' = world_calls w ++ [CallStats nodeID containerID] /\
            r = match answer_stats (S (world_tick w)) nodeID containerID with
                | Ok stats => Ok (mkWorkloadMetrics (cs_CPUUsageMillis stats))
                | Err e => Err (Wrapf "get container stats: %w" [] e)
                end
        | None, _ =>
            r = Err (Errorf "workload %q has no node" [AStr id]) /\ world_calls w' = world_calls w
        | _, None =>
            r = Err (Errorf "workload %q has no container" [AStr id]) /\
            world_calls w' = world_calls w
        end
    end) w.
Proof.
  unfold NodeProvider_GetWorkloadMetrics, GetWorkload. do 4 wp_step.
  destruct (workloads (world_db w) !! id) as [wl|]; cbn [wrapf]; [|done].
  destruct (wl_NodeID wl) as [nid|]; [|done]. destruct (wl_ContainerID wl) as [cid|]; [|done].
  do 2 wp_step. unfold wp. cbn [GetContainerStats answering_client call_node fst snd world_tick].
  change (world_tick (tick w)) with (S (world_tick w)).
  by destruct (answer_stats (S (world_tick w)) nid cid).
Qed.

Lemma metrics_call_addresses_node_id_witness :
  world_calls (NodeProvider_GetWorkloadMetrics (H0 := @answering_client loaded_nodes) "w1"
    (sample_world one_replica_db)).2 = [CallStats "n1" "c1"].
Proof.
  apply (metrics_call_addresses_node_id (H1 := loaded_nodes) "w1" (sample_world one_replica_db)).
Defined.
