(* ===== verification/Health.v ===== *)
(** * internal/node/health.go: heartbeat expiry *)

From S2P Require Import Prelude Float64 Model Sql StoreInv Accounting Env Logic Postgres.

(** A node whose last heartbeat is recent enough at [now]. *)
Definition heartbeat_fresh (timeout now : Z) (node : Node) : bool :=
  negb (is_zero_time (nd_LastHeartbeat node)) &&
  (time_sub now (nd_LastHeartbeat node) <=? timeout).

Section Health.
Context `{Env}.

Definition check_node (timeout now : Z) (node : Node) : M unit :=
  if heartbeat_fresh timeout now node then mret tt
  else if negb (nd_Status node =s? NodeUnhealthy) then
    log_error (SetNodeStatus (nd_ID node) NodeUnhealthy)
  else mret tt.

Definition check (timeout : Z) : M unit :=
  listed ← try ListNodes;
  match listed with
  | Err _ => mret tt
  | Ok ns => t ← now; for_each ns (check_node timeout t)
  end.

(** [Run]: a check at once, then one per tick. *)
Fixpoint health_Run (timeout : Z) (ticks : nat) : M unit :=
  check timeout ;;
  match ticks with
  | O => mret tt
  | S ticks => health_Run timeout ticks
  end.
End Health.
