(* ===== verification/HealthSpec.v ===== *)
(** * What the health checker promises, and two races

    An undisturbed check marks exactly the nodes whose heartbeat is too old.
    The checker and the status controller decide on what they read and write
    without a condition; the races show what a write of another goroutine in
    between comes to. *)

From S2P Require Import Prelude Float64 Model Sql StoreInv Accounting Env Logic Postgres.
From S2P Require Import Discipline Scheduler Controllers ServiceCounts NodeClient Quiet Samples.
From S2P Require Import Histories StoreSpec Reconciler LoopSafety ReplicaSpec RolloutSpec.
From S2P Require Import Health.

Lemma status_row_ok status t n :
  char_length status <= 32 -> node_row_ok n = true -> node_row_ok (with_status status t n) = true.
Proof.
  intros Hs Hn. unfold node_row_ok in *. cbn. guards. unfold varchar in *. guards. tauto.
Qed.

(** The node has sent a heartbeat, and not too long ago. *)
Definition fresh (timeout now : Z) (n : Node) : Prop :=
  nd_LastHeartbeat n <> zero_time /\ time_sub now (nd_LastHeartbeat n) <= timeout.

Lemma heartbeat_fresh_spec timeout now n : heartbeat_fresh timeout now n = true <-> fresh timeout now n.
Proof. unfold heartbeat_fresh, is_zero_time, fresh. by guards. Qed.

(** What a check leaves of a node. *)
Definition checked (timeout now : Z) (n n' : Node) : Prop :=
  (fresh timeout now n \/ nd_Status n = NodeUnhealthy -> n' = n) /\
  (~ fresh timeout now n -> nd_Status n <> NodeUnhealthy ->
     exists t, n' = with_status NodeUnhealthy t n).

Section Check.
Context `{Quiet} (timeout t0 : Z).

(** Nodes of [rest] are as they were; the others are checked. *)
Record checking (db0 : DB) (rest : list Node) (db : DB) : Prop := {
  checking_wf : WF db;
  checking_services : services db = services db0;
  checking_workloads : workloads db = workloads db0;
  checking_ids : NoDup (nd_ID <$> rest);
  checking_rest n : n ∈ rest -> nodes db !! nd_ID n = Some n;
  checking_done k : k ∉ nd_ID <$> rest ->
    option_Forall2 (checked timeout t0) (nodes db0 !! k) (nodes db !! k)
}.

Lemma check_node_step db0 n rest w :
  nodes db0 !! nd_ID n = Some n -> checking db0 (n :: rest) (world_db w) ->
  wp (check_node timeout t0 n) (fun r w' => r = Ok tt /\ checking db0 rest (world_db w')) w.
Proof using All.
  intros Hn0 [Hwf Hs Hw Hids Hrest Hdone]. rewrite fmap_cons, NoDup_cons in Hids.
  destruct Hids as [Hn Hids]. pose proof (Hrest n ltac:(left)) as Hlook.
  assert (forall db, WF db -> services db = services db0 -> workloads db = workloads db0 ->
    (forall k, k <> nd_ID n -> nodes db !! k = nodes (world_db w) !! k) ->
    (exists n', nodes db !! nd_ID n = Some n' /\ checked timeout t0 n n') ->
    checking db0 rest db) as Hnext.
  { intros db Hwf' Hs' Hw' Hsame (n' & Hn' & Hch). constructor; try done.
    - intros m Hm. rewrite Hsame; [apply Hrest; by right|].
      intros He. apply Hn. rewrite <- He. by apply list_elem_of_fmap_2.
    - intros k Hk. destruct (decide (k = nd_ID n)) as [->|Hne].
      + rewrite Hn0, Hn'. by constructor.
      + rewrite Hsame by done. apply Hdone. rewrite fmap_cons. by apply not_elem_of_cons. }
  unfold check_node. case_match eqn:Hfresh.
  { apply wp_ret. split; [done|]. apply Hnext; try done. exists n. split; [done|].
    apply heartbeat_fresh_spec in Hfresh. by split. }
  assert (~ fresh timeout t0 n) as Hstale by (rewrite <- heartbeat_fresh_spec; congruence).
  case_match eqn:Hst; guards.
  - wp_step. unfold SetNodeStatus. do 3 wp_step. cbn [apply_op]. unfold SetNodeStatus_sql.
    rewrite (update_node_hit _ _ _ n) by
      (done || by apply status_row_ok, (wf_node _ Hwf _ _ Hlook)).
    cbn [wrapf]. change (1 =? 0) with false. wp_step. split; [done|]. cbn [world_db wrote set_db].
    apply Hnext; try done.
    + destruct (wf_node _ Hwf _ _ Hlook) as [Hid Hok].
      apply wf_insert_node; [done|done|by apply status_row_ok].
    + intros k Hne. cbn. by apply lookup_insert_ne.
    + cbn. rewrite lookup_insert_eq. eexists. split; [done|]. split; [tauto|]. by eexists.
  - apply wp_ret. split; [done|]. apply Hnext; try done. exists n. split; [done|].
    by split.
Qed.
End Check.

(** C16: An undisturbed check marks as unhealthy every node that never sent a
    heartbeat or whose last one is older than the timeout, and changes nothing
    else: fresh nodes keep their row, whatever their status, and so do nodes
    already unhealthy. *)
Theorem check_marks_stale_nodes `{Quiet} timeout w :
  WF (world_db w) ->
  wp (check timeout) (fun r w' =>
    r = Ok tt /\ services (world_db w') = services (world_db w) /\
    workloads (world_db w') = workloads (world_db w) /\
    forall k, option_Forall2 (checked timeout (env_now (S (world_tick w))))
      (nodes (world_db w) !! k) (nodes (world_db w') !! k)) w.
Proof.
  intros Hwf. unfold check, ListNodes. do 4 wp_step. cbn [wrapf]. do 2 wp_step.
  set (l := all_nodes _ _). cbn [tick set_db world_tick].
  assert (forall n, n ∈ l <-> nodes (world_db w) !! nd_ID n = Some n) as Hl
    by (intros n; by apply elem_of_all_nodes).
  apply (wp_for_each (fun rest w' =>
    checking timeout (env_now (S (world_tick w))) (world_db w) rest (world_db w') /\
    forall n, n ∈ rest -> nodes (world_db w) !! nd_ID n = Some n)).
  - split; [|intros n Hn; by apply Hl]. constructor; try done.
    + unfold l. rewrite all_nodes_perm. apply (rows_keys_NoDup nd_ID). intros k n Hn.
      by apply (wf_node _ Hwf).
    + intros n Hn. by apply Hl.
    + intros k Hk. cbn. destruct (nodes (world_db w) !! k) as [n|] eqn:Hn; [|constructor].
      destruct Hk. destruct (wf_node _ Hwf _ _ Hn) as [<- _]. apply list_elem_of_fmap_2. by apply Hl.
  - intros n rest w1 [Hc Hin]. eapply wp_mono;
      [|apply (check_node_step timeout _ (world_db w) n rest); [apply Hin; left|exact Hc]].
    intros r w2 [-> Hc2]. split; [done|]. intros m Hm. apply Hin. by right.
  - intros w1 [[_ Hs Hw _ _ Hdone] _]. split_and!; try done.
    intros k. apply Hdone, not_elem_of_nil.
Qed.

Definition stale_db : DB :=
  mkDB (list_to_map [("n1", mkNode "n1" "n1:9001" 4000 8192 0 0 NodeReady (- time_minute) 0 0);
                     ("n2", mkNode "n2" "n2:9001" 4000 8192 0 0 NodeReady 0 0 0)]) ∅ ∅.

Lemma check_marks_stale_nodes_witness :
  exists n, nodes (world_db (check (30 * time_second) (sample_world stale_db)).2) !! "n1" = Some n /\
    nd_Status n = NodeUnhealthy.
Proof.
  destruct (check_marks_stale_nodes (30 * time_second) (sample_world stale_db)
    (wf_check_sound stale_db eq_refl)) as (_ & _ & _ & H).
  specialize (H "n1"). cbn [sample_world world_db] in H.
  change (nodes stale_db !! "n1") with
    (Some (mkNode "n1" "n1:9001" 4000 8192 0 0 NodeReady (- time_minute) 0 0)) in H.
  match type of H with option_Forall2 _ _ ?o => set (x := o) in *; clearbody x end.
  inversion H as [n n' Hch|]. exists n'. split; [reflexivity|].
  destruct (proj2 Hch) as [t ->]; [|discriminate|reflexivity].
  intros [_ Hf]. vm_compute in Hf. by destruct Hf.
Defined.

(** ** Races *)

(** Nothing fails, and the other goroutines write once: [op], before the call at
    time [t1]. *)
Record interrupted `{Env} (t1 : nat) (op : StoreOp) : Prop := {
  interrupted_fault t : env_fault t = NoFault;
  interrupted_peers t : env_peers t = if decide (t = t1) then [op] else []
}.

Section Interrupted.
Context `{Env} (t1 : nat) (op : StoreOp) (Hint : interrupted t1 op).

Lemma interrupted_db db :
  peers_db t1 db = match apply_op (env_now t1) op db with Ok (db', _) => db' | Err _ => db end.
Proof using All. unfold peers_db. by rewrite (interrupted_peers _ _ Hint), decide_True. Qed.

Lemma uninterrupted_db t db : t <> t1 -> peers_db t db = db.
Proof using All.
  intros Hne. unfold peers_db. by rewrite (interrupted_peers _ _ Hint), decide_False.
Qed.

Lemma interrupted_wf db : WF db -> WF (peers_db t1 db).
Proof using All.
  intros Hwf. rewrite interrupted_db. destruct (apply_op _ op db) as [[db' m]|e] eqn:E; [|done].
  by eapply apply_op_wf.
Qed.

Lemma wp_exec_interrupted op' Q w :
  let db := peers_db (world_tick w) (world_db w) in
  match apply_op (env_now (world_tick w)) op' db with
  | Ok (db', n) => Q (Ok n) (wrote op' db' w)
  | Err e => Q (Err e) (wrote op' db w)
  end -> wp (exec op') Q w.
Proof using All.
  unfold wp, exec, wrote. rewrite (interrupted_fault _ _ Hint). cbv zeta.
  by destruct (apply_op _ op' _) as [[db' n]|e].
Qed.

Lemma wp_query_interrupted {A} (q : nat -> DB -> res A) Q w :
  world_tick w <> t1 -> Q (q (world_tick w) (world_db w)) (tick w) -> wp (query q) Q w.
Proof using All.
  intros Hne. unfold wp, query, tick. cbv zeta.
  by rewrite (interrupted_fault _ _ Hint), uninterrupted_db.
Qed.
End Interrupted.

(** The environments of the examples. *)
Definition env_with_peers (t : nat) (ops : list StoreOp) : Env := {|
  env_fault _ := NoFault;
  env_now := @env_now quiet_env;
  env_rand := @env_rand quiet_env;
  env_rand_length := @env_rand_length quiet_env;
  env_scan _ _ l := l;
  env_scan_perm _ _ _ := Permutation_refl _;
  env_collate := @env_collate quiet_env;
  env_peers t' := if decide (t' = t) then ops else [];
  env_float_oob := @env_float_oob quiet_env
|}.

Lemma env_with_peer_interrupted t op : @interrupted (env_with_peers t [op]) t op.
Proof. by constructor. Qed.

(** *** A heartbeat during a check *)

Lemma heartbeat_row_ok hb t n :
  node_row_ok n = true -> node_row_ok (with_heartbeat NodeReady hb t n) = true.
Proof.
  intros Hn. unfold node_row_ok in *. cbn. guards. tauto.
Qed.

Section Overruled.
Context `{Env} (timeout : Z) (id : string) (n : Node) (hb : Z) (w0 : World).

(** When the check writes first: after the query and the clock. *)
Let t1 : nat := S (S (world_tick w0)).
Context (Hint : interrupted t1 (OpUpdateHeartbeat id NodeReady hb)).
Context (Hn : nodes (world_db w0) !! id = Some n).
Context (Hstale : ~ fresh timeout (env_now (S (world_tick w0))) n).
Context (Hst : nd_Status n <> NodeUnhealthy).

(** The row of the node once the heartbeat is in, [rest] being still to check. *)
Definition overruled_row (rest : list Node) (db : DB) : Prop :=
  exists n', nodes db !! id = Some n' /\ nd_LastHeartbeat n' = hb /\
    (id ∉ nd_ID <$> rest -> nd_Status n' = NodeUnhealthy).

Record overruling (rest : list Node) (w : World) : Prop := {
  ov_wf : WF (world_db w);
  ov_workloads : workloads (world_db w) = workloads (world_db w0);
  ov_tick : (t1 <= world_tick w)%nat;
  ov_row : if decide (world_tick w = t1)
           then id ∈ nd_ID <$> rest /\ nodes (world_db w) !! id = Some n
           else overruled_row rest (world_db w);
  ov_rest m : m ∈ rest -> nd_ID m = id -> m = n
}.

Lemma overruling_skip x rest w :
  nd_ID x <> id -> overruling (x :: rest) w -> overruling rest w.
Proof using All.
  intros Hne [Hwf Hw Ht Hrow Hrest]. constructor; try done.
  - destruct (decide _).
    + destruct Hrow as [Hin Hrow]. split; [|done]. rewrite fmap_cons in Hin.
      by apply elem_of_cons in Hin as [->|Hin].
    + destruct Hrow as (n' & Hn' & Hhb & Hstat). exists n'. split_and!; [done..|].
      intros Hni. apply Hstat. rewrite fmap_cons. by apply not_elem_of_cons.
  - intros m Hm. apply Hrest. by right.
Qed.

(** The database the next write finds has the heartbeat. *)
Lemma overruling_peers rest w :
  overruling rest w ->
  let db := peers_db (world_tick w) (world_db w) in
  WF db /\ workloads db = workloads (world_db w0) /\ overruled_row rest db.
Proof using All.
  intros [Hwf Hw Ht Hrow Hrest]. cbv zeta. destruct (decide (world_tick w = t1)) as [He|Hne].
  - rewrite He. split; [by eapply interrupted_wf|]. destruct Hrow as [Hin Hrow].
    rewrite (interrupted_db _ _ Hint). cbn [apply_op]. unfold UpdateHeartbeat_sql.
    destruct (wf_node _ Hwf _ _ Hrow) as [_ Hok].
    rewrite (update_node_hit _ _ _ n) by (done || by apply heartbeat_row_ok).
    split; [done|]. eexists. split; [apply lookup_insert_eq|]. done.
  - by rewrite (uninterrupted_db _ _ Hint).
Qed.

Lemma overruling_step x rest w :
  overruling (x :: rest) w ->
  wp (check_node timeout (env_now (S (world_tick w0))) x)
    (fun r w' => r = Ok tt /\ overruling rest w') w.
Proof using All.
  intros Hov. unfold check_node.
  assert (nd_ID x = id -> x = n) as Hx by (apply (ov_rest _ _ Hov); left).
  destruct (heartbeat_fresh _ _ x) eqn:Hfresh.
  { apply wp_ret. split; [done|]. eapply overruling_skip; [|done].
    intros He. apply Hstale, heartbeat_fresh_spec. by rewrite <- (Hx He). }
  destruct (nd_Status x =? NodeUnhealthy)%string eqn:Hux; cbn [negb].
  { apply wp_ret. split; [done|]. eapply overruling_skip; [|done].
    intros He. apply Hst. rewrite <- (Hx He). by apply String.eqb_eq. }
  apply wp_log_error. unfold SetNodeStatus. apply wp_bind, wp_context.
  apply (wp_exec_interrupted _ _ Hint). cbv zeta. cbn [apply_op]. unfold SetNodeStatus_sql.
  destruct (overruling_peers _ _ Hov) as (Hwf & Hw & n' & Hn' & Hhb & Hstat).
  set (db := peers_db _ _) in *. set (t := env_now (world_tick w)).
  pose proof (ov_tick _ _ Hov) as Htick.
  assert (forall db' k m, WF db' -> workloads db' = workloads db -> overruled_row rest db' ->
    wp (if (m =? 0)%Z then fail k else mret tt)
      (fun _ w' => Ok tt = Ok tt /\ overruling rest w')
      (wrote (OpSetNodeStatus (nd_ID x) NodeUnhealthy) db' w)) as Hend.
  { intros db' k m Hwf' Hw' Hrow'.
    assert (overruling rest (wrote (OpSetNodeStatus (nd_ID x) NodeUnhealthy) db' w)) as Hov'.
    { constructor; cbn; [done|congruence|lia| |].
      - rewrite decide_False by (unfold t1 in *; lia). done.
      - intros y Hy. apply (ov_rest _ _ Hov). by right. }
    destruct (m =? 0); [by apply wp_fail|by apply wp_ret]. }
  destruct (nodes db !! nd_ID x) as [y|] eqn:Hy.
  - rewrite (update_node_hit _ _ _ y) by (done || by apply status_row_ok, (wf_node _ Hwf _ _ Hy)).
    cbn [wrapf]. apply Hend; [|done|].
    + destruct (wf_node _ Hwf _ _ Hy) as [Hid Hok].
      apply wf_insert_node; [done|done|by apply status_row_ok].
    + unfold overruled_row. cbn. destruct (decide (nd_ID x = id)) as [He|Hne].
      * rewrite He in *. simplify_eq. rewrite lookup_insert_eq. by eexists.
      * rewrite lookup_insert_ne by done. exists n'. split_and!; [done..|].
        intros Hni. apply Hstat. rewrite fmap_cons. by apply not_elem_of_cons.
  - rewrite update_node_miss by done. cbn [wrapf]. apply Hend; [done..|].
    exists n'. split_and!; [done..|]. intros Hni. apply Hstat. rewrite fmap_cons.
    apply not_elem_of_cons. split; [congruence|done].
Qed.
End Overruled.

(** What a cycle of the reconciler does with a node it reads as unhealthy. *)
Lemma unhealthy_node_recovered `{Quiet} `{NodeClient} n w :
  WF (world_db w) -> nd_Status n = NodeUnhealthy ->
  wp (reconcile_node n) (fun r w' => r = Ok tt /\ exists t, forall k,
    workloads (world_db w') !! k =
      (fun wl => if occupies (nd_ID n) wl then recovered t wl else wl) <$>
        workloads (world_db w) !! k) w.
Proof.
  intros Hwf Hst. unfold reconcile_node. rewrite Hst, String.eqb_refl.
  wp_step. unfold RecoverWorkloadsFromNode. do 2 wp_step. cbn [apply_op]. unfold transaction.
  destruct (recover_runs (env_now (world_tick w)) (nd_ID n) _ Hwf) as [db' Hdb'].
  rewrite Hdb'. cbn. wp_step. split; [done|]. exists (env_now (world_tick w)). intros k.
  pose proof (recover_tx_inv _ _ _ _ Hdb') as (_ & HW & _). apply HW.
Qed.

(** C27: Over well-formed tables, a heartbeat that arrives after a check has read a node as stale, and before
    the check's first write, is overruled: when the check is done, and nothing
    fails or writes besides, the node is unhealthy with the new heartbeat in
    its row, fresh at every time it would count as fresh.  If nothing else
    happens the next cycle of the reconciler takes from the node every workload
    that is pending, scheduled or running on it. *)
Theorem heartbeat_during_check_is_overruled `{Env} timeout id n hb w :
  interrupted (S (S (world_tick w))) (OpUpdateHeartbeat id NodeReady hb) ->
  WF (world_db w) -> nodes (world_db w) !! id = Some n ->
  ~ fresh timeout (env_now (S (world_tick w))) n -> nd_Status n <> NodeUnhealthy ->
  wp (check timeout) (fun r w' =>
    r = Ok tt /\ exists n', nodes (world_db w') !! id = Some n' /\
      nd_LastHeartbeat n' = hb /\ nd_Status n' = NodeUnhealthy /\
      (forall now, hb <> zero_time -> time_sub now hb <= timeout -> fresh timeout now n') /\
      forall (E : Env) (_ : Quiet) (_ : NodeClient) w2, world_db w2 = world_db w' ->
        wp (reconcile_node n') (fun r2 w3 => r2 = Ok tt /\ exists t, forall k,
          workloads (world_db w3) !! k =
            (fun wl => if occupies id wl then recovered t wl else wl) <$>
              workloads (world_db w) !! k) w2) w.
Proof.
  intros Hint Hwf Hn Hstale Hst. unfold check, ListNodes. apply wp_bind, wp_try, wp_context.
  apply (wp_query_interrupted _ _ Hint); [lia|]. cbn [wrapf]. do 2 wp_step.
  set (l := all_nodes _ _). cbn [tick set_db world_tick].
  assert (forall m, m ∈ l <-> nodes (world_db w) !! nd_ID m = Some m) as Hl
    by (intros m; by apply elem_of_all_nodes).
  destruct (wf_node _ Hwf _ _ Hn) as [Hid _].
  apply (wp_for_each (overruling id n hb w)).
  - constructor; cbn; [done..| |].
    + rewrite decide_True by done. split; [|done]. rewrite <- Hid. apply list_elem_of_fmap_2, Hl.
      by rewrite Hid.
    + intros m Hm%Hl He. congruence.
  - intros x l' w1 Hov. eapply wp_mono; [|by eapply overruling_step].
    by intros r w2 [-> ?].
  - intros w1 [Hwf1 Hw1 Ht Hrow _]. split; [done|]. destruct (decide _).
    { by destruct Hrow as [Hin%not_elem_of_nil _]. }
    destruct Hrow as (n' & Hn' & Hhb & Hu). specialize (Hu ltac:(apply not_elem_of_nil)).
    exists n'. split_and!; [done..| |].
    + intros now Hz Ht'. split; by rewrite Hhb.
    + intros E Q C w2 Hw2. destruct (wf_node _ Hwf1 _ _ Hn') as [Hid' _].
      rewrite <- Hw1, <- Hw2, <- Hid'. apply unhealthy_node_recovered; [by rewrite Hw2|done].
Qed.

(** A heartbeat of [n1] two ticks after the check of [overrun_db] began. *)
Definition overrun_db : DB :=
  sample_db (sample_service 1 1)
    (mkNode "n1" "n1:9001" 4000 8192 500 512 NodeReady (- time_minute) 0 0)
    (sample_node "n2" 0 0) [running_workload].

Lemma heartbeat_during_check_is_overruled_witness :
  exists n', nodes (world_db (@check (env_with_peers 2 [OpUpdateHeartbeat "n1" NodeReady time_second])
    (30 * time_second) (sample_world overrun_db)).2) !! "n1" = Some n' /\
    nd_Status n' = NodeUnhealthy /\ fresh (30 * time_second) (2 * time_second) n'.
Proof.
  set (E := env_with_peers 2 [OpUpdateHeartbeat "n1" NodeReady time_second]).
  destruct (@heartbeat_during_check_is_overruled E (30 * time_second) "n1"
    (mkNode "n1" "n1:9001" 4000 8192 500 512 NodeReady (- time_minute) 0 0) time_second
    (sample_world overrun_db) (env_with_peer_interrupted _ _)) as (_ & n' & Hn' & _ & Hst & Hf & _).
  - apply wf_check_sound. by_computation.
  - reflexivity.
  - intros [_ Hf]. vm_compute in Hf. by destruct Hf.
  - discriminate.
  - exists n'. split; [exact Hn'|]. split; [exact Hst|]. apply Hf; [discriminate|by vm_compute].
Defined.

(** *** A new image during the verdict *)

(** C28: Over well-formed tables, the status controller is about to record that an
    incomplete rollout failed, because it saw a failed replica of its version,
    when an update changes the image (to one of at most 512 characters) after
    it read and before it writes; nothing fails and nothing else is written.
    The service then has the new image, the next version and the status of a
    failed rollout.  A service in that state is left alone
    by the deployment, the replica and the status controller in every run,
    however its workloads are: until its image is changed again, nothing rolls
    the new image out. *)
Theorem late_verdict_halts_new_rollout `{Env} timeout service req db1 w :
  interrupted (S (world_tick w)) (OpUpdateService req) ->
  WF (world_db w) -> services (world_db w) !! svc_ID service = Some service ->
  let count f := svc_count f (svc_ID service) (workloads (world_db w)) in
  let version := svc_DeploymentVersion service in
  svc_DeploymentStatus service <> DeploymentFailed ->
  0 < count (is_failed_version version) ->
  ~ (count (is_running_version version) = svc_DesiredReplicas service /\
     count (old_active version) = 0) ->
  svc_ID req = svc_ID service -> varchar 512 (svc_Image req) = true ->
  svc_Image req <> svc_Image service ->
  UpdateService_sql (env_now (S (world_tick w))) req (world_db w) = Ok (db1, 1) ->
  wp (Status_ReconcileService timeout service) (fun r w' =>
    r = Ok tt /\ exists s, services (world_db w') !! svc_ID service = Some s /\
      svc_Image s = svc_Image req /\ svc_DeploymentVersion s = version + 1 /\
      svc_DesiredReplicas s = svc_DesiredReplicas req /\
      svc_Status s = svc_Status service /\ svc_DeploymentStatus s = DeploymentFailed /\
      forall (E : Env) timeout w2,
        Deployment_ReconcileService s w2 = (Ok tt, w2) /\
        Replica_ReconcileService s w2 = (Ok tt, w2) /\
        Status_ReconcileService timeout s w2 = (Ok tt, w2)) w.
Proof.
  intros Hint Hwf Hs count version Hnf Hbroken Hnc Hid Hfit Himg Hup.
  unfold Status_ReconcileService at 1. rewrite (proj2 (String.eqb_neq _ _) Hnf).
  apply wp_bind, wp_context. unfold ListWorkloadsByService.
  apply wp_context, (wp_query_interrupted _ _ Hint); [lia|]. cbn [wrapf].
  rewrite status_counts_spec, !by_service_count, !Z.add_0_l.
  fold version. change (svc_count ?f (svc_ID service) _) with (count f).
  destruct (_ && _) eqn:Hc; [guards; by destruct Hnc|].
  rewrite (proj2 (Z.ltb_lt _ _) Hbroken). unfold UpdateDeploymentStatus. apply wp_bind, wp_context.
  apply (wp_exec_interrupted _ _ Hint). cbn [world_tick tick set_db world_db].
  rewrite (interrupted_db _ _ Hint). cbn [apply_op]. rewrite Hup.
  pose proof (apply_op_wf _ (OpUpdateService req) _ _ _ Hwf Hup) as Hwf1.
  apply update_service_shape in Hup as (_ & _ & Hu). rewrite Hid in Hu.
  assert (services db1 !! svc_ID service =
    Some (UpdateService_row (env_now (S (world_tick w))) req service)) as Hs1.
  { inversion Hu as [Hskip He|old Hold _ _ He]. rewrite Hold in Hs. simplify_eq.
    apply lookup_insert_eq. }
  destruct (wf_service _ Hwf1 _ _ Hs1) as [_ Hok1].
  cbn [apply_op]. unfold UpdateDeploymentStatus_sql.
  rewrite (update_service_hit _ _ _ _ _ Hs1) by
    (done || (apply deployment_status_row_ok; [by vm_compute| |done];
              unfold service_row_ok in Hok1; guards; tauto)).
  cbn [wrapf]. apply wp_ret. split; [done|]. eexists. split; [apply lookup_insert_eq|].
  cbn. rewrite varchar_cast_id by done.
  assert ((svc_Image service =? svc_Image req)%string = false) as ->
    by (apply String.eqb_neq; congruence).
  split_and!; [done..|]. intros E timeout' w2.
  unfold Deployment_ReconcileService, Replica_ReconcileService, Status_ReconcileService.
  cbn [svc_DeploymentStatus svc_Status with_deployment]. rewrite String.eqb_refl.
  split_and!; [done| |done]. by destruct (negb _).
Qed.

(** Version 2 of a service has a failed replica. *)
Definition failing_service : Service :=
  mkService "web" "web" "nginx:2" 1 500 512 2 1 0 DeploymentProgressing (Some 0)
    sample_autoscaling None ServiceActive 0 0.

Definition failing_db : DB :=
  sample_db failing_service busy_node (sample_node "n2" 0 0)
    [running_workload;
     sample_workload "w2" (Some "n1") (Some "c2") WorkloadScheduled WorkloadFailed 2].

Definition repairing_request : Service :=
  mkService "web" "web" "nginx:3" 1 500 512 2 1 0 DeploymentProgressing None
    sample_autoscaling None ServiceActive 0 0.

Lemma late_verdict_halts_new_rollout_witness :
  exists s, services (world_db (@Status_ReconcileService
      (env_with_peers 1 [OpUpdateService repairing_request]) time_minute failing_service
      (sample_world failing_db)).2) !! "web" = Some s /\
    svc_Image s = "nginx:3" /\ svc_DeploymentStatus s = DeploymentFailed.
Proof.
  destruct (@late_verdict_halts_new_rollout (env_with_peers 1 [OpUpdateService repairing_request])
    time_minute failing_service repairing_request
    (mkDB (nodes failing_db)
      (<["web" := UpdateService_row time_second repairing_request failing_service]>
        (services failing_db)) (workloads failing_db))
    (sample_world failing_db) (env_with_peer_interrupted _ _))
    as (_ & s & Hs & Himg & _ & _ & _ & Hst & _);
    [apply wf_check_sound; by_computation|reflexivity|discriminate|by vm_compute|
     intros [_ Hold]; vm_compute in Hold; discriminate Hold|reflexivity|reflexivity|discriminate|
     by_computation|].
  exists s. by split_and!.
Defined.
