(* ===== verification/Api.v ===== *)
(** * internal/api: the HTTP API of the control plane

    The handlers of handlers.go, the routes of routes.go and the handlers of
    internal/observability, over the world of the control plane. *)

From S2P Require Import Prelude Float64 Json Http Model Requests.
From S2P Require Import Sql StoreInv Accounting Env Logic Postgres.

(** The values the API encodes; the page of metrics is the text of its four
    counters. *)
Inductive api_value :=
  | ErrorResponse (message : string)
  | HeartbeatResponse (id status : string) (timestamp : Z)
  | RegisterNodeResponse (id status : string)
  | ServiceValue (s : Service)
  | StatusMap (entries : list (string * string))
  | MetricsPage (m : Metrics).

Abbreviation response := (Response api_value).
Abbreviation api_handler := (Handler M api_value).

Definition writeError (status : Z) (message : string) : response :=
  mkResponse status (Encoded (ErrorResponse message)).

Definition writeJSON (status : Z) (v : api_value) : response := mkResponse status (Encoded v).

(** [decodeJSON]: one object, no unknown keys. *)
Definition decodeJSON {A} (fields : list (field A)) (zero : A) (b : body) : option A :=
  decode_only fields true zero b.

Section Api.
Context `{Env} `{Unicode}.

(** ** Nodes *)

Definition heartbeat : api_handler := fun r =>
  match decodeJSON heartbeatRequest_fields zero_heartbeatRequest (r_Body r) with
  | None => mret (writeError StatusBadRequest "invalid request body")
  | Some req =>
      if hb_ID req =s? EmptyString then
        mret (writeError StatusBadRequest "node id is required")
      else
        t ← now;
        updated ← try (UpdateHeartbeat (hb_ID req) NodeReady t);
        match updated with
        | Err _ => mret (http_Error "failed to update heartbeat" StatusNotFound)
        | Ok _ => mret (writeJSON StatusOK (HeartbeatResponse (hb_ID req) NodeReady t))
        end
  end.

Definition registerNode : api_handler := fun r =>
  match decode_first registerNodeRequest_fields true zero_registerNodeRequest (r_Body r) with
  | None => mret (writeError StatusBadRequest "invalid request body")
  | Some req =>
      if (rn_ID req =s? EmptyString) || (rn_Address req =s? EmptyString) ||
         (rn_CPUCapacity req <=? 0) || (rn_MemoryCapacity req <=? 0)
      then mret (writeError StatusBadRequest "invalid node registration")
      else
        t ← now;
        let node := mkNode (rn_ID req) (rn_Address req) (rn_CPUCapacity req)
          (rn_MemoryCapacity req) 0 0 NodeReady t zero_time zero_time in
        registered ← try (RegisterNode node);
        match registered with
        | Err _ => mret (writeError StatusInternalServerError "failed to register node")
        | Ok _ => mret (writeJSON StatusCreated (RegisterNodeResponse (nd_ID node) (nd_Status node)))
        end
  end.

(** ** Services *)

Definition zero_autoscaling : AutoscalingConfig := mkAutoscalingConfig false 0 0 f_zero 0 0 0 0.

Definition autoscaling_config (a : autoscalingRequest) : AutoscalingConfig :=
  mkAutoscalingConfig (ar_Enabled a) (ar_MinReplicas a) (ar_MaxReplicas a) (ar_TargetCPU a)
    (ar_ScaleUpCooldownSeconds a) (ar_ScaleDownCooldownSeconds a)
    (ar_RequiredObservations a) (ar_MaxScaleStep a).

(** The row of a request received at time [t]. *)
Definition new_service (req : createServiceRequest) (t : Z) : Service :=
  mkService (cs_ID req) (cs_Name req) (cs_Image req) (effectiveReplicas req)
    (cs_CPURequestMillis req) (cs_MemoryRequestMB req) (cs_DeploymentVersion req)
    (cs_MaxSurge req) (cs_MaxUnavailable req)
    (effectiveDeploymentStatus req) None
    (match cs_Autoscaling req with
     | Some a => autoscaling_config a
     | None => zero_autoscaling
     end)
    None (effectiveServiceStatus req) t t.

Definition createService : api_handler := fun r =>
  match decodeJSON createServiceRequest_fields zero_createServiceRequest (r_Body r) with
  | None => mret (writeError StatusBadRequest "invalid request body")
  | Some req =>
      let req := normalize req in
      match validateServiceRequest req with
      | Some message => mret (writeError StatusBadRequest message)
      | None =>
          found ← try (GetService (cs_ID req));
          match found with
          | Ok _ => mret (writeError StatusConflict "service already exists")
          | Err _ =>
              t ← now;
              let service := new_service req t in
              created ← try (CreateService service);
              match created with
              | Err _ => mret (writeError StatusInternalServerError "failed to create service")
              | Ok _ => mret (writeJSON StatusCreated (ServiceValue service))
              end
          end
      end
  end.

Definition getService : api_handler := fun r =>
  found ← try (GetService (PathValue r "id"));
  match found with
  | Err _ => mret (writeError StatusNotFound "service not found")
  | Ok service => mret (writeJSON StatusOK (ServiceValue service))
  end.

(** The service as it was read, with the requested fields. *)
Definition requested_service (req : updateServiceRequest) (s : Service) : Service :=
  mkService (svc_ID s) (us_Name req) (us_Image req) (us_Replicas req)
    (us_CPURequestMillis req) (us_MemoryRequestMB req) (svc_DeploymentVersion s)
    (us_MaxSurge req) (us_MaxUnavailable req) (svc_DeploymentStatus s)
    (svc_DeploymentStartedAt s) (svc_Autoscaling s) (svc_AutoscalingLastScaledAt s)
    (svc_Status s) (svc_CreatedAt s) (svc_UpdatedAt s).

Definition updateService : api_handler := fun r =>
  let id := PathValue r "id" in
  match decode_first updateServiceRequest_fields false zero_updateServiceRequest (r_Body r) with
  | None => mret (writeError StatusBadRequest "invalid JSON")
  | Some req =>
      if (us_Replicas req <? 0) || (us_CPURequestMillis req <=? 0) ||
         (us_MemoryRequestMB req <=? 0)
      then mret (writeError StatusBadRequest "invalid service configuration")
      else
        found ← try (GetService id);
        match found with
        | Err _ => mret (writeError StatusNotFound "service not found")
        | Ok service =>
            updated ← try (UpdateService (requested_service req service));
            match updated with
            | Err _ => mret (writeError StatusInternalServerError "failed to update service")
            | Ok _ =>
                reread ← try (GetService id);
                match reread with
                | Err _ =>
                    mret (writeError StatusInternalServerError "failed to read updated service")
                | Ok service => mret (writeJSON StatusOK (ServiceValue service))
                end
            end
        end
  end.

Definition deleteService : api_handler := fun r =>
  let id := PathValue r "id" in
  if id =s? EmptyString then mret (writeError StatusBadRequest "service id is required")
  else
    found ← try (GetService id);
    match found with
    | Err _ => mret (writeError StatusNotFound "service not found")
    | Ok service =>
        if svc_Status service =s? ServiceDeleted then mret (mkResponse StatusNoContent NoContent)
        else
          marked ← try (MarkServiceDeleting id);
          match marked with
          | Err _ => mret (writeError StatusInternalServerError "failed to delete service")
          | Ok _ => mret (mkResponse StatusAccepted NoContent)
          end
    end.

(** ** internal/observability *)

Definition Metrics_Handler : api_handler := fun _ w =>
  (Ok (mkResponse StatusOK (Encoded (MetricsPage (world_metrics w)))), w).

Definition HealthHandler : api_handler := fun _ =>
  mret (writeJSON StatusOK (StatusMap [("status", "ok")])).

Definition ReadinessHandler : api_handler := fun _ =>
  pinged ← try Ping;
  match pinged with
  | Err _ =>
      mret (writeJSON StatusServiceUnavailable
        (StatusMap [("status", "not_ready"); ("reason", "database_unavailable")]))
  | Ok _ => mret (writeJSON StatusOK (StatusMap [("status", "ready")]))
  end.

(** ** routes.go *)

Definition Routes (nodeToken : string) : api_handler :=
  ServeMux [
    mkEntry "GET" [Lit "metrics"] Metrics_Handler;
    mkEntry "POST" [Lit "nodes"; Lit "register"]
      (RequireBearerToken nodeToken (RequireMutualTLS registerNode));
    mkEntry "POST" [Lit "nodes"; Lit "heartbeat"]
      (RequireBearerToken nodeToken (RequireMutualTLS heartbeat));
    mkEntry "POST" [Lit "services"] (RequireBearerToken nodeToken createService);
    mkEntry "GET" [Lit "services"; Wild "id"] (RequireBearerToken nodeToken getService);
    mkEntry "PUT" [Lit "services"; Wild "id"] (RequireBearerToken nodeToken updateService);
    mkEntry "DELETE" [Lit "services"; Wild "id"] (RequireBearerToken nodeToken deleteService);
    mkEntry "GET" [Lit "healthz"] HealthHandler;
    mkEntry "GET" [Lit "readyz"] ReadinessHandler
  ].
End Api.
