(* ===== verification/ApiSpec.v ===== *)
(** * What the API promises

    Who may call it, what each handler does to the database, and that neither
    it nor the other goroutines beside the reconciler write more than the
    reconciler's theorems allow them. *)

From S2P Require Import Prelude Float64 Json Http Model Requests.
From S2P Require Import Sql StoreInv Accounting Env Logic Postgres.
From S2P Require Import Discipline Scheduler NodeClient Quiet Writes Samples Histories StoreSpec.
From S2P Require Import Reconciler Autoscaler AutoscalerSpec Health Api.

(** ** Dispatch *)

(** What holds of the handlers of a mux and of its own answers holds of the
    mux. *)
Lemma ServeMux_elim {F} `{MRet F} {V} (P : F (Response V) -> Prop) (entries : list (mux_entry F V)) r :
  (forall status c, status ∈ [StatusTemporaryRedirect; StatusNotFound; StatusMethodNotAllowed] ->
     P (mret (mkResponse status c))) ->
  (forall e segments vs, e ∈ entries -> path_segments (r_Path r) = Some segments ->
     match_segments (entry_Pattern e) segments = Some vs ->
     P (entry_Handler e (with_path_values vs r))) ->
  P (ServeMux entries r).
Proof.
  intros Hown He. unfold ServeMux. destruct (path_segments _) as [segments|] eqn:Hs;
    [|apply Hown; set_solver].
  destruct (negb _); [apply Hown; set_solver|]. cbv zeta.
  destruct (List.filter (fun e => method_matches _ _) _) as [|e l] eqn:Hf.
  - destruct (List.filter _ entries); apply Hown; set_solver.
  - pose proof (in_eq e l) as Hin. rewrite <- Hf in Hin. apply filter_In in Hin as [Hin _].
    apply filter_In in Hin as [Hin Hm].
    destruct (match_segments (entry_Pattern e) segments) as [vs|] eqn:Hvs; [|done].
    eapply He; [by apply list_elem_of_In|done..].
Qed.

Lemma writes_bearer P token (next : api_handler) r :
  writes_only P (next r) -> writes_only P (RequireBearerToken token next r).
Proof.
  intros Hn. destruct (authorized_dec token r) as [Ha|Ha].
  - by rewrite bearer_passes.
  - destruct (bearer_refuses (F := M) token next r Ha) as (resp & -> & _). auto with writes.
Qed.

Lemma writes_mtls P (next : api_handler) r :
  writes_only P (next r) -> writes_only P (RequireMutualTLS next r).
Proof.
  intros Hn. destruct (verified_dec r) as [Ha|Ha].
  - by rewrite mtls_passes.
  - rewrite mtls_refuses by done. auto with writes.
Qed.

Section Peers.
Context `{Env} `{Unicode}.

Lemma routes_writes token r : writes_only reconciler_peer (Routes token r).
Proof.
  unfold Routes. apply ServeMux_elim; [intros; apply writes_ret|]. intros e segments vs He _ _.
  repeat (apply elem_of_cons in He as [->|He]); [..|by apply not_elem_of_nil in He];
    cbn [entry_Handler]; repeat (apply writes_bearer || apply writes_mtls);
    try (by apply writes_none);
    unfold registerNode, heartbeat, createService, getService, updateService,
      deleteService, HealthHandler, ReadinessHandler, GetService, Ping, UpdateHeartbeat,
      RegisterNode, CreateService, UpdateService, MarkServiceDeleting; cbv zeta; solve_writes.
Qed.

Lemma health_writes timeout ticks : writes_only reconciler_peer (health_Run timeout ticks).
Proof.
  assert (writes_only reconciler_peer (check timeout)) as Hc.
  { unfold check, check_node, ListNodes, SetNodeStatus. solve_writes. }
  induction ticks; cbn [health_Run]; apply writes_bind; auto with writes.
Qed.

Lemma autoscaler_writes `{ProviderLaws} obs ticks :
  writes_only reconciler_peer (autoscaler_Run obs ticks).
Proof.
  assert (forall service l total running,
    writes_only reconciler_peer (usage_loop service l total running)) as Hu
    by (intros; apply writes_none, usage_loop_reads).
  assert (forall services obs, writes_only reconciler_peer (autoscale_services services obs)) as Hs.
  { intros services. induction services as [|s l IH]; intros o; cbn [autoscale_services];
      [apply writes_ret|].
    unfold Autoscaler_ReconcileService, scale, ListWorkloadsByService, UpdateDesiredReplicas.
    cbv zeta. solve_writes. }
  revert obs. induction ticks; intros obs; cbn [autoscaler_Run]; [apply writes_ret|].
  apply writes_bind; [|done]. unfold autoscaler_reconcile, ListServices. solve_writes.
Qed.
End Peers.

(** C29: Whatever the requests and the failures, the API handlers, the health
    checker and the autoscaler issue no write but those that the theorems about
    the reconciler allow the other goroutines: they register nodes, record
    heartbeats and node states, create, update and mark services, and set
    replica counts; none touches a workload or an allocation. *)
Theorem other_goroutines_write_as_assumed `{Env} `{Unicode} `{ProviderLaws} :
  (forall token r, writes_only reconciler_peer (Routes token r)) /\
  (forall timeout ticks, writes_only reconciler_peer (health_Run timeout ticks)) /\
  (forall obs ticks, writes_only reconciler_peer (autoscaler_Run obs ticks)).
Proof. split_and!; intros; [apply routes_writes|apply health_writes|apply autoscaler_writes]. Qed.

(** The upper-case of ASCII strings is all the samples need. *)
#[export] Instance no_unicode : Unicode := { unicode_upper s := s }.

Lemma other_goroutines_write_as_assumed_witness :
  writes_only reconciler_peer (Routes "secret"
    (mkRequest "DELETE" "/services/web" "Bearer secret" None (one_value JNull) [])).
Proof. apply (@other_goroutines_write_as_assumed quiet_env _ node_provider node_provider_laws). Defined.

(** ** Who may call *)

(** The pages anybody may read. *)
Definition public_page (r : Request) : Prop :=
  exists page, page ∈ ["metrics"; "healthz"; "readyz"] /\ path_segments (r_Path r) = Some [page].

(** The routes for nodes. *)
Definition node_route (r : Request) : Prop :=
  exists page, path_segments (r_Path r) = Some ["nodes"; page].

Lemma match_one p s vs : match_segments [Lit s] p = Some vs -> p = [s].
Proof.
  destruct p as [|a [|b p]]; cbn; try done; repeat case_match; try done.
  by match goal with H : String.eqb _ _ = true |- _ => apply String.eqb_eq in H as -> end.
Qed.

Lemma authorized_path_values token vs r :
  authorized token (with_path_values vs r) <-> authorized token r.
Proof. done. Qed.

(** C30: A request without the configured token -- or with no token configured --
    is answered before any handler runs, unless it asks for one of the three
    public pages; so is a request of a node without a verified certificate.  The
    world is untouched, and the answer is a redirect, 401, 403, 404, 405 or
    503. *)
Theorem strangers_are_refused `{Env} `{Unicode} token r w :
  ~ public_page r -> ~ authorized token r \/ (node_route r /\ ~ verified r) ->
  exists resp, Routes token r w = (Ok resp, w) /\
    resp_Status resp ∈ [StatusTemporaryRedirect; StatusUnauthorized; StatusForbidden;
      StatusNotFound; StatusMethodNotAllowed; StatusServiceUnavailable].
Proof.
  intros Hpub Hstr. unfold Routes. apply (ServeMux_elim (fun m : M response =>
    exists resp, m w = (Ok resp, w) /\ resp_Status resp ∈ _)).
  { intros status c Hs. eexists. split; [reflexivity|]. cbn. set_solver. }
  intros e segments vs He Hsegs Hm.
  assert (forall next : api_handler, ~ authorized token r ->
    exists resp, RequireBearerToken token next (with_path_values vs r) w = (Ok resp, w) /\
      resp_Status resp ∈ [StatusTemporaryRedirect; StatusUnauthorized; StatusForbidden;
        StatusNotFound; StatusMethodNotAllowed; StatusServiceUnavailable]) as Hbearer.
  { intros next Ha. rewrite <- (authorized_path_values token vs) in Ha.
    destruct (bearer_refuses (F := M) token next _ Ha) as (resp & -> & Hr).
    exists resp. split; [done|]. rewrite Hr. case_match; set_solver. }
  assert (forall next : api_handler, ~ authorized token r \/ ~ verified r ->
    exists resp, RequireBearerToken token (RequireMutualTLS next) (with_path_values vs r) w =
        (Ok resp, w) /\
      resp_Status resp ∈ [StatusTemporaryRedirect; StatusUnauthorized; StatusForbidden;
        StatusNotFound; StatusMethodNotAllowed; StatusServiceUnavailable]) as Hnode.
  { intros next Hor. destruct (authorized_dec token r) as [Ha|Ha]; [|by apply Hbearer].
    rewrite bearer_passes, mtls_refuses by (done || naive_solver).
    eexists. split; [reflexivity|]. cbn. set_solver. }
  assert (forall s, segments = [s] -> s ∈ ["metrics"; "healthz"; "readyz"] -> False) as Hno.
  { intros s -> Hin. apply Hpub. by exists s. }
  assert (forall a b, match_segments [Lit a; Wild b] segments = Some vs -> a <> "nodes" ->
    ~ node_route r) as Hsvc.
  { intros a b Hab Hne [page Hp]. rewrite Hp in Hsegs. injection Hsegs as <-. cbn in Hab.
    case_match eqn:E; [|done]. apply String.eqb_eq in E. congruence. }
  repeat (apply elem_of_cons in He as [->|He]); [..|by apply not_elem_of_nil in He];
    cbn [entry_Handler entry_Pattern] in *.
  - apply match_one in Hm. exfalso. by eapply Hno; [|left].
  - apply Hnode. tauto.
  - apply Hnode. tauto.
  - apply Hbearer. destruct Hstr as [?|[[page Hp] _]]; [done|].
    apply match_one in Hm. congruence.
  - apply Hbearer. apply Hsvc in Hm; [|done]. tauto.
  - apply Hbearer. apply Hsvc in Hm; [|done]. tauto.
  - apply Hbearer. apply Hsvc in Hm; [|done]. tauto.
  - apply match_one in Hm. exfalso. eapply Hno; [done|]. set_solver.
  - apply match_one in Hm. exfalso. eapply Hno; [done|]. set_solver.
Qed.

Definition sample_request (method path token : string) (j : json) : Request :=
  mkRequest method path ("Bearer " +:+ token) None (one_value j) [].

Lemma strangers_are_refused_witness :
  exists resp, Routes "secret" (sample_request "DELETE" "/services/web" "guess" JNull)
    (sample_world empty_db) = (Ok resp, sample_world empty_db) /\
    resp_Status resp = StatusUnauthorized.
Proof.
  destruct (strangers_are_refused "secret"
    (sample_request "DELETE" "/services/web" "guess" JNull) (sample_world empty_db))
    as (resp & Hr & _).
  - intros (page & Hp & Hs). cbn in Hs. by injection Hs.
  - left. by intros [_ Ha].
  - exists resp. split; [exact Hr|]. vm_compute in Hr. by injection Hr as <-.
Defined.

(** ** New services *)

(** What an enabled autoscaler must satisfy. *)
Definition sane_autoscaling (a : autoscalingRequest) : Prop :=
  ar_Enabled a = true ->
  1 <= ar_MinReplicas a <= ar_MaxReplicas a /\
  f_le (ar_TargetCPU a) f_zero = false /\ f_lt (f_of_int 100) (ar_TargetCPU a) = false /\
  0 <= ar_ScaleUpCooldownSeconds a /\ 0 <= ar_ScaleDownCooldownSeconds a /\
  1 <= ar_RequiredObservations a /\ 1 <= ar_MaxScaleStep a.

Record valid_request (r : createServiceRequest) : Prop := {
  valid_id : blank (cs_ID r) = false;
  valid_name : blank (cs_Name r) = false;
  valid_image : blank (cs_Image r) = false;
  valid_replicas : 0 <= effectiveReplicas r;
  valid_cpu : 0 < cs_CPURequestMillis r;
  valid_memory : 0 < cs_MemoryRequestMB r;
  valid_surge : 0 <= cs_MaxSurge r;
  valid_unavailable : 0 <= cs_MaxUnavailable r;
  valid_progress : 0 < effectiveReplicas r -> 0 < cs_MaxSurge r + cs_MaxUnavailable r;
  valid_autoscaling a : cs_Autoscaling r = Some a -> sane_autoscaling a
}.

Lemma validateAutoscaling_spec a : validateAutoscaling a = None <-> sane_autoscaling a.
Proof.
  unfold validateAutoscaling, sane_autoscaling. split.
  - intros H Hen. rewrite Hen in H. cbn [negb] in H. repeat case_match; guards; try done.
    split_and!; try tauto; lia.
  - destruct (ar_Enabled a); [|done]. intros H. destruct (H eq_refl) as (? & -> & -> & ?). cbn.
    repeat case_match; guards; try done; lia.
Qed.

Lemma validateServiceRequest_spec r : validateServiceRequest r = None <-> valid_request r.
Proof.
  unfold validateServiceRequest. cbv zeta. split.
  - intros H. repeat case_match; guards; try done; constructor; try done; try lia;
      try (intros; lia); intros a' Ha'; simplify_eq; by apply validateAutoscaling_spec.
  - intros [-> -> -> Hr Hc Hm Hs Hu Hp Ha].
    repeat case_match; guards; try lia; [|done]. by apply validateAutoscaling_spec, Ha.
Qed.

(** The request can be granted at time [t]. *)
Definition creatable `{Unicode} (req : createServiceRequest) (t : Z) (db : DB) : Prop :=
  valid_request req /\ services db !! cs_ID req = None /\
  (forall k s, services db !! k = Some s -> svc_Name s <> cs_Name req) /\
  service_row_ok (new_service req t) = true.

Lemma CreateService_sql_spec s db :
  services db !! svc_ID s = None ->
  (service_row_ok s = true /\ (forall k s', services db !! k = Some s' -> svc_Name s' <> svc_Name s) /\
   CreateService_sql s db = Ok (set_services <[svc_ID s := s]> db, 1)) \/
  (~ (service_row_ok s = true /\
      forall k s', services db !! k = Some s' -> svc_Name s' <> svc_Name s) /\
   exists e, CreateService_sql s db = Err e).
Proof.
  intros Hnew. unfold CreateService_sql. rewrite Hnew.
  destruct (service_row_ok s); [|right; split; [naive_solver|by eexists]]. cbn [negb].
  destruct (name_taken _ _ db) eqn:Hn.
  - right. split; [|by eexists]. intros [_ Hfree].
    rewrite (proj2 (name_taken_false _ _ _)) in Hn; [done|]. intros k s' Hk He.
    by destruct (Hfree _ _ Hk).
  - left. split_and!; try done. intros k s' Hk He.
    rewrite name_taken_false in Hn. rewrite (Hn _ _ Hk He) in Hk. congruence.
Qed.

Lemma create_service_grants `{Quiet} `{Unicode} r w req :
  let s := new_service (normalize req) (env_now (S (world_tick w))) in
  decodeJSON createServiceRequest_fields zero_createServiceRequest (r_Body r) = Some req ->
  creatable (normalize req) (env_now (S (world_tick w))) (world_db w) ->
  exists w', createService r w = (Ok (writeJSON StatusCreated (ServiceValue s)), w') /\
    world_db w' = set_services <[svc_ID s := s]> (world_db w).
Proof.
  intros s Hdec (Hv & Hnew & Hfree & Hok). unfold createService. rewrite Hdec.
  apply validateServiceRequest_spec in Hv. cbv zeta. rewrite Hv.
  unfold GetService, CreateService, mbind, M_bind, try, context. rewrite quiet_query, Hnew.
  cbn [wrapf mret M_ret now tick]. rewrite quiet_exec. cbn [apply_op set_db world_db world_tick tick].
  destruct (CreateService_sql_spec s (world_db w) Hnew) as [(_ & _ & Hs)|(Hno & _)];
    [|by destruct Hno].
  unfold s in Hs. rewrite Hs. cbn [wrapf mret M_ret]. by eexists.
Qed.

(** C31: An undisturbed request for a new service is granted exactly when its
    body decodes strictly, the request after the defaults is valid (names not
    blank, positive resources, rollouts that can make progress, an enabled
    autoscaler with 1 <= min <= max, a target in (0, 100] and positive steps),
    identifier and name are free, and the columns can hold it.  Then the
    database gains that one row, which is also the answer; otherwise the
    database is unchanged and the answer is 400, 409 or 500. *)
Theorem create_service_creates `{Quiet} `{Unicode} r w :
  let t := env_now (S (world_tick w)) in
  let granted req := decodeJSON createServiceRequest_fields zero_createServiceRequest (r_Body r) =
    Some req /\ creatable (normalize req) t (world_db w) in
  exists resp w', createService r w = (Ok resp, w') /\
    ((exists req, granted req /\
        let s := new_service (normalize req) t in
        resp = writeJSON StatusCreated (ServiceValue s) /\
        world_db w' = set_services <[svc_ID s := s]> (world_db w)) \/
     ((forall req, ~ granted req) /\ world_db w' = world_db w /\
        resp_Status resp ∈ [StatusBadRequest; StatusConflict; StatusInternalServerError])).
Proof.
  cbv zeta. destruct (decodeJSON _ _ _) as [req|] eqn:Hdec.
  2: { unfold createService. rewrite Hdec. eexists _, _; split; [reflexivity|]; right.
       split_and!; [naive_solver|done|set_solver]. }
  set (t := env_now (S (world_tick w))). set (s := new_service (normalize req) t).
  assert (forall msg, validateServiceRequest (normalize req) = Some msg ->
    ~ creatable (normalize req) t (world_db w)) as Hinvalid.
  { intros msg Hm [Hv _]. apply validateServiceRequest_spec in Hv. congruence. }
  destruct (validateServiceRequest (normalize req)) as [msg|] eqn:Hv.
  { unfold createService. rewrite Hdec. cbv zeta. rewrite Hv. eexists _, _; split; [reflexivity|]; right.
    split_and!; [|done|set_solver]. intros ? [[= <-] ?]. by eapply Hinvalid. }
  destruct (services (world_db w) !! cs_ID (normalize req)) as [old|] eqn:Hold.
  { unfold createService. rewrite Hdec. cbv zeta. rewrite Hv.
    unfold GetService, mbind, M_bind, try, context. rewrite quiet_query, Hold.
    eexists _, _; split; [reflexivity|]; right. split_and!; [|done|set_solver].
    intros ? [[= <-] (_ & Hfree & _)]. congruence. }
  destruct (CreateService_sql_spec s (world_db w) Hold) as [(Hok & Hfree & _)|(Hno & e & He)].
  - assert (creatable (normalize req) t (world_db w)) as Hc
      by (split_and!; [by apply validateServiceRequest_spec|done..]).
    destruct (create_service_grants r w req Hdec Hc) as (w' & Hr & Hw').
    eexists _, _; split; [exact Hr|]; left. by exists req.
  - unfold createService. rewrite Hdec. cbv zeta. rewrite Hv.
    unfold GetService, CreateService, mbind, M_bind, try, context. rewrite quiet_query, Hold.
    cbn [wrapf mret M_ret now tick]. rewrite quiet_exec. cbn [apply_op set_db world_db world_tick tick].
    unfold s, t in He. rewrite He. eexists _, _; split; [reflexivity|]; right.
    split_and!; [|done|set_solver]. intros ? [[= <-] (_ & _ & Hfree & Hok)]. by apply Hno.
Qed.

Definition new_web : json :=
  JObj [("id", JStr "web"); ("name", JStr "web"); ("image", JStr "nginx:1");
        ("replicas", JInt 2); ("cpu_request_millis", JInt 500); ("memory_request_mb", JInt 512);
        ("max_surge", JInt 1)].

Lemma create_service_creates_witness :
  exists w', createService (sample_request "POST" "/services" "secret" new_web)
      (sample_world empty_db) =
    (Ok (writeJSON StatusCreated (ServiceValue
       (mkService "web" "web" "nginx:1" 2 500 512 1 1 0 DeploymentAvailable None
          zero_autoscaling None ServiceActive time_second time_second))), w').
Proof.
  destruct (create_service_creates (sample_request "POST" "/services" "secret" new_web)
    (sample_world empty_db)) as (resp & w' & H & _).
  exists w'. rewrite H. vm_compute in H. by injection H as <- _.
Defined.

(** ** Existing services *)

(** The name of an update is taken by another service. *)
Definition name_free (id name : string) (db : DB) : Prop :=
  forall k s, services db !! k = Some s -> svc_Name s = name -> k = id.

(** The update of [old] by [req] at time [t] can be stored. *)
Definition updatable (req : updateServiceRequest) (old : Service) (t : Z) (db : DB) : Prop :=
  0 <= us_Replicas req /\ 0 < us_CPURequestMillis req /\ 0 < us_MemoryRequestMB req /\
  name_free (svc_ID old) (us_Name req) db /\
  service_row_ok (UpdateService_row t (requested_service req old) old) = true.

Lemma UpdateService_sql_spec t req old db :
  services db !! svc_ID old = Some old ->
  let s := requested_service req old in
  let row := UpdateService_row t s old in
  (name_free (svc_ID old) (us_Name req) db /\ service_row_ok row = true /\
   UpdateService_sql t s db = Ok (set_services <[svc_ID old := row]> db, 1)) \/
  (~ (name_free (svc_ID old) (us_Name req) db /\ service_row_ok row = true) /\
   exists e, UpdateService_sql t s db = Err e).
Proof.
  intros Hold. cbv zeta. unfold UpdateService_sql, update_service, update_row.
  change (svc_ID (requested_service req old)) with (svc_ID old).
  change (svc_Name (requested_service req old)) with (us_Name req). rewrite Hold.
  cbn [negb no_guard].
  set (row := UpdateService_row t _ old).
  destruct (name_taken (svc_ID old) (us_Name req) db) eqn:Hn.
  { right. split; [|destruct (encode_int4 _); cbn; by eexists].
    intros [Hf _]. unfold name_free in Hf. rewrite <- name_taken_false in Hf. congruence. }
  rewrite name_taken_false in Hn.
  destruct (service_row_ok row) eqn:Hok.
  - left. split_and!; [exact Hn|done|]. unfold encode_int4.
    replace (forallb _ _) with true; [done|]. symmetry.
    unfold service_row_ok in Hok. guards. cbn. guards. tauto.
  - right. split; [naive_solver|]. destruct (encode_int4 _); cbn; by eexists.
Qed.

Lemma update_service_grants `{Quiet} r w req old :
  let s := UpdateService_row (env_now (S (world_tick w))) (requested_service req old) old in
  WF (world_db w) ->
  decode_first updateServiceRequest_fields false zero_updateServiceRequest (r_Body r) = Some req ->
  services (world_db w) !! PathValue r "id" = Some old ->
  updatable req old (env_now (S (world_tick w))) (world_db w) ->
  exists w', updateService r w = (Ok (writeJSON StatusOK (ServiceValue s)), w') /\
    world_db w' = set_services <[PathValue r "id" := s]> (world_db w).
Proof.
  intros s Hwf Hdec Hold (Hr & Hc & Hm & Hfree & Hok). unfold updateService. rewrite Hdec.
  rewrite (proj2 (Z.ltb_ge _ _) Hr), (proj2 (Z.leb_gt _ _) Hc), (proj2 (Z.leb_gt _ _) Hm).
  cbn [orb]. unfold GetService, UpdateService, mbind, M_bind, try, context.
  rewrite quiet_query, Hold. cbn [wrapf mret M_ret].
  destruct (wf_service _ Hwf _ _ Hold) as [Hid _]. rewrite <- Hid in Hold |- *.
  rewrite quiet_exec. cbn [apply_op set_db world_db world_tick tick].
  destruct (UpdateService_sql_spec (env_now (S (world_tick w))) req old (world_db w) Hold)
    as [(_ & _ & ->)|(Hno & _)]; [|by destruct Hno].
  cbn [wrapf mret M_ret]. rewrite quiet_query.
  cbn [wrote set_db add_write world_db world_tick set_services services].
  rewrite lookup_insert_eq. cbn [wrapf mret M_ret]. by eexists.
Qed.

(** C32: An undisturbed update is carried out exactly when its body decodes, its
    replicas are not negative and its resources positive, the service exists,
    its new name is free and the columns can hold the row; then that row
    replaces the old one and is the answer: the deployment starts anew if the
    image differs, and rollout limits, autoscaling, status and identity are the
    old ones whatever the request says.  Otherwise the database is unchanged and
    the answer is 400, 404 or 500. *)
Theorem update_service_updates `{Quiet} r w :
  WF (world_db w) ->
  let t := env_now (S (world_tick w)) in
  let granted req old :=
    decode_first updateServiceRequest_fields false zero_updateServiceRequest (r_Body r) = Some req /\
    services (world_db w) !! PathValue r "id" = Some old /\ updatable req old t (world_db w) in
  exists resp w', updateService r w = (Ok resp, w') /\
    ((exists req old, granted req old /\
        let s := UpdateService_row t (requested_service req old) old in
        resp = writeJSON StatusOK (ServiceValue s) /\
        world_db w' = set_services <[PathValue r "id" := s]> (world_db w)) \/
     ((forall req old, ~ granted req old) /\ world_db w' = world_db w /\
        resp_Status resp ∈ [StatusBadRequest; StatusNotFound; StatusInternalServerError])).
Proof.
  intros Hwf. cbv zeta. destruct (decode_first _ _ _ _) as [req|] eqn:Hdec.
  2: { unfold updateService. rewrite Hdec. eexists _, _; split; [reflexivity|]; right.
       split_and!; [naive_solver|done|set_solver]. }
  destruct ((us_Replicas req <? 0) || (us_CPURequestMillis req <=? 0) ||
    (us_MemoryRequestMB req <=? 0)) eqn:Hg.
  { unfold updateService. rewrite Hdec, Hg. eexists _, _; split; [reflexivity|]; right.
    split_and!; [|done|set_solver]. intros req' old ([= <-] & _ & ? & ? & ? & _). guards. lia. }
  destruct (services (world_db w) !! PathValue r "id") as [old|] eqn:Hold.
  2: { unfold updateService, GetService, mbind, M_bind, try, context.
       rewrite Hdec, Hg, quiet_query, Hold. eexists _, _; split; [reflexivity|]; right.
       split_and!; [naive_solver|done|set_solver]. }
  destruct (wf_service _ Hwf _ _ Hold) as [Hid _].
  destruct (UpdateService_sql_spec (env_now (S (world_tick w))) req old (world_db w))
    as [(Hfree & Hok & _)|(Hno & e & He)]; [by rewrite Hid| |].
  - assert (updatable req old (env_now (S (world_tick w))) (world_db w)) as Hup
      by (guards; split_and!; try done; lia).
    destruct (update_service_grants r w req old Hwf Hdec Hold Hup) as (w' & Hr & Hw').
    eexists _, _; split; [exact Hr|]; left. by exists req, old.
  - unfold updateService, GetService, UpdateService, mbind, M_bind, try, context.
    rewrite Hdec, Hg, quiet_query, Hold. cbn [wrapf mret M_ret]. rewrite quiet_exec.
    cbn [apply_op set_db world_db world_tick tick]. rewrite He.
    eexists _, _; split; [reflexivity|]; right. split_and!; [|done|set_solver].
    intros req' old' ([= <-] & [= <-] & _ & _ & _ & Hfree & Hok). by apply Hno.
Qed.

(** A request for one service, as the mux hands it to the handler. *)
Definition service_request (method id : string) (j : json) : Request :=
  with_path_values [("id", id)] (sample_request method ("/services/" +:+ id) "secret" j).

Definition web_db : DB :=
  sample_db (sample_service 2 1) (sample_node "n1" 0 0) (sample_node "n2" 0 0) [].

Lemma update_service_updates_witness :
  exists w', updateService (service_request "PUT" "web" (JObj [("name", JStr "web");
      ("image", JStr "nginx:2"); ("replicas", JInt 3); ("cpu_request_millis", JInt 500);
      ("memory_request_mb", JInt 512)])) (sample_world web_db) =
    (Ok (writeJSON StatusOK (ServiceValue
       (mkService "web" "web" "nginx:2" 3 500 512 2 1 0 DeploymentProgressing
          (Some time_second) sample_autoscaling None ServiceActive 0 time_second))), w').
Proof.
  destruct (update_service_updates (service_request "PUT" "web" (JObj [("name", JStr "web");
      ("image", JStr "nginx:2"); ("replicas", JInt 3); ("cpu_request_millis", JInt 500);
      ("memory_request_mb", JInt 512)])) (sample_world web_db) (wf_check_sound web_db eq_refl))
    as (resp & w' & H & _).
  exists w'. rewrite H. vm_compute in H. by injection H as <- _.
Defined.

(** *** Fields a body does not name *)

(** What no named field sets keeps its value. *)
Lemma decode_fields_keeps {A B} (fields : list (field A)) strict (get : A -> B) kvs a a' :
  (forall k f j x x', k ∈ kvs.*1 -> lookup_field fields k = Some f ->
     field_decode f j x = Some x' -> get x' = get x) ->
  decode_fields fields strict kvs a = Some a' -> get a' = get a.
Proof.
  revert a. induction kvs as [|[k j] kvs IH]; intros a Hk Hd; cbn in Hd; [by injection Hd as <-|].
  assert (forall x, decode_fields fields strict kvs x = Some a' -> get a' = get x) as IH'.
  { intros x. apply IH. intros k' f j' y y' Hin. apply (Hk k'). cbn. by right. }
  destruct (lookup_field fields k) as [f|] eqn:Hf; [|destruct strict; [done|by apply IH']].
  apply bind_Some in Hd as (x & Hx & Hd). rewrite (IH' _ Hd).
  eapply (Hk k); [by left|done..].
Qed.

(** The object has no key for the field [name]. *)
Definition unnamed (name : string) (kvs : list (string * json)) : Prop :=
  forall k, k ∈ kvs.*1 -> field_matches k name = false.

(** A field of the struct that only a key of its name can set. *)
Lemma unnamed_field_keeps {A B} (fields : list (field A)) strict name (get : A -> B) kvs a a' :
  (forall f j x x', f ∈ fields -> field_name f <> name ->
     field_decode f j x = Some x' -> get x' = get x) ->
  unnamed name kvs -> decode_fields fields strict kvs a = Some a' -> get a' = get a.
Proof.
  intros Hf Hkvs. apply decode_fields_keeps. intros k f j x x' Hk Hl%find_some.
  destruct Hl as [Hin%list_elem_of_In Hm]. apply Hf; [done|]. intros He. rewrite He in Hm.
  by rewrite (Hkvs k Hk) in Hm.
Qed.

Lemma update_field_keeps f j x x' :
  f ∈ updateServiceRequest_fields -> field_decode f j x = Some x' ->
  (field_name f <> "name" -> us_Name x' = us_Name x) /\
  (field_name f <> "image" -> us_Image x' = us_Image x).
Proof.
  intros Hf Hd. unfold updateServiceRequest_fields in Hf.
  repeat (apply elem_of_cons in Hf as [->|Hf]); [..|by apply not_elem_of_nil in Hf];
    destruct x; cbn in Hd; apply fmap_Some in Hd as (v & _ & ->); by cbn.
Qed.

Lemma create_field_keeps f j x x' :
  f ∈ createServiceRequest_fields -> field_decode f j x = Some x' ->
  (field_name f <> "name" -> cs_Name x' = cs_Name x) /\
  (field_name f <> "image" -> cs_Image x' = cs_Image x).
Proof.
  intros Hf Hd. apply elem_of_app in Hf as [Hf|(g & -> & _)%list_elem_of_fmap].
  - repeat (apply elem_of_cons in Hf as [->|Hf]); [..|by apply not_elem_of_nil in Hf];
      destruct x; cbn -[decode_pointer] in Hd; apply fmap_Some in Hd as (v & _ & ->); by cbn.
  - destruct x. apply fmap_Some in Hd as (v & _ & ->). by cbn.
Qed.

(** A creation that leaves out the name or the image is refused. *)
Lemma create_needs_names `{Env} `{Unicode} r kvs rest e w :
  r_Body r = mkBody (JObj kvs :: rest) e -> unnamed "name" kvs \/ unnamed "image" kvs ->
  exists resp, createService r w = (Ok resp, w) /\ resp_Status resp = StatusBadRequest.
Proof.
  intros Hb Hun. unfold createService. destruct (decodeJSON _ _ _) as [req|] eqn:Hdec;
    [|by eexists].
  apply decode_only_single in Hdec as (j & Hj & Hdec). rewrite Hb in Hj. injection Hj as <- _ _.
  cbn [decode_struct] in Hdec. cbv zeta.
  destruct (validateServiceRequest (normalize req)) as [msg|] eqn:Hv; [by eexists|].
  apply validateServiceRequest_spec in Hv. destruct Hv as [_ Hn Hi _ _ _ _ _ _ _].
  change (blank (cs_Name req) = false) in Hn. change (blank (cs_Image req) = false) in Hi.
  destruct Hun as [Hun|Hun].
  - assert (cs_Name req = EmptyString) as He; [|by rewrite He in Hn].
    apply (unnamed_field_keeps _ _ "name" cs_Name) in Hdec; [done| |done].
    intros f j x x' Hf Hne Hd. by apply (create_field_keeps f j).
  - assert (cs_Image req = EmptyString) as He; [|by rewrite He in Hi].
    apply (unnamed_field_keeps _ _ "image" cs_Image) in Hdec; [done| |done].
    intros f j x x' Hf Hne Hd. by apply (create_field_keeps f j).
Qed.

Lemma nameless_row_ok t req old :
  service_row_ok old = true -> us_Name req = EmptyString -> us_Image req = EmptyString ->
  0 <= us_Replicas req -> int4 (us_Replicas req) = true ->
  0 < us_CPURequestMillis req -> int4 (us_CPURequestMillis req) = true ->
  0 < us_MemoryRequestMB req -> int4 (us_MemoryRequestMB req) = true ->
  svc_DeploymentVersion old < int4_max ->
  service_row_ok (UpdateService_row t (requested_service req old) old) = true.
Proof.
  intros Hok Hn Hi ? ? ? ? ? ? Hv.
  assert (varchar 32 DeploymentProgressing = true) as Hp by by vm_compute.
  unfold service_row_ok in *. unfold UpdateService_row, requested_service. cbn -[varchar int4].
  rewrite Hn, Hi. guards.
  assert (int4 (svc_DeploymentVersion old + 1) = true).
  { assert (int4 (svc_DeploymentVersion old) = true) as Hi4 by tauto.
    apply int4_spec in Hi4. apply int4_spec. unfold int4_max in Hv. lia. }
  destruct (negb _); split_and!; try tauto; try lia; by vm_compute.
Qed.

(** C33: An update is not validated like a creation.  Take a body that starts
    with an object naming neither the image nor the name, and whose replicas
    are at least 0, whose resources are positive, all in the range of an
    INTEGER.  Undisturbed and over well-formed tables, its update of an existing
    service with an image, and not of the last version an INTEGER holds, is
    answered 200 unless another service has the empty name; the service then
    has the empty name and the image with the empty name, and a rollout of that
    image has started.  A creation whose body leaves out the name or the image is always
    answered 400 without effect. *)
Theorem update_accepts_missing_image `{Quiet} `{Unicode} r kvs rest e req old w :
  r_Body r = mkBody (JObj kvs :: rest) e -> unnamed "name" kvs -> unnamed "image" kvs ->
  decode_first updateServiceRequest_fields false zero_updateServiceRequest (r_Body r) = Some req ->
  0 <= us_Replicas req -> int4 (us_Replicas req) = true ->
  0 < us_CPURequestMillis req -> int4 (us_CPURequestMillis req) = true ->
  0 < us_MemoryRequestMB req -> int4 (us_MemoryRequestMB req) = true ->
  WF (world_db w) -> services (world_db w) !! PathValue r "id" = Some old ->
  svc_Image old <> EmptyString -> svc_DeploymentVersion old < int4_max ->
  name_free (PathValue r "id") EmptyString (world_db w) ->
  (exists s w', updateService r w = (Ok (writeJSON StatusOK (ServiceValue s)), w') /\
     world_db w' = set_services <[PathValue r "id" := s]> (world_db w) /\
     svc_ID s = PathValue r "id" /\ svc_Name s = EmptyString /\ svc_Image s = EmptyString /\
     svc_DeploymentVersion s = svc_DeploymentVersion old + 1 /\
     svc_DeploymentStatus s = DeploymentProgressing) /\
  (forall (E : Env) r2 kvs2 rest2 e2 w2,
     r_Body r2 = mkBody (JObj kvs2 :: rest2) e2 -> unnamed "name" kvs2 \/ unnamed "image" kvs2 ->
     exists resp, createService r2 w2 = (Ok resp, w2) /\ resp_Status resp = StatusBadRequest).
Proof.
  intros Hb Hun Hui Hdec Hr Hr4 Hc Hc4 Hm Hm4 Hwf Hold Himg Hv Hfree.
  split; [|intros; by eapply create_needs_names].
  assert (us_Name req = EmptyString /\ us_Image req = EmptyString) as [Hn Hi].
  { unfold decode_first in Hdec. rewrite Hb in Hdec. cbn [body_values decode_struct] in Hdec. split.
    - apply (unnamed_field_keeps _ _ "name" us_Name) in Hdec; [done| |done].
      intros f j x x' Hf Hne Hd. by apply (update_field_keeps f j).
    - apply (unnamed_field_keeps _ _ "image" us_Image) in Hdec; [done| |done].
      intros f j x x' Hf Hne Hd. by apply (update_field_keeps f j). }
  destruct (wf_service _ Hwf _ _ Hold) as [Hid Hok].
  destruct (update_service_grants r w req old) as (w' & Hresp & Hw'); [done..| |].
  { split_and!; [done..| |by apply nameless_row_ok]. by rewrite Hid, Hn. }
  eexists _, w'. split; [exact Hresp|]. split; [exact Hw'|].
  unfold UpdateService_row, requested_service. cbn. rewrite Hn, Hi. cbn [varchar_cast].
  rewrite (proj2 (String.eqb_neq _ _) Himg). by split_and!.
Qed.

Definition nameless_body : list (string * json) :=
  [("replicas", JInt 2); ("cpu_request_millis", JInt 500); ("memory_request_mb", JInt 512)].

Lemma update_accepts_missing_image_witness :
  exists s w', updateService (service_request "PUT" "web" (JObj nameless_body)) (sample_world web_db) =
      (Ok (writeJSON StatusOK (ServiceValue s)), w') /\
    svc_Image s = EmptyString /\ svc_DeploymentVersion s = 2.
Proof.
  assert (forall name, forallb (fun k => negb (field_matches k name)) nameless_body.*1 = true ->
    unnamed name nameless_body) as Hun.
  { intros name Hall k Hk%list_elem_of_In. rewrite forallb_forall in Hall.
    by apply negb_true_iff, Hall. }
  destruct (update_accepts_missing_image (service_request "PUT" "web" (JObj nameless_body))
    nameless_body [] EndOfBody
    (mkUpdateServiceRequest EmptyString EmptyString 2 500 512 0 0) (sample_service 2 1)
    (sample_world web_db))
    as [(s & w' & Hr & _ & _ & _ & Hi & Hv & _) _].
  - reflexivity.
  - by apply Hun.
  - by apply Hun.
  - by_computation.
  - discriminate.
  - reflexivity.
  - reflexivity.
  - reflexivity.
  - reflexivity.
  - reflexivity.
  - by apply wf_check_sound.
  - reflexivity.
  - discriminate.
  - reflexivity.
  - intros k s Hs He. cbn in Hs. apply lookup_insert_Some in Hs as [[<- <-]|[_ Hs]]; [done|].
    by rewrite lookup_empty in Hs.
  - exists s, w'. by split_and!.
Defined.

(** ** Deletion *)

(** The row a deletion request leaves of a service. *)
Definition after_delete (t : Z) (s : Service) : Service :=
  if svc_Status s =s? ServiceActive then with_service_status ServiceDeleting t s else s.

Lemma deleting_row_ok t s :
  service_row_ok s = true -> service_row_ok (with_service_status ServiceDeleting t s) = true.
Proof. unfold service_row_ok. cbn. intros H. guards. tauto. Qed.

Lemma MarkServiceDeleting_sql_spec t id s db :
  WF db -> services db !! id = Some s ->
  MarkServiceDeleting_sql t id db =
    Ok (set_services <[id := after_delete t s]> db, if svc_Status s =s? ServiceActive then 1 else 0).
Proof.
  intros Hwf Hs. destruct (wf_service _ Hwf _ _ Hs) as [_ Hok].
  unfold MarkServiceDeleting_sql, update_service, update_row, after_delete. rewrite Hs.
  destruct (svc_Status s =s? ServiceActive); cbn -[service_row_ok].
  - by rewrite deleting_row_ok.
  - unfold set_services. by rewrite insert_id.
Qed.

Lemma delete_service_accepted `{Quiet} r w s :
  WF (world_db w) -> PathValue r "id" <> EmptyString ->
  services (world_db w) !! PathValue r "id" = Some s -> svc_Status s <> ServiceDeleted ->
  exists w', deleteService r w = (Ok (mkResponse StatusAccepted NoContent), w') /\
    world_db w' = set_services
      <[PathValue r "id" := after_delete (env_now (S (world_tick w))) s]> (world_db w).
Proof.
  intros Hwf Hid Hs Hd. unfold deleteService. rewrite (proj2 (String.eqb_neq _ _) Hid).
  unfold GetService, MarkServiceDeleting, mbind, M_bind, try, context. rewrite quiet_query, Hs.
  cbn [wrapf mret M_ret]. rewrite (proj2 (String.eqb_neq _ _) Hd).
  rewrite quiet_exec. cbn [apply_op set_db world_db world_tick tick].
  rewrite (MarkServiceDeleting_sql_spec _ _ s) by done.
  destruct (svc_Status s =s? ServiceActive); cbn [wrapf]; [by eexists|].
  change (0 =? 0) with true. cbv beta iota. rewrite quiet_query.
  cbn [wrote set_db add_write world_db world_tick set_services services].
  rewrite lookup_insert_eq. rewrite bool_decide_eq_true_2 by by eexists. cbn [wrapf negb mret M_ret].
  by eexists.
Qed.

(** C34: An undisturbed request to delete a service: 404 if there is none, 204 if
    it is already deleted, and 202 in every other case; the service is then
    marked as deleting if it was active, and nothing else changes. *)
Theorem delete_service_marks `{Quiet} r w :
  WF (world_db w) -> PathValue r "id" <> EmptyString ->
  exists resp w', deleteService r w = (Ok resp, w') /\
    nodes (world_db w') = nodes (world_db w) /\ workloads (world_db w') = workloads (world_db w) /\
    match services (world_db w) !! PathValue r "id" with
    | None => resp_Status resp = StatusNotFound /\ world_db w' = world_db w
    | Some s =>
        resp_Status resp = (if svc_Status s =s? ServiceDeleted then StatusNoContent
                            else StatusAccepted) /\
        exists t, services (world_db w') =
          <[PathValue r "id" := after_delete t s]> (services (world_db w))
    end.
Proof.
  intros Hwf Hid. destruct (services (world_db w) !! PathValue r "id") as [s|] eqn:Hs.
  2: { unfold deleteService, GetService, mbind, M_bind, try, context.
       rewrite (proj2 (String.eqb_neq _ _) Hid), quiet_query, Hs.
       eexists _, _; split; [reflexivity|]. done. }
  destruct (svc_Status s =s? ServiceDeleted) eqn:Hd.
  - unfold deleteService, GetService, mbind, M_bind, try, context.
    rewrite (proj2 (String.eqb_neq _ _) Hid), quiet_query, Hs. cbn [wrapf mret M_ret]. rewrite Hd.
    eexists _, _; split; [reflexivity|]. cbn [tick set_db world_db]. split_and!; try done.
    exists 0. unfold after_delete. guards. rewrite Hd. cbn. by rewrite insert_id.
  - guards. destruct (delete_service_accepted r w s Hwf Hid Hs Hd) as (w' & Hr & Hw').
    eexists _, _; split; [exact Hr|]. rewrite Hw'. split_and!; try done. by eexists.
Qed.

Lemma delete_service_marks_witness :
  exists w' s, deleteService (service_request "DELETE" "web" JNull) (sample_world web_db) =
      (Ok (mkResponse StatusAccepted NoContent), w') /\
    services (world_db w') !! "web" = Some s /\ svc_Status s = ServiceDeleting.
Proof.
  destruct (delete_service_marks (service_request "DELETE" "web" JNull) (sample_world web_db)
    (wf_check_sound web_db eq_refl)) as (resp & w' & H & _); [done|].
  exists w'. rewrite H. vm_compute in H. injection H as <- <-.
  eexists. split; [reflexivity|]. split; reflexivity.
Defined.

(** A status no part of the program knows. *)
Definition unknown_status (status : ServiceStatus) : Prop :=
  status <> ServiceActive /\ status <> ServiceDeleting /\ status <> ServiceDeleted.

(** No write of the store leads out of an unknown status. *)
Lemma unknown_status_stays db db' k s :
  rtc (store_step (fun _ _ => True)) db db' -> services db !! k = Some s ->
  unknown_status (svc_Status s) ->
  exists s', services db' !! k = Some s' /\ svc_Status s' = svc_Status s.
Proof.
  intros Hr. revert s. induction Hr as [db|db d1 db' [now op d1' n _ Hop] _ IH]; intros s Hs Hu.
  { by exists s. }
  destruct (apply_op_service _ _ _ _ _ _ _ Hop Hs) as (s1 & Hs1 & Hafter).
  assert (svc_Status s1 = svc_Status s) as He.
  { destruct (sa_moves _ _ Hafter) as [He|[[He _]|[He _]]]; [done|..]; by destruct Hu as (? & ? & ?). }
  destruct (IH s1 Hs1) as (s' & Hs' & He'); [by rewrite He|]. exists s'. split; [done|congruence].
Qed.

(** The same request, asking for a status. *)
Definition asking (status : string) (r : createServiceRequest) : createServiceRequest :=
  mkCreateServiceRequest (cs_ID r) (cs_Name r) (cs_Image r) (cs_Replicas r) (cs_DesiredReplicas r)
    (cs_CPURequestMillis r) (cs_MemoryRequestMB r) (cs_DeploymentVersion r)
    (cs_DeploymentStatus r) (cs_MaxSurge r) (cs_MaxUnavailable r) status (cs_Autoscaling r)
    (cs_Flat r).

(** The status asked for is tested by nothing but its column. *)
Lemma creatable_asking `{Unicode} status req t db :
  status <> EmptyString -> varchar 32 (ToUpper status) = true ->
  creatable (normalize req) t db -> creatable (normalize (asking status req)) t db.
Proof.
  intros Hne Hfit (Hv & Hnew & Hfree & Hok). split_and!; try done; [by destruct Hv|].
  unfold service_row_ok in *. cbn -[varchar int4] in *.
  assert (effectiveServiceStatus (normalize (asking status req)) = ToUpper status) as He.
  { unfold effectiveServiceStatus. cbn [normalize asking cs_Status].
    by rewrite (proj2 (String.eqb_neq _ _) Hne). }
  rewrite He, Hfit. guards. tauto.
Qed.

(** C35: The API stores any status a client asks for.  Take a request for a new
    service that can be granted (see C31), and the same request asking for a
    status whose upper-case fits its column of 32 characters and is none of
    ACTIVE, DELETING and DELETED.  Undisturbed it is answered 201 and the service
    is stored with that status.  The status of such a service never changes
    again, by any sequence of writes of the store; the passes of the reconciler
    and of the autoscaler over such a service do nothing, in any run; and an
    undisturbed request to delete it, over well-formed tables, is answered 202
    Accepted and changes nothing. *)
Theorem unknown_status_is_stuck `{Quiet} `{Unicode} r req status w :
  let t := env_now (S (world_tick w)) in
  let s := new_service (normalize (asking status req)) t in
  creatable (normalize req) t (world_db w) ->
  status <> EmptyString -> varchar 32 (ToUpper status) = true ->
  unknown_status (ToUpper status) ->
  decodeJSON createServiceRequest_fields zero_createServiceRequest (r_Body r) =
    Some (asking status req) ->
  (exists w', createService r w = (Ok (writeJSON StatusCreated (ServiceValue s)), w') /\
     world_db w' = set_services <[svc_ID s := s]> (world_db w) /\
     svc_Status s = ToUpper status) /\
  (forall db db' k old, rtc (store_step (fun _ _ => True)) db db' ->
     services db !! k = Some old -> svc_Status old = ToUpper status ->
     exists new, services db' !! k = Some new /\ svc_Status new = ToUpper status) /\
  (forall old, svc_Status old = ToUpper status ->
     (forall (E : Env) (C : NodeClient) (P : Provider) timeout obs w2,
        reconcile_service timeout old w2 = (Ok tt, w2) /\
        Autoscaler_ReconcileService obs old w2 = (Ok (obs, Ok tt), w2)) /\
     (forall (E : Env) (_ : Quiet) r2 w2,
        WF (world_db w2) -> PathValue r2 "id" <> EmptyString ->
        services (world_db w2) !! PathValue r2 "id" = Some old ->
        exists w3, deleteService r2 w2 = (Ok (mkResponse StatusAccepted NoContent), w3) /\
          world_db w3 = world_db w2)).
Proof.
  intros t s Hc Hne Hfit Hu Hdec. split_and!.
  - destruct (create_service_grants r w (asking status req) Hdec) as (w' & Hr & Hw');
      [by apply creatable_asking|].
    exists w'. split; [exact Hr|]. split; [exact Hw'|].
    change (svc_Status s) with (effectiveServiceStatus (asking status req)).
    unfold effectiveServiceStatus. cbn [asking cs_Status].
    by rewrite (proj2 (String.eqb_neq _ _) Hne).
  - intros db db' k old Hr Hs He. rewrite <- He in *. by eapply unknown_status_stays.
  - intros old He. rewrite <- He in *. destruct Hu as (Ha & Hdel & Hdone). split.
    + intros E C P timeout obs w2. unfold reconcile_service, Autoscaler_ReconcileService.
      by rewrite (proj2 (String.eqb_neq _ _) Ha), (proj2 (String.eqb_neq _ _) Hdel).
    + intros E Q r2 w2 Hwf Hid Hs.
      destruct (delete_service_accepted r2 w2 old Hwf Hid Hs Hdone) as (w3 & Hr & Hw3).
      exists w3. split; [exact Hr|]. rewrite Hw3. unfold after_delete.
      rewrite (proj2 (String.eqb_neq _ _) Ha). unfold set_services. rewrite insert_id by done.
      by destruct (world_db w2).
Qed.

Definition paused_web : json :=
  JObj [("id", JStr "web"); ("name", JStr "web"); ("image", JStr "nginx:1");
        ("replicas", JInt 2); ("cpu_request_millis", JInt 500); ("memory_request_mb", JInt 512);
        ("max_surge", JInt 1); ("status", JStr "paused")].

Definition web_request : createServiceRequest :=
  mkCreateServiceRequest "web" "web" "nginx:1" 2 0 500 512 0 EmptyString 1 0 EmptyString None
    zero_autoscalingRequest.

Lemma unknown_status_is_stuck_witness :
  exists s w', createService (sample_request "POST" "/services" "secret" paused_web)
      (sample_world empty_db) = (Ok (writeJSON StatusCreated (ServiceValue s)), w') /\
    svc_Status s = "PAUSED".
Proof.
  destruct (unknown_status_is_stuck (sample_request "POST" "/services" "secret" paused_web)
    web_request "paused" (sample_world empty_db)) as [(w' & Hr & _ & Hst) _].
  - split_and!; [by apply validateServiceRequest_spec|reflexivity| |by_computation].
    intros k s Hs. cbn in Hs. by rewrite lookup_empty in Hs.
  - discriminate.
  - by_computation.
  - by split_and!.
  - by_computation.
  - eexists _, w'. split; [exact Hr|]. rewrite Hst. reflexivity.
Defined.

(** ** Heartbeats *)

(** C36: An undisturbed heartbeat of a registered node makes it ready -- whatever
    its status was -- and records the time, and nothing else changes; one of an
    unknown node is answered 404 and changes nothing. *)
Theorem heartbeat_makes_ready `{Quiet} r w req :
  WF (world_db w) ->
  decodeJSON heartbeatRequest_fields zero_heartbeatRequest (r_Body r) = Some req ->
  hb_ID req <> EmptyString ->
  exists resp w', heartbeat r w = (Ok resp, w') /\
    match nodes (world_db w) !! hb_ID req with
    | None => resp_Status resp = StatusNotFound /\ world_db w' = world_db w
    | Some n => resp_Status resp = StatusOK /\
        exists t, world_db w' = set_nodes <[hb_ID req :=
          with_heartbeat NodeReady (env_now (world_tick w)) t n]> (world_db w)
    end.
Proof.
  intros Hwf Hdec Hid. unfold heartbeat. rewrite Hdec, (proj2 (String.eqb_neq _ _) Hid).
  unfold UpdateHeartbeat, mbind, M_bind, try, context. cbn [now tick].
  rewrite quiet_exec. cbn [apply_op set_db world_db world_tick tick].
  unfold UpdateHeartbeat_sql. destruct (nodes (world_db w) !! hb_ID req) as [n|] eqn:Hn.
  - erewrite update_node_hit; [|done|].
    + cbn [wrapf mret M_ret]. change (1 =? 0) with false.
      eexists _, _; split; [reflexivity|]. split; [done|]. by eexists.
    + destruct (wf_node _ Hwf _ _ Hn) as [_ Hok]. unfold node_row_ok in *. cbn. guards. tauto.
  - rewrite update_node_miss by done. cbn [wrapf mret M_ret]. change (0 =? 0) with true.
    eexists _, _; split; [reflexivity|]. done.
Qed.

Lemma heartbeat_makes_ready_witness :
  exists w', heartbeat (sample_request "POST" "/nodes/heartbeat" "secret" (JObj [("id", JStr "n1")]))
      (sample_world web_db) =
    (Ok (writeJSON StatusOK (HeartbeatResponse "n1" NodeReady 0)), w').
Proof.
  destruct (heartbeat_makes_ready
    (sample_request "POST" "/nodes/heartbeat" "secret" (JObj [("id", JStr "n1")]))
    (sample_world web_db) (mkHeartbeatRequest "n1") (wf_check_sound web_db eq_refl) eq_refl)
    as (resp & w' & H & _); [done|].
  exists w'. rewrite H. vm_compute in H. by injection H as <- _.
Defined.
