(* ===== verification/Runtime.v ===== *)
(** * internal/runtime: the container runtime of a node

    runtime.go is the interface [Runtime] that the node agent uses; docker.go
    implements it over the Docker daemon.  The daemon and its client library
    are not part of the program: they are the class [DockerClient], over an
    arbitrary state of the daemon. *)

From S2P Require Import Prelude Float64 Http Model.

(** ** Stateful calls with explicit errors *)

Definition St (S A : Type) : Type := S -> A * S.

#[export] Instance St_ret {S} : MRet (St S) := fun A a s => (a, s).
#[export] Instance St_bind {S} : MBind (St S) := fun A B f m s => let '(a, s) := m s in f a s.

Inductive outcome (E A : Type) := Done (a : A) | Failed (e : E).
Arguments Done {E A} a.
Arguments Failed {E A} e.

(** ** Errors

    An error of the daemon, with the class the errdefs package gives it. *)

Inductive error_class := NotFound | Conflict | NotModified | OtherError.

#[global] Instance error_class_eq_dec : EqDecision error_class.
Proof. solve_decision. Defined.

Record docker_error := mkDockerError { de_class : error_class; de_text : string }.

Definition has_class (c : error_class) (e : docker_error) : bool := bool_decide (de_class e = c).

(** The errors docker.go builds; [OperationError] wraps [ErrContainerNotFound] when
    [not_found] says so. *)
Inductive runtime_error :=
  | PullError (image : string) (e : docker_error)
  | CreateError (e : docker_error)
  | StartError (containerID : string) (e : docker_error)
  | OperationError (operation containerID : string) (not_found : bool) (e : docker_error)
  | ListError (e : docker_error)
  | StatsError (e : docker_error)
  | StatsEnded
  | DecodeStatsError (e : docker_error).

(** [errors.Is(err, ErrContainerNotFound)] *)
Definition is_container_not_found (err : runtime_error) : bool :=
  match err with
  | OperationError _ _ not_found _ => not_found
  | _ => false
  end.

(** [err.Error()] of the errors of [Stats]. *)
Definition stats_error_text (err : runtime_error) : string :=
  match err with
  | StatsError e => "get container stats: " +:+ de_text e
  | StatsEnded => "docker stats stream ended"
  | DecodeStatsError e => "decode container stats: " +:+ de_text e
  | _ => EmptyString
  end.

(** ** runtime.go *)

Class Runtime (S : Type) := {
  rt_Create : ContainerConfig -> St S (outcome runtime_error Container);
  rt_Start : string -> St S (outcome runtime_error unit);
  rt_Stop : string -> St S (outcome runtime_error unit);
  rt_Remove : string -> St S (outcome runtime_error unit);
  rt_Inspect : string -> St S (outcome runtime_error Container);
  rt_List : St S (outcome runtime_error (list Container));
  rt_Stats : string -> St S (outcome runtime_error ContainerStats)
}.

(** ** The client library of the daemon *)

Record container_json := mkContainerJSON {
  cj_ID : string; cj_Name : string; cj_Image : string; cj_State : option string }.

(** A container in a listing; [Labels] may be nil. *)
Record types_Container := mkTypesContainer {
  tc_ID : string; tc_Names : list string; tc_Image : string; tc_State : string;
  tc_Labels : option (list (string * string)) }.

Record cpu_stats := mkCPUStats {
  TotalUsage : Z; SystemUsage : Z; OnlineCPUs : Z; PercpuUsage : list Z }.

Record StatsJSON := mkStatsJSON { CPUStats : cpu_stats; PreCPUStats : cpu_stats }.

(** What decoding the stream of statistics gives. *)
Inductive stats_stream := StatsValue (s : StatsJSON) | StatsEOF | StatsMalformed (e : docker_error).

Class DockerClient (S : Type) := {
  ImageInspectWithRaw : string -> St S (outcome docker_error unit);
  (** the value is the error, if any, of reading the progress to its end *)
  ImagePull : string -> St S (outcome docker_error (option docker_error));
  (** name, image, labels, nano-CPUs, bytes of memory: the identifier *)
  ContainerCreate : string -> string -> list (string * string) -> Z -> Z ->
    St S (outcome docker_error string);
  ContainerInspect : string -> St S (outcome docker_error container_json);
  ContainerStart : string -> St S (outcome docker_error unit);
  ContainerStop : string -> St S (outcome docker_error unit);
  (** the flag is [Force] *)
  ContainerRemove : string -> bool -> St S (outcome docker_error unit);
  (** all containers or the running ones, with this label *)
  ContainerList : bool -> string * string -> St S (outcome docker_error (list types_Container));
  ContainerStatsOnce : string -> St S (outcome docker_error stats_stream)
}.

(** ** docker.go *)

(** The labels of a map; a missing key is [None]. *)
Definition label (labels : list (string * string)) (key : string) : option string :=
  snd <$> head (filter (fun kv => kv.1 = key) labels).

Definition isOrchestratorManagedContainer (c : types_Container) : bool :=
  match tc_Labels c with
  | Some labels => bool_decide (label labels "mini-orchestrator" = Some "true")
  | None => false
  end ||
  existsb (fun name => HasPrefix name "/workload-") (tc_Names c).

(** [if len(name) > 0 && name[0] == '/' { name = name[1:] }] *)
Definition without_slash (name : string) : string := TrimPrefix name "/".

Definition listed_container (c : types_Container) : Container :=
  mkContainer (tc_ID c) (match tc_Names c with name :: _ => without_slash name | [] => EmptyString end)
    (tc_Image c) (tc_State c) 0.

(** [uint64] arithmetic *)
Definition sub_u64 (x y : Z) : Z := (x - y) mod 2 ^ 64.

(** [float64(cpuDelta) / float64(systemDelta) * float64(numCPUs) * 1000] *)
Definition cpu_ratio (cpuDelta systemDelta numCPUs : Z) : float64 :=
  f_mul (f_mul (f_div (f_of_int cpuDelta) (f_of_int systemDelta)) (f_of_int numCPUs))
    (f_of_int 1000).

(** What converting a [float64] that does not fit to [int] gives. *)
Class FloatOob := { float_oob : float64 -> Z }.

Definition calculateCPUUsage `{FloatOob}
    (previousCPU currentCPU previousSystem currentSystem numCPUs : Z) : Z :=
  let cpuDelta := sub_u64 currentCPU previousCPU in
  let systemDelta := sub_u64 currentSystem previousSystem in
  if systemDelta =? 0 then 0 else f_to_int float_oob (cpu_ratio cpuDelta systemDelta numCPUs).

(** The computation of [Stats] on a sample. *)
Definition stats_of `{FloatOob} (stats : StatsJSON) : ContainerStats :=
  let cpuDelta := sub_u64 (TotalUsage (CPUStats stats)) (TotalUsage (PreCPUStats stats)) in
  if SystemUsage (PreCPUStats stats) =? 0 then mkContainerStats 0
  else
    let systemDelta := sub_u64 (SystemUsage (CPUStats stats)) (SystemUsage (PreCPUStats stats)) in
    if systemDelta =? 0 then mkContainerStats 0
    else
      let numCPUs := OnlineCPUs (CPUStats stats) in
      let numCPUs := if numCPUs =? 0
                     then Z.of_nat (length (PercpuUsage (CPUStats stats))) mod 2 ^ 32
                     else numCPUs in
      if numCPUs =? 0 then mkContainerStats 0
      else mkContainerStats (f_to_int float_oob (cpu_ratio cpuDelta systemDelta numCPUs)).

Section Docker.
Context {S : Type} `{DockerClient S} `{FloatOob}.

(** The image is there, or is pulled; [Some] is the error to return. *)
Definition ensure_image (image : string) : St S (option runtime_error) :=
  inspected ← ImageInspectWithRaw image;
  match inspected with
  | Done _ => mret None
  | Failed _ =>
      pulled ← ImagePull image;
      match pulled with
      | Failed e => mret (Some (PullError image e))
      | Done (Some copyErr) => mret (Some (PullError image copyErr))
      | Done None => mret None
      end
  end.

Definition Docker_Create (config : ContainerConfig) : St S (outcome runtime_error Container) :=
  failed ← ensure_image (cc_Image config);
  match failed with
  | Some err => mret (Failed err)
  | None =>
      created ← ContainerCreate (cc_Name config) (cc_Image config) [("mini-orchestrator", "true")]
        (cc_CPUMillis config *w 1000000) (cc_MemoryMB config *w 1024 *w 1024);
      match created with
      | Failed e => mret (Failed (CreateError e))
      | Done id => mret (Done (mkContainer id (cc_Name config) (cc_Image config) "created" 0))
      end
  end.

(** [err == nil && info.State != nil && info.State.Status == "running"] *)
Definition inspected_running (inspected : outcome docker_error container_json) : bool :=
  match inspected with
  | Done info => bool_decide (cj_State info = Some "running")
  | Failed _ => false
  end.

Definition Docker_Start (containerID : string) : St S (outcome runtime_error unit) :=
  inspected ← ContainerInspect containerID;
  if inspected_running inspected then mret (Done tt)
  else
    started ← ContainerStart containerID;
    match started with
    | Done _ => mret (Done tt)
    | Failed e =>
        if has_class Conflict e || has_class NotModified e then
          inspected ← ContainerInspect containerID;
          if inspected_running inspected then mret (Done tt)
          else mret (Failed (StartError containerID e))
        else mret (Failed (StartError containerID e))
    end.

Definition containerOperationError (operation containerID : string) (e : docker_error)
    : runtime_error := OperationError operation containerID (has_class NotFound e) e.

Definition Docker_Stop (containerID : string) : St S (outcome runtime_error unit) :=
  stopped ← ContainerStop containerID;
  match stopped with
  | Failed e => mret (Failed (containerOperationError "stop" containerID e))
  | Done _ => mret (Done tt)
  end.

Definition Docker_Remove (containerID : string) : St S (outcome runtime_error unit) :=
  removed ← ContainerRemove containerID true;
  match removed with
  | Failed e => mret (Failed (containerOperationError "remove" containerID e))
  | Done _ => mret (Done tt)
  end.

Definition Docker_Inspect (containerID : string) : St S (outcome runtime_error Container) :=
  inspected ← ContainerInspect containerID;
  match inspected with
  | Failed e => mret (Failed (containerOperationError "inspect" containerID e))
  | Done info =>
      mret (Done (mkContainer (cj_ID info) (without_slash (cj_Name info)) (cj_Image info)
        (match cj_State info with Some status => status | None => "unknown" end) 0))
  end.

Definition Docker_List : St S (outcome runtime_error (list Container)) :=
  listed ← ContainerList true ("mini-orchestrator", "true");
  match listed with
  | Failed e => mret (Failed (ListError e))
  | Done containers =>
      mret (Done (listed_container <$> filter isOrchestratorManagedContainer containers))
  end.

Definition Docker_Stats (containerID : string) : St S (outcome runtime_error ContainerStats) :=
  response ← ContainerStatsOnce containerID;
  match response with
  | Failed e => mret (Failed (StatsError e))
  | Done (StatsValue stats) => mret (Done (stats_of stats))
  | Done StatsEOF => mret (Failed StatsEnded)
  | Done (StatsMalformed e) => mret (Failed (DecodeStatsError e))
  end.

(** [runtimeAdapter] of cmd/node-agent *)
#[export] Instance docker_runtime : Runtime S := {
  rt_Create := Docker_Create;
  rt_Start := Docker_Start;
  rt_Stop := Docker_Stop;
  rt_Remove := Docker_Remove;
  rt_Inspect := Docker_Inspect;
  rt_List := Docker_List;
  rt_Stats := Docker_Stats
}.
End Docker.

Example half_a_cpu :
  let _ := {| float_oob _ := 0 |} in
  stats_of (mkStatsJSON (mkCPUStats 1500 12000 4 []) (mkCPUStats 1000 8000 4 [])) =
    mkContainerStats 500.
Proof. reflexivity. Qed.
