(* ===== verification/AgentApi.v ===== *)
(** * internal/node/container_api.go, stats_api.go, routes.go: the API of a node agent

    Handlers over the state of the agent's runtime.  The values they encode are
    given as JSON. *)

From S2P Require Import Prelude Json Http Model Runtime.

Abbreviation agent_handler S := (Handler (St S) json).

Record createContainerRequest := mkCreateContainerRequest {
  cr_Name : string; cr_Image : string; cr_CPUMillis : Z; cr_MemoryMB : Z }.

Definition zero_createContainerRequest := mkCreateContainerRequest EmptyString EmptyString 0 0.

Definition createContainerRequest_fields : list (field createContainerRequest) := [
  field_at "name" cr_Name
    (fun v '(mkCreateContainerRequest _ b c d) => mkCreateContainerRequest v b c d) decode_string;
  field_at "image" cr_Image
    (fun v '(mkCreateContainerRequest a _ c d) => mkCreateContainerRequest a v c d) decode_string;
  field_at "cpu_millis" cr_CPUMillis
    (fun v '(mkCreateContainerRequest a b _ d) => mkCreateContainerRequest a b v d) decode_int;
  field_at "memory_mb" cr_MemoryMB
    (fun v '(mkCreateContainerRequest a b c _) => mkCreateContainerRequest a b c v) decode_int
].

(** ** JSON of the responses: tags where the source has them, field names where
    it does not *)

Definition createContainerResponse_json (c : Container) : json :=
  JObj [("id", JStr (ct_ID c)); ("name", JStr (ct_Name c)); ("image", JStr (ct_Image c));
        ("status", JStr (ct_Status c))].

Definition container_json_of (c : Container) : json :=
  JObj [("ID", JStr (ct_ID c)); ("Name", JStr (ct_Name c)); ("Image", JStr (ct_Image c));
        ("Status", JStr (ct_Status c)); ("CPUUsageMillis", JInt (ct_CPUUsageMillis c))].

Definition stats_json_of (s : ContainerStats) : json :=
  JObj [("CPUUsageMillis", JInt (cs_CPUUsageMillis s))].

(** [containerIDFromPath] *)
Definition containerIDFromPath (r : Request) : string :=
  match trimmed_parts (r_Path r) with
  | first :: id :: _ => if String.eqb first "containers" then id else EmptyString
  | _ => EmptyString
  end.

Section AgentApi.
Context {S : Type} `{Runtime S}.

Definition Agent_CreateContainer : agent_handler S := fun r =>
  match decode_first createContainerRequest_fields false zero_createContainerRequest (r_Body r) with
  | None => mret (http_Error "invalid request body" StatusBadRequest)
  | Some req =>
      if String.eqb (cr_Name req) EmptyString || String.eqb (cr_Image req) EmptyString ||
         (cr_CPUMillis req <=? 0) || (cr_MemoryMB req <=? 0)
      then mret (http_Error "invalid container configuration" StatusBadRequest)
      else
        created ← rt_Create (mkContainerConfig (cr_Name req) (cr_Image req) (cr_CPUMillis req)
                               (cr_MemoryMB req));
        match created with
        | Failed _ => mret (http_Error "failed to create container" StatusInternalServerError)
        | Done container =>
            mret (mkResponse StatusCreated (Encoded (createContainerResponse_json container)))
        end
  end.

Definition Agent_StartContainer : agent_handler S := fun r =>
  let id := containerIDFromPath r in
  if String.eqb id EmptyString then
    mret (http_Error "container id is required" StatusBadRequest)
  else
    started ← rt_Start id;
    match started with
    | Failed _ => mret (http_Error "failed to start container" StatusInternalServerError)
    | Done _ => mret (mkResponse StatusNoContent NoContent)
    end.

Definition Agent_StopContainer : agent_handler S := fun r =>
  let id := containerIDFromPath r in
  if String.eqb id EmptyString then
    mret (http_Error "container id is required" StatusBadRequest)
  else
    stopped ← rt_Stop id;
    match stopped with
    | Failed err =>
        if is_container_not_found err then mret (mkResponse StatusNoContent NoContent)
        else mret (http_Error "failed to stop container" StatusInternalServerError)
    | Done _ => mret (mkResponse StatusNoContent NoContent)
    end.

Definition Agent_RemoveContainer : agent_handler S := fun r =>
  let id := containerIDFromPath r in
  if String.eqb id EmptyString then
    mret (http_Error "container id is required" StatusBadRequest)
  else
    removed ← rt_Remove id;
    match removed with
    | Failed err =>
        if is_container_not_found err then mret (mkResponse StatusNoContent NoContent)
        else mret (http_Error "failed to remove container" StatusInternalServerError)
    | Done _ => mret (mkResponse StatusNoContent NoContent)
    end.

Definition Agent_InspectContainer : agent_handler S := fun r =>
  let id := containerIDFromPath r in
  if String.eqb id EmptyString then
    mret (http_Error "container id is required" StatusBadRequest)
  else
    inspected ← rt_Inspect id;
    match inspected with
    | Failed err =>
        if is_container_not_found err then
          mret (http_Error "container not found" StatusNotFound)
        else mret (http_Error "failed to inspect container" StatusInternalServerError)
    | Done container => mret (mkResponse StatusOK (Encoded (container_json_of container)))
    end.

Definition Agent_ListContainers : agent_handler S := fun _ =>
  listed ← rt_List;
  match listed with
  | Failed _ => mret (http_Error "failed to list containers" StatusInternalServerError)
  | Done containers =>
      mret (mkResponse StatusOK (Encoded (JArr (container_json_of <$> containers))))
  end.

Definition Agent_stats : agent_handler S := fun r =>
  let containerID := PathValue r "id" in
  measured ← rt_Stats containerID;
  match measured with
  | Failed err => mret (http_Error (stats_error_text err) StatusInternalServerError)
  | Done stats => mret (mkResponse StatusOK (Encoded (stats_json_of stats)))
  end.

(** ** routes.go *)

Definition Agent_Routes : agent_handler S :=
  ServeMux [
    mkEntry "POST" [Lit "containers"] Agent_CreateContainer;
    mkEntry "GET" [Lit "containers"] Agent_ListContainers;
    mkEntry "GET" [Lit "containers"; Wild "id"] Agent_InspectContainer;
    mkEntry "POST" [Lit "containers"; Wild "id"; Lit "start"] Agent_StartContainer;
    mkEntry "POST" [Lit "containers"; Wild "id"; Lit "stop"] Agent_StopContainer;
    mkEntry "DELETE" [Lit "containers"; Wild "id"] Agent_RemoveContainer;
    mkEntry "GET" [Lit "containers"; Wild "id"; Lit "stats"] Agent_stats
  ].

(** The handler of the agent's server (cmd/node-agent/main.go). *)
Definition agent_server (token : string) : agent_handler S := RequireBearerToken token Agent_Routes.
End AgentApi.

(** container_api_test.go *)
Example container_id_from_paths :
  (fun path => containerIDFromPath (mkRequest "GET" path EmptyString None (one_value JNull) [])) <$>
    ["/containers/abc123/start"; "/containers/abc123"; "/containers"] =
  ["abc123"; "abc123"; EmptyString].
Proof. reflexivity. Qed.
