(* ===== verification/NodeHttp.v ===== *)
(** * internal/node/client.go and agent.go: the HTTP clients

    The control plane's client of the node agents, and the agent's client of
    the control plane.  Sending a request is the class [HttpDoer], in any monad;
    [http_node_client] makes the first client an implementation of the
    interface [NodeClient]. *)

From Stdlib Require Import Strings.Ascii.
From S2P Require Import Prelude Json Http Model.
From S2P Require Import Sql StoreInv Accounting Env NodeClient.

(** ** net/url *)

Record URL := mkURL { Scheme : string; Host : string; Path : string }.

Definition in_range (lo hi : ascii) (c : ascii) : bool :=
  (Ascii.N_of_ascii lo <=? Ascii.N_of_ascii c)%N && (Ascii.N_of_ascii c <=? Ascii.N_of_ascii hi)%N.

Definition is_digit (c : ascii) : bool := in_range "0" "9" c.

(** A character that stands for itself in a host name and in a path. *)
Definition plain_char (c : ascii) : bool :=
  in_range "a" "z" c || in_range "A" "Z" c || is_digit c ||
  Ascii.eqb c "-" || Ascii.eqb c "." || Ascii.eqb c "_".

Fixpoint all_chars (f : ascii -> bool) (s : string) : bool :=
  match s with
  | EmptyString => true
  | String c s => f c && all_chars f s
  end.

(** A name, or a name and a port. *)
Definition plain_host (s : string) : bool :=
  match split_on ":" s with
  | [name] => negb (String.eqb name EmptyString) && all_chars plain_char name
  | [name; port] =>
      negb (String.eqb name EmptyString) && all_chars plain_char name && all_chars is_digit port
  | _ => false
  end.

Definition plain_path (s : string) : bool := all_chars (fun c => plain_char c || Ascii.eqb c "/") s.

(** The part before the first slash and the rest from it on. *)
Fixpoint cut_slash (s : string) : string * string :=
  match s with
  | EmptyString => (EmptyString, EmptyString)
  | String c s' =>
      if Ascii.eqb c "/" then (EmptyString, s)
      else let '(host, path) := cut_slash s' in (String c host, path)
  end.

(** [url.Parse] is a parameter on other strings than [https://], a plain host
    and a plain path (escapes, queries, user names, IPv6 hosts, other
    schemes). *)
Class Urls := { parse_other : string -> option URL }.

Definition ParseURL `{Urls} (s : string) : option URL :=
  match strip_prefix "https://" s with
  | Some rest =>
      let '(host, path) := cut_slash rest in
      if plain_host host && plain_path path then Some (mkURL "https" host path)
      else parse_other s
  | None => parse_other s
  end.

(** ** net/http, the client's side *)

Record http_response := mkHttpResponse { hr_Status : Z; hr_Body : body }.

(** The body a server's response becomes: a text is not JSON. *)
Definition delivered (r : Response json) : http_response :=
  mkHttpResponse (resp_Status r)
    (match resp_Content r with
     | NoContent => mkBody [] EndOfBody
     | Text _ => mkBody [] Malformed
     | Encoded j => one_value j
     end).

(** [client.Do]: an error when no response arrives. *)
Class HttpDoer (F : Type -> Type) := Do : URL -> Request -> F (res http_response).

(** [Error] is what [err] prints; the error of a parser or a transport is not
    inspected by the program. *)
Definition url_error : error := Errorf "invalid URL" [].
Definition decode_error : error := Errorf "invalid JSON" [].

Definition request (method path token : string) (b : body) : Request :=
  mkRequest method path ("Bearer " +:+ token) None b [].

Definition no_body : body := mkBody [] EndOfBody.

(** ** client.go *)

Record CreateContainerResponse := mkCreateContainerResponse {
  cres_ID : string; cres_Name : string; cres_Image : string; cres_Status : string }.

Definition CreateContainerRequest_json (config : ContainerConfig) : json :=
  JObj [("name", JStr (cc_Name config)); ("image", JStr (cc_Image config));
        ("cpu_millis", JInt (cc_CPUMillis config)); ("memory_mb", JInt (cc_MemoryMB config))].

Definition zero_CreateContainerResponse :=
  mkCreateContainerResponse EmptyString EmptyString EmptyString EmptyString.

Definition CreateContainerResponse_fields : list (field CreateContainerResponse) := [
  field_at "id" cres_ID
    (fun v '(mkCreateContainerResponse _ b c d) => mkCreateContainerResponse v b c d) decode_string;
  field_at "name" cres_Name
    (fun v '(mkCreateContainerResponse a _ c d) => mkCreateContainerResponse a v c d) decode_string;
  field_at "image" cres_Image
    (fun v '(mkCreateContainerResponse a b _ d) => mkCreateContainerResponse a b v d) decode_string;
  field_at "status" cres_Status
    (fun v '(mkCreateContainerResponse a b c _) => mkCreateContainerResponse a b c v) decode_string
].

Definition zero_container := mkContainer EmptyString EmptyString EmptyString EmptyString 0.

(** [runtime.Container] and [runtime.ContainerStats] have no tags. *)
Definition Container_fields : list (field Container) := [
  field_at "ID" ct_ID (fun v '(mkContainer _ b c d e) => mkContainer v b c d e) decode_string;
  field_at "Name" ct_Name (fun v '(mkContainer a _ c d e) => mkContainer a v c d e) decode_string;
  field_at "Image" ct_Image (fun v '(mkContainer a b _ d e) => mkContainer a b v d e) decode_string;
  field_at "Status" ct_Status (fun v '(mkContainer a b c _ e) => mkContainer a b c v e) decode_string;
  field_at "CPUUsageMillis" ct_CPUUsageMillis
    (fun v '(mkContainer a b c d _) => mkContainer a b c d v) decode_int
].

Definition ContainerStats_fields : list (field ContainerStats) :=
  [field_at "CPUUsageMillis" cs_CPUUsageMillis (fun v _ => mkContainerStats v) decode_int].

(** [json.NewDecoder(resp.Body).Decode(&v)] into a zero value *)
Definition decode_body {A} (d : decoder A) (zero : A) (b : body) : option A :=
  match body_values b with
  | j :: _ => d j zero
  | [] => None
  end.

Section Client.
Context {F : Type -> Type} `{!MRet F, !MBind F, !HttpDoer F} `{!Urls}.

(** A request to a URL and what is made of its response; [create] and [send] are
    the contexts of the errors. *)
Definition exchange {A} (create send : string) (method url token : string) (b : body)
    (receive : http_response -> res A) : F (res A) :=
  match ParseURL url with
  | None => mret (Err (Wrapf create [] url_error))
  | Some u =>
      answered ← Do u (request method (Path u) token b);
      mret (match answered with
            | Err e => Err (Wrapf send [] e)
            | Ok resp => receive resp
            end)
  end.

Section Methods.
Context (token : string).

Definition node_url (nodeAddress path : string) : string := "https://" +:+ nodeAddress +:+ path.

Definition Client_CreateContainer (nodeAddress : string) (config : ContainerConfig)
    : F (res Container) :=
  exchange "create request: %w" "send create request: %w" "POST"
    (node_url nodeAddress "/containers") token (one_value (CreateContainerRequest_json config))
    (fun resp =>
       if negb (hr_Status resp =? StatusCreated) then
         Err (Errorf "node returned status %d" [AInt (hr_Status resp)])
       else match decode_body (decode_struct CreateContainerResponse_fields false)
                    zero_CreateContainerResponse (hr_Body resp) with
            | None => Err (Wrapf "decode create response: %w" [] decode_error)
            | Some result =>
                Ok (mkContainer (cres_ID result) (cres_Name result) (cres_Image result)
                      (cres_Status result) 0)
            end).

Definition Client_StartContainer (nodeAddress containerID : string) : F (res unit) :=
  exchange "create start request: %w" "send start request: %w" "POST"
    (node_url nodeAddress ("/containers/" +:+ containerID +:+ "/start")) token no_body
    (fun resp =>
       if negb (hr_Status resp =? StatusNoContent) then
         Err (Errorf "node returned status %d while starting container" [AInt (hr_Status resp)])
       else Ok tt).

Definition Client_ListContainers (nodeAddress : string) : F (res (list Container)) :=
  exchange "create list containers request: %w" "send list containers request: %w"
    "GET" (node_url nodeAddress "/containers") token no_body
    (fun resp =>
       if negb (hr_Status resp =? StatusOK) then
         Err (Errorf "node returned status %d while listing containers" [AInt (hr_Status resp)])
       else match decode_body (decode_slice zero_container (decode_struct Container_fields false))
                    [] (hr_Body resp) with
            | None => Err (Wrapf "decode container list: %w" [] decode_error)
            | Some containers => Ok containers
            end).

Definition Client_StopContainer (nodeAddress containerID : string) : F (res unit) :=
  exchange "create stop request: %w" "send stop request: %w" "POST"
    (node_url nodeAddress ("/containers/" +:+ containerID +:+ "/stop")) token no_body
    (fun resp =>
       if negb (hr_Status resp =? StatusNoContent) then
         Err (Errorf "node returned status %d while stopping container" [AInt (hr_Status resp)])
       else Ok tt).

Definition Client_DeleteContainer (nodeAddress containerID : string) : F (res unit) :=
  exchange "create delete request: %w" "send delete request: %w" "DELETE"
    (node_url nodeAddress ("/containers/" +:+ containerID)) token no_body
    (fun resp =>
       if negb (hr_Status resp =? StatusNoContent) then
         Err (Errorf "node returned status %d while deleting container" [AInt (hr_Status resp)])
       else Ok tt).

Definition Client_GetContainer (nodeAddress containerID : string) : F (res Container) :=
  exchange "create inspect request: %w" "send inspect request: %w" "GET"
    (node_url nodeAddress ("/containers/" +:+ containerID)) token no_body
    (fun resp =>
       if negb (hr_Status resp =? StatusOK) then
         Err (Errorf "node returned status %d" [AInt (hr_Status resp)])
       else match decode_body (decode_struct Container_fields false) zero_container
                    (hr_Body resp) with
            | None => Err (Wrapf "decode container: %w" [] decode_error)
            | Some container => Ok container
            end).

Definition Client_GetContainerStats (nodeAddress containerID : string) : F (res ContainerStats) :=
  exchange "create stats request: %w" "send stats request: %w" "GET"
    (node_url nodeAddress ("/containers/" +:+ containerID +:+ "/stats")) token no_body
    (fun resp =>
       if negb (hr_Status resp =? StatusOK) then
         Err (Errorf "node returned status %d while getting stats" [AInt (hr_Status resp)])
       else match decode_body (decode_struct ContainerStats_fields false) (mkContainerStats 0)
                    (hr_Body resp) with
            | None => Err (Wrapf "decode container stats: %w" [] decode_error)
            | Some stats => Ok stats
            end).
End Methods.

(** ** agent.go *)

Record Agent := mkAgent {
  ag_ID : string;
  ag_Address : string;
  ag_CPUCapacity : Z;
  ag_MemoryCapacity : Z;
  ag_ControlPlaneURL : string;
  ag_Token : string
}.

(** [strings.TrimRight(s, "/")] *)
Fixpoint trim_right_slash (s : string) : string :=
  match s with
  | EmptyString => EmptyString
  | String c s =>
      match trim_right_slash s with
      | EmptyString => if Ascii.eqb c "/" then EmptyString else String c EmptyString
      | rest => String c rest
      end
  end.

Definition registrationRequest_json (a : Agent) : json :=
  JObj [("id", JStr (ag_ID a)); ("address", JStr (ag_Address a));
        ("cpu_capacity_millis", JInt (ag_CPUCapacity a));
        ("memory_capacity_mb", JInt (ag_MemoryCapacity a))].

Definition heartbeatRequest_json (a : Agent) : json := JObj [("id", JStr (ag_ID a))].

(** An HTTPS URL with a host. *)
Definition https_url (s : string) : bool :=
  match ParseURL s with
  | None => false
  | Some u => String.eqb (Scheme u) "https" && negb (String.eqb (Host u) EmptyString)
  end.

Definition validateControlPlaneURL (a : Agent) : res unit :=
  if https_url (ag_ControlPlaneURL a) then Ok tt
  else Err (Errorf "control plane URL must be an HTTPS URL" []).

Definition call_control_plane (a : Agent) (create send path : string) (j : json)
    (receive : http_response -> res unit) : F (res unit) :=
  match validateControlPlaneURL a with
  | Err e => mret (Err e)
  | Ok _ =>
      exchange create send "POST" (trim_right_slash (ag_ControlPlaneURL a) +:+ path)
        (ag_Token a) (one_value j) receive
  end.

Definition Agent_Register (a : Agent) : F (res unit) :=
  call_control_plane a "create registration request: %w" "send registration: %w"
    "/nodes/register" (registrationRequest_json a)
    (fun resp =>
       if negb (hr_Status resp =? StatusCreated) then
         Err (Errorf "registration failed with status %d" [AInt (hr_Status resp)])
       else Ok tt).

Definition Agent_Heartbeat (a : Agent) : F (res unit) :=
  call_control_plane a "create heartbeat request: %w" "send heartbeat: %w"
    "/nodes/heartbeat" (heartbeatRequest_json a)
    (fun resp =>
       if negb (hr_Status resp =? StatusOK) then
         Err (Errorf "heartbeat failed with status %d" [AInt (hr_Status resp)])
       else Ok tt).

(** [RunHeartbeatLoop]: a heartbeat at once, then one per tick; errors are
    logged. *)
Fixpoint RunHeartbeatLoop (a : Agent) (ticks : nat) : F unit :=
  _ ← Agent_Heartbeat a;
  match ticks with
  | O => mret tt
  | S ticks => RunHeartbeatLoop a ticks
  end.
End Client.

(** ** The client as an implementation of the interface *)

(** A result carried as a value becomes the result of the computation. *)
Definition returned {A} (m : M (res A)) : M A := r ← m; lift r.

Definition http_node_client `{!HttpDoer M} `{!Urls} (token : string) : NodeClient := {|
  CreateContainer address config := returned (Client_CreateContainer token address config);
  StartContainer address id := returned (Client_StartContainer token address id);
  ListContainers address := returned (Client_ListContainers token address);
  StopContainer address id := returned (Client_StopContainer token address id);
  DeleteContainer address id := returned (Client_DeleteContainer token address id);
  GetContainerStats address id := returned (Client_GetContainerStats token address id)
|}.
