(* ===== verification/AgentSpec.v ===== *)
(** * The two ends of the wire

    The control plane's client against the API of a node agent, and the agent's
    client against the API of the control plane: each pair of programs, which
    share no code for their requests, agree on paths, bodies and status codes. *)

From Stdlib Require Import Strings.Ascii.
From S2P Require Import Prelude Float64 Json Http Model Runtime AgentApi.
From S2P Require Import Sql StoreInv Accounting Env Logic Postgres NodeClient NodeHttp.

(** ** Paths *)

Lemma all_chars_app f a b : all_chars f (a +:+ b) = all_chars f a && all_chars f b.
Proof.
  induction a as [|c a IH]; [done|]. change (String c a +:+ b) with (String c (a +:+ b)).
  cbn. by rewrite IH, andb_assoc.
Qed.

Lemma all_chars_mono (f g : ascii -> bool) s :
  (forall c, f c = true -> g c = true) -> all_chars f s = true -> all_chars g s = true.
Proof.
  intros Hfg. induction s as [|c s IH]; [done|]. cbn. intros [? ?]%andb_true_iff.
  by rewrite Hfg, IH.
Qed.

Lemma contains_all_chars c s : contains c s = negb (all_chars (fun x => negb (Ascii.eqb x c)) s).
Proof. induction s as [|x s IH]; [done|]. cbn. rewrite IH. by destruct (Ascii.eqb x c). Qed.

Lemma plain_char_no_slash c : plain_char c = true -> negb (Ascii.eqb c "/") = true.
Proof. destruct (Ascii.eqb_spec c "/"); [by subst|done]. Qed.

Lemma string_app_empty s : s +:+ EmptyString = s.
Proof.
  induction s as [|c s IH]; [done|].
  change (String c s +:+ EmptyString) with (String c (s +:+ EmptyString)). by rewrite IH.
Qed.

Lemma split_on_not_nil sep s : split_on sep s <> [].
Proof. induction s as [|c s IH]; [done|]. cbn. case_match; [done|]. by case_match. Qed.

(** The parts of a string and the separator make up the string. *)
Lemma all_chars_split (f : ascii -> bool) sep s :
  f sep = true -> (forall p, p ∈ split_on sep s -> all_chars f p = true) -> all_chars f s = true.
Proof.
  intros Hsep. induction s as [|c s IH]; [done|]. cbn. destruct (Ascii.eqb_spec c sep) as [->|Hc].
  - intros H. rewrite Hsep. apply IH. intros p Hp. apply H. by right.
  - destruct (split_on sep s) as [|p ps] eqn:Hs; intros H.
    + by destruct (split_on_not_nil sep s).
    + pose proof (H (String c p) ltac:(left)) as Hp. cbn in Hp. apply andb_true_iff in Hp as [-> Hp].
      apply IH. intros q [->|Hq]%elem_of_cons; [done|]. apply H. by right.
Qed.

Lemma plain_host_no_slash host : plain_host host = true -> contains "/" host = false.
Proof.
  intros H. rewrite contains_all_chars. apply negb_false_iff.
  apply (all_chars_split _ ":"); [done|]. unfold plain_host in H.
  assert (forall p, all_chars is_digit p = true -> all_chars plain_char p = true) as Hdig.
  { intros p. apply all_chars_mono. intros c Hc. unfold plain_char. rewrite Hc.
    by rewrite !orb_true_r, !orb_true_l. }
  destruct (split_on ":" host) as [|a [|b []]]; try done; intros p Hp;
    apply (all_chars_mono plain_char); try apply plain_char_no_slash;
    repeat match goal with H : _ && _ = true |- _ => apply andb_true_iff in H as [? ?] end.
  - by apply list_elem_of_singleton in Hp as ->.
  - apply elem_of_cons in Hp as [->|Hp]; [done|]. apply list_elem_of_singleton in Hp as ->.
    by apply Hdig.
Qed.

Lemma cut_slash_app host path :
  contains "/" host = false -> cut_slash (host +:+ String "/" path) = (host, String "/" path).
Proof.
  induction host as [|c host IH]; [done|]. cbn. intros [Hc Hh]%orb_false_iff.
  change (String c host +:+ String "/" path) with (String c (host +:+ String "/" path)).
  cbn. by rewrite Hc, IH.
Qed.

Lemma ParseURL_plain `{Urls} host path :
  plain_host host = true -> plain_path (String "/" path) = true ->
  ParseURL ("https://" +:+ host +:+ String "/" path) = Some (mkURL "https" host (String "/" path)).
Proof.
  intros Hh Hp. unfold ParseURL. rewrite (proj2 (strip_prefix_spec _ _ (host +:+ String "/" path))) by done.
  rewrite cut_slash_app by by apply plain_host_no_slash. by rewrite Hh, Hp.
Qed.

(** A container identifier that stands for itself in a path. *)
Definition plain_id (id : string) : Prop :=
  id <> EmptyString /\ all_chars plain_char id = true /\ dot_segment id = false.

Lemma plain_id_no_slash id : plain_id id -> contains "/" id = false.
Proof.
  intros (_ & H & _). rewrite contains_all_chars. apply negb_false_iff.
  by apply (all_chars_mono plain_char); [apply plain_char_no_slash|].
Qed.

(** The path of a container, with a suffix that is empty or an action. *)
Definition container_path (id suffix : string) : string := "/containers/" +:+ id +:+ suffix.

Lemma plain_container_path id suffix :
  plain_id id -> plain_path suffix = true -> plain_path (container_path id suffix) = true.
Proof.
  intros (_ & Hid & _) Hs. unfold container_path, plain_path in *. rewrite !all_chars_app, Hs.
  rewrite (all_chars_mono plain_char _ id); [done|intros c ->; done|done].
Qed.

Lemma split_container_path id action :
  plain_id id -> contains "/" action = false ->
  split_on "/" (container_path id (String "/" action)) = [EmptyString; "containers"; id; action].
Proof.
  intros Hid Ha. unfold container_path.
  change ("/containers/" +:+ id +:+ String "/" action) with
    (EmptyString +:+ String "/" ("containers" +:+ String "/" (id +:+ String "/" action))).
  rewrite !split_on_app by (done || by apply plain_id_no_slash). by rewrite split_on_none.
Qed.

Lemma split_container_id id :
  plain_id id -> split_on "/" (container_path id EmptyString) = [EmptyString; "containers"; id].
Proof.
  intros Hid. unfold container_path.
  change ("/containers/" +:+ id +:+ EmptyString) with
    (EmptyString +:+ String "/" ("containers" +:+ String "/" (id +:+ EmptyString))).
  rewrite string_app_empty.
  rewrite !split_on_app by done. by rewrite split_on_none by by apply plain_id_no_slash.
Qed.

Lemma path_segments_split path parts :
  split_on "/" path = EmptyString :: parts -> parts <> [] -> path_segments path = Some parts.
Proof.
  intros H Hne. destruct path as [|c path]; cbn in H; [by injection H as <-|]. cbn.
  destruct (Ascii.eqb_spec c "/"); [by injection H as ->|].
  by destruct (split_on "/" path).
Qed.

Lemma container_id_of_action r id action :
  plain_id id -> contains "/" action = false -> action <> EmptyString ->
  r_Path r = container_path id (String "/" action) -> containerIDFromPath r = id.
Proof.
  intros Hid Ha Hne Hr. unfold containerIDFromPath, trimmed_parts.
  rewrite Hr, split_container_path by done. destruct Hid as (Hid & _ & _).
  by destruct action, id.
Qed.

Lemma container_id_of_path r id :
  plain_id id -> r_Path r = container_path id EmptyString -> containerIDFromPath r = id.
Proof.
  intros Hid Hr. unfold containerIDFromPath, trimmed_parts.
  rewrite Hr, split_container_id by done. destruct Hid as (Hid & _ & _). by destruct id.
Qed.

(** ** What the client reads is what the agent wrote *)

Definition int64 (z : Z) : Prop := - 2 ^ 63 <= z < 2 ^ 63.

Lemma decode_int_field z old : int64 z -> decode_int (JInt z) old = Some z.
Proof. apply decode_int_ok. Qed.

Lemma container_roundtrip c :
  int64 (ct_CPUUsageMillis c) ->
  decode_struct Container_fields false (container_json_of c) zero_container = Some c.
Proof.
  destruct c as [i n m st u]. intros Hu. cbv -[decode_int int64] in *. by rewrite decode_int_field.
Qed.

Lemma stats_roundtrip st :
  int64 (cs_CPUUsageMillis st) ->
  decode_struct ContainerStats_fields false (stats_json_of st) (mkContainerStats 0) = Some st.
Proof.
  destruct st as [u]. intros Hu. cbv -[decode_int int64] in *. by rewrite decode_int_field.
Qed.

Lemma containers_roundtrip l :
  Forall (fun c => int64 (ct_CPUUsageMillis c)) l ->
  decode_slice zero_container (decode_struct Container_fields false)
    (JArr (container_json_of <$> l)) [] = Some l.
Proof.
  intros Hl. cbn [decode_slice]. induction Hl as [|c l Hc Hl IH]; [done|].
  rewrite fmap_cons. cbn [mapM]. rewrite container_roundtrip by done. cbn [mbind option_bind].
  by rewrite IH.
Qed.

Lemma created_roundtrip c :
  decode_struct CreateContainerResponse_fields false (createContainerResponse_json c)
    zero_CreateContainerResponse =
  Some (mkCreateContainerResponse (ct_ID c) (ct_Name c) (ct_Image c) (ct_Status c)).
Proof. reflexivity. Qed.

Lemma create_request_roundtrip config :
  int64 (cc_CPUMillis config) -> int64 (cc_MemoryMB config) ->
  decode_struct createContainerRequest_fields false (CreateContainerRequest_json config)
    zero_createContainerRequest =
  Some (mkCreateContainerRequest (cc_Name config) (cc_Image config) (cc_CPUMillis config)
          (cc_MemoryMB config)).
Proof.
  destruct config as [n i c m]. intros Hc Hm. cbv -[decode_int int64] in *.
  by rewrite !decode_int_field.
Qed.

(** ** A node on the wire *)

Definition no_route : error := Errorf "no route to host" [].

(** Requests to [address] reach the server of the agent there. *)
Definition wire {S} `{Runtime S} (address token : string) : HttpDoer (St S) := fun u r s =>
  if String.eqb (Host u) address then
    let '(resp, s') := agent_server token r s in (Ok (delivered resp), s')
  else (Err no_route, s).

(** The status an operation of the runtime ends with, where an unknown
    container counts as done. *)
Definition gone {A} (r : outcome runtime_error A) : bool :=
  match r with
  | Done _ => true
  | Failed err => is_container_not_found err
  end.

Definition status_error {A} (format : string) (status : Z) : res A :=
  Err (Errorf format [AInt status]).

(** A configuration the agent does not refuse. *)
Definition runnable (config : ContainerConfig) : Prop :=
  cc_Name config <> EmptyString /\ cc_Image config <> EmptyString /\
  0 < cc_CPUMillis config < 2 ^ 63 /\ 0 < cc_MemoryMB config < 2 ^ 63.

Section Wire.
Context {S : Type} `{Runtime S} `{!Urls} (address token : string).
Hypothesis Haddress : plain_host address = true.
Hypothesis Htoken : token <> EmptyString.

#[local] Hint Extern 0 (HttpDoer _) => exact (wire address token) : typeclass_instances.

Lemma exchange_agent {A} create send method path b (receive : http_response -> res A) s :
  plain_path (String "/" path) = true ->
  exchange (F := St S) create send method ("https://" +:+ address +:+ String "/" path) token b
    receive s =
  let '(resp, s') := Agent_Routes (request method (String "/" path) token b) s in
  (receive (delivered resp), s').
Proof using Haddress Htoken.
  intros Hp. unfold exchange. rewrite ParseURL_plain by done. cbn [Path].
  unfold Do, wire, mbind, St_bind. cbn [Host]. rewrite String.eqb_refl.
  unfold agent_server. rewrite bearer_passes by done.
  by destruct (Agent_Routes _ s) as [resp s'].
Qed.

Ltac dispatch Hid Hsp :=
  let Hne := fresh in let Hdot := fresh in
  pose proof Hid as (Hne & _ & Hdot); apply String.eqb_neq in Hne;
  unfold Agent_Routes, ServeMux; cbn [r_Path request];
  rewrite (path_segments_split _ _ Hsp) by done;
  unfold clean_segments; cbn; rewrite ?Hdot, ?Hne; cbn; rewrite ?Hne.

(** A call about a container reaches the routes of the agent. *)
Lemma exchange_container {A} create send method id suffix b (receive : http_response -> res A) s :
  plain_id id -> plain_path suffix = true ->
  exchange (F := St S) create send method (node_url address (container_path id suffix)) token b
    receive s =
  let '(resp, s') := Agent_Routes (request method (container_path id suffix) token b) s in
  (receive (delivered resp), s').
Proof using Haddress Htoken.
  intros Hid Hs. apply (exchange_agent create send method ("containers/" +:+ id +:+ suffix)).
  by apply (plain_container_path id suffix).
Qed.

(** The call of the runtime behind a route with an action. *)
Ltac container_exchange Hid Hsp id :=
  rewrite exchange_container by done; dispatch Hid Hsp;
  unfold Agent_StartContainer, Agent_StopContainer, Agent_RemoveContainer,
    Agent_InspectContainer, Agent_stats;
  rewrite ?(container_id_of_action _ id "start"), ?(container_id_of_action _ id "stop"),
    ?(container_id_of_path _ id) by done;
  rewrite ?(proj2 (String.eqb_neq _ _) (proj1 Hid));
  unfold mbind, St_bind.

Lemma start_exchange id s :
  plain_id id ->
  Client_StartContainer token address id s =
  let '(started, s') := rt_Start id s in
  (match started with
   | Done _ => Ok tt
   | Failed _ => status_error "node returned status %d while starting container" 500
   end, s').
Proof using Haddress Htoken.
  intros Hid. pose proof (split_container_path id "start" Hid eq_refl) as Hsp.
  unfold Client_StartContainer.
  change ("/containers/" +:+ id +:+ "/start") with (container_path id "/start").
  container_exchange Hid Hsp id.
  by destruct (rt_Start id s) as [[|] s'].
Qed.

Lemma stop_exchange id s :
  plain_id id ->
  Client_StopContainer token address id s =
  let '(stopped, s') := rt_Stop id s in
  (if gone stopped then Ok tt
   else status_error "node returned status %d while stopping container" 500, s').
Proof using Haddress Htoken.
  intros Hid. pose proof (split_container_path id "stop" Hid eq_refl) as Hsp.
  unfold Client_StopContainer.
  change ("/containers/" +:+ id +:+ "/stop") with (container_path id "/stop").
  container_exchange Hid Hsp id.
  destruct (rt_Stop id s) as [[|err] s']; [done|]. cbn. by destruct (is_container_not_found err).
Qed.

Lemma delete_exchange id s :
  plain_id id ->
  Client_DeleteContainer token address id s =
  let '(removed, s') := rt_Remove id s in
  (if gone removed then Ok tt
   else status_error "node returned status %d while deleting container" 500, s').
Proof using Haddress Htoken.
  intros Hid. pose proof (split_container_id id Hid) as Hsp.
  unfold Client_DeleteContainer. rewrite <- (string_app_empty id) at 1.
  change ("/containers/" +:+ id +:+ EmptyString) with (container_path id EmptyString).
  container_exchange Hid Hsp id.
  destruct (rt_Remove id s) as [[|err] s']; [done|]. cbn. by destruct (is_container_not_found err).
Qed.

Lemma inspect_exchange id s :
  plain_id id ->
  (forall c s', rt_Inspect id s = (Done c, s') -> int64 (ct_CPUUsageMillis c)) ->
  Client_GetContainer token address id s =
  let '(inspected, s') := rt_Inspect id s in
  (match inspected with
   | Done c => Ok c
   | Failed err => status_error "node returned status %d"
                     (if is_container_not_found err then 404 else 500)
   end, s').
Proof using Haddress Htoken.
  intros Hid Hrange. pose proof (split_container_id id Hid) as Hsp.
  unfold Client_GetContainer. rewrite <- (string_app_empty id) at 1.
  change ("/containers/" +:+ id +:+ EmptyString) with (container_path id EmptyString).
  container_exchange Hid Hsp id.
  destruct (rt_Inspect id s) as [[c|err] s'].
  - unfold decode_body. cbn -[decode_struct]. by rewrite container_roundtrip by by eapply Hrange.
  - by destruct (is_container_not_found err).
Qed.

Lemma stats_exchange id s :
  plain_id id ->
  (forall st s', rt_Stats id s = (Done st, s') -> int64 (cs_CPUUsageMillis st)) ->
  Client_GetContainerStats token address id s =
  let '(measured, s') := rt_Stats id s in
  (match measured with
   | Done st => Ok st
   | Failed err => status_error "node returned status %d while getting stats" 500
   end, s').
Proof using Haddress Htoken.
  intros Hid Hrange. pose proof (split_container_path id "stats" Hid eq_refl) as Hsp.
  unfold Client_GetContainerStats.
  change ("/containers/" +:+ id +:+ "/stats") with (container_path id "/stats").
  container_exchange Hid Hsp id. unfold PathValue. cbn.
  destruct (rt_Stats id s) as [[st|err] s']; [|done].
  unfold decode_body. cbn -[decode_struct]. by rewrite stats_roundtrip by by eapply Hrange.
Qed.

Lemma list_exchange s :
  (forall l s', rt_List s = (Done l, s') -> Forall (fun c => int64 (ct_CPUUsageMillis c)) l) ->
  Client_ListContainers token address s =
  let '(listed, s') := rt_List s in
  (match listed with
   | Done l => Ok l
   | Failed err => status_error "node returned status %d while listing containers" 500
   end, s').
Proof using Haddress Htoken.
  intros Hrange. unfold Client_ListContainers, node_url.
  change ("/containers") with (String "/" "containers").
  rewrite exchange_agent by done. unfold Agent_Routes, ServeMux. cbn.
  unfold Agent_ListContainers, mbind, St_bind. destruct (rt_List s) as [[l|err] s']; [|done].
  unfold decode_body. cbn -[decode_slice]. by rewrite containers_roundtrip by by eapply Hrange.
Qed.

Lemma create_exchange config s :
  runnable config ->
  Client_CreateContainer token address config s =
  let '(created, s') := rt_Create config s in
  (match created with
   | Done c => Ok (mkContainer (ct_ID c) (ct_Name c) (ct_Image c) (ct_Status c) 0)
   | Failed err => status_error "node returned status %d" 500
   end, s').
Proof using Haddress Htoken.
  intros (Hn & Hi & Hc & Hm). unfold Client_CreateContainer, node_url.
  change ("/containers") with (String "/" "containers").
  rewrite exchange_agent by done. unfold Agent_Routes, ServeMux. cbn -[CreateContainerRequest_json].
  unfold Agent_CreateContainer, decode_first. cbn -[decode_struct CreateContainerRequest_json].
  rewrite create_request_roundtrip by (unfold int64; lia). cbn -[Z.leb decode_struct].
  rewrite (proj2 (String.eqb_neq _ _) Hn), (proj2 (String.eqb_neq _ _) Hi).
  replace (cc_CPUMillis config <=? 0) with false by (symmetry; guards; lia).
  replace (cc_MemoryMB config <=? 0) with false by (symmetry; guards; lia).
  cbn -[decode_struct]. unfold mbind, St_bind.
  replace (mkContainerConfig _ _ _ _) with config by by destruct config.
  by destruct (rt_Create config s) as [[c|err] s'].
Qed.

(** A configuration the agent refuses reaches no runtime. *)
Lemma create_refused config s :
  int64 (cc_CPUMillis config) -> int64 (cc_MemoryMB config) -> ~ runnable config ->
  Client_CreateContainer token address config s = (status_error "node returned status %d" 400, s).
Proof using Haddress Htoken.
  intros Hc Hm Hno. unfold Client_CreateContainer, node_url.
  change ("/containers") with (String "/" "containers").
  rewrite exchange_agent by done. unfold Agent_Routes, ServeMux. cbn -[CreateContainerRequest_json].
  unfold Agent_CreateContainer, decode_first. cbn -[decode_struct CreateContainerRequest_json].
  rewrite create_request_roundtrip by done. cbn -[Z.leb decode_struct].
  destruct (_ || _) eqn:Hg; [done|]. destruct Hno. guards. unfold int64, runnable in *.
  destruct Hg as [[[Hn Hi] ?] ?]. split_and!; (done || lia).
Qed.
End Wire.

(** The numbers of a runtime are Go [int]s. *)
Definition reports_ints (S : Type) `{Runtime S} : Prop := forall s,
  (forall id c s', rt_Inspect id s = (Done c, s') -> int64 (ct_CPUUsageMillis c)) /\
  (forall id st s', rt_Stats id s = (Done st, s') -> int64 (cs_CPUUsageMillis st)) /\
  (forall l s', rt_List s = (Done l, s') -> Forall (fun c => int64 (ct_CPUUsageMillis c)) l).

(** C37: Over HTTP, the client of the control plane is the runtime of the node.
    Take an agent that shares the client's token, at a plain host, whose runtime
    reports numbers that are Go [int]s.  A creation with a name, an image and
    positive resources, a listing, and a start, stop, deletion, inspection or
    measurement of a container with a plain identifier (letters, digits, [-],
    [_] and [.], but not [.] or [..]) make exactly one call of the agent's
    runtime with the same arguments, leave the runtime in the state that call
    leaves, and return its result; an error becomes the error for status 500,
    except that an unknown container is 404 to an inspection and counts as
    stopped or deleted.  Every other creation is the error for status 400,
    without a call of the runtime. *)
Theorem client_drives_runtime {S} `{Runtime S} `{Urls} address token s :
  plain_host address = true -> token <> EmptyString -> reports_ints S ->
  let W : HttpDoer (St S) := wire address token in
  (forall config, runnable config ->
     Client_CreateContainer token address config s =
     let '(created, s') := rt_Create config s in
     (match created with
      | Done c => Ok (mkContainer (ct_ID c) (ct_Name c) (ct_Image c) (ct_Status c) 0)
      | Failed err => status_error "node returned status %d" 500
      end, s')) /\
  (forall config, int64 (cc_CPUMillis config) -> int64 (cc_MemoryMB config) -> ~ runnable config ->
     Client_CreateContainer token address config s =
       (status_error "node returned status %d" 400, s)) /\
  (Client_ListContainers token address s =
     let '(listed, s') := rt_List s in
     (match listed with
      | Done l => Ok l
      | Failed err => status_error "node returned status %d while listing containers" 500
      end, s')) /\
  forall id, plain_id id ->
    (Client_StartContainer token address id s =
       let '(started, s') := rt_Start id s in
       (match started with
        | Done _ => Ok tt
        | Failed _ => status_error "node returned status %d while starting container" 500
        end, s')) /\
    (Client_StopContainer token address id s =
       let '(stopped, s') := rt_Stop id s in
       (if gone stopped then Ok tt
        else status_error "node returned status %d while stopping container" 500, s')) /\
    (Client_DeleteContainer token address id s =
       let '(removed, s') := rt_Remove id s in
       (if gone removed then Ok tt
        else status_error "node returned status %d while deleting container" 500, s')) /\
    (Client_GetContainer token address id s =
       let '(inspected, s') := rt_Inspect id s in
       (match inspected with
        | Done c => Ok c
        | Failed err => status_error "node returned status %d"
                          (if is_container_not_found err then 404 else 500)
        end, s')) /\
    (Client_GetContainerStats token address id s =
       let '(measured, s') := rt_Stats id s in
       (match measured with
        | Done st => Ok st
        | Failed err => status_error "node returned status %d while getting stats" 500
        end, s')).
Proof.
  intros Ha Ht Hr W. destruct (Hr s) as (Hi & Hs & Hl). split_and!.
  - intros config Hc. by apply create_exchange.
  - intros config Hc Hm Hno. by apply create_refused.
  - apply list_exchange; [done..|]. intros l s' E. by eapply Hl.
  - intros id Hid. split_and!; [by apply start_exchange|by apply stop_exchange
      |by apply delete_exchange|apply inspect_exchange|apply stats_exchange]; try done; eauto.
Qed.

(** ** A daemon

    Containers by identifier, with their names and whether they run. *)

Abbreviation daemon := (gmap string (string * string * bool)).

Definition unknown (s : daemon) : docker_error := mkDockerError NotFound "no such container".

Definition on_container {A} (id : string) (f : string * string * bool -> A * daemon)
    : St daemon (outcome docker_error A) := fun s =>
  match s !! id with
  | Some c => let '(a, s') := f c in (Done a, s')
  | None => (Failed (unknown s), s)
  end.

#[export] Instance sample_daemon : DockerClient daemon := {
  ImageInspectWithRaw _ s := (Done tt, s);
  ImagePull _ s := (Done None, s);
  ContainerCreate name image _ _ _ s :=
    ((Done ("c-" +:+ name), <["c-" +:+ name := (name, image, false)]> s));
  ContainerInspect id s := on_container id (fun '(name, image, running) =>
    (mkContainerJSON id ("/" +:+ name) image (Some (if (running : bool) then "running" else "exited")), s)) s;
  ContainerStart id s := on_container id (fun '(name, image, _) =>
    (tt, <[id := (name, image, true)]> s)) s;
  ContainerStop id s := on_container id (fun '(name, image, _) =>
    (tt, <[id := (name, image, false)]> s)) s;
  ContainerRemove id _ s := on_container id (fun _ => (tt, delete id s)) s;
  ContainerList _ _ s := (Done ((fun '(id, (name, image, running)) =>
    mkTypesContainer id ["/" +:+ name] image (if (running : bool) then "running" else "exited")
      (Some [("mini-orchestrator", "true")])) <$> map_to_list s), s);
  ContainerStatsOnce id s := on_container id (fun _ =>
    (StatsValue (mkStatsJSON (mkCPUStats 1500 12000 4 []) (mkCPUStats 1000 8000 4 [])), s)) s
}.

#[export] Instance sample_oob : FloatOob := { float_oob _ := - 2 ^ 63 }.
#[export] Instance no_other_urls : Urls := { parse_other _ := None }.

Lemma sample_reports_ints : reports_ints daemon.
Proof.
  intros s. split_and!.
  - intros id c s' Hc. cbn in Hc. unfold Docker_Inspect, mbind, St_bind in Hc. cbn in Hc.
    unfold on_container in Hc. destruct (s !! id) as [[[n i] r]|]; cbn in Hc; [|done].
    by injection Hc as <- _.
  - intros id st s' Hst. cbn in Hst. unfold Docker_Stats, mbind, St_bind in Hst. cbn in Hst.
    unfold on_container in Hst. destruct (s !! id); [|done].
    injection Hst as <- _. by vm_compute.
  - intros l s' Hl. cbn in Hl. injection Hl as <- _. apply Forall_fmap, Forall_forall.
    intros c _. by vm_compute.
Qed.

Lemma client_drives_runtime_witness :
  let W : HttpDoer (St daemon) := wire "n1:9001" "secret" in
  Client_StopContainer "secret" "n1:9001" "c-web" (∅ : daemon) = (Ok tt, ∅).
Proof.
  intros W. destruct (client_drives_runtime "n1:9001" "secret" (∅ : daemon) eq_refl
    ltac:(done) sample_reports_ints) as (_ & _ & _ & H).
  destruct (H "c-web") as (_ & Hs & _); [by split_and!|]. etransitivity; [exact Hs|reflexivity].
Defined.

(** ** Success means done

    What the documentation of the daemon promises: an inspection reports
    whether a container runs; a start, stop or removal that succeeds has had its
    effect, and a container it does not know neither runs nor exists. *)

Class DaemonLaws (S : Type) `{DockerClient S} (running present : S -> string -> Prop) : Prop := {
  inspect_reports s id info s' : ContainerInspect id s = (Done info, s') ->
    cj_State info = Some "running" -> running s' id;
  start_runs s id s' : ContainerStart id s = (Done tt, s') -> running s' id;
  stop_stops s id s' : ContainerStop id s = (Done tt, s') -> ~ running s' id;
  stop_unknown s id e s' : ContainerStop id s = (Failed e, s') -> de_class e = NotFound ->
    ~ running s' id;
  remove_removes s id force s' : ContainerRemove id force s = (Done tt, s') -> ~ present s' id;
  remove_unknown s id force e s' : ContainerRemove id force s = (Failed e, s') ->
    de_class e = NotFound -> ~ present s' id
}.

Section Docker.
Context {S : Type} `{DaemonLaws S} `{!FloatOob}.

Lemma inspected_runs s id r s' :
  ContainerInspect id s = (r, s') -> inspected_running r = true -> running s' id.
Proof.
  intros Hi Hr. destruct r as [info|]; [|done]. apply bool_decide_eq_true in Hr.
  by eapply inspect_reports.
Qed.

(** A start that succeeds on any of its three paths leaves the container
    running. *)
Lemma Docker_Start_runs s id s' : Docker_Start id s = (Done tt, s') -> running s' id.
Proof.
  unfold Docker_Start, mbind, St_bind. destruct (ContainerInspect id s) as [r1 s1] eqn:E1.
  destruct (inspected_running r1) eqn:Hr1; [intros [= <-]; by eapply inspected_runs|].
  destruct (ContainerStart id s1) as [[[]|e] s2] eqn:E2; [intros [= <-]; by eapply start_runs|].
  destruct (has_class Conflict e || has_class NotModified e); [|done].
  destruct (ContainerInspect id s2) as [r3 s3] eqn:E3.
  destruct (inspected_running r3) eqn:Hr3; [|done]. intros [= <-]. by eapply inspected_runs.
Qed.

Lemma Docker_Stop_stops s id r s' :
  Docker_Stop id s = (r, s') -> gone r = true -> ~ running s' id.
Proof.
  unfold Docker_Stop, mbind, St_bind. destruct (ContainerStop id s) as [[[]|e] s1] eqn:E1;
    intros [= <- <-] Hg; [by eapply stop_stops|].
  eapply stop_unknown; [exact E1|]. by apply bool_decide_eq_true in Hg.
Qed.

Lemma Docker_Remove_removes s id r s' :
  Docker_Remove id s = (r, s') -> gone r = true -> ~ present s' id.
Proof.
  unfold Docker_Remove, mbind, St_bind. destruct (ContainerRemove id true s) as [[[]|e] s1] eqn:E1;
    intros [= <- <-] Hg; [by eapply remove_removes|].
  eapply remove_unknown; [exact E1|]. by apply bool_decide_eq_true in Hg.
Qed.
End Docker.

(** C38: When the control plane's client reports success, the daemon of the node
    has done the work: a started container runs, a stopped one does not run, a
    deleted one does not exist -- also when the start lost a race, or the
    container to stop or delete was not there. *)
Theorem client_success_is_effect {S} `{DaemonLaws S} `{FloatOob} `{Urls} address token id s s' :
  plain_host address = true -> token <> EmptyString -> plain_id id ->
  let W : HttpDoer (St S) := wire address token in
  (Client_StartContainer token address id s = (Ok tt, s') -> running s' id) /\
  (Client_StopContainer token address id s = (Ok tt, s') -> ~ running s' id) /\
  (Client_DeleteContainer token address id s = (Ok tt, s') -> ~ present s' id).
Proof.
  intros Ha Ht Hid. cbv zeta. split_and!; intros Hc.
  - pose proof (start_exchange address token Ha Ht id s Hid) as E. rewrite Hc in E.
    destruct (rt_Start id s) as [[[]|] s1] eqn:Hs; [|done]. injection E as <-.
    eapply Docker_Start_runs; exact Hs.
  - pose proof (stop_exchange address token Ha Ht id s Hid) as E. rewrite Hc in E.
    destruct (rt_Stop id s) as [r s1] eqn:Hs. destruct (gone r) eqn:Hg; [|done].
    injection E as <-. eapply Docker_Stop_stops; [exact Hs|exact Hg].
  - pose proof (delete_exchange address token Ha Ht id s Hid) as E. rewrite Hc in E.
    destruct (rt_Remove id s) as [r s1] eqn:Hs. destruct (gone r) eqn:Hg; [|done].
    injection E as <-. eapply Docker_Remove_removes; [exact Hs|exact Hg].
Qed.

Definition sample_running (s : daemon) (id : string) : Prop := exists c, s !! id = Some (c, true).
Definition sample_present (s : daemon) (id : string) : Prop := is_Some (s !! id).

#[export] Instance sample_daemon_laws : DaemonLaws daemon sample_running sample_present.
Proof.
  constructor; unfold sample_running, sample_present; cbn; unfold on_container; intros s id;
    destruct (s !! id) as [[[n i] r]|] eqn:Hs; cbn; intros; simplify_eq; try done.
  - destruct r; [by eexists|done].
  - rewrite lookup_insert_eq. by eexists.
  - rewrite lookup_insert_eq. by intros [c [=]].
  - rewrite Hs. by intros [c [=]].
  - rewrite lookup_delete_eq. by intros [c [=]].
  - rewrite Hs. by intros [c [=]].
Qed.

Lemma client_success_is_effect_witness :
  let W : HttpDoer (St daemon) := wire "n1:9001" "secret" in
  let s : daemon := {["c-web" := ("web", "nginx:1", false)]} in
  sample_running (Client_StartContainer (F := St daemon) "secret" "n1:9001" "c-web" s).2 "c-web".
Proof.
  intros W s. destruct (client_success_is_effect "n1:9001" "secret" "c-web" s
    (Client_StartContainer (F := St daemon) "secret" "n1:9001" "c-web" s).2 eq_refl ltac:(done)) as (H & _);
    [by split_and!|]. apply H. reflexivity.
Defined.
