(* ===== verification/AgentConfig.v ===== *)
(** * cmd/node-agent/main.go: the configuration of a node agent

    The environment of the process is a function from names to values; the
    functions of the standard library that take addresses and numbers apart are
    written out. *)

From Stdlib Require Import Strings.Ascii.
From S2P Require Import Prelude Float64 Json Http Model Requests.
From S2P Require Import Sql StoreInv Accounting Env NodeClient NodeHttp.

(** ** strings, strconv, net *)

Fixpoint trim_left_fuel (fuel : nat) (s : string) : string :=
  match fuel, strip_space s with
  | S fuel, Some s => trim_left_fuel fuel s
  | _, _ => s
  end.

Fixpoint trim_right (s : string) : string :=
  if blank s then EmptyString
  else match s with
       | EmptyString => EmptyString
       | String c s => String c (trim_right s)
       end.

(** [strings.TrimSpace] *)
Definition TrimSpace (s : string) : string := trim_right (trim_left_fuel (String.length s) s).

Fixpoint digits (s : string) (acc : Z) : option Z :=
  match s with
  | EmptyString => Some acc
  | String c s =>
      if is_digit c then digits s (acc * 10 + Z.of_N (Ascii.N_of_ascii c) - 48) else None
  end.

Definition natural (s : string) : option Z :=
  match s with
  | EmptyString => None
  | _ => digits s 0
  end.

(** [strconv.Atoi] *)
Definition Atoi (s : string) : option Z :=
  z ← match s with
      | String "+"%char s => natural s
      | String "-"%char s => Z.opp <$> natural s
      | _ => natural s
      end;
  if (- 2 ^ 63 <=? z) && (z <? 2 ^ 63) then Some z else None.

(** The string before and after the last occurrence of a character. *)
Fixpoint cut_last (c : ascii) (s : string) : option (string * string) :=
  match s with
  | EmptyString => None
  | String c' s' =>
      match cut_last c s' with
      | Some (a, b) => Some (String c' a, b)
      | None => if Ascii.eqb c' c then Some (EmptyString, s') else None
      end
  end.

(** The string before and after the first occurrence. *)
Fixpoint cut_first (c : ascii) (s : string) : option (string * string) :=
  match s with
  | EmptyString => None
  | String c' s' =>
      if Ascii.eqb c' c then Some (EmptyString, s')
      else match cut_first c s' with
           | Some (a, b) => Some (String c' a, b)
           | None => None
           end
  end.

(** [net.SplitHostPort]; its errors are not told apart. *)
Definition SplitHostPort (hostport : string) : option (string * string) :=
  match cut_last ":" hostport with
  | None => None
  | Some (before, port) =>
      match before with
      | String "["%char rest =>
          match cut_first "]" rest with
          | Some (host, EmptyString) =>
              if contains "[" host || contains "[" port || contains "]" port then None
              else Some (host, port)
          | _ => None
          end
      | _ =>
          if contains ":" before || contains "[" hostport || contains "]" hostport then None
          else Some (before, port)
      end
  end.

(** Whether an IPv6 address -- a host with a colon -- is one of the spellings of
    the unspecified address is left to the library. *)
Class IPv6 := { unspecified_ipv6 : string -> bool }.

(** [ip := net.ParseIP(host); ip != nil && ip.IsUnspecified()] *)
Definition unspecified_ip `{IPv6} (host : string) : bool :=
  String.eqb host "0.0.0.0" || contains ":" host && unspecified_ipv6 host.

(** ** main.go *)

Record agentConfig := mkAgentConfig {
  cfg_ID : string;
  cfg_ListenAddress : string;
  cfg_Address : string;
  cfg_CPUCapacity : Z;
  cfg_MemoryCapacity : Z;
  cfg_ControlPlaneURL : string;
  cfg_Token : string
}.

Definition envOrDefault (getenv : string -> string) (name fallback : string) : string :=
  let value := TrimSpace (getenv name) in
  if String.eqb value EmptyString then fallback else value.

Section Config.
Context `{IPv6} `{Urls}.

(** The error of [net.SplitHostPort]; the program only prints it. *)
Definition split_error : error := Errorf "invalid address" [].

(** [None] when the address is valid. *)
Definition validateAddress (address : string) (allowEmptyHost : bool) : option error :=
  match SplitHostPort address with
  | None => Some (Wrapf "must be a host:port address: %w" [] split_error)
  | Some (host, portText) =>
      if String.eqb host EmptyString && negb allowEmptyHost then
        Some (Errorf "must include a reachable host; wildcard addresses cannot be advertised" [])
      else if unspecified_ip host && negb allowEmptyHost then
        Some (Errorf "must include a reachable host; wildcard addresses cannot be advertised" [])
      else
        match Atoi portText with
        | None => Some (Errorf "port must be an integer from 1 to 65535" [])
        | Some port =>
            if (port <? 1) || (65535 <? port)
            then Some (Errorf "port must be an integer from 1 to 65535" [])
            else None
        end
  end.

(** A capacity of the environment, or the default. *)
Definition capacity (value : string) (fallback : Z) (err : error) : res Z :=
  if String.eqb value EmptyString then Ok fallback
  else match Atoi value with
       | Some z => Ok z
       | None => Err err
       end.

Definition loadAgentConfig (getenv : string -> string) : res agentConfig :=
  let id := envOrDefault getenv "ORCHESTRATOR_NODE_ID" "worker-01" in
  let listen := envOrDefault getenv "ORCHESTRATOR_LISTEN_ADDR" ":9001" in
  let address := TrimSpace (getenv "ORCHESTRATOR_NODE_ADDRESS") in
  let url := TrimSpace (getenv "ORCHESTRATOR_CONTROL_PLANE_URL") in
  let token := TrimSpace (getenv "ORCHESTRATOR_NODE_TOKEN") in
  if String.eqb token EmptyString then Err (Errorf "ORCHESTRATOR_NODE_TOKEN is required" [])
  else if String.eqb address EmptyString then
    Err (Errorf "ORCHESTRATOR_NODE_ADDRESS is required" [])
  else
    match validateAddress listen true with
    | Some err => Err (Wrapf "ORCHESTRATOR_LISTEN_ADDR: %w" [] err)
    | None =>
    match validateAddress address false with
    | Some err => Err (Wrapf "ORCHESTRATOR_NODE_ADDRESS: %w" [] err)
    | None =>
      if negb (https_url url) then
        Err (Errorf "ORCHESTRATOR_CONTROL_PLANE_URL must be an HTTPS URL" [])
      else if String.eqb (TrimSpace id) EmptyString then
        Err (Errorf "ORCHESTRATOR_NODE_ID must not be empty" [])
      else
        cpu ← capacity (TrimSpace (getenv "ORCHESTRATOR_NODE_CPU_MILLIS")) 4000
          (Errorf "ORCHESTRATOR_NODE_CPU_MILLIS must be an integer" []);
        memory ← capacity (TrimSpace (getenv "ORCHESTRATOR_NODE_MEMORY_MB")) 8192
          (Errorf "ORCHESTRATOR_NODE_MEMORY_MB must be an integer" []);
        if (cpu <=? 0) || (memory <=? 0) then
          Err (Errorf "node CPU and memory capacities must be greater than zero" [])
        else Ok (mkAgentConfig id listen address cpu memory url token)
    end
    end.

(** The agent of a configuration. *)
Definition configured_agent (c : agentConfig) : Agent :=
  mkAgent (cfg_ID c) (cfg_Address c) (cfg_CPUCapacity c) (cfg_MemoryCapacity c)
    (cfg_ControlPlaneURL c) (cfg_Token c).
End Config.

(** main_test.go *)
Example trims : TrimSpace "	 secret
" = "secret".
Proof. reflexivity. Qed.

Example splits : SplitHostPort <$> ["worker-01:9001"; ":9001"; "[::1]:80"; "::1:80"; "worker"] =
  [Some ("worker-01", "9001"); Some (EmptyString, "9001"); Some ("::1", "80"); None; None].
Proof. reflexivity. Qed.
