(* ===== verification/RegistrationSpec.v ===== *)
(** * From the environment of an agent to a node of the cluster

    Which configurations a node agent accepts, and that an agent with an
    accepted configuration is registered by the control plane. *)

From S2P Require Import Prelude Float64 Json Http Model Requests.
From S2P Require Import Sql StoreInv Accounting Env Logic Postgres Quiet Samples Api ApiSpec.
From S2P Require Import Runtime AgentApi NodeClient NodeHttp AgentSpec AgentConfig.

(** A host and a port; the host of an advertised address must be reachable. *)
Definition valid_address `{IPv6} (address : string) (advertised : bool) : Prop :=
  exists host text port, SplitHostPort address = Some (host, text) /\ Atoi text = Some port /\
    1 <= port <= 65535 /\
    (advertised = true -> host <> EmptyString /\ unspecified_ip host = false).

Lemma validateAddress_spec `{IPv6} address allow :
  validateAddress address allow = None <-> valid_address address (negb allow).
Proof.
  unfold validateAddress, valid_address.
  destruct (SplitHostPort address) as [[host text]|]; [|split; [done|]; by intros (? & ? & ? & ? & _)].
  destruct (String.eqb host EmptyString && negb allow) eqn:E1.
  { guards. destruct E1 as [-> ->]. split; [done|].
    intros (? & ? & ? & [= <- <-] & _ & _ & Hr). by destruct (Hr eq_refl). }
  destruct (unspecified_ip host && negb allow) eqn:E2.
  { guards. destruct E2 as [E2 ->]. split; [done|].
    intros (? & ? & ? & [= <- <-] & _ & _ & Hr). destruct (Hr eq_refl). congruence. }
  destruct (Atoi text) as [port|] eqn:Hp;
    [|split; [done|]; intros (? & ? & ? & [= <- <-] & ? & _); congruence].
  destruct ((port <? 1) || (65535 <? port)) eqn:E3; guards.
  - split; [done|]. intros (? & ? & p & [= <- <-] & Hp' & ? & _).
    rewrite Hp in Hp'. injection Hp' as <-. lia.
  - split; [|done]. intros _. exists host, text, port. split_and!; try done; try lia.
    destruct allow; [done|]. by destruct E1, E2.
Qed.

(** The capacity a variable stands for. *)
Definition capacity_of (value : string) (fallback : Z) : option Z :=
  if String.eqb value EmptyString then Some fallback else Atoi value.

Lemma capacity_ok value fallback e z :
  capacity value fallback e = Ok z <-> capacity_of value fallback = Some z.
Proof.
  unfold capacity, capacity_of. case_match; [naive_solver|]. destruct (Atoi value); naive_solver.
Qed.

(** What holds of a configuration the agent accepts. *)
Record accepted_config `{IPv6} `{Urls} (getenv : string -> string) (c : agentConfig) : Prop := {
  acc_token : cfg_Token c = TrimSpace (getenv "ORCHESTRATOR_NODE_TOKEN");
  acc_token_set : cfg_Token c <> EmptyString;
  acc_address : cfg_Address c = TrimSpace (getenv "ORCHESTRATOR_NODE_ADDRESS");
  acc_address_set : cfg_Address c <> EmptyString;
  acc_address_valid : valid_address (cfg_Address c) true;
  acc_listen : cfg_ListenAddress c = envOrDefault getenv "ORCHESTRATOR_LISTEN_ADDR" ":9001";
  acc_listen_valid : valid_address (cfg_ListenAddress c) false;
  acc_url : cfg_ControlPlaneURL c = TrimSpace (getenv "ORCHESTRATOR_CONTROL_PLANE_URL");
  acc_url_valid : https_url (cfg_ControlPlaneURL c) = true;
  acc_id : cfg_ID c = envOrDefault getenv "ORCHESTRATOR_NODE_ID" "worker-01";
  acc_id_set : TrimSpace (cfg_ID c) <> EmptyString;
  acc_cpu : capacity_of (TrimSpace (getenv "ORCHESTRATOR_NODE_CPU_MILLIS")) 4000 =
    Some (cfg_CPUCapacity c);
  acc_memory : capacity_of (TrimSpace (getenv "ORCHESTRATOR_NODE_MEMORY_MB")) 8192 =
    Some (cfg_MemoryCapacity c);
  acc_cpu_pos : 0 < cfg_CPUCapacity c;
  acc_memory_pos : 0 < cfg_MemoryCapacity c
}.

Lemma loadAgentConfig_accepted `{IPv6} `{Urls} getenv c :
  loadAgentConfig getenv = Ok c -> accepted_config getenv c.
Proof.
  unfold loadAgentConfig. cbv zeta. intros H1.
  destruct (String.eqb (TrimSpace (getenv "ORCHESTRATOR_NODE_TOKEN")) _) eqn:Ht; [done|].
  destruct (String.eqb (TrimSpace (getenv "ORCHESTRATOR_NODE_ADDRESS")) _) eqn:Ha; [done|].
  destruct (validateAddress (envOrDefault _ _ _) true) eqn:Hl; [done|].
  destruct (validateAddress (TrimSpace _) false) eqn:Hv; [done|].
  destruct (negb (https_url _)) eqn:Hu; [done|].
  destruct (String.eqb (TrimSpace (envOrDefault _ _ _)) _) eqn:Hi; [done|].
  apply res_bind_ok in H1 as (cpu & Hcpu%capacity_ok & H1).
  apply res_bind_ok in H1 as (memory & Hmem%capacity_ok & H1).
  destruct ((cpu <=? 0) || (memory <=? 0)) eqn:Hc; [done|]. injection H1 as <-.
  apply validateAddress_spec in Hl, Hv. guards.
  constructor; cbn [cfg_ID cfg_ListenAddress cfg_Address cfg_CPUCapacity cfg_MemoryCapacity
    cfg_ControlPlaneURL cfg_Token]; try done; lia.
Qed.

(** C39: The agent accepts its environment exactly when the token is not blank,
    both addresses are host and port with a port from 1 to 65535, the advertised
    one with a host that is not the unspecified address, the control plane is
    an HTTPS URL, and the capacities are positive integers or left out; the
    configuration then has those values, defaults filled in. *)
Theorem loadAgentConfig_spec `{IPv6} `{Urls} getenv c :
  loadAgentConfig getenv = Ok c <->
  cfg_Token c = TrimSpace (getenv "ORCHESTRATOR_NODE_TOKEN") /\ cfg_Token c <> EmptyString /\
  cfg_Address c = TrimSpace (getenv "ORCHESTRATOR_NODE_ADDRESS") /\
  cfg_Address c <> EmptyString /\ valid_address (cfg_Address c) true /\
  cfg_ListenAddress c = envOrDefault getenv "ORCHESTRATOR_LISTEN_ADDR" ":9001" /\
  valid_address (cfg_ListenAddress c) false /\
  cfg_ControlPlaneURL c = TrimSpace (getenv "ORCHESTRATOR_CONTROL_PLANE_URL") /\
  https_url (cfg_ControlPlaneURL c) = true /\
  cfg_ID c = envOrDefault getenv "ORCHESTRATOR_NODE_ID" "worker-01" /\
  TrimSpace (cfg_ID c) <> EmptyString /\
  capacity_of (TrimSpace (getenv "ORCHESTRATOR_NODE_CPU_MILLIS")) 4000 = Some (cfg_CPUCapacity c) /\
  capacity_of (TrimSpace (getenv "ORCHESTRATOR_NODE_MEMORY_MB")) 8192 =
    Some (cfg_MemoryCapacity c) /\
  0 < cfg_CPUCapacity c /\ 0 < cfg_MemoryCapacity c.
Proof.
  split.
  - intros H1. by apply loadAgentConfig_accepted in H1 as [].
  - unfold loadAgentConfig. cbv zeta. destruct c as [id listen address cpu memory url token].
    cbn [cfg_ID cfg_ListenAddress cfg_Address cfg_CPUCapacity cfg_MemoryCapacity
      cfg_ControlPlaneURL cfg_Token].
    intros (-> & Ht & -> & Ha & Hv & -> & Hl & -> & Hu & -> & Hi & Hcpu & Hmem & ? & ?).
    apply String.eqb_neq in Ht, Ha, Hi. rewrite Ht, Ha, Hi, Hu.
    rewrite (proj2 (validateAddress_spec _ true) Hl), (proj2 (validateAddress_spec _ false) Hv).
    cbn [negb]. rewrite (proj2 (capacity_ok _ _ _ _) Hcpu). cbn [mbind res_bind].
    rewrite (proj2 (capacity_ok _ _ _ _) Hmem). cbn [mbind res_bind].
    replace ((cpu <=? 0) || (memory <=? 0)) with false; [done|]. symmetry. guards. lia.
Qed.

(** The configuration of main_test.go. *)
Definition worker_env (name : string) : string :=
  if String.eqb name "ORCHESTRATOR_NODE_ID" then "worker-02"
  else if String.eqb name "ORCHESTRATOR_LISTEN_ADDR" then ":9002"
  else if String.eqb name "ORCHESTRATOR_NODE_ADDRESS" then "127.0.0.1:9002"
  else if String.eqb name "ORCHESTRATOR_NODE_CPU_MILLIS" then "2000"
  else if String.eqb name "ORCHESTRATOR_NODE_MEMORY_MB" then "4096"
  else if String.eqb name "ORCHESTRATOR_CONTROL_PLANE_URL" then "https://127.0.0.1:8080/"
  else if String.eqb name "ORCHESTRATOR_NODE_TOKEN" then " test-token"
  else EmptyString.

#[export] Instance sample_ipv6 : IPv6 := { unspecified_ipv6 s := String.eqb s "::" }.

Definition worker_config : agentConfig :=
  mkAgentConfig "worker-02" ":9002" "127.0.0.1:9002" 2000 4096 "https://127.0.0.1:8080/" "test-token".

(** The same with more memory than an INTEGER holds. *)
Definition huge_env (name : string) : string :=
  if String.eqb name "ORCHESTRATOR_NODE_MEMORY_MB" then "2147483648" else worker_env name.

Definition huge_config : agentConfig :=
  mkAgentConfig "worker-02" ":9002" "127.0.0.1:9002" 2000 2147483648 "https://127.0.0.1:8080/"
    "test-token".

Example huge_config_loads : loadAgentConfig huge_env = Ok huge_config.
Proof. vm_compute. reflexivity. Qed.

Example worker_config_loads : loadAgentConfig worker_env = Ok worker_config.
Proof. vm_compute. reflexivity. Qed.

(** ** Registration *)

(** The API of the control plane, reached over mutual TLS: the agent's
    certificate was verified.  The agent reads no more than the status. *)
Definition control_plane `{Env} `{Unicode} (token : string) : HttpDoer M := fun _ r w =>
  let tls := Some (mkConnectionState [["agent"]]) in
  let '(answered, w') := Routes token (mkRequest (r_Method r) (r_Path r) (r_Authorization r) tls
    (r_Body r) []) w in
  (Ok (resp ← answered; Ok (mkHttpResponse (resp_Status resp) no_body)), w').

(** The row of a registration: a new node holds nothing, a known one keeps what
    is reserved on it. *)
Definition registered_row (c : agentConfig) (old : option Node) (t now : Z) : Node :=
  mkNode (cfg_ID c) (cfg_Address c) (cfg_CPUCapacity c) (cfg_MemoryCapacity c)
    (match old with Some n => nd_CPUAllocated n | None => 0 end)
    (match old with Some n => nd_MemoryAllocated n | None => 0 end)
    NodeReady t (match old with Some n => nd_CreatedAt n | None => now end) now.

Lemma register_request_decodes c :
  0 < cfg_CPUCapacity c < 2 ^ 63 -> 0 < cfg_MemoryCapacity c < 2 ^ 63 ->
  decode_struct registerNodeRequest_fields true (registrationRequest_json (configured_agent c))
    zero_registerNodeRequest =
  Some (mkRegisterNodeRequest (cfg_ID c) (cfg_Address c) (cfg_CPUCapacity c)
    (cfg_MemoryCapacity c)).
Proof.
  destruct c as [id listen address cpu memory url token].
  cbn [cfg_CPUCapacity cfg_MemoryCapacity]. intros Hc Hm.
  assert (int64 cpu) by (unfold int64; lia). assert (int64 memory) by (unfold int64; lia).
  clear Hc Hm. cbv -[decode_int int64]. by rewrite !decode_int_field.
Qed.

Lemma RegisterNode_sql_row c old t w_now db :
  nodes db !! cfg_ID c = old -> (forall n, old = Some n -> nd_ID n = cfg_ID c) ->
  RegisterNode_sql w_now (mkNode (cfg_ID c) (cfg_Address c) (cfg_CPUCapacity c)
    (cfg_MemoryCapacity c) 0 0 NodeReady t zero_time zero_time) db =
  if node_row_ok (registered_row c old t w_now)
  then Ok (set_nodes <[cfg_ID c := registered_row c old t w_now]> db, 1)
  else Err (DBError ConstraintViolation).
Proof.
  intros Hold Hid. unfold RegisterNode_sql. cbn [nd_ID]. rewrite Hold.
  cbn [nd_Address nd_CPUCapacity nd_MemoryCapacity nd_Status nd_LastHeartbeat].
  unfold registered_row in *. destruct old as [n|]; [by rewrite (Hid n eq_refl)|done].
Qed.

(** The numbers a configuration can hold. *)
Lemma Atoi_int64 text z : Atoi text = Some z -> int64 z.
Proof.
  unfold Atoi. intros (y & _ & H)%bind_Some. destruct (_ && _) eqn:Hr; [|done].
  guards. simplify_eq. unfold int64. lia.
Qed.

Lemma capacity_int64 text fallback z :
  int64 fallback -> capacity_of text fallback = Some z -> int64 z.
Proof.
  unfold capacity_of. intros Hf. case_match; [by intros [= <-]|]. apply Atoi_int64.
Qed.

(** C40: An agent with an accepted configuration, whose URL with [/nodes/register]
    leads over mutual TLS to the API of a control plane with the same token,
    calls [Register] while nothing else happens.  If the columns of the table
    can hold its row (identifier of at most 64 and address of at most 255
    characters, capacities up to 2^31 - 1), the node is then ready with the
    configured address and capacity, keeping what was reserved on it, and
    nothing else has changed; if they cannot, [Register] ends with the error
    for status 500 and the database is unchanged. *)
Theorem configured_agent_registers `{Quiet} `{Unicode} `{Urls} `{IPv6} getenv c host w :
  loadAgentConfig getenv = Ok c -> WF (world_db w) ->
  ParseURL (trim_right_slash (cfg_ControlPlaneURL c) +:+ "/nodes/register") =
    Some (mkURL "https" host "/nodes/register") ->
  let t := env_now (world_tick w) in
  let row := registered_row c (nodes (world_db w) !! cfg_ID c) t (env_now (S (world_tick w))) in
  let W : HttpDoer M := control_plane (cfg_Token c) in
  exists w',
    if node_row_ok row
    then Agent_Register (configured_agent c) w = (Ok (Ok tt), w') /\
         world_db w' = set_nodes <[cfg_ID c := row]> (world_db w)
    else Agent_Register (configured_agent c) w =
           (Ok (Err (Errorf "registration failed with status %d" [AInt 500])), w') /\
         world_db w' = world_db w.
Proof.
  intros Hload Hwf Hurl t row W. apply loadAgentConfig_accepted in Hload.
  destruct Hload as [_ Ht _ Ha _ _ _ _ Hhttps _ Hid Hcpu Hmem Hc0 Hm0].
  assert (cfg_ID c <> EmptyString) as Hne by (intros E; by rewrite E in Hid).
  apply capacity_int64 in Hcpu; [|by vm_compute]. apply capacity_int64 in Hmem; [|by vm_compute].
  unfold int64 in Hcpu, Hmem.
  unfold Agent_Register, call_control_plane, validateControlPlaneURL.
  change (ag_ControlPlaneURL (configured_agent c)) with (cfg_ControlPlaneURL c).
  rewrite Hhttps. unfold exchange. rewrite Hurl. cbn [Path].
  unfold mbind, M_bind, Do, W, control_plane. cbn [r_Method r_Path r_Authorization r_Body request].
  unfold Routes, ServeMux. cbn -[registrationRequest_json configured_agent].
  rewrite bearer_passes, mtls_passes by (by split) || by eexists.
  unfold registerNode, decode_first. cbn [r_Body with_path_values body_values one_value].
  rewrite register_request_decodes by lia. cbn [rn_ID rn_Address rn_CPUCapacity rn_MemoryCapacity].
  apply String.eqb_neq in Hne, Ha. rewrite Hne, Ha.
  rewrite (proj2 (Z.leb_gt (cfg_CPUCapacity c) 0)), (proj2 (Z.leb_gt (cfg_MemoryCapacity c) 0)) by lia.
  cbn [orb]. unfold RegisterNode, mbind, M_bind, try, context. cbn [now tick].
  rewrite quiet_exec. cbn [apply_op set_db world_db world_tick tick].
  rewrite (RegisterNode_sql_row c (nodes (world_db w) !! cfg_ID c));
    [|done|intros n Hn; by apply (wf_node _ Hwf)].
  fold t row. destruct (node_row_ok row); eexists; split; reflexivity.
Qed.

(** A row that fits, and one that does not. *)
Lemma configured_agent_registers_witness :
  let W : HttpDoer M := control_plane "test-token" in
  (exists w', Agent_Register (configured_agent worker_config) (sample_world empty_db) =
    (Ok (Ok tt), w')) /\
  exists w', Agent_Register (configured_agent huge_config) (sample_world empty_db) =
    (Ok (Err (Errorf "registration failed with status %d" [AInt 500])), w').
Proof.
  intros W. split.
  - destruct (configured_agent_registers worker_env worker_config "127.0.0.1:8080"
      (sample_world empty_db) worker_config_loads (wf_check_sound empty_db eq_refl) eq_refl)
      as (w' & Hw & _).
    exists w'. exact Hw.
  - destruct (configured_agent_registers huge_env huge_config "127.0.0.1:8080"
      (sample_world empty_db) huge_config_loads (wf_check_sound empty_db eq_refl) eq_refl)
      as (w' & Hw & _).
    exists w'. exact Hw.
Defined.
